(** * SQLiteNode: the replication state machine of Bedrock

    A shallow embedding of [SQLiteNode] (the cluster node of the Bedrock
    database: election, synchronization, two-phase commit, escalation) and
    the properties of it that the specification states.

    Conventions of the embedding.
    - A [uint64_t] is a [Z] in [0, 2^64); sums and differences computed by the
      source in that type go through [u64].  Counters of type [int] that only
      count configured peers are plain [Z]: they are bounded by the length of
      the peer list.
    - A [Peer*] is the position of the peer in [peerList]; a null pointer is
      [None].
    - A function that mutates the node takes the node and returns the new one.
      [STHROW] is the outcome [Thrown], a failed [SASSERT] is [Aborted]; the
      node returned next to them is the node as the exception leaves it.
    - The clock, the random source, the command server's answers and the
      outcome of the SQL engine's calls are inputs, gathered in [Env]: one
      reading of each per call of a handler.
    - Logging is left out. *)

From Stdlib Require Import ZArith String List Bool Lia DecimalString.
From stdpp Require Import base gmap strings list.

Set Warnings "-register-all".
Local Open Scope Z_scope.

(** ** Machine integers *)

Definition u64 (z : Z) : Z := z mod 2 ^ 64.

(** ** What the sources use but do not contain

    [libstuff] (string helpers, [SData]'s numeric readers) and
    [SQLiteNode::stateFromName] are not among the source files.  The model is
    parametric in them: every theorem holds whatever these functions compute. *)

Inductive State : Type :=
| UNKNOWN | SEARCHING | SYNCHRONIZING | WAITING | STANDINGUP
| LEADING | STANDINGDOWN | SUBSCRIBING | FOLLOWING.

Class Libstuff : Type := {
  (** [SToInt], [SToInt64], [SToUInt64]: a header value read as a number. *)
  SToInt : string -> Z;
  SToInt64 : string -> Z;
  SToUInt64 : string -> Z;
  (** [to_string] / [SToStr] on an integer. *)
  to_string : Z -> string;
  (** [SIEquals]: comparison that ignores case. *)
  SIEquals : string -> string -> bool;
  (** [SStartsWith haystack needle]. *)
  SStartsWith : string -> string -> bool;
  SToLower : string -> string;
  (** The reading [SData::test] makes of a header value. *)
  STest : string -> bool;
  (** [SQLiteNode::stateFromName]. *)
  stateFromName : string -> State;
  (** The engine's hash of a transaction: previous hash, then query. *)
  hashOf : string -> string -> string
}.

(** ** States *)

(** Modelled from the spec: the declaration of [enum State] (SQLiteNode.h) is
    missing.  The source compares states with [<] and [SWITHIN]; its comments
    fix the relative order of the eight named states ("SEARCHING,
    SYNCHRONIZING, or WAITING" are the states not above WAITING; below
    SUBSCRIBING means "no longer SUBSCRIBING or FOLLOWING").  The node's own
    state is never UNKNOWN. *)
Definition stateIndex (st : State) : Z :=
  match st with
  | UNKNOWN => 0 | SEARCHING => 1 | SYNCHRONIZING => 2 | WAITING => 3
  | STANDINGUP => 4 | LEADING => 5 | STANDINGDOWN => 6 | SUBSCRIBING => 7
  | FOLLOWING => 8
  end.

Definition stateName (st : State) : string :=
  match st with
  | UNKNOWN => "UNKNOWN" | SEARCHING => "SEARCHING"
  | SYNCHRONIZING => "SYNCHRONIZING" | WAITING => "WAITING"
  | STANDINGUP => "STANDINGUP" | LEADING => "LEADING"
  | STANDINGDOWN => "STANDINGDOWN" | SUBSCRIBING => "SUBSCRIBING"
  | FOLLOWING => "FOLLOWING"
  end.

Definition State_eqb (a b : State) : bool := stateIndex a =? stateIndex b.

(** [SWITHIN(lo, x, hi)]. *)
Definition SWITHIN (lo x hi : State) : bool :=
  (stateIndex lo <=? stateIndex x) && (stateIndex x <=? stateIndex hi).

Inductive CommitState : Type :=
| UNINITIALIZED | CS_WAITING | COMMITTING | SUCCESS | FAILED.

Inductive ConsistencyLevel : Type := ASYNC | ONE | QUORUM.

(** ** Messages

    An [SData] is a method line, a table of headers and a content.  The
    content of a SYNCHRONIZE_RESPONSE, a SUBSCRIPTION_APPROVED or an ESCALATE
    is a concatenation of serialized messages: the model keeps the messages
    themselves ([Serialized]), in the order [deserialize] reads them back.
    Header names are compared without case by the source; the model keys the
    table by the spelling the source writes. *)

Inductive Payload (M : Type) : Type :=
| Text (text : string)
| Serialized (parts : list M).
Arguments Text {M} text.
Arguments Serialized {M} parts.

Inductive SData : Type := mkSData {
  methodLine : string;
  nameValueMap : gmap string string;
  content : Payload SData }.

Definition newSData (method : string) : SData := mkSData method ∅ (Text "").

(** [table[name]] read: the value, or the empty string. *)
Definition valueOf (t : gmap string string) (name : string) : string :=
  default ""%string (t !! name).

Definition get (m : SData) (name : string) : string :=
  valueOf (nameValueMap m) name.

Definition isSet (m : SData) (name : string) : bool :=
  bool_decide (is_Some (nameValueMap m !! name)).

Definition set (name value : string) (m : SData) : SData :=
  mkSData (methodLine m) (<[name := value]> (nameValueMap m)) (content m).

Definition setContent (c : Payload SData) (m : SData) : SData :=
  mkSData (methodLine m) (nameValueMap m) c.

Definition setMethodLine (l : string) (m : SData) : SData :=
  mkSData l (nameValueMap m) (content m).

(** [content += part.serialize()]. *)
Definition appendPart (part : SData) (m : SData) : SData :=
  setContent
    (match content m with
     | Serialized l => Serialized (l ++ [part])
     | Text _ => Serialized [part]
     end) m.

(** The messages a content deserializes to, one after the other. *)
Definition partsOf (m : SData) : list SData :=
  match content m with
  | Serialized l => l
  | Text _ => []
  end.

(** The text of a content ([Serialized] stands for bytes that are not a
    query). *)
Definition textOf (m : SData) : string :=
  match content m with
  | Text s => s
  | Serialized _ => ""%string
  end.

(** ** Peers *)

Record Socket : Type := mkSocket {
  sendBuffer : list SData;
  shutDown : bool }.

Module Peer.
Record t : Type := mk {
  name : string;
  id : Z;
  params : gmap string string;
  attrs : gmap string string;
  state : State;
  latency : Z;
  s : option Socket }.
End Peer.
Abbreviation Peer := Peer.t.

Definition setAttr (name value : string) (p : Peer) : Peer :=
  Peer.mk (Peer.name p) (Peer.id p) (Peer.params p)
          (<[name := value]> (Peer.attrs p)) (Peer.state p) (Peer.latency p)
          (Peer.s p).

Definition eraseAttr (name : string) (p : Peer) : Peer :=
  Peer.mk (Peer.name p) (Peer.id p) (Peer.params p)
          (delete name (Peer.attrs p)) (Peer.state p) (Peer.latency p)
          (Peer.s p).

Definition setPeerState (st : State) (p : Peer) : Peer :=
  Peer.mk (Peer.name p) (Peer.id p) (Peer.params p) (Peer.attrs p) st
          (Peer.latency p) (Peer.s p).

Definition setSocket (sock : option Socket) (p : Peer) : Peer :=
  Peer.mk (Peer.name p) (Peer.id p) (Peer.params p) (Peer.attrs p)
          (Peer.state p) (Peer.latency p) sock.

(** The attribute [name] of a peer, read through [operator[]]. *)
Definition attr (p : Peer) (name : string) : string :=
  valueOf (Peer.attrs p) name.

Definition peerIsSet (p : Peer) (name : string) : bool :=
  bool_decide (is_Some (Peer.attrs p !! name)).

(** [peer->params["Permafollower"] == "true"]. *)
Definition permaFollower (p : Peer) : bool :=
  String.eqb (valueOf (Peer.params p) "Permafollower") "true".

(** [peer->s->send(message.serialize())]. *)
Definition socketSend (m : SData) (sock : Socket) : Socket :=
  mkSocket (sendBuffer sock ++ [m]) (shutDown sock).

(** ** The SQL engine *)

(** Modelled from the spec: the class [SQLite] is missing.  The spec (engine
    interface, commit log entry) gives a log of [(hash, query)] entries with
    contiguous indexes from 1, one open transaction with its query and hash,
    [commit] that either appends the prepared transaction or reports a
    conflict, and the drained list of committed transactions. *)
Record SQLite : Type := mkSQLite {
  journal : list (string * string);
  insideTransaction : bool;
  getUncommittedQuery : string;
  getUncommittedHash : string;
  committedTransactions : list (Z * (string * string)) }.

(** What the engine answers during one transaction attempt: how many times it
    interrupts the attempt for a checkpoint, whether begin, write and prepare
    succeed, and whether commit succeeds ([false]: conflict). *)
Record EngineStep : Type := mkEngineStep {
  checkpoints : nat;
  beginOk : bool;
  writeOk : bool;
  prepareOk : bool;
  commitOk : bool }.

Record SStopwatch : Type := mkSStopwatch {
  alarmDuration : Z;
  startTime : Z }.

(** The inputs of one call of a handler.  [engine k] is what the engine
    answers during the [k]-th transaction the handler attempts. *)
Record Env : Type := mkEnv {
  STimeNow : Z;
  rand64 : Z;
  canStandDown : bool;
  engine : nat -> EngineStep }.

Definition getCommitCount (db : SQLite) : Z := Z.of_nat (length (journal db)).

Definition getCommittedHash (db : SQLite) : string :=
  match last (journal db) with
  | Some (h, _) => h
  | None => ""%string
  end.

Definition beginTransaction (db : SQLite) : SQLite :=
  mkSQLite (journal db) true "" "" (committedTransactions db).

Definition writeUnmodified (query : string) (db : SQLite) : SQLite :=
  mkSQLite (journal db) (insideTransaction db)
           (getUncommittedQuery db ++ query) (getUncommittedHash db)
           (committedTransactions db).

Definition rollback (db : SQLite) : SQLite :=
  mkSQLite (journal db) false "" "" (committedTransactions db).

(** [commit] when the engine accepts it. *)
Definition commit (db : SQLite) : SQLite :=
  mkSQLite (journal db ++ [(getUncommittedHash db, getUncommittedQuery db)])
           false "" ""
           (committedTransactions db ++
              [(getCommitCount db + 1,
                (getUncommittedQuery db, getUncommittedHash db))]).

(** [getCommit(index, query, hash)]: the entry at a 1-based index. *)
Definition getCommit (db : SQLite) (index : Z) : option (string * string) :=
  if 1 <=? index then journal db !! Z.to_nat (index - 1) else None.

(** [getCommits(fromIndex, toIndex, result)]: the entries of the indexes
    from [fromIndex] to [toIndex], both included. *)
Definition getCommits (db : SQLite) (fromIndex toIndex : Z)
  : list (string * string) :=
  take (Z.to_nat (toIndex - fromIndex + 1))
       (drop (Z.to_nat (fromIndex - 1)) (journal db)).

(** [getCommittedTransactions()] returns the list and empties it. *)
Definition drainCommittedTransactions (db : SQLite) : SQLite :=
  mkSQLite (journal db) (insideTransaction db) (getUncommittedQuery db)
           (getUncommittedHash db) [].

(** [ringing()]: an armed stopwatch whose time has run out. *)
Definition ringing (now : Z) (w : SStopwatch) : bool :=
  negb (alarmDuration w =? 0) && (alarmDuration w <? u64 (now - startTime w)).

(** ** Commands and the command server *)

Record SQLiteCommand : Type := mkSQLiteCommand {
  commandId : string;
  request : SData;
  response : SData;
  complete : bool;
  escalated : bool;
  escalationTimeUS : Z;
  initiatingPeerID : Z }.

(** The calls made on [_server], in order. *)
Inductive ServerCall : Type :=
| acceptCommand (command : SQLiteCommand) (isNew : bool)
| cancelCommand (commandID : string)
| onNodeLogin (peer : nat).

(** ** The node *)

Record SQLiteNode : Type := mkSQLiteNode {
  name : string;
  _db : SQLite;
  _commitState : CommitState;
  _commitConsistency : ConsistencyLevel;
  _state : State;
  _stateChangeCount : Z;
  _priority : Z;
  _originalPriority : Z;
  _syncPeer : option nat;
  _leadPeer : option nat;
  _stateTimeout : Z;
  _version : string;
  _leaderVersion : string;
  peerList : list Peer;
  _escalatedCommandMap : gmap string SQLiteCommand;
  _gracefulShutdownTimeout : SStopwatch;
  _standDownTimeOut : SStopwatch;
  _lastSentTransactionID : Z;
  unsentTransactions : bool;
  _handledCommitCount : Z;
  g_commitLock : bool;
  _replicationThreads : Z;
  _replicationCommands : list (nat * SData);
  _replicationHashesToCommit : gset string;
  _replicationHashesToRollback : gset string;
  _server : list ServerCall }.

(** Field updates. *)

Definition with_db (v : SQLite) (n : SQLiteNode) : SQLiteNode :=
  mkSQLiteNode (name n) v (_commitState n) (_commitConsistency n) (_state n)
    (_stateChangeCount n) (_priority n) (_originalPriority n) (_syncPeer n)
    (_leadPeer n) (_stateTimeout n) (_version n) (_leaderVersion n)
    (peerList n) (_escalatedCommandMap n) (_gracefulShutdownTimeout n)
    (_standDownTimeOut n) (_lastSentTransactionID n) (unsentTransactions n)
    (_handledCommitCount n) (g_commitLock n) (_replicationThreads n)
    (_replicationCommands n) (_replicationHashesToCommit n)
    (_replicationHashesToRollback n) (_server n).

Definition with_commitState (v : CommitState) (n : SQLiteNode) : SQLiteNode :=
  mkSQLiteNode (name n) (_db n) v (_commitConsistency n) (_state n)
    (_stateChangeCount n) (_priority n) (_originalPriority n) (_syncPeer n)
    (_leadPeer n) (_stateTimeout n) (_version n) (_leaderVersion n)
    (peerList n) (_escalatedCommandMap n) (_gracefulShutdownTimeout n)
    (_standDownTimeOut n) (_lastSentTransactionID n) (unsentTransactions n)
    (_handledCommitCount n) (g_commitLock n) (_replicationThreads n)
    (_replicationCommands n) (_replicationHashesToCommit n)
    (_replicationHashesToRollback n) (_server n).

Definition with_commitConsistency (v : ConsistencyLevel) (n : SQLiteNode) : SQLiteNode :=
  mkSQLiteNode (name n) (_db n) (_commitState n) v (_state n)
    (_stateChangeCount n) (_priority n) (_originalPriority n) (_syncPeer n)
    (_leadPeer n) (_stateTimeout n) (_version n) (_leaderVersion n)
    (peerList n) (_escalatedCommandMap n) (_gracefulShutdownTimeout n)
    (_standDownTimeOut n) (_lastSentTransactionID n) (unsentTransactions n)
    (_handledCommitCount n) (g_commitLock n) (_replicationThreads n)
    (_replicationCommands n) (_replicationHashesToCommit n)
    (_replicationHashesToRollback n) (_server n).

Definition with_state (v : State) (n : SQLiteNode) : SQLiteNode :=
  mkSQLiteNode (name n) (_db n) (_commitState n) (_commitConsistency n) v
    (_stateChangeCount n) (_priority n) (_originalPriority n) (_syncPeer n)
    (_leadPeer n) (_stateTimeout n) (_version n) (_leaderVersion n)
    (peerList n) (_escalatedCommandMap n) (_gracefulShutdownTimeout n)
    (_standDownTimeOut n) (_lastSentTransactionID n) (unsentTransactions n)
    (_handledCommitCount n) (g_commitLock n) (_replicationThreads n)
    (_replicationCommands n) (_replicationHashesToCommit n)
    (_replicationHashesToRollback n) (_server n).

Definition with_stateChangeCount (v : Z) (n : SQLiteNode) : SQLiteNode :=
  mkSQLiteNode (name n) (_db n) (_commitState n) (_commitConsistency n)
    (_state n) v (_priority n) (_originalPriority n) (_syncPeer n)
    (_leadPeer n) (_stateTimeout n) (_version n) (_leaderVersion n)
    (peerList n) (_escalatedCommandMap n) (_gracefulShutdownTimeout n)
    (_standDownTimeOut n) (_lastSentTransactionID n) (unsentTransactions n)
    (_handledCommitCount n) (g_commitLock n) (_replicationThreads n)
    (_replicationCommands n) (_replicationHashesToCommit n)
    (_replicationHashesToRollback n) (_server n).

Definition with_priority (v : Z) (n : SQLiteNode) : SQLiteNode :=
  mkSQLiteNode (name n) (_db n) (_commitState n) (_commitConsistency n)
    (_state n) (_stateChangeCount n) v (_originalPriority n) (_syncPeer n)
    (_leadPeer n) (_stateTimeout n) (_version n) (_leaderVersion n)
    (peerList n) (_escalatedCommandMap n) (_gracefulShutdownTimeout n)
    (_standDownTimeOut n) (_lastSentTransactionID n) (unsentTransactions n)
    (_handledCommitCount n) (g_commitLock n) (_replicationThreads n)
    (_replicationCommands n) (_replicationHashesToCommit n)
    (_replicationHashesToRollback n) (_server n).

Definition with_syncPeer (v : option nat) (n : SQLiteNode) : SQLiteNode :=
  mkSQLiteNode (name n) (_db n) (_commitState n) (_commitConsistency n)
    (_state n) (_stateChangeCount n) (_priority n) (_originalPriority n) v
    (_leadPeer n) (_stateTimeout n) (_version n) (_leaderVersion n)
    (peerList n) (_escalatedCommandMap n) (_gracefulShutdownTimeout n)
    (_standDownTimeOut n) (_lastSentTransactionID n) (unsentTransactions n)
    (_handledCommitCount n) (g_commitLock n) (_replicationThreads n)
    (_replicationCommands n) (_replicationHashesToCommit n)
    (_replicationHashesToRollback n) (_server n).

Definition with_leadPeer (v : option nat) (n : SQLiteNode) : SQLiteNode :=
  mkSQLiteNode (name n) (_db n) (_commitState n) (_commitConsistency n)
    (_state n) (_stateChangeCount n) (_priority n) (_originalPriority n)
    (_syncPeer n) v (_stateTimeout n) (_version n) (_leaderVersion n)
    (peerList n) (_escalatedCommandMap n) (_gracefulShutdownTimeout n)
    (_standDownTimeOut n) (_lastSentTransactionID n) (unsentTransactions n)
    (_handledCommitCount n) (g_commitLock n) (_replicationThreads n)
    (_replicationCommands n) (_replicationHashesToCommit n)
    (_replicationHashesToRollback n) (_server n).

Definition with_stateTimeout (v : Z) (n : SQLiteNode) : SQLiteNode :=
  mkSQLiteNode (name n) (_db n) (_commitState n) (_commitConsistency n)
    (_state n) (_stateChangeCount n) (_priority n) (_originalPriority n)
    (_syncPeer n) (_leadPeer n) v (_version n) (_leaderVersion n)
    (peerList n) (_escalatedCommandMap n) (_gracefulShutdownTimeout n)
    (_standDownTimeOut n) (_lastSentTransactionID n) (unsentTransactions n)
    (_handledCommitCount n) (g_commitLock n) (_replicationThreads n)
    (_replicationCommands n) (_replicationHashesToCommit n)
    (_replicationHashesToRollback n) (_server n).

Definition with_leaderVersion (v : string) (n : SQLiteNode) : SQLiteNode :=
  mkSQLiteNode (name n) (_db n) (_commitState n) (_commitConsistency n)
    (_state n) (_stateChangeCount n) (_priority n) (_originalPriority n)
    (_syncPeer n) (_leadPeer n) (_stateTimeout n) (_version n) v (peerList n)
    (_escalatedCommandMap n) (_gracefulShutdownTimeout n)
    (_standDownTimeOut n) (_lastSentTransactionID n) (unsentTransactions n)
    (_handledCommitCount n) (g_commitLock n) (_replicationThreads n)
    (_replicationCommands n) (_replicationHashesToCommit n)
    (_replicationHashesToRollback n) (_server n).

Definition with_peerList (v : list Peer) (n : SQLiteNode) : SQLiteNode :=
  mkSQLiteNode (name n) (_db n) (_commitState n) (_commitConsistency n)
    (_state n) (_stateChangeCount n) (_priority n) (_originalPriority n)
    (_syncPeer n) (_leadPeer n) (_stateTimeout n) (_version n)
    (_leaderVersion n) v (_escalatedCommandMap n)
    (_gracefulShutdownTimeout n) (_standDownTimeOut n)
    (_lastSentTransactionID n) (unsentTransactions n) (_handledCommitCount n)
    (g_commitLock n) (_replicationThreads n) (_replicationCommands n)
    (_replicationHashesToCommit n) (_replicationHashesToRollback n)
    (_server n).

Definition with_escalatedCommandMap (v : gmap string SQLiteCommand) (n : SQLiteNode) : SQLiteNode :=
  mkSQLiteNode (name n) (_db n) (_commitState n) (_commitConsistency n)
    (_state n) (_stateChangeCount n) (_priority n) (_originalPriority n)
    (_syncPeer n) (_leadPeer n) (_stateTimeout n) (_version n)
    (_leaderVersion n) (peerList n) v (_gracefulShutdownTimeout n)
    (_standDownTimeOut n) (_lastSentTransactionID n) (unsentTransactions n)
    (_handledCommitCount n) (g_commitLock n) (_replicationThreads n)
    (_replicationCommands n) (_replicationHashesToCommit n)
    (_replicationHashesToRollback n) (_server n).

Definition with_gracefulShutdownTimeout (v : SStopwatch) (n : SQLiteNode) : SQLiteNode :=
  mkSQLiteNode (name n) (_db n) (_commitState n) (_commitConsistency n)
    (_state n) (_stateChangeCount n) (_priority n) (_originalPriority n)
    (_syncPeer n) (_leadPeer n) (_stateTimeout n) (_version n)
    (_leaderVersion n) (peerList n) (_escalatedCommandMap n) v
    (_standDownTimeOut n) (_lastSentTransactionID n) (unsentTransactions n)
    (_handledCommitCount n) (g_commitLock n) (_replicationThreads n)
    (_replicationCommands n) (_replicationHashesToCommit n)
    (_replicationHashesToRollback n) (_server n).

Definition with_standDownTimeOut (v : SStopwatch) (n : SQLiteNode) : SQLiteNode :=
  mkSQLiteNode (name n) (_db n) (_commitState n) (_commitConsistency n)
    (_state n) (_stateChangeCount n) (_priority n) (_originalPriority n)
    (_syncPeer n) (_leadPeer n) (_stateTimeout n) (_version n)
    (_leaderVersion n) (peerList n) (_escalatedCommandMap n)
    (_gracefulShutdownTimeout n) v (_lastSentTransactionID n)
    (unsentTransactions n) (_handledCommitCount n) (g_commitLock n)
    (_replicationThreads n) (_replicationCommands n)
    (_replicationHashesToCommit n) (_replicationHashesToRollback n)
    (_server n).

Definition with_lastSentTransactionID (v : Z) (n : SQLiteNode) : SQLiteNode :=
  mkSQLiteNode (name n) (_db n) (_commitState n) (_commitConsistency n)
    (_state n) (_stateChangeCount n) (_priority n) (_originalPriority n)
    (_syncPeer n) (_leadPeer n) (_stateTimeout n) (_version n)
    (_leaderVersion n) (peerList n) (_escalatedCommandMap n)
    (_gracefulShutdownTimeout n) (_standDownTimeOut n) v
    (unsentTransactions n) (_handledCommitCount n) (g_commitLock n)
    (_replicationThreads n) (_replicationCommands n)
    (_replicationHashesToCommit n) (_replicationHashesToRollback n)
    (_server n).

Definition with_unsentTransactions (v : bool) (n : SQLiteNode) : SQLiteNode :=
  mkSQLiteNode (name n) (_db n) (_commitState n) (_commitConsistency n)
    (_state n) (_stateChangeCount n) (_priority n) (_originalPriority n)
    (_syncPeer n) (_leadPeer n) (_stateTimeout n) (_version n)
    (_leaderVersion n) (peerList n) (_escalatedCommandMap n)
    (_gracefulShutdownTimeout n) (_standDownTimeOut n)
    (_lastSentTransactionID n) v (_handledCommitCount n) (g_commitLock n)
    (_replicationThreads n) (_replicationCommands n)
    (_replicationHashesToCommit n) (_replicationHashesToRollback n)
    (_server n).

Definition with_handledCommitCount (v : Z) (n : SQLiteNode) : SQLiteNode :=
  mkSQLiteNode (name n) (_db n) (_commitState n) (_commitConsistency n)
    (_state n) (_stateChangeCount n) (_priority n) (_originalPriority n)
    (_syncPeer n) (_leadPeer n) (_stateTimeout n) (_version n)
    (_leaderVersion n) (peerList n) (_escalatedCommandMap n)
    (_gracefulShutdownTimeout n) (_standDownTimeOut n)
    (_lastSentTransactionID n) (unsentTransactions n) v (g_commitLock n)
    (_replicationThreads n) (_replicationCommands n)
    (_replicationHashesToCommit n) (_replicationHashesToRollback n)
    (_server n).

Definition with_g_commitLock (v : bool) (n : SQLiteNode) : SQLiteNode :=
  mkSQLiteNode (name n) (_db n) (_commitState n) (_commitConsistency n)
    (_state n) (_stateChangeCount n) (_priority n) (_originalPriority n)
    (_syncPeer n) (_leadPeer n) (_stateTimeout n) (_version n)
    (_leaderVersion n) (peerList n) (_escalatedCommandMap n)
    (_gracefulShutdownTimeout n) (_standDownTimeOut n)
    (_lastSentTransactionID n) (unsentTransactions n) (_handledCommitCount n)
    v (_replicationThreads n) (_replicationCommands n)
    (_replicationHashesToCommit n) (_replicationHashesToRollback n)
    (_server n).

Definition with_replicationThreads (v : Z) (n : SQLiteNode) : SQLiteNode :=
  mkSQLiteNode (name n) (_db n) (_commitState n) (_commitConsistency n)
    (_state n) (_stateChangeCount n) (_priority n) (_originalPriority n)
    (_syncPeer n) (_leadPeer n) (_stateTimeout n) (_version n)
    (_leaderVersion n) (peerList n) (_escalatedCommandMap n)
    (_gracefulShutdownTimeout n) (_standDownTimeOut n)
    (_lastSentTransactionID n) (unsentTransactions n) (_handledCommitCount n)
    (g_commitLock n) v (_replicationCommands n)
    (_replicationHashesToCommit n) (_replicationHashesToRollback n)
    (_server n).

Definition with_replicationCommands (v : list (nat * SData)) (n : SQLiteNode) : SQLiteNode :=
  mkSQLiteNode (name n) (_db n) (_commitState n) (_commitConsistency n)
    (_state n) (_stateChangeCount n) (_priority n) (_originalPriority n)
    (_syncPeer n) (_leadPeer n) (_stateTimeout n) (_version n)
    (_leaderVersion n) (peerList n) (_escalatedCommandMap n)
    (_gracefulShutdownTimeout n) (_standDownTimeOut n)
    (_lastSentTransactionID n) (unsentTransactions n) (_handledCommitCount n)
    (g_commitLock n) (_replicationThreads n) v (_replicationHashesToCommit n)
    (_replicationHashesToRollback n) (_server n).



Definition with_server (v : list ServerCall) (n : SQLiteNode) : SQLiteNode :=
  mkSQLiteNode (name n) (_db n) (_commitState n) (_commitConsistency n)
    (_state n) (_stateChangeCount n) (_priority n) (_originalPriority n)
    (_syncPeer n) (_leadPeer n) (_stateTimeout n) (_version n)
    (_leaderVersion n) (peerList n) (_escalatedCommandMap n)
    (_gracefulShutdownTimeout n) (_standDownTimeOut n)
    (_lastSentTransactionID n) (unsentTransactions n) (_handledCommitCount n)
    (g_commitLock n) (_replicationThreads n) (_replicationCommands n)
    (_replicationHashesToCommit n) (_replicationHashesToRollback n) v.

(** ** Constants *)

(** Modelled from the spec: [STIME_US_PER_S] and [STIME_US_PER_M] (libstuff)
    are missing; the spec gives the timeouts as 5 minutes, 30 seconds and
    5 seconds, in microseconds. *)
Definition STIME_US_PER_S : Z := 1000000.
Definition STIME_US_PER_M : Z := 60 * STIME_US_PER_S.
Definition SQL_NODE_DEFAULT_RECV_TIMEOUT : Z := STIME_US_PER_M * 5.
Definition SQL_NODE_SYNCHRONIZING_RECV_TIMEOUT : Z := STIME_US_PER_S * 30.

(** ** Outcomes *)

Inductive Outcome (A : Type) : Type :=
| Returned (a : A)
| Thrown (what : string)
| Aborted (what : string).
Arguments Returned {A} a.
Arguments Thrown {A} what.
Arguments Aborted {A} what.

Section Model.
Context `{Libstuff}.

(** ** Reading headers as numbers *)

Definition calc (t : gmap string string) (name : string) : Z :=
  SToInt (valueOf t name).

Definition calc64 (t : gmap string string) (name : string) : Z :=
  SToInt64 (valueOf t name).

Definition calcU64 (t : gmap string string) (name : string) : Z :=
  u64 (SToUInt64 (valueOf t name)).

(** [peer->test(name)]. *)
Definition test (p : Peer) (name : string) : bool := STest (attr p name).

(** [prepare()] when the engine accepts it: the transaction gets its hash. *)
Definition prepare (db : SQLite) : SQLite :=
  mkSQLite (journal db) (insideTransaction db) (getUncommittedQuery db)
           (hashOf (getCommittedHash db) (getUncommittedQuery db))
           (committedTransactions db).

(** Modelled from the spec: [commitInProgress] and [gracefulShutdown]
    (SQLiteNode.h) are missing.  A commit is in progress from [startCommit]
    to its resolution; a graceful shutdown is underway once
    [beginShutdown] has armed its stopwatch. *)
Definition commitInProgress (n : SQLiteNode) : bool :=
  match _commitState n with
  | CS_WAITING | COMMITTING => true
  | _ => false
  end.

Definition gracefulShutdown (n : SQLiteNode) : bool :=
  negb (alarmDuration (_gracefulShutdownTimeout n) =? 0).

(** ** Sending *)

(** The CommitCount and Hash that [_sendToPeer] writes on every message. *)
Definition stamp (db : SQLite) (message : SData) : SData :=
  set "Hash" (getCommittedHash db)
      (set "CommitCount" (to_string (getCommitCount db)) message).

(** A message put on the socket of a peer; a peer that is not connected
    gets nothing. *)
Definition deliver (m : SData) (peer : Peer) : Peer :=
  match Peer.s peer with
  | Some sock => setSocket (Some (socketSend m sock)) peer
  | None => peer
  end.

Definition _sendToPeer (i : nat) (message : SData) (n : SQLiteNode)
  : SQLiteNode :=
  with_peerList (alter (deliver (stamp (_db n) message)) i (peerList n)) n.

(** The copy [_sendToAllPeers] serializes: CommitCount and Hash are added
    where the message does not set them. *)
Definition broadcastCopy (db : SQLite) (message : SData) : SData :=
  let m1 := if isSet message "CommitCount" then message
            else set "CommitCount" (to_string (getCommitCount db)) message in
  if isSet m1 "Hash" then m1 else set "Hash" (getCommittedHash db) m1.

Definition receives (subscribedOnly : bool) (peer : Peer) : bool :=
  bool_decide (is_Some (Peer.s peer)) &&
  (negb subscribedOnly || SIEquals (attr peer "Subscribed") "true").

Definition _sendToAllPeers (message : SData) (subscribedOnly : bool)
  (n : SQLiteNode) : SQLiteNode :=
  let serializedMessage := broadcastCopy (_db n) message in
  with_peerList
    (map (fun peer => if receives subscribedOnly peer
                      then deliver serializedMessage peer else peer)
         (peerList n)) n.

(** One transaction of [_sendOutstandingTransactions]'s loop. *)
Definition sendOutstanding (sendTime : string)
  (n : SQLiteNode) (i : Z * (string * string)) : SQLiteNode :=
  let id := fst i in
  if id <=? _lastSentTransactionID n then n
  else
    let query := fst (snd i) in
    let hash := snd (snd i) in
    let transaction :=
      setContent (Text query)
        (set "ID" ("ASYNC_" ++ to_string id)
        (set "leaderSendTime" sendTime
        (set "NewHash" hash
        (set "NewCount" (to_string id)
        (set "Command" "ASYNC" (newSData "BEGIN_TRANSACTION")))))) in
    let n1 := _sendToAllPeers transaction true n in
    let n2 := with_peerList
                (map (setAttr "TransactionResponse" "") (peerList n1)) n1 in
    let commit :=
      set "Hash" hash
        (set "CommitCount" (get transaction "NewCount")
        (set "ID" (get transaction "ID") (newSData "COMMIT_TRANSACTION"))) in
    with_lastSentTransactionID id (_sendToAllPeers commit true n2).

Definition _sendOutstandingTransactions (env : Env) (n : SQLiteNode)
  : SQLiteNode :=
  if negb (unsentTransactions n) then n
  else
    let transactions := committedTransactions (_db n) in
    let n1 := with_db (drainCommittedTransactions (_db n)) n in
    with_unsentTransactions false
      (fold_left (sendOutstanding (to_string (STimeNow env))) transactions n1).

(** ** _changeState *)

Definition stateTimeoutFor (env : Env) (newState : State) : Z :=
  match newState with
  | STANDINGUP =>
      u64 (STIME_US_PER_S * 5 + u64 (rand64 env mod STIME_US_PER_S * 5))
  | SEARCHING | SUBSCRIBING =>
      u64 (SQL_NODE_DEFAULT_RECV_TIMEOUT
           + u64 (rand64 env mod STIME_US_PER_S * 5))
  | SYNCHRONIZING =>
      u64 (SQL_NODE_SYNCHRONIZING_RECV_TIMEOUT
           + u64 (rand64 env mod STIME_US_PER_S * 5))
  | _ => 0
  end.

(** Leaving LEADING or STANDINGDOWN for another state. *)
Definition stopLeading (env : Env) (n : SQLiteNode) : SQLiteNode :=
  let n1 := with_leaderVersion "" n in
  let n2 := if commitInProgress n1
            then with_db (rollback (_db n1)) (with_commitState FAILED n1)
            else n1 in
  _sendOutstandingTransactions env n2.

(** What entering a state does. *)
Definition enterState (env : Env) (newState : State) (n : SQLiteNode)
  : SQLiteNode :=
  match newState with
  | LEADING =>
      with_db (drainCommittedTransactions (_db n))
        (with_lastSentTransactionID (getCommitCount (_db n))
           (with_unsentTransactions false n))
  | STANDINGDOWN =>
      with_standDownTimeOut
        (mkSStopwatch (STIME_US_PER_S * 30) (STimeNow env)) n
  | SEARCHING =>
      if bool_decide (_escalatedCommandMap n = ∅) then n
      else with_escalatedCommandMap ∅ n
  | WAITING => with_priority (_originalPriority n) n
  | _ => n
  end.

Definition _changeState (env : Env) (newState : State) (n : SQLiteNode)
  : SQLiteNode :=
  let oldState := _state n in
  if State_eqb newState oldState then n
  else
    (* The replication threads are told to exit and waited for. *)
    let n1 := if State_eqb oldState FOLLOWING
              then with_replicationCommands []
                     (with_replicationThreads 0 n)
              else n in
    let n2 := with_stateTimeout
                (u64 (STimeNow env + stateTimeoutFor env newState)) n1 in
    let n3 := if SWITHIN LEADING oldState STANDINGDOWN
                 && negb (SWITHIN LEADING newState STANDINGDOWN)
              then stopLeading env n2 else n2 in
    let n4 := if stateIndex newState <? stateIndex SUBSCRIBING
              then with_leadPeer None n3 else n3 in
    let n5 := enterState env newState n4 in
    let n6 := with_stateChangeCount (_stateChangeCount n5 + 1)
                (with_state newState n5) in
    let state :=
      set "Priority" (to_string (_priority n6))
        (set "State" (stateName (_state n6))
        (set "StateChangeCount" (to_string (_stateChangeCount n6))
           (newSData "STATE"))) in
    _sendToAllPeers state false n6.

(** ** _updateSyncPeer *)

(** A peer the loop does not skip. *)
Definition usableSyncPeer (commitCount : Z) (peer : Peer) : bool :=
  test peer "LoggedIn"
  && negb (calcU64 (Peer.attrs peer) "CommitCount" <=? commitCount).

(** Whether the loop replaces [newSyncPeer] by [peer]. *)
Definition replacesSyncPeer (newSyncPeer peer : Peer) : bool :=
  if Peer.latency newSyncPeer =? Peer.latency peer then
    calc64 (Peer.attrs newSyncPeer) "CommitCount"
    <? calc64 (Peer.attrs peer) "CommitCount"
  else if Peer.latency newSyncPeer =? 0 then true
  else negb (Peer.latency peer =? 0)
       && (Peer.latency peer <? Peer.latency newSyncPeer).

Fixpoint chooseSyncPeer (commitCount : Z) (peers : list Peer) (i : nat)
  (newSyncPeer : option (nat * Peer)) : option (nat * Peer) :=
  match peers with
  | [] => newSyncPeer
  | peer :: rest =>
      chooseSyncPeer commitCount rest (S i)
        (if negb (usableSyncPeer commitCount peer) then newSyncPeer
         else match newSyncPeer with
              | None => Some (i, peer)
              | Some (_, best) =>
                  if replacesSyncPeer best peer then Some (i, peer)
                  else newSyncPeer
              end)
  end.

Definition _updateSyncPeer (n : SQLiteNode) : SQLiteNode :=
  with_syncPeer
    (fst <$> chooseSyncPeer (getCommitCount (_db n)) (peerList n) 0%nat None)
    n.

(** ** Reconnecting *)

Definition reconnect (peer : Peer) : Peer :=
  match Peer.s peer with
  | Some sock =>
      setAttr "LoggedIn" "false"
        (setSocket (Some (mkSocket (sendBuffer sock) true)) peer)
  | None => peer
  end.

Definition _reconnectPeer (i : nat) (n : SQLiteNode) : SQLiteNode :=
  with_peerList (alter reconnect i (peerList n)) n.

Definition _reconnectAll (n : SQLiteNode) : SQLiteNode :=
  with_peerList (map reconnect (peerList n)) n.

Definition _majoritySubscribed (n : SQLiteNode) : bool :=
  let counts :=
    fold_left
      (fun (acc : Z * Z) peer =>
         let '(numFullPeers, numFullFollowers) := acc in
         if negb (permaFollower peer) then
           (numFullPeers + 1,
            if test peer "Subscribed" then numFullFollowers + 1
            else numFullFollowers)
         else acc)
      (peerList n) (0, 0) in
  fst counts <=? snd counts * 2.

(** ** Graceful shutdown *)

Definition _isNothingBlockingShutdown (n : SQLiteNode) : bool :=
  if insideTransaction (_db n) then false
  else if commitInProgress n then false
  else if negb (bool_decide (_escalatedCommandMap n = ∅)) then false
  else true.

Definition abandon (command : SQLiteCommand) : SQLiteCommand :=
  mkSQLiteCommand (commandId command) (request command)
    (setMethodLine "500 Abandoned" (response command)) true
    (escalated command) (escalationTimeUS command)
    (initiatingPeerID command).

Definition sendBufferEmpty (sock : Socket) : bool :=
  match sendBuffer sock with [] => true | _ => false end.

Definition stillSending (peer : Peer) : bool :=
  match Peer.s peer with
  | Some sock => negb (sendBufferEmpty sock)
  | None => false
  end.

(** The commands of the escalation table, in the order the loops of the
    source visit them. *)
Definition escalatedCommands (n : SQLiteNode) : list SQLiteCommand :=
  snd <$> map_to_list (_escalatedCommandMap n).

Definition shutdownComplete (env : Env) (n : SQLiteNode)
  : SQLiteNode * bool :=
  if negb (gracefulShutdown n) then (n, false)
  else if ringing (STimeNow env) (_gracefulShutdownTimeout n) then
    let n1 :=
      if bool_decide (_escalatedCommandMap n = ∅) then n
      else with_escalatedCommandMap ∅
             (with_server
                (_server n ++
                 map (fun c => acceptCommand (abandon c) false)
                     (escalatedCommands n)) n) in
    (_changeState env SEARCHING n1, true)
  else if stateIndex WAITING <? stateIndex (_state n) then (n, false)
  else if existsb stillSending (peerList n) then (n, false)
  else (n, _isNothingBlockingShutdown n).

(** ** update: SEARCHING *)

Record SearchingScan : Type := mkSearchingScan {
  sNumFullPeers : Z;
  sNumLoggedInFullPeers : Z;
  sFreshestPeer : option (nat * Peer) }.

(** The loop over [peerList] of the SEARCHING case; [i] is the position of
    the head of [peers]. *)
Fixpoint searchingLoop (peers : list Peer) (i : nat) (acc : SearchingScan)
  : SearchingScan :=
  match peers with
  | [] => acc
  | peer :: rest =>
      let permaFollower := permaFollower peer in
      let loggedIn := test peer "LoggedIn" in
      searchingLoop rest (S i)
        (mkSearchingScan
           (sNumFullPeers acc + Z.b2z (negb permaFollower))
           (sNumLoggedInFullPeers acc
            + Z.b2z (negb permaFollower && loggedIn))
           (if loggedIn then
              match sFreshestPeer acc with
              | None => Some (i, peer)
              | Some (_, freshestPeer) =>
                  if calcU64 (Peer.attrs freshestPeer) "CommitCount"
                     <? calcU64 (Peer.attrs peer) "CommitCount"
                  then Some (i, peer) else sFreshestPeer acc
              end
            else sFreshestPeer acc))
  end.

Definition searchingScan (n : SQLiteNode) : SearchingScan :=
  searchingLoop (peerList n) 0%nat (mkSearchingScan 0 0 None).

(** [(float)numLoggedInFullPeers < numFullPeers / 2.0]: both sides are exact
    for the counts a peer list can give, so the test is [2 * l < f]. *)
Definition fewerThanHalf (numLoggedInFullPeers numFullPeers : Z) : bool :=
  2 * numLoggedInFullPeers <? numFullPeers.

Definition updateSEARCHING (env : Env) (n : SQLiteNode)
  : SQLiteNode * Outcome bool :=
  let (n0, done) := shutdownComplete env n in
  if done then (n0, Returned false)
  else
    match peerList n with
    | [] =>
        let n1 := _changeState env LEADING n in
        (with_leaderVersion (_version n1) n1, Returned true)
    | _ =>
        let scan := searchingScan n in
        if fewerThanHalf (sNumLoggedInFullPeers scan) (sNumFullPeers scan)
           && (STimeNow env <? _stateTimeout n)
        then (n, Returned false)
        else
          match sFreshestPeer scan with
          | None => (_changeState env WAITING n, Returned true)
          | Some (_, freshestPeer) =>
              let freshestPeerCommitCount :=
                calcU64 (Peer.attrs freshestPeer) "CommitCount" in
              if freshestPeerCommitCount =? getCommitCount (_db n)
              then (_changeState env WAITING n, Returned true)
              else if freshestPeerCommitCount <? getCommitCount (_db n)
              then (_changeState env WAITING n, Returned true)
              else
                let n1 := _updateSyncPeer n in
                match _syncPeer n1 with
                | Some syncPeer =>
                    let n2 := _sendToPeer syncPeer (newSData "SYNCHRONIZE")
                                          n1 in
                    (_changeState env SYNCHRONIZING n2, Returned true)
                | None => (_changeState env WAITING n1, Returned true)
                end
          end
    end.

(** ** update: SYNCHRONIZING *)

Definition updateSYNCHRONIZING (env : Env) (n : SQLiteNode)
  : SQLiteNode * Outcome bool :=
  if _stateTimeout n <? STimeNow env then
    match _syncPeer n with
    | None => (n, Aborted "null _syncPeer")
    | Some syncPeer =>
        let n1 := with_syncPeer None (_reconnectPeer syncPeer n) in
        (_changeState env SEARCHING n1, Returned true)
    end
  else (n, Returned false).

(** ** update: WAITING *)

Record WaitingScan : Type := mkWaitingScan {
  wNumFullPeers : Z;
  wNumLoggedInFullPeers : Z;
  wHighestPriorityPeer : option (nat * Peer);
  wFreshestPeer : option (nat * Peer);
  wCurrentLeader : option (nat * Peer) }.

(** A peer that is leader or on its way in or out. *)
Definition leaderLike (peer : Peer) : bool :=
  match Peer.state peer with
  | STANDINGUP | LEADING | STANDINGDOWN => true
  | _ => false
  end.

Fixpoint waitingLoop (peers : list Peer) (i : nat) (acc : WaitingScan)
  : WaitingScan :=
  match peers with
  | [] => acc
  | peer :: rest =>
      waitingLoop rest (S i)
        (if negb (permaFollower peer) then
           if SIEquals (attr peer "LoggedIn") "true" then
             mkWaitingScan
               (wNumFullPeers acc + 1)
               (wNumLoggedInFullPeers acc + 1)
               (match wHighestPriorityPeer acc with
                | None => Some (i, peer)
                | Some (_, highestPriorityPeer) =>
                    if calc (Peer.attrs highestPriorityPeer) "Priority"
                       <? calc (Peer.attrs peer) "Priority"
                    then Some (i, peer) else wHighestPriorityPeer acc
                end)
               (match wFreshestPeer acc with
                | None => Some (i, peer)
                | Some (_, freshestPeer) =>
                    if calcU64 (Peer.attrs freshestPeer) "CommitCount"
                       <? calcU64 (Peer.attrs peer) "CommitCount"
                    then Some (i, peer) else wFreshestPeer acc
                end)
               (if leaderLike peer then Some (i, peer)
                else wCurrentLeader acc)
           else
             mkWaitingScan (wNumFullPeers acc + 1)
               (wNumLoggedInFullPeers acc) (wHighestPriorityPeer acc)
               (wFreshestPeer acc) (wCurrentLeader acc)
         else acc)
  end.

Definition waitingScan (n : SQLiteNode) : WaitingScan :=
  waitingLoop (peerList n) 0%nat (mkWaitingScan 0 0 None None None).

(** The test that sends the node SUBSCRIBING. *)
Definition leaderToFollow (n : SQLiteNode) (scan : WaitingScan)
  (highestPriorityPeer : Peer) : option (nat * Peer) :=
  match wCurrentLeader scan with
  | Some (i, currentLeader) =>
      if (_priority n <? calc (Peer.attrs highestPriorityPeer) "Priority")
         && State_eqb (Peer.state currentLeader) LEADING
      then Some (i, currentLeader) else None
  | None => None
  end.

(** The test that sends the node STANDINGUP. *)
Definition shouldStandUp (n : SQLiteNode) (scan : WaitingScan)
  (highestPriorityPeer : Peer) : bool :=
  negb (bool_decide (is_Some (wCurrentLeader scan)))
  && (wNumFullPeers scan <=? wNumLoggedInFullPeers scan * 2)
  && (0 <? _priority n)
  && (calc (Peer.attrs highestPriorityPeer) "Priority" <? _priority n).

Definition updateWAITING (env : Env) (n : SQLiteNode)
  : SQLiteNode * Outcome bool :=
  if gracefulShutdown n then (n, Returned false)
  else
    let scan := waitingScan n in
    match wHighestPriorityPeer scan with
    | None => (_changeState env SEARCHING n, Returned true)
    | Some (_, highestPriorityPeer) =>
        match wFreshestPeer scan with
        | None => (n, Aborted "freshestPeer")
        | Some (_, freshestPeer) =>
            match leaderToFollow n scan highestPriorityPeer with
            | Some (i, currentLeader) =>
                let n1 := with_leaderVersion (attr currentLeader "Version")
                            (with_leadPeer (Some i) n) in
                let n2 := _sendToPeer i (newSData "SUBSCRIBE") n1 in
                (_changeState env SUBSCRIBING n2, Returned true)
            | None =>
                if getCommitCount (_db n)
                   <? calcU64 (Peer.attrs freshestPeer) "CommitCount"
                then (_changeState env SEARCHING n, Returned true)
                else if shouldStandUp n scan highestPriorityPeer then
                  let n1 := with_peerList
                              (map (eraseAttr "StandupResponse")
                                   (peerList n)) n in
                  (_changeState env STANDINGUP n1, Returned true)
                else (n, Returned false)
            end
        end
    end.

(** ** update: STANDINGUP *)

Record StandingUpScan : Type := mkStandingUpScan {
  uAllResponded : bool;
  uNumFullPeers : Z;
  uNumLoggedInFullPeers : Z }.

(** The loop of the STANDINGUP case; [None] is its early exit, at the first
    logged-in full peer that answered something else than approve. *)
Fixpoint standingUpLoop (peers : list Peer) (acc : StandingUpScan)
  : option StandingUpScan :=
  match peers with
  | [] => Some acc
  | peer :: rest =>
      if negb (permaFollower peer) then
        if SIEquals (attr peer "LoggedIn") "true" then
          if negb (peerIsSet peer "StandupResponse") then
            standingUpLoop rest
              (mkStandingUpScan false (uNumFullPeers acc + 1)
                                (uNumLoggedInFullPeers acc + 1))
          else if negb (SIEquals (attr peer "StandupResponse") "approve")
          then None
          else
            standingUpLoop rest
              (mkStandingUpScan (uAllResponded acc) (uNumFullPeers acc + 1)
                                (uNumLoggedInFullPeers acc + 1))
        else
          standingUpLoop rest
            (mkStandingUpScan (uAllResponded acc) (uNumFullPeers acc + 1)
                              (uNumLoggedInFullPeers acc))
      else standingUpLoop rest acc
  end.

Definition updateSTANDINGUP (env : Env) (n : SQLiteNode)
  : SQLiteNode * Outcome bool :=
  if gracefulShutdown n then (_changeState env SEARCHING n, Returned true)
  else
    match standingUpLoop (peerList n) (mkStandingUpScan true 0 0) with
    | None => (_changeState env SEARCHING n, Returned true)
    | Some scan =>
        let majorityConnected :=
          uNumFullPeers scan <=? uNumLoggedInFullPeers scan * 2 in
        if uAllResponded scan && majorityConnected then
          let n1 := _changeState env LEADING n in
          (with_leaderVersion (_version n1) n1, Returned true)
        else if _stateTimeout n <? STimeNow env then
          (_changeState env SEARCHING (_reconnectAll n), Returned true)
        else (n, Returned false)
    end.

(** ** update: LEADING and STANDINGDOWN *)

Record CommitScan : Type := mkCommitScan {
  numFullPeers : Z;
  numFullFollowers : Z;
  numFullResponded : Z;
  numFullApproved : Z;
  numFullDenied : Z }.

(** One turn of the loop that counts the answers to the transaction. *)
Definition commitLoopBody (acc : CommitScan) (peer : Peer) : CommitScan :=
  if negb (permaFollower peer) then
    if String.eqb (attr peer "Subscribed") "true" then
      let response := attr peer "TransactionResponse" in
      if String.eqb response "" then
        mkCommitScan (numFullPeers acc + 1) (numFullFollowers acc + 1)
                     (numFullResponded acc) (numFullApproved acc)
                     (numFullDenied acc)
      else
        mkCommitScan (numFullPeers acc + 1) (numFullFollowers acc + 1)
                     (numFullResponded acc + 1)
                     (numFullApproved acc
                      + Z.b2z (SIEquals response "approve"))
                     (if negb (SIEquals response "approve")
                      then numFullDenied acc + 1 else numFullDenied acc)
    else
      mkCommitScan (numFullPeers acc + 1) (numFullFollowers acc)
                   (numFullResponded acc) (numFullApproved acc)
                   (numFullDenied acc)
  else acc.

Definition commitScan (n : SQLiteNode) : CommitScan :=
  fold_left commitLoopBody (peerList n) (mkCommitScan 0 0 0 0 0).

Definition consistentEnough (level : ConsistencyLevel) (scan : CommitScan)
  : bool :=
  let majorityApproved := numFullPeers scan <=? numFullApproved scan * 2 in
  match level with
  | ASYNC => true
  | ONE => (numFullPeers scan =? 0) || (0 <? numFullApproved scan)
  | QUORUM => majorityApproved
  end.

Definition everybodyResponded (scan : CommitScan) : bool :=
  numFullFollowers scan <=? numFullResponded scan.

Definition rollbackMessage (n : SQLiteNode) : SData :=
  set "NewHash" (getUncommittedHash (_db n))
    (set "ID" (to_string (u64 (_lastSentTransactionID n + 1)))
         (newSData "ROLLBACK_TRANSACTION")).

Definition commitMessage (n : SQLiteNode) : SData :=
  set "ID" (to_string (u64 (_lastSentTransactionID n + 1)))
      (newSData "COMMIT_TRANSACTION").

(** ROLLBACK_TRANSACTION to the subscribed peers, rollback, FAILED. *)
Definition failCommit (n : SQLiteNode) : SQLiteNode :=
  let n1 := _sendToAllPeers (rollbackMessage n) true n in
  with_commitState FAILED (with_db (rollback (_db n1)) n1).

(** The block of the COMMITTING commit state, up to (not including) the
    release of the commit lock.  [None]: the block returns false from
    [update], to wait for more answers. *)
Definition resolveCommit (env : Env) (n : SQLiteNode) : option SQLiteNode :=
  let scan := commitScan n in
  let enough := consistentEnough (_commitConsistency n) scan in
  if negb (numFullDenied scan =? 0)
     || (everybodyResponded scan && negb enough)
  then Some (failCommit n)
  else if enough then
    if negb (commitOk (engine env 0%nat)) then Some (failCommit n)
    else
      let n1 := with_db (commit (_db n)) n in
      let n2 := _sendToAllPeers (commitMessage n1) true n1 in
      let n3 := with_db (drainCommittedTransactions (_db n2)) n2 in
      Some (with_commitState SUCCESS
              (with_lastSentTransactionID (getCommitCount (_db n3)) n3))
  else None.

Definition beginTransactionMessage (commitCount : Z) (env : Env)
  (n : SQLiteNode) : SData :=
  setContent (Text (getUncommittedQuery (_db n)))
    (set "ID"
       (match _commitConsistency n with
        | ASYNC => "ASYNC_" ++ to_string (u64 (_lastSentTransactionID n + 1))
        | _ => to_string (u64 (_lastSentTransactionID n + 1))
        end)
    (set "leaderSendTime" (to_string (STimeNow env))
    (set "NewHash" (getUncommittedHash (_db n))
    (set "NewCount" (to_string (u64 (commitCount + 1)))
         (newSData "BEGIN_TRANSACTION"))))).

(** The block of the WAITING commit state. *)
Definition startDistributedTransaction (env : Env) (n : SQLiteNode)
  : SQLiteNode * Outcome bool :=
  let n1 := with_commitState COMMITTING (with_g_commitLock true n) in
  let n2 := _sendOutstandingTransactions env n1 in
  let commitCount := getCommitCount (_db n2) in
  if negb (prepareOk (engine env 0%nat)) then (n2, Aborted "_db.prepare()")
  else
    let n3 := with_db (prepare (_db n2)) n2 in
    let transaction := beginTransactionMessage commitCount env n3 in
    let n4 := with_peerList
                (map (setAttr "TransactionResponse" "") (peerList n3)) n3 in
    (_sendToAllPeers transaction true n4, Returned true).

(** A peer that makes a LEADING node stand down. *)
Definition standDownFor (n : SQLiteNode) (peer : Peer) : bool :=
  match Peer.state peer with
  | LEADING => true
  | WAITING =>
      (_priority n <? calc (Peer.attrs peer) "Priority")
      || (getCommitCount (_db n)
          <? calcU64 (Peer.attrs peer) "CommitCount")
  | _ => false
  end.

Definition checkStandDown (env : Env) (n : SQLiteNode) : SQLiteNode :=
  if gracefulShutdown n then
    _changeState env STANDINGDOWN (with_priority 1 n)
  else if existsb (standDownFor n) (peerList n) then
    _changeState env STANDINGDOWN n
  else n.

Definition finishStandDown (env : Env) (n : SQLiteNode)
  : SQLiteNode * Outcome bool :=
  if ringing (STimeNow env) (_standDownTimeOut n) || canStandDown env
  then (_changeState env SEARCHING n, Returned true)
  else (n, Returned false).

(** The end of the LEADING and STANDINGDOWN case: standing down. *)
Definition standDown (env : Env) (n : SQLiteNode)
  : SQLiteNode * Outcome bool :=
  let n1 := if State_eqb (_state n) LEADING
            then checkStandDown env n else n in
  if State_eqb (_state n1) STANDINGDOWN then finishStandDown env n1
  else (n1, Returned false).

(** What follows the block of the COMMITTING commit state. *)
Definition afterCommitBlock (env : Env) (n : SQLiteNode)
  : SQLiteNode * Outcome bool :=
  match _commitState n with
  | CS_WAITING => startDistributedTransaction env n
  | _ => standDown env n
  end.

Definition updateLEADING (env : Env) (n : SQLiteNode)
  : SQLiteNode * Outcome bool :=
  let n1 := if negb (commitInProgress n)
            then _sendOutstandingTransactions env n else n in
  match _commitState n1 with
  | COMMITTING =>
      match resolveCommit env n1 with
      | Some n2 => afterCommitBlock env (with_g_commitLock false n2)
      | None => (n1, Returned false)
      end
  | _ => afterCommitBlock env n1
  end.

(** ** update: SUBSCRIBING and FOLLOWING *)

Definition updateSUBSCRIBING (env : Env) (n : SQLiteNode)
  : SQLiteNode * Outcome bool :=
  if _stateTimeout n <? STimeNow env then
    match _leadPeer n with
    | None => (n, Aborted "null _leadPeer")
    | Some leadPeer =>
        let n1 := with_leadPeer None (_reconnectPeer leadPeer n) in
        (_changeState env SEARCHING n1, Returned true)
    end
  else (n, Returned false).

(** The escalated commands go back to the server. *)
Definition requeueEscalated (n : SQLiteNode) : SQLiteNode :=
  with_escalatedCommandMap ∅
    (with_server
       (_server n ++ map (fun c => acceptCommand c false)
                         (escalatedCommands n)) n).

Definition updateFOLLOWING (env : Env) (n : SQLiteNode)
  : SQLiteNode * Outcome bool :=
  if gracefulShutdown n && _isNothingBlockingShutdown n then
    (_changeState env SEARCHING n, Returned false)
  else
    match _leadPeer n with
    | None => (n, Aborted "_leadPeer")
    | Some leadPeer =>
        match peerList n !! leadPeer with
        | None => (n, Aborted "_leadPeer")
        | Some leader =>
            if negb (State_eqb (Peer.state leader) LEADING)
               && negb (State_eqb (Peer.state leader) STANDINGDOWN)
            then
              let n1 := requeueEscalated n in
              let n2 := if negb (String.eqb (getUncommittedHash (_db n1)) "")
                        then with_db (rollback (_db n1)) n1 else n1 in
              (_changeState env SEARCHING n2, Returned true)
            else (n, Returned false)
        end
    end.

(** ** update *)

Definition update (env : Env) (n : SQLiteNode) : SQLiteNode * Outcome bool :=
  match _state n with
  | SEARCHING => updateSEARCHING env n
  | SYNCHRONIZING => updateSYNCHRONIZING env n
  | WAITING => updateWAITING env n
  | STANDINGUP => updateSTANDINGUP env n
  | LEADING | STANDINGDOWN => updateLEADING env n
  | SUBSCRIBING => updateSUBSCRIBING env n
  | FOLLOWING => updateFOLLOWING env n
  | UNKNOWN => (n, Aborted "Invalid state")
  end.

(** ** Synchronization: the responder *)

(** The COMMIT sub-message of the commit at [index]. *)
Definition commitPart (index : Z) (row : string * string) : SData :=
  setContent (Text (snd row))
    (set "Hash" (fst row)
       (set "CommitIndex" (to_string index) (newSData "COMMIT"))).

(** What the responder finds wrong with the requester's history. *)
Definition checkShared (params : gmap string string) (peerCommitCount : Z)
  (db : SQLite) : option string :=
  if negb (peerCommitCount =? 0) then
    match getCommit db peerCommitCount with
    | None => Some "error getting hash"%string
    | Some (myHash, _) =>
        let compareHash := valueOf params "Hash" in
        if negb (String.eqb myHash compareHash)
        then Some "hash mismatch"%string else None
    end
  else None.

Definition _queueSynchronizeStateless (params : gmap string string)
  (targetCommit : Z) (db : SQLite) (response : SData) (sendAll : bool)
  : Outcome SData :=
  let peerCommitCount :=
    match params !! "CommitCount" with
    | Some v => u64 (SToUInt64 v)
    | None => 0
    end in
  if getCommitCount db <? peerCommitCount
  then Thrown "you have more data than me"
  else
    match checkShared params peerCommitCount db with
    | Some what => Thrown what
    | None =>
        if peerCommitCount =? targetCommit
        then Returned (set "NumCommits" "0" response)
        else
          let fromIndex := u64 (peerCommitCount + 1) in
          let toIndex := if negb sendAll
                         then Z.min targetCommit (u64 (fromIndex + 100))
                         else targetCommit in
          let result := getCommits db fromIndex toIndex in
          if negb (Z.of_nat (length result) =? u64 (toIndex - fromIndex + 1))
          then Thrown "mismatched commit count"
          else
            Returned
              (fold_left (fun r part => appendPart part r)
                 (imap (fun c row =>
                          commitPart (u64 (peerCommitCount + Z.of_nat c + 1))
                                     row) result)
                 (set "NumCommits" (to_string (Z.of_nat (length result)))
                      response))
    end.

(** The commit the responder synchronizes up to. *)
Definition targetCommitOf (n : SQLiteNode) : Z :=
  if unsentTransactions n then _lastSentTransactionID n
  else getCommitCount (_db n).

Definition _queueSynchronize (peer : Peer) (response : SData)
  (sendAll : bool) (n : SQLiteNode) : Outcome SData :=
  _queueSynchronizeStateless (Peer.attrs peer) (targetCommitOf n) (_db n)
                             response sendAll.

(** ** Synchronization: the receiver *)

(** Modelled from the spec: the macro [SERROR] (libstuff) is missing.  The
    source calls it with "shutting down" where the engine refuses a
    transaction it replays, and the spec makes an engine failure fatal: it
    ends the process. *)
Definition SERROR {A : Type} (what : string) : Outcome A := Aborted what.

(** The body of the retry loop: begin, write, prepare.  A checkpoint that
    interrupts it is followed by a rollback and another turn. *)
Definition replay (e : EngineStep) (query : string) (db : SQLite)
  : option SQLite :=
  let db0 := Nat.iter (checkpoints e) rollback db in
  if negb (beginOk e) then None
  else if negb (writeOk e) then None
  else if negb (prepareOk e) then None
  else Some (prepare (writeUnmodified query (beginTransaction db0))).

(** [commit()], whose answer the replicating callers do not read. *)
Definition tryCommit (e : EngineStep) (db : SQLite) : SQLite :=
  if commitOk e then commit db else db.

(** One embedded message of [_recvSynchronize]. *)
Definition recvCommit (e : EngineStep) (commit : SData) (db : SQLite)
  : SQLite * Outcome unit :=
  if negb (SIEquals (methodLine commit) "COMMIT")
  then (db, Thrown "expecting COMMIT")
  else if negb (isSet commit "CommitIndex")
  then (db, Thrown "missing CommitIndex")
  else if calc64 (nameValueMap commit) "CommitIndex" <? 0
  then (db, Thrown "invalid CommitIndex")
  else if negb (isSet commit "Hash") then (db, Thrown "missing Hash")
  else if negb (calcU64 (nameValueMap commit) "CommitIndex"
                =? u64 (getCommitCount db + 1))
  then (db, Thrown "commit index mismatch")
  else
    match replay e (textOf commit) db with
    | None => (db, SERROR "Can't synchronize")
    | Some db1 =>
        let db2 := tryCommit e db1 in
        if negb (String.eqb (getCommittedHash db2) (get commit "Hash"))
        then (db2, Thrown "potential hash mismatch")
        else (db2, Returned tt)
    end.

(** The loop of [_recvSynchronize]; [k] numbers the transactions. *)
Fixpoint recvCommits (env : Env) (k : nat) (commits : list SData)
  (commitsRemaining : Z) (db : SQLite) : SQLite * Outcome Z :=
  match commits with
  | [] => (db, Returned commitsRemaining)
  | commit :: rest =>
      match recvCommit (engine env k) commit db with
      | (db1, Returned _) =>
          recvCommits env (S k) rest (commitsRemaining - 1) db1
      | (db1, Thrown what) => (db1, Thrown what)
      | (db1, Aborted what) => (db1, Aborted what)
      end
  end.

Definition _recvSynchronize (env : Env) (message : SData) (n : SQLiteNode)
  : SQLiteNode * Outcome unit :=
  if negb (isSet message "NumCommits") then (n, Thrown "missing NumCommits")
  else
    match recvCommits env 0%nat (partsOf message)
                      (calc (nameValueMap message) "NumCommits") (_db n) with
    | (db, Returned commitsRemaining) =>
        if negb (commitsRemaining =? 0)
        then (with_db db n, Thrown "commits remaining at end")
        else (with_db db n, Returned tt)
    | (db, Thrown what) => (with_db db n, Thrown what)
    | (db, Aborted what) => (with_db db n, Aborted what)
    end.

(** ** The replication handlers *)

(** The transaction a follower prepares for BEGIN_TRANSACTION; [success] is
    false when the engine refuses it or the hash is not the announced one. *)
Definition beginReplicated (e : EngineStep) (message : SData) (db : SQLite)
  : SQLite * bool :=
  match replay e (textOf message) db with
  | None => (rollback db, false)
  | Some db1 =>
      if negb (String.eqb (getUncommittedHash db1) (get message "NewHash"))
      then (rollback db1, false)
      else (db1, true)
  end.

Definition handleBeginTransaction (env : Env) (db : SQLite)
  (message : SData) (n : SQLiteNode) : SQLiteNode * SQLite * Outcome unit :=
  if negb (isSet message "ID") then (n, db, Thrown "missing ID")
  else if negb (isSet message "NewCount")
  then (n, db, Thrown "missing NewCount")
  else if negb (isSet message "NewHash")
  then (n, db, Thrown "missing NewHash")
  else if negb (State_eqb (_state n) FOLLOWING)
  then (n, db, Thrown "not following")
  else if negb (String.eqb (getUncommittedHash db) "")
  then (n, db, Thrown "already in a transaction")
  else
    let (db1, success) := beginReplicated (engine env 0%nat) message db in
    if negb (_priority n =? 0) then
      let verb := if success then "APPROVE_TRANSACTION"%string
                  else "DENY_TRANSACTION"%string in
      if negb (SStartsWith (get message "ID") "ASYNC_") then
        let response :=
          set "ID" (get message "ID")
            (set "NewHash" (if success then getUncommittedHash db1
                            else get message "NewHash")
            (set "NewCount" (to_string (u64 (getCommitCount db1 + 1)))
                 (newSData verb))) in
        match _leadPeer n with
        | None => (n, db1, Thrown "no leader?")
        | Some leadPeer => (_sendToPeer leadPeer response n, db1, Returned tt)
        end
      else (n, db1, Returned tt)
    else (n, db1, Returned tt).

Definition handleCommitTransaction (env : Env) (db : SQLite)
  (commandCommitCount : Z) (commandCommitHash : string) (n : SQLiteNode)
  : SQLiteNode * SQLite * Outcome unit :=
  if negb (State_eqb (_state n) FOLLOWING)
  then (n, db, Thrown "not following")
  else if String.eqb (getUncommittedHash db) ""
  then (n, db, Thrown "no outstanding transaction")
  else if negb (commandCommitCount =? u64 (getCommitCount db + 1))
  then (n, db,
        Thrown ("commit count mismatch. Expected: "
                ++ to_string commandCommitCount
                ++ ", but would actually be: "
                ++ to_string (u64 (getCommitCount db + 1))))
  else if negb (String.eqb commandCommitHash (getUncommittedHash db))
  then (n, db,
        Thrown ("hash mismatch:" ++ commandCommitHash ++ "!="
                ++ getUncommittedHash db ++ ";"))
  else
    let db1 := tryCommit (engine env 0%nat) db in
    (with_handledCommitCount (u64 (_handledCommitCount n + 1)) n,
     drainCommittedTransactions db1, Returned tt).

Definition handleRollbackTransaction (db : SQLite) (message : SData)
  (n : SQLiteNode) : SQLiteNode * SQLite * Outcome unit :=
  if negb (isSet message "ID") then (n, db, Thrown "missing ID")
  else if negb (State_eqb (_state n) FOLLOWING)
  then (n, db, Thrown "not following")
  else (n, rollback db, Returned tt).

(** ** replicate

    The body of a replication thread that is not told to exit, on its own
    database handle [db].  What one turn of a thread gives: it waits on the
    condition variable, it goes on to its second loop, it returns (the
    count of the threads is then one less), or an assertion fails. *)






(** ** _onMESSAGE *)

Definition updatePeer (i : nat) (f : Peer -> Peer) (n : SQLiteNode)
  : SQLiteNode :=
  with_peerList (alter f i (peerList n)) n.

Definition callServer (call : ServerCall) (n : SQLiteNode) : SQLiteNode :=
  with_server (_server n ++ [call]) n.

(** Modelled from the spec: the constructor of [SQLiteCommand] is missing; a
    command made from a request carries the request, and nothing else yet. *)
Definition newCommand (request : SData) : SQLiteCommand :=
  mkSQLiteCommand "" request (newSData "") false false 0 0.

Definition setInitiatingPeerID (id : Z) (c : SQLiteCommand) : SQLiteCommand :=
  mkSQLiteCommand (commandId c) (request c) (response c) (complete c)
                  (escalated c) (escalationTimeUS c) id.

Definition setCommandId (id : string) (c : SQLiteCommand) : SQLiteCommand :=
  mkSQLiteCommand id (request c) (response c) (complete c) (escalated c)
                  (escalationTimeUS c) (initiatingPeerID c).

(** LOGIN *)
Definition onLOGIN (i : nat) (peer : Peer) (message : SData)
  (n : SQLiteNode) : SQLiteNode * Outcome unit :=
  if String.eqb (attr peer "LoggedIn") "true"
  then (n, Thrown "already logged in")
  else if negb (isSet message "Priority") then (n, Thrown "missing Priority")
  else if negb (isSet message "State") then (n, Thrown "missing State")
  else if negb (isSet message "Version") then (n, Thrown "missing Version")
  else if permaFollower peer
          && (negb (String.eqb (get message "Permafollower") "true")
              || (0 <? calc (nameValueMap message) "Priority"))
  then (n, Thrown "you're supposed to be a 0-priority permafollower")
  else if negb (permaFollower peer)
          && (String.eqb (get message "Permafollower") "true"
              || (calc (nameValueMap message) "Priority" =? 0))
  then (n, Thrown "you're *not* supposed to be a 0-priority permafollower")
  else if negb ((_priority n =? -1) || (_priority n =? 0)
                || negb (calc (nameValueMap message) "Priority"
                         =? _priority n))
  then (n, Aborted "same priority")
  else
    let n1 := updatePeer i
                (fun p => setPeerState (stateFromName (get message "State"))
                            (setAttr "Version" (get message "Version")
                            (setAttr "LoggedIn" "true"
                            (setAttr "Priority" (get message "Priority") p))))
                n in
    (callServer (onNodeLogin i) n1, Returned tt).

(** The answer to a peer that announces STANDINGUP, and what the
    announcement does to the node. *)
Definition contestedBy (i : nat) (peers : list Peer) : option Peer :=
  snd <$> find (fun jp => negb (Nat.eqb (fst jp) i) && leaderLike (snd jp))
               (imap pair peers).

Definition onPeerStandingUp (env : Env) (i : nat) (peer : Peer)
  (message : SData) (n : SQLiteNode) : SQLiteNode :=
  let response0 :=
    set "StateChangeCount" (get message "StateChangeCount")
        (newSData "STANDUP_RESPONSE") in
  let response1 :=
    if permaFollower peer
    then set "Reason" "You're a permafollower" (set "Response" "deny" response0)
    else response0 in
  if SWITHIN STANDINGUP (_state n) STANDINGDOWN then
    if _priority n <? calc (Peer.attrs peer) "Priority" then
      match _state n with
      | STANDINGUP => _sendToPeer i response1 (_changeState env SEARCHING n)
      | LEADING => _sendToPeer i response1 (_changeState env STANDINGDOWN n)
      | _ => _sendToPeer i response1 n
      end
    else
      let response2 :=
        set "Reason" "I am leading" (set "Response" "deny" response1) in
      if _majoritySubscribed n then _sendToPeer i response2 n
      else _sendToPeer i response2
             (_changeState env SEARCHING (_reconnectAll n))
  else
    let response2 := set "Response" "approve" response1 in
    match contestedBy i (peerList n) with
    | Some otherPeer =>
        _sendToPeer i
          (set "Reason"
               ("peer '" ++ Peer.name otherPeer ++ "' is '"
                ++ stateName (Peer.state otherPeer) ++ "'")
               (set "Response" "deny" response2)) n
    | None => _sendToPeer i response2 n
    end.

(** STATE *)
Definition onSTATE (env : Env) (i : nat) (peer : Peer) (message : SData)
  (n : SQLiteNode) : SQLiteNode * Outcome unit :=
  if negb (isSet message "State") then (n, Thrown "missing State")
  else if negb (isSet message "Priority") then (n, Thrown "missing Priority")
  else
    let from := Peer.state peer in
    let to := stateFromName (get message "State") in
    let n1 := updatePeer i
                (fun p => setPeerState to
                            (setAttr "Priority" (get message "Priority") p))
                n in
    let peer1 := setPeerState to
                   (setAttr "Priority" (get message "Priority") peer) in
    if State_eqb from to then (n1, Returned tt)
    else
      match to with
      | SEARCHING =>
          (updatePeer i
             (fun p => eraseAttr "Subscribed"
                         (eraseAttr "TransactionResponse" p)) n1,
           Returned tt)
      | STANDINGUP => (onPeerStandingUp env i peer1 message n1, Returned tt)
      | _ =>
          if State_eqb from STANDINGDOWN
             && negb (String.eqb (getUncommittedHash (_db n1)) "")
          then (with_db (rollback (_db n1)) n1, Returned tt)
          else (n1, Returned tt)
      end.

(** STANDUP_RESPONSE *)
Definition onSTANDUP_RESPONSE (i : nat) (message : SData) (n : SQLiteNode)
  : SQLiteNode * Outcome unit :=
  if State_eqb (_state n) STANDINGUP then
    if isSet message "StateChangeCount"
       && negb (calc (nameValueMap message) "StateChangeCount"
                =? _stateChangeCount n)
    then (n, Returned tt)
    else if negb (isSet message "Response")
    then (n, Thrown "missing Response")
    else (updatePeer i (setAttr "StandupResponse" (get message "Response")) n,
          Returned tt)
  else (n, Returned tt).

(** SYNCHRONIZE *)
Definition onSYNCHRONIZE (i : nat) (peer : Peer) (message : SData)
  (n : SQLiteNode) : SQLiteNode * Outcome unit :=
  if State_eqb (_state n) FOLLOWING then
    let request :=
      set "peerName" (Peer.name peer)
        (set "name" (name n)
        (set "targetCommit" (to_string (targetCommitOf n))
        (set "peerID" (to_string (Peer.id peer))
        (set "peerHash" (attr peer "Hash")
        (set "peerCommitCount" (attr peer "CommitCount") message))))) in
    (callServer
       (acceptCommand (setInitiatingPeerID (Peer.id peer) (newCommand request))
                      true) n,
     Returned tt)
  else
    match _queueSynchronize peer (newSData "SYNCHRONIZE_RESPONSE") false n with
    | Returned response => (_sendToPeer i response n, Returned tt)
    | Thrown what => (n, Thrown what)
    | Aborted what => (n, Aborted what)
    end.

(** What follows a SYNCHRONIZE_RESPONSE that was applied. *)
Definition afterSynchronize (env : Env) (syncPeer : nat) (n : SQLiteNode)
  : SQLiteNode :=
  let peerCommitCount :=
    match peerList n !! syncPeer with
    | Some p => calcU64 (Peer.attrs p) "CommitCount"
    | None => 0
    end in
  if getCommitCount (_db n) =? peerCommitCount then
    _changeState env WAITING (with_syncPeer None n)
  else if peerCommitCount <? getCommitCount (_db n) then
    _changeState env SEARCHING
      (with_syncPeer None (_reconnectPeer syncPeer n))
  else
    let n1 := _updateSyncPeer n in
    let n2 := match _syncPeer n1 with
              | Some newSyncPeer =>
                  _sendToPeer newSyncPeer (newSData "SYNCHRONIZE") n1
              | None => _changeState env SEARCHING n1
              end in
    with_stateTimeout
      (u64 (STimeNow env + SQL_NODE_SYNCHRONIZING_RECV_TIMEOUT
            + u64 (rand64 env mod STIME_US_PER_S * 5))) n2.

(** SYNCHRONIZE_RESPONSE *)
Definition onSYNCHRONIZE_RESPONSE (env : Env) (i : nat) (message : SData)
  (n : SQLiteNode) : SQLiteNode * Outcome unit :=
  if negb (State_eqb (_state n) SYNCHRONIZING)
  then (n, Thrown "not synchronizing")
  else
    match _syncPeer n with
    | None => (n, Thrown "too late, gave up on you")
    | Some syncPeer =>
        if negb (Nat.eqb i syncPeer) then (n, Thrown "sync peer mismatch")
        else
          match _recvSynchronize env message n with
          | (n1, Returned _) => (afterSynchronize env syncPeer n1, Returned tt)
          | (n1, Thrown what) =>
              (_changeState env SEARCHING
                 (with_syncPeer None (_reconnectPeer syncPeer n1)),
               Thrown what)
          | (n1, Aborted what) => (n1, Aborted what)
          end
    end.

(** SUBSCRIBE *)
Definition onSUBSCRIBE (env : Env) (i : nat) (peer : Peer) (n : SQLiteNode)
  : SQLiteNode * Outcome unit :=
  if negb (State_eqb (_state n) LEADING) then (n, Thrown "not leading")
  else
    match _queueSynchronize peer (newSData "SUBSCRIPTION_APPROVED") true n with
    | Thrown what => (n, Thrown what)
    | Aborted what => (n, Aborted what)
    | Returned response =>
        let n1 := _sendToPeer i response n in
        let n2 := updatePeer i (setAttr "Subscribed" "true") n1 in
        match _commitState n2 with
        | COMMITTING =>
            let transaction :=
              setContent (Text (getUncommittedQuery (_db n2)))
                (set "ID" (to_string (u64 (_lastSentTransactionID n2 + 1)))
                (set "leaderSendTime" (to_string (STimeNow env))
                (set "NewHash" (getUncommittedHash (_db n2))
                (set "NewCount"
                     (to_string (u64 (getCommitCount (_db n2) + 1)))
                     (newSData "BEGIN_TRANSACTION"))))) in
            (_sendToPeer i transaction n2, Returned tt)
        | _ => (n2, Returned tt)
        end
    end.

(** SUBSCRIPTION_APPROVED *)
Definition onSUBSCRIPTION_APPROVED (env : Env) (i : nat) (message : SData)
  (n : SQLiteNode) : SQLiteNode * Outcome unit :=
  if negb (State_eqb (_state n) SUBSCRIBING)
  then (n, Thrown "not subscribing")
  else if negb (bool_decide (_leadPeer n = Some i))
  then (n, Thrown "not subscribing to you")
  else
    match _recvSynchronize env message n with
    | (n1, Returned _) => (_changeState env FOLLOWING n1, Returned tt)
    | (n1, Thrown what) =>
        (_changeState env SEARCHING (_reconnectPeer i n1), Thrown what)
    | (n1, Aborted what) => (n1, Aborted what)
    end.

(** BEGIN_TRANSACTION, COMMIT_TRANSACTION, ROLLBACK_TRANSACTION: a
    replication thread is started with the message. *)
Definition onReplicate (i : nat) (message : SData) (n : SQLiteNode)
  : SQLiteNode * Outcome unit :=
  (with_replicationCommands (_replicationCommands n ++ [(i, message)])
     (with_replicationThreads (_replicationThreads n + 1) n),
   Returned tt).

(** The body of the [try] block of the vote handler. *)
Definition recordVote (i : nat) (peer : Peer) (message : SData)
  (response : string) (n : SQLiteNode) : SQLiteNode * Outcome unit :=
  let hashMatch :=
    String.eqb (get message "NewHash") (getUncommittedHash (_db n)) in
  if hashMatch
     && String.eqb (to_string (u64 (_lastSentTransactionID n + 1)))
                   (get message "ID")
  then
    if negb (calcU64 (nameValueMap message) "NewCount"
             =? u64 (getCommitCount (_db n) + 1))
    then (n, Thrown ("commit count mismatch. Expected: "
                     ++ get message "NewCount"
                     ++ ", but would actually be: "
                     ++ to_string (u64 (getCommitCount (_db n) + 1))))
    else if permaFollower peer
    then (n, Thrown "permafollowers shouldn't approve/deny")
    else (updatePeer i (setAttr "TransactionResponse" response) n,
          Returned tt)
  else (n, Returned tt).

(** APPROVE_TRANSACTION, DENY_TRANSACTION.  What [recordVote] throws is
    caught here, and only logged. *)
Definition onVote (i : nat) (peer : Peer) (message : SData) (n : SQLiteNode)
  : SQLiteNode * Outcome unit :=
  if negb (isSet message "ID") then (n, Thrown "missing ID")
  else if negb (isSet message "NewCount") then (n, Thrown "missing NewCount")
  else if negb (isSet message "NewHash") then (n, Thrown "missing NewHash")
  else if negb (State_eqb (_state n) LEADING)
          && negb (State_eqb (_state n) STANDINGDOWN)
  then (n, Thrown "not leading")
  else
    let response := if SIEquals (methodLine message) "APPROVE_TRANSACTION"
                    then "approve"%string else "deny"%string in
    match recordVote i peer message response n with
    | (n1, Thrown _) => (n1, Returned tt)
    | r => r
    end.

(** [request.deserialize(message.content)]. *)
Definition deserialize (message : SData) : option SData :=
  match content message with
  | Serialized [request] => Some request
  | _ => None
  end.

(** ESCALATE *)
Definition onESCALATE (i : nat) (peer : Peer) (message : SData)
  (n : SQLiteNode) : SQLiteNode * Outcome unit :=
  if negb (isSet message "ID") then (n, Thrown "missing ID")
  else if negb (State_eqb (_state n) LEADING) then
    let aborted :=
      set "Reason" "not leading"
        (set "ID" (get message "ID") (newSData "ESCALATE_ABORTED")) in
    (_sendToPeer i aborted n, Returned tt)
  else
    match deserialize message with
    | None => (n, Thrown "malformed request")
    | Some request =>
        if negb (String.eqb (attr peer "Subscribed") "true")
        then (n, Thrown "not subscribed")
        else
          (callServer
             (acceptCommand
                (setCommandId (get message "ID")
                   (setInitiatingPeerID (Peer.id peer) (newCommand request)))
                true) n,
           Returned tt)
    end.

(** ESCALATE_CANCEL *)
Definition onESCALATE_CANCEL (peer : Peer) (message : SData)
  (n : SQLiteNode) : SQLiteNode * Outcome unit :=
  if negb (isSet message "ID") then (n, Thrown "missing ID")
  else if negb (State_eqb (_state n) LEADING) then (n, Returned tt)
  else
    match deserialize message with
    | None => (n, Thrown "malformed request")
    | Some _ =>
        if negb (String.eqb (attr peer "Subscribed") "true")
        then (n, Thrown "not subscribed")
        else (callServer (cancelCommand (SToLower (get message "ID"))) n,
              Returned tt)
    end.

Definition completeWith (env : Env) (response : SData) (c : SQLiteCommand)
  : SQLiteCommand :=
  mkSQLiteCommand (commandId c) (request c) response true (escalated c)
    (if escalationTimeUS c =? 0 then 0
     else u64 (STimeNow env - escalationTimeUS c))
    (initiatingPeerID c).

(** ESCALATE_RESPONSE *)
Definition onESCALATE_RESPONSE (env : Env) (message : SData)
  (n : SQLiteNode) : SQLiteNode * Outcome unit :=
  if negb (State_eqb (_state n) FOLLOWING) then (n, Thrown "not following")
  else if negb (isSet message "ID") then (n, Thrown "missing ID")
  else
    match deserialize message with
    | None => (n, Thrown "malformed content")
    | Some response =>
        match _escalatedCommandMap n !! get message "ID" with
        | Some command =>
            (with_escalatedCommandMap
               (delete (get message "ID") (_escalatedCommandMap n))
               (callServer
                  (acceptCommand (completeWith env response command) false)
                  n),
             Returned tt)
        | None => (n, Returned tt)
        end
    end.

(** ESCALATE_ABORTED *)
Definition onESCALATE_ABORTED (message : SData) (n : SQLiteNode)
  : SQLiteNode * Outcome unit :=
  if negb (State_eqb (_state n) FOLLOWING) then (n, Thrown "not following")
  else if negb (isSet message "ID") then (n, Thrown "missing ID")
  else
    match _escalatedCommandMap n !! get message "ID" with
    | Some command =>
        (with_escalatedCommandMap
           (delete (get message "ID") (_escalatedCommandMap n))
           (callServer (acceptCommand command false) n),
         Returned tt)
    | None => (n, Returned tt)
    end.

(** The kinds of message [_onMESSAGE] tells apart. *)
Inductive Method : Type :=
| M_LOGIN | M_STATE | M_STANDUP_RESPONSE | M_SYNCHRONIZE
| M_SYNCHRONIZE_RESPONSE | M_SUBSCRIBE | M_SUBSCRIPTION_APPROVED
| M_REPLICATE | M_VOTE | M_ESCALATE | M_ESCALATE_CANCEL
| M_ESCALATE_RESPONSE | M_ESCALATE_ABORTED | M_COMMAND | M_UNRECOGNIZED.

(** The chain of [SIEquals] tests on the method line, in the order of the
    source; the first that holds decides. *)
Definition classify (method : string) : Method :=
  if SIEquals method "LOGIN" then M_LOGIN
  else if SIEquals method "STATE" then M_STATE
  else if SIEquals method "STANDUP_RESPONSE" then M_STANDUP_RESPONSE
  else if SIEquals method "SYNCHRONIZE" then M_SYNCHRONIZE
  else if SIEquals method "SYNCHRONIZE_RESPONSE" then M_SYNCHRONIZE_RESPONSE
  else if SIEquals method "SUBSCRIBE" then M_SUBSCRIBE
  else if SIEquals method "SUBSCRIPTION_APPROVED"
  then M_SUBSCRIPTION_APPROVED
  else if SIEquals method "BEGIN_TRANSACTION"
          || SIEquals method "COMMIT_TRANSACTION"
          || SIEquals method "ROLLBACK_TRANSACTION"
  then M_REPLICATE
  else if SIEquals method "APPROVE_TRANSACTION"
          || SIEquals method "DENY_TRANSACTION"
  then M_VOTE
  else if SIEquals method "ESCALATE" then M_ESCALATE
  else if SIEquals method "ESCALATE_CANCEL" then M_ESCALATE_CANCEL
  else if SIEquals method "ESCALATE_RESPONSE" then M_ESCALATE_RESPONSE
  else if SIEquals method "ESCALATE_ABORTED" then M_ESCALATE_ABORTED
  else if SIEquals method "CRASH_COMMAND"
          || SIEquals method "BROADCAST_COMMAND"
  then M_COMMAND
  else M_UNRECOGNIZED.

(** The handler of each kind of message, for a peer that is logged in. *)
Definition dispatch (env : Env) (i : nat) (peer : Peer) (message : SData)
  (n : SQLiteNode) : SQLiteNode * Outcome unit :=
  match classify (methodLine message) with
  | M_LOGIN => onLOGIN i peer message n
  | M_STATE => onSTATE env i peer message n
  | M_STANDUP_RESPONSE => onSTANDUP_RESPONSE i message n
  | M_SYNCHRONIZE => onSYNCHRONIZE i peer message n
  | M_SYNCHRONIZE_RESPONSE => onSYNCHRONIZE_RESPONSE env i message n
  | M_SUBSCRIBE => onSUBSCRIBE env i peer n
  | M_SUBSCRIPTION_APPROVED => onSUBSCRIPTION_APPROVED env i message n
  | M_REPLICATE => onReplicate i message n
  | M_VOTE => onVote i peer message n
  | M_ESCALATE => onESCALATE i peer message n
  | M_ESCALATE_CANCEL => onESCALATE_CANCEL peer message n
  | M_ESCALATE_RESPONSE => onESCALATE_RESPONSE env message n
  | M_ESCALATE_ABORTED => onESCALATE_ABORTED message n
  | M_COMMAND =>
      (callServer (acceptCommand (newCommand message) true) n, Returned tt)
  | M_UNRECOGNIZED => (n, Thrown "unrecognized message")
  end.

(** What every message does first: the peer's CommitCount and Hash are the
    message's. *)
Definition recordCommit (message : SData) (peer : Peer) : Peer :=
  setAttr "Hash" (get message "Hash")
    (setAttr "CommitCount" (get message "CommitCount") peer).

Definition _onMESSAGE (env : Env) (i : nat) (message : SData)
  (n : SQLiteNode) : SQLiteNode * Outcome unit :=
  match peerList n !! i with
  | None => (n, Aborted "peer")
  | Some peer0 =>
      if negb (isSet message "CommitCount")
      then (n, Thrown "missing CommitCount")
      else if negb (isSet message "Hash") then (n, Thrown "missing Hash")
      else
        let n1 := updatePeer i (recordCommit message) n in
        let peer := recordCommit message peer0 in
        match classify (methodLine message) with
        | M_LOGIN => onLOGIN i peer message n1
        | _ =>
            if negb (SIEquals (attr peer "LoggedIn") "true")
            then (n1, Thrown "not logged in")
            else dispatch env i peer message n1
        end
  end.

(** ** Connections *)

Definition _onConnect (i : nat) (n : SQLiteNode) : SQLiteNode :=
  let login :=
    set "Permafollower" (if _originalPriority n =? 0 then "true" else "false")
      (set "Version" (_version n)
      (set "State" (stateName (_state n))
      (set "Priority" (to_string (_priority n)) (newSData "LOGIN")))) in
  _sendToPeer i login n.

(** The count of [_onDisconnect]: the full peers and the logged-in full
    peers, [i] left out. *)
Definition quorumWithout (i : nat) (peers : list Peer) : Z * Z :=
  fold_left
    (fun (acc : Z * Z) (jp : nat * Peer) =>
       let '(numFullPeers, numLoggedInFullPeers) := acc in
       if Nat.eqb (fst jp) i then acc
       else if negb (permaFollower (snd jp)) then
         (numFullPeers + 1,
          if SIEquals (attr (snd jp) "LoggedIn") "true"
          then numLoggedInFullPeers + 1 else numLoggedInFullPeers)
       else acc)
    (imap pair peers) (0, 0).

Definition _onDisconnect (env : Env) (i : nat) (n : SQLiteNode)
  : SQLiteNode :=
  let n1 :=
    if bool_decide (_leadPeer n = Some i) then
      let n' := with_leadPeer None n in
      let n'' := if negb (String.eqb (getUncommittedHash (_db n')) "")
                 then with_db (rollback (_db n')) n' else n' in
      _changeState env SEARCHING (requeueEscalated n'')
    else n in
  let n2 :=
    if bool_decide (_syncPeer n1 = Some i)
    then _changeState env SEARCHING (with_syncPeer None n1) else n1 in
  match _state n2 with
  | LEADING | STANDINGUP | STANDINGDOWN =>
      let '(numFullPeers, numLoggedInFullPeers) :=
        quorumWithout i (peerList n2) in
      if numLoggedInFullPeers * 2 <? numFullPeers
      then _changeState env SEARCHING n2 else n2
  | _ => n2
  end.

(** ** The calls of the command server *)

Definition startCommit (consistency : ConsistencyLevel) (n : SQLiteNode)
  : SQLiteNode * Outcome unit :=
  match _commitState n with
  | UNINITIALIZED | SUCCESS | FAILED =>
      (with_commitConsistency consistency (with_commitState CS_WAITING n),
       Returned tt)
  | _ => (n, Aborted "_commitState")
  end.

Definition beginShutdown (env : Env) (usToWait : Z) (n : SQLiteNode)
  : SQLiteNode :=
  if negb (gracefulShutdown n)
  then with_gracefulShutdownTimeout (mkSStopwatch usToWait (STimeNow env)) n
  else n.

Definition markEscalated (escalationTime : option Z) (c : SQLiteCommand)
  : SQLiteCommand :=
  mkSQLiteCommand (commandId c) (request c) (response c) (complete c) true
    (match escalationTime with Some t => t | None => escalationTimeUS c end)
    (initiatingPeerID c).

Definition escalateCommand (env : Env) (command : SQLiteCommand)
  (forget : bool) (n : SQLiteNode) : SQLiteNode * Outcome unit :=
  match _leadPeer n with
  | None => (n, Aborted "_leadPeer")
  | Some leadPeer =>
      match peerList n !! leadPeer with
      | None => (n, Aborted "_leadPeer")
      | Some leader =>
          if State_eqb (Peer.state leader) STANDINGDOWN
          then (callServer (acceptCommand command false) n, Returned tt)
          else if negb (State_eqb (Peer.state leader) LEADING)
          then (n, Aborted "_leadPeer.load()->state")
          else
            let escalate :=
              setContent (Serialized [request command])
                (set "ID" (commandId command) (newSData "ESCALATE")) in
            let n1 :=
              if forget then n
              else
                with_escalatedCommandMap
                  (match _escalatedCommandMap n !! commandId command with
                   | Some _ => _escalatedCommandMap n
                   | None =>
                       <[commandId command :=
                           markEscalated (Some (STimeNow env)) command]>
                         (_escalatedCommandMap n)
                   end) n in
            (_sendToPeer leadPeer escalate n1, Returned tt)
      end
  end.

(** Modelled from the spec: [getPeerByID] (STCPNode) is missing; it is the
    peer that carries the id. *)
Definition getPeerByID (id : Z) (n : SQLiteNode) : option nat :=
  fst <$> list_find (fun p => Peer.id p = id) (peerList n).

Definition sendResponse (command : SQLiteCommand) (n : SQLiteNode)
  : SQLiteNode * Outcome unit :=
  match getPeerByID (initiatingPeerID command) n with
  | None => (n, Aborted "peer")
  | Some peer =>
      let escalate :=
        setContent (Serialized [response command])
          (set "ID" (commandId command) (newSData "ESCALATE_RESPONSE")) in
      (_sendToPeer peer escalate n, Returned tt)
  end.

Definition broadcast (message : SData) (peer : option nat) (n : SQLiteNode)
  : SQLiteNode :=
  match peer with
  | Some i => _sendToPeer i message n
  | None => _sendToAllPeers message false n
  end.

(** [peer->sendMessage(message)]: the message as it is, on the socket. *)
Definition sendMessage (i : nat) (message : SData) (n : SQLiteNode)
  : SQLiteNode :=
  updatePeer i (deliver message) n.

(** [peekPeerCommand]: a SYNCHRONIZE that the server hands to a worker; the
    boolean tells whether the command was a peer command. *)
Definition peekPeerCommand (db : SQLite) (command : SQLiteCommand)
  (n : SQLiteNode) : SQLiteNode * bool :=
  if SIEquals (methodLine (request command)) "SYNCHRONIZE" then
    match getPeerByID (u64 (SToUInt64 (get (request command) "peerID"))) n
    with
    | None => (n, true)
    | Some peer =>
        match
          _queueSynchronizeStateless (nameValueMap (request command))
            (u64 (SToUInt64 (get (request command) "targetCommit"))) db
            (setMethodLine "SYNCHRONIZE_RESPONSE" (response command)) false
        with
        | Returned response =>
            (sendMessage peer
               (set "Hash" (getCommittedHash db)
                  (set "CommitCount" (to_string (getCommitCount db))
                       response)) n,
             true)
        | Thrown what | Aborted what =>
            (sendMessage peer
               (set "Reason" what
                  (setMethodLine "RECONNECT"
                     (setMethodLine "SYNCHRONIZE_RESPONSE"
                                    (response command)))) n,
             true)
        end
    end
  else (n, false).

(** ** The constructor *)

Definition newNode (env : Env) (name : string) (db : SQLite)
  (peers : list Peer) (priority : Z) (firstTimeout : Z) (version : string)
  : SQLiteNode :=
  mkSQLiteNode name db UNINITIALIZED ASYNC SEARCHING 0 (-1) priority None None
    (u64 (STimeNow env + firstTimeout)) version "" peers ∅
    (mkSStopwatch 0 0) (mkSStopwatch 0 0) 0 false 0 false 0 [] ∅ ∅ [].

(** ** The lifetime of a node

    A node lives through the calls of its handlers.  The sync thread runs
    [update] and the callbacks of the transport; the command server calls
    [startCommit], [beginShutdown], [escalateCommand] and the like; each
    replication thread runs its handler on a database handle of its own, which
    shares the journal with [_db].  Between these calls the transport
    (connections, latencies, the draining of the send buffers) and the other
    handles on the engine act on their own.  A handler that aborts ends the
    lifetime; one that throws leaves the node as it is at the throw. *)

(** The handle of a replication thread: its own transaction, on the journal
    of the node's database. *)
Definition handleOn (transaction : SQLite) (db : SQLite) : SQLite :=
  mkSQLite (journal db) (insideTransaction transaction)
           (getUncommittedQuery transaction) (getUncommittedHash transaction)
           (committedTransactions db).

(** What a handle leaves in the node's database: journal and committed
    transactions. *)
Definition publish (handle : SQLite) (n : SQLiteNode) : SQLiteNode :=
  with_db (handleOn (_db n) handle) n.

Definition isVote (message : SData) : bool :=
  String.eqb (methodLine message) "APPROVE_TRANSACTION"
  || String.eqb (methodLine message) "DENY_TRANSACTION".

(** What the transport may do to a peer: its configuration stays, and no
    message appears in its send buffer. *)
Definition transported (peer peer' : Peer) : Prop :=
  Peer.name peer' = Peer.name peer
  ∧ Peer.id peer' = Peer.id peer
  ∧ Peer.params peer' = Peer.params peer
  ∧ ∀ sock', Peer.s peer' = Some sock' →
      ∀ m, m ∈ sendBuffer sock' →
        ∃ sock, Peer.s peer = Some sock ∧ m ∈ sendBuffer sock.

Definition notAborted {A : Type} (o : Outcome A) : Prop :=
  match o with
  | Aborted _ => False
  | _ => True
  end.

Inductive step : SQLiteNode -> SQLiteNode -> Prop :=
| step_update env n n' o :
    update env n = (n', o) -> notAborted o -> step n n'
| step_onMESSAGE env i message n n' o :
    _onMESSAGE env i message n = (n', o) -> notAborted o -> step n n'
| step_onConnect i n : step n (_onConnect i n)
| step_onDisconnect env i n : step n (_onDisconnect env i n)
| step_startCommit consistency n n' o :
    startCommit consistency n = (n', o) -> notAborted o -> step n n'
| step_beginShutdown env usToWait n : step n (beginShutdown env usToWait n)
| step_shutdownComplete env n : step n (fst (shutdownComplete env n))
| step_escalateCommand env command forget n n' o :
    escalateCommand env command forget n = (n', o) -> notAborted o ->
    step n n'
| step_sendResponse command n n' o :
    sendResponse command n = (n', o) -> notAborted o -> step n n'
| step_broadcast message peer n :
    isVote message = false -> step n (broadcast message peer n)
| step_peekPeerCommand transaction command n :
    step n (fst (peekPeerCommand (handleOn transaction (_db n)) command n))
| step_handleBeginTransaction env transaction message n n' handle o :
    handleBeginTransaction env (handleOn transaction (_db n)) message n
    = (n', handle, o) ->
    notAborted o -> step n (publish handle n')
| step_handleCommitTransaction env transaction count hash n n' handle o :
    handleCommitTransaction env (handleOn transaction (_db n)) count hash n
    = (n', handle, o) ->
    notAborted o -> step n (publish handle n')
| step_handleRollbackTransaction transaction message n n' handle o :
    handleRollbackTransaction (handleOn transaction (_db n)) message n
    = (n', handle, o) ->
    notAborted o -> step n (publish handle n')
| step_transport peers n :
    Forall2 transported (peerList n) peers -> step n (with_peerList peers n)
| step_engine db unsent n :
    journal (_db n) `prefix_of` journal db ->
    step n (with_unsentTransactions unsent (with_db db n)).

(** [lifetime n n']: the node [n] becomes [n']. *)
Definition lifetime : SQLiteNode -> SQLiteNode -> Prop := rtc step.

End Model.

(** ** A reading of the missing helpers, to run the model on examples

    Decimal numerals, ASCII letters folded to lower case, and a hash that
    chains the query to the previous hash. *)

Module Reference.

Definition readZ (s : string) : Z :=
  match NilZero.int_of_string s with
  | Some i => Z.of_int i
  | None => 0
  end.

Definition writeZ (z : Z) : string := NilZero.string_of_int (Z.to_int z).

Definition lowerAscii (c : Ascii.ascii) : Ascii.ascii :=
  let k := Ascii.nat_of_ascii c in
  if (Nat.leb 65 k && Nat.leb k 90)%bool
  then Ascii.ascii_of_nat (k + 32) else c.

Fixpoint lower (s : string) : string :=
  match s with
  | EmptyString => EmptyString
  | String c rest => String (lowerAscii c) (lower rest)
  end.

Definition readState (s : string) : State :=
  if String.eqb s "SEARCHING" then SEARCHING
  else if String.eqb s "SYNCHRONIZING" then SYNCHRONIZING
  else if String.eqb s "WAITING" then WAITING
  else if String.eqb s "STANDINGUP" then STANDINGUP
  else if String.eqb s "LEADING" then LEADING
  else if String.eqb s "STANDINGDOWN" then STANDINGDOWN
  else if String.eqb s "SUBSCRIBING" then SUBSCRIBING
  else if String.eqb s "FOLLOWING" then FOLLOWING
  else UNKNOWN.

Definition lib : Libstuff :=
  {| SToInt := readZ;
     SToInt64 := readZ;
     SToUInt64 := readZ;
     to_string := writeZ;
     SIEquals := fun a b => String.eqb (lower a) (lower b);
     SStartsWith := fun haystack needle => String.prefix needle haystack;
     SToLower := lower;
     STest := fun v => String.eqb (lower v) "true";
     stateFromName := readState;
     hashOf := fun previous query => (previous ++ "/" ++ query)%string |}.

End Reference.

(** ** The notions the properties are stated with *)

Section Notions.
Context `{Libstuff}.

(** [p] does not beat [best] in the order of [_updateSyncPeer]: a latency that
    is not zero is not beaten by a higher one nor by zero, and at equal
    latency the higher commit count wins. *)
Definition notBeaten (best p : Peer) : Prop :=
  (Peer.latency p ≠ 0 ->
   Peer.latency best ≠ 0 ∧ Peer.latency best <= Peer.latency p)
  ∧ (Peer.latency p = Peer.latency best ->
     calc64 (Peer.attrs p) "CommitCount"
     <= calc64 (Peer.attrs best) "CommitCount").

(** [chosen] is a best usable peer of [peers], or none when no peer is
    usable. *)
Definition chosenFrom (commitCount : Z) (peers : list Peer)
  (chosen : option (nat * Peer)) : Prop :=
  match chosen with
  | None => ∀ p, p ∈ peers -> usableSyncPeer commitCount p = false
  | Some (i, best) =>
      peers !! i = Some best
      ∧ usableSyncPeer commitCount best = true
      ∧ ∀ p, p ∈ peers -> usableSyncPeer commitCount p = true ->
             notBeaten best p
  end.

(** A peer whose commit count reads the same signed and unsigned. *)
Definition plainCommitCount (p : Peer) : Prop :=
  calc64 (Peer.attrs p) "CommitCount" = calcU64 (Peer.attrs p) "CommitCount".

(** The count of the peers that satisfy [f]. *)
Definition countOf (f : Peer -> bool) (peers : list Peer) : Z :=
  Z.of_nat (length (List.filter f peers)).

(** A full peer: not a permafollower. *)
Definition fullPeer (p : Peer) : bool := negb (permaFollower p).

(** A full peer that is subscribed: a full follower. *)
Definition fullFollower (p : Peer) : bool :=
  fullPeer p && String.eqb (attr p "Subscribed") "true".

(** A full follower whose answer to the transaction is recorded. *)
Definition responded (p : Peer) : bool :=
  fullFollower p && negb (String.eqb (attr p "TransactionResponse") "").

(** A full follower that approved, and one that denied. *)
Definition approved (p : Peer) : bool :=
  responded p && SIEquals (attr p "TransactionResponse") "approve".

Definition denied (p : Peer) : bool :=
  responded p && negb (SIEquals (attr p "TransactionResponse") "approve").

(** The peers after a message went to those that are subscribed. *)
Definition broadcastTo (m : SData) (peers : list Peer) : list Peer :=
  map (fun peer => if receives true peer then deliver m peer else peer) peers.

(** The requester's commit count, as the responder of a SYNCHRONIZE reads
    it. *)
Definition requesterCommitCount (params : gmap string string) : Z :=
  match params !! "CommitCount" with
  | Some v => u64 (SToUInt64 v)
  | None => 0
  end.

(** The journal of [n'] continues that of [n]. *)
Definition grows (n n' : SQLiteNode) : Prop :=
  journal (_db n) `prefix_of` journal (_db n').

(** [peer'] is [peer] after some messages, all of them in [P], were put on
    its socket: its configuration and its connection are the same. *)
Definition appended (P : SData -> Prop) (peer peer' : Peer) : Prop :=
  Peer.params peer' = Peer.params peer
  ∧ match Peer.s peer with
    | None => Peer.s peer' = None
    | Some sock =>
        ∃ sock' extra,
          Peer.s peer' = Some sock'
          ∧ sendBuffer sock' = sendBuffer sock ++ extra
          ∧ Forall P extra
    end.

(** [peers'] are [peers] after messages of [P] were sent. *)
Definition sent (P : SData -> Prop) (peers peers' : list Peer) : Prop :=
  Forall2 (appended P) peers peers'.

Definition notVote (m : SData) : Prop := isVote m = false.

(** No vote waits in a send buffer. *)
Definition noVoteBuffered (peers : list Peer) : Prop :=
  ∀ p sock m, p ∈ peers -> Peer.s p = Some sock -> m ∈ sendBuffer sock ->
              notVote m.

(** The states of a node that does not lead. *)
Definition notLeading (st : State) : Prop :=
  st = SEARCHING ∨ st = SYNCHRONIZING ∨ st = WAITING ∨ st = SUBSCRIBING
  ∨ st = FOLLOWING.

(** What holds of a permafollower with peers, all its life: it is configured
    with priority 0 and uses it from its first WAITING on, it does not lead,
    and no vote of its own waits in a send buffer. *)
Definition permafollowerInvariant (n : SQLiteNode) : Prop :=
  _originalPriority n = 0
  ∧ peerList n ≠ []
  ∧ notLeading (_state n)
  ∧ (_priority n = 0
     ∨ (_priority n = -1
        ∧ (_state n = SEARCHING ∨ _state n = SYNCHRONIZING)))
  ∧ noVoteBuffered (peerList n).

(** A full peer that is logged in, as the SEARCHING case tests it. *)
Definition fullLoggedIn (p : Peer) : bool :=
  fullPeer p && test p "LoggedIn".

(** A full peer that is logged in, as the WAITING case tests it. *)
Definition eligible (p : Peer) : bool :=
  fullPeer p && SIEquals (attr p "LoggedIn") "true".

(** [best] is the first of the peers in [P] that maximizes [measure], at
    position [i]; there is none when no peer is in [P]. *)
Definition firstMax (P : Peer -> bool) (measure : Peer -> Z)
  (peers : list Peer) (found : option (nat * Peer)) : Prop :=
  match found with
  | None => ∀ p, p ∈ peers -> P p = false
  | Some (i, best) =>
      peers !! i = Some best
      ∧ P best = true
      ∧ ∀ p, p ∈ peers -> P p = true -> measure p <= measure best
  end.

(** [found] is the last of the peers in [P], at position [i]. *)
Definition lastOf (P : Peer -> bool) (peers : list Peer)
  (found : option (nat * Peer)) : Prop :=
  match found with
  | None => ∀ p, p ∈ peers -> P p = false
  | Some (i, last) =>
      peers !! i = Some last
      ∧ P last = true
      ∧ ∀ j p, (i < j)%nat -> peers !! j = Some p -> P p = false
  end.

(** The message [m] was put on the socket of peer [i], right after what was
    on it, if the peer is connected. *)
Definition sentTo (i : nat) (m : SData) (n n' : SQLiteNode) : Prop :=
  ∀ p sock,
    peerList n !! i = Some p -> Peer.s p = Some sock ->
    ∃ p' sock' rest,
      peerList n' !! i = Some p'
      ∧ Peer.s p' = Some sock'
      ∧ sendBuffer sock' = sendBuffer sock ++ m :: rest.

(** What the loop of the SEARCHING case has found, once over [peers]. *)
Definition searchingScanOf (peers : list Peer) (scan : SearchingScan)
  : Prop :=
  sNumFullPeers scan = countOf fullPeer peers
  ∧ sNumLoggedInFullPeers scan = countOf fullLoggedIn peers
  ∧ firstMax (fun p => test p "LoggedIn")
             (fun p => calcU64 (Peer.attrs p) "CommitCount")
             peers (sFreshestPeer scan).

(** What the loop of the WAITING case has found, once over [peers]. *)
Definition waitingScanOf (peers : list Peer) (scan : WaitingScan) : Prop :=
  wNumFullPeers scan = countOf fullPeer peers
  ∧ wNumLoggedInFullPeers scan = countOf eligible peers
  ∧ firstMax eligible (fun p => calc (Peer.attrs p) "Priority")
             peers (wHighestPriorityPeer scan)
  ∧ firstMax eligible (fun p => calcU64 (Peer.attrs p) "CommitCount")
             peers (wFreshestPeer scan)
  ∧ lastOf (fun p => eligible p && leaderLike p) peers (wCurrentLeader scan).

(** A logged-in full peer that answered the stand-up with something else
    than approve, and one that has not answered yet. *)
Definition standupRefused (p : Peer) : bool :=
  eligible p && peerIsSet p "StandupResponse"
  && negb (SIEquals (attr p "StandupResponse") "approve").

Definition standupPending (p : Peer) : bool :=
  eligible p && negb (peerIsSet p "StandupResponse").

(** A full peer that [_majoritySubscribed] counts as subscribed. *)
Definition fullSubscribed (p : Peer) : bool :=
  fullPeer p && test p "Subscribed".

(** The two messages that announce to a follower a transaction the leader
    has already committed, [tx] = (id, (query, hash)). *)
Definition outstandingPair (db : SQLite) (tx : Z * (string * string))
  (pair : list SData) : Prop :=
  ∃ b c,
    pair = [b; c]
    ∧ methodLine b = "BEGIN_TRANSACTION"%string
    ∧ get b "Command" = "ASYNC"%string
    ∧ get b "NewCount" = to_string (fst tx)
    ∧ get b "NewHash" = snd (snd tx)
    ∧ get b "ID" = ("ASYNC_" ++ to_string (fst tx))%string
    ∧ content b = Text (fst (snd tx))
    ∧ get b "CommitCount" = to_string (getCommitCount db)
    ∧ get b "Hash" = getCommittedHash db
    ∧ methodLine c = "COMMIT_TRANSACTION"%string
    ∧ get c "ID" = get b "ID"
    ∧ get c "CommitCount" = to_string (fst tx)
    ∧ get c "Hash" = snd (snd tx).

(** The lead peer of a node: it has one, and one of its peers, exactly while
    it is SUBSCRIBING or FOLLOWING. *)
Definition leadPeerKept (n : SQLiteNode) : Prop :=
  match _leadPeer n with
  | Some i =>
      is_Some (peerList n !! i)
      ∧ (_state n = SUBSCRIBING ∨ _state n = FOLLOWING)
  | None => _state n ≠ SUBSCRIBING ∧ _state n ≠ FOLLOWING
  end.

End Notions.

(** ** Examples *)

Module Examples.

Definition table (l : list (string * string)) : gmap string string :=
  list_to_map l.

Definition env0 : Env :=
  mkEnv 1000 7 true (fun _ => mkEngineStep 0 true true true true).

(** A peer with an open socket. *)
Definition peer (name : string) (id : Z) (permafollower : bool)
  (attrs : list (string * string)) (st : State) (latency : Z) : Peer :=
  Peer.mk name id
    (table [("Permafollower"%string,
             if permafollower then "true"%string else "false"%string)])
    (table attrs) st latency (Some (mkSocket [] false)).

Definition loggedIn (commitCount priority : string)
  : list (string * string) :=
  [("LoggedIn", "true"); ("CommitCount", commitCount); ("Hash", "h");
   ("Priority", priority)]%string.

(** A database with [k] commits. *)
Definition database (k : nat) : SQLite :=
  mkSQLite (map (fun i => (("h" ++ Reference.writeZ (Z.of_nat i))%string,
                           ("q" ++ Reference.writeZ (Z.of_nat i))%string))
                (seq 1 k))
           false "" "" [].

Definition node (db : SQLite) (peers : list Peer) (priority : Z)
  : SQLiteNode :=
  newNode env0 "node" db peers priority 5000 "v1".

(** Five peers for the choice of the sync peer. *)
Definition syncPeers : list Peer :=
  [ peer "a" 1 false (loggedIn "9" "10") WAITING 0;
    peer "b" 2 false (loggedIn "5" "20") WAITING 7;
    peer "c" 3 false (loggedIn "4" "30") WAITING 3;
    peer "d" 4 false (loggedIn "8" "40") WAITING 3;
    peer "e" 5 false [("CommitCount", "100")]%string SEARCHING 1 ].

Definition syncNode : SQLiteNode := node (database 2) syncPeers 50.

(** A leader with two full followers and a permafollower, all subscribed and
    at commit 2; it has sent transaction 2 and is committing the next one,
    whose hash is "uh".  The first follower has answered [answer]. *)
Definition follower (name : string) (id : Z) (permafollower : bool)
  (answer : list (string * string)) : Peer :=
  peer name id permafollower
       (loggedIn "2" (if permafollower then "0" else "10")
        ++ [("Subscribed"%string, "true"%string)] ++ answer)%list
       FOLLOWING 0.

Definition leaderPeers (answer : list (string * string)) : list Peer :=
  [ follower "f1" 1 false answer;
    follower "f2" 2 false [];
    follower "p" 3 true [] ].

Definition committing (db : SQLite) : SQLite :=
  mkSQLite (journal db) true "q3" "uh" (committedTransactions db).

Definition leaderNode (answer : list (string * string)) : SQLiteNode :=
  with_lastSentTransactionID 2
    (with_commitState COMMITTING
    (with_commitConsistency QUORUM
    (with_priority 100
    (with_state LEADING
       (node (committing (database 2)) (leaderPeers answer) 100))))).

Definition approvedNode : SQLiteNode :=
  leaderNode [("TransactionResponse", "approve")]%string.

Definition deniedNode : SQLiteNode :=
  leaderNode [("TransactionResponse", "deny")]%string.

(** A vote on the transaction underway. *)
Definition vote (method : string) : SData :=
  mkSData method
    (table [("CommitCount", "2"); ("Hash", "h2"); ("ID", "3");
            ("NewCount", "3"); ("NewHash", "uh")]%string)
    (Text "").

(** A LOGIN, and a message that is not one. *)
Definition login : SData :=
  mkSData "LOGIN"
    (table [("CommitCount", "2"); ("Hash", "h2"); ("Priority", "10");
            ("State", "SEARCHING"); ("Version", "v1")]%string)
    (Text "").

Definition synchronize : SData :=
  mkSData "SYNCHRONIZE" (table [("CommitCount", "7"); ("Hash", "h7")]%string)
          (Text "").

(** A node on its own, with three commits and priority 100; and the same
    once a graceful shutdown has begun. *)
Definition alone : SQLiteNode := node (database 3) [] 100.

Definition shuttingDown : SQLiteNode := beginShutdown env0 60000000 alone.

(** A node in WAITING, of priority 10 and at commit 2, as are its peers. *)
Definition waitingNode (peers : list Peer) : SQLiteNode :=
  with_priority 10 (with_state WAITING (node (database 2) peers 10)).

Definition leaderA : Peer :=
  peer "a" 1 false (loggedIn "2" "100") LEADING 0.

Definition leaderB : Peer :=
  peer "b" 2 false (loggedIn "2" "50") STANDINGDOWN 0.

(** A permafollower, with one peer and with none. *)
Definition permafollowerNode : SQLiteNode :=
  node (database 0) [peer "a" 1 false (loggedIn "0" "100") WAITING 0] 0.

Definition permafollowerAlone : SQLiteNode := node (database 0) [] 0.

(** What a requester without commits says of itself. *)
Definition requester : gmap string string :=
  table [("CommitCount", "0")]%string.

(** A peer that is WAITING, logged in with priority 5 and two commits, and
    what else is known of it. *)
Definition waiter (more : list (string * string)) : Peer :=
  peer "a" 1 false (loggedIn "2" "5" ++ more)%list WAITING 0.

(** A node that stands up, of priority 10 and at commit 2. *)
Definition standingUpNode (peers : list Peer) : SQLiteNode :=
  with_state STANDINGUP (waitingNode peers).

(** A node that follows its only peer, or subscribes to it. *)
Definition followingNode (leader : Peer) : SQLiteNode :=
  with_leadPeer (Some 0%nat) (with_state FOLLOWING (waitingNode [leader])).

Definition subscribingNode (leader : Peer) : SQLiteNode :=
  with_leadPeer (Some 0%nat) (with_state SUBSCRIBING (waitingNode [leader])).

(** A node that synchronizes from its only peer. *)
Definition synchronizingNode (peers : list Peer) : SQLiteNode :=
  with_syncPeer (Some 0%nat)
    (with_state SYNCHRONIZING (node (database 2) peers 10)).

(** A leader of priority 100, at commit 2, between two transactions. *)
Definition idleLeader (peers : list Peer) : SQLiteNode :=
  with_priority 100 (with_state LEADING (node (database 2) peers 100)).

(** The same leader with transactions 3 and 4 committed and not sent yet,
    transaction 2 being the last one sent. *)
Definition behindLeader (peers : list Peer) : SQLiteNode :=
  with_unsentTransactions true
    (with_lastSentTransactionID 2
       (with_db (mkSQLite (journal (database 4)) false "" ""
                          [(2, ("q2", "h2")); (3, ("q3", "h3"));
                           (4, ("q4", "h4"))]%string)
                (idleLeader peers))).

(** A STATE message, a STANDUP_RESPONSE, and the BEGIN_TRANSACTION of
    transaction 3 after commit 2. *)
Definition stateMessage (st : string) : SData :=
  mkSData "STATE"
    (table [("CommitCount", "2"); ("Hash", "h2"); ("State", st);
            ("Priority", "10"); ("StateChangeCount", "1")]%string)
    (Text "").

Definition standupResponse (response : string) : SData :=
  mkSData "STANDUP_RESPONSE" (table [("Response"%string, response)])
          (Text "").

Definition announcement : SData :=
  mkSData "BEGIN_TRANSACTION"
    (table [("ID", "3"); ("NewCount", "3"); ("NewHash", "h2/q3")]%string)
    (Text "q3").


(** A SYNCHRONIZE_RESPONSE with commit 3. *)
Definition commit3 : SData :=
  mkSData "COMMIT"
    (table [("CommitIndex", "3"); ("Hash", "h2/q3")]%string) (Text "q3").

Definition synchronizeResponse : SData :=
  mkSData "SYNCHRONIZE_RESPONSE"
    (table [("CommitCount", "3"); ("Hash", "h2/q3");
            ("NumCommits", "1")]%string)
    (Serialized [commit3]).

(** A command of the server. *)
Definition query : SQLiteCommand :=
  mkSQLiteCommand "c1" (mkSData "Query" ∅ (Text "")) (newSData "") false
                  false 0 0.

(** Later than the timeouts of the nodes above. *)
Definition later : Env :=
  mkEnv 100000000 7 true (fun _ => mkEngineStep 0 true true true true).

End Examples.

(** * What the helpers leave alone *)

Section Frames.
Context `{Libstuff}.

Lemma State_eqb_eq a b : State_eqb a b = true <-> a = b.
Proof.
  unfold State_eqb. rewrite Z.eqb_eq.
  split; [|by intros ->]. destruct a, b; simpl; intros; congruence.
Qed.

Lemma State_eqb_refl a : State_eqb a a = true.
Proof. by apply State_eqb_eq. Qed.

Lemma State_eqb_neq a b : State_eqb a b = false <-> a ≠ b.
Proof.
  rewrite <- State_eqb_eq. destruct (State_eqb a b); split; congruence.
Qed.

(** A field that the sends of outstanding transactions do not write. *)
Lemma fold_sendOutstanding_field {A} (f : SQLiteNode -> A) t l :
  (∀ n i, f (sendOutstanding t n i) = f n) ->
  ∀ n, f (fold_left (sendOutstanding t) l n) = f n.
Proof.
  intros Hf. induction l as [|i l IH]; intros n; simpl; [done|].
  by rewrite IH, Hf.
Qed.

End Frames.

#[local] Arguments enterState : simpl never.
#[local] Arguments stopLeading : simpl never.
#[local] Arguments _sendOutstandingTransactions : simpl never.
#[local] Arguments _changeState : simpl never.
#[local] Arguments SWITHIN : simpl never.
#[local] Arguments State_eqb : simpl never.
#[local] Arguments stateIndex : simpl never.
#[local] Arguments u64 : simpl never.

Ltac outstanding_field :=
  repeat match goal with
  | |- context [?f (fold_left (sendOutstanding ?t) ?l ?n)] =>
      rewrite (fold_sendOutstanding_field f t l)
        by (intros; unfold sendOutstanding; case_match; reflexivity)
  end.

(** A field that [_sendOutstandingTransactions] does not write. *)
Ltac so_field :=
  intros; unfold _sendOutstandingTransactions; case_match; simpl;
  outstanding_field; reflexivity.

(** A field that [stopLeading] does not write, given that of
    [_sendOutstandingTransactions]. *)
Ltac sl_field Lo :=
  intros; unfold stopLeading; rewrite Lo; case_match; reflexivity.

Ltac es_field :=
  intros; unfold enterState; repeat case_match; reflexivity.

(** A field that [_changeState] does not write, given that of [enterState]
    and that of [stopLeading]. *)
Ltac cs_field Le Ls :=
  intros; unfold _changeState; case_match; [reflexivity|]; simpl;
  rewrite Le; repeat (case_match; simpl); rewrite ?Ls; simpl;
  repeat case_match; reflexivity.

Section ChangeState.
Context `{Libstuff}.

Lemma changeState_state env s n : _state (_changeState env s n) = s.
Proof.
  unfold _changeState. destruct (State_eqb s (_state n)) eqn:E.
  - by apply State_eqb_eq in E.
  - reflexivity.
Qed.

Lemma sendOutstandingTransactions_originalPriority env n :
  _originalPriority (_sendOutstandingTransactions env n)
  = _originalPriority n.
Proof. so_field. Qed.

Lemma stopLeading_originalPriority env n :
  _originalPriority (stopLeading env n) = _originalPriority n.
Proof. sl_field sendOutstandingTransactions_originalPriority. Qed.

Lemma enterState_originalPriority env s n :
  _originalPriority (enterState env s n) = _originalPriority n.
Proof. es_field. Qed.

Lemma changeState_originalPriority env s n :
  _originalPriority (_changeState env s n) = _originalPriority n.
Proof.
  cs_field enterState_originalPriority stopLeading_originalPriority.
Qed.

Lemma sendOutstandingTransactions_syncPeer env n :
  _syncPeer (_sendOutstandingTransactions env n) = _syncPeer n.
Proof. so_field. Qed.

Lemma stopLeading_syncPeer env n : _syncPeer (stopLeading env n) = _syncPeer n.
Proof. sl_field sendOutstandingTransactions_syncPeer. Qed.

Lemma enterState_syncPeer env s n :
  _syncPeer (enterState env s n) = _syncPeer n.
Proof. es_field. Qed.

Lemma changeState_syncPeer env s n :
  _syncPeer (_changeState env s n) = _syncPeer n.
Proof. cs_field enterState_syncPeer stopLeading_syncPeer. Qed.

Lemma sendOutstandingTransactions_commitState env n :
  _commitState (_sendOutstandingTransactions env n) = _commitState n.
Proof. so_field. Qed.

Lemma sendOutstandingTransactions_journal env n :
  journal (_db (_sendOutstandingTransactions env n)) = journal (_db n).
Proof.
  unfold _sendOutstandingTransactions; case_match; simpl; [done|].
  rewrite (fold_sendOutstanding_field (fun n => journal (_db n))); [done|].
  intros; unfold sendOutstanding; case_match; reflexivity.
Qed.

Lemma stopLeading_journal env n :
  journal (_db (stopLeading env n)) = journal (_db n).
Proof.
  unfold stopLeading. rewrite sendOutstandingTransactions_journal.
  case_match; reflexivity.
Qed.

Lemma enterState_journal env s n :
  journal (_db (enterState env s n)) = journal (_db n).
Proof. es_field. Qed.

Lemma changeState_journal env s n :
  journal (_db (_changeState env s n)) = journal (_db n).
Proof. cs_field enterState_journal stopLeading_journal. Qed.

Lemma changeState_commitCount env s n :
  getCommitCount (_db (_changeState env s n)) = getCommitCount (_db n).
Proof. unfold getCommitCount. by rewrite changeState_journal. Qed.

Lemma stopLeading_commitState env n :
  commitInProgress n = false ->
  _commitState (stopLeading env n) = _commitState n.
Proof.
  intros Hc. unfold stopLeading.
  rewrite sendOutstandingTransactions_commitState.
  change (commitInProgress (with_leaderVersion "" n))
    with (commitInProgress n). by rewrite Hc.
Qed.

Lemma enterState_commitState env s n :
  _commitState (enterState env s n) = _commitState n.
Proof. es_field. Qed.

Lemma changeState_commitState env s n :
  commitInProgress n = false ->
  _commitState (_changeState env s n) = _commitState n.
Proof.
  intros Hc. unfold _changeState; case_match; [reflexivity|]; simpl.
  rewrite enterState_commitState.
  repeat (case_match; simpl); rewrite ?stopLeading_commitState; simpl;
    repeat case_match; try reflexivity; exact Hc.
Qed.

End ChangeState.

(** * Properties *)

(** ** The choice of the sync peer *)

Section SyncPeer.
Context `{Libstuff}.

Lemma notBeaten_refl p : notBeaten p p.
Proof. unfold notBeaten. lia. Qed.

(** The order is transitive where the loop needs it: what did not beat the
    old best does not beat the peer that replaces it. *)
Lemma replaces_notBeaten best peer p :
  replacesSyncPeer best peer = true -> notBeaten best p -> notBeaten peer p.
Proof.
  unfold replacesSyncPeer, notBeaten.
  intros Hr [H1 H2].
  destruct (Z.eqb_spec (Peer.latency best) (Peer.latency peer)) as [e|ne].
  - apply Z.ltb_lt in Hr. rewrite <- e. lia.
  - destruct (Z.eqb_spec (Peer.latency best) 0) as [e0|ne0].
    + lia.
    + apply andb_true_iff in Hr as [Hz Hlt].
      apply negb_true_iff, Z.eqb_neq in Hz. apply Z.ltb_lt in Hlt. lia.
Qed.

Lemma keeps_notBeaten best peer :
  replacesSyncPeer best peer = false -> notBeaten best peer.
Proof.
  unfold replacesSyncPeer, notBeaten. intros Hr.
  destruct (Z.eqb_spec (Peer.latency best) (Peer.latency peer)) as [e|ne].
  - apply Z.ltb_ge in Hr. lia.
  - destruct (Z.eqb_spec (Peer.latency best) 0) as [e0|ne0]; [done|].
    apply andb_false_iff in Hr as [Hz|Hlt].
    + apply negb_false_iff, Z.eqb_eq in Hz. lia.
    + apply Z.ltb_ge in Hlt. lia.
Qed.

Lemma chosenFrom_skip commitCount pre peer acc :
  usableSyncPeer commitCount peer = false ->
  chosenFrom commitCount pre acc ->
  chosenFrom commitCount (pre ++ [peer]) acc.
Proof.
  intros Hu Hacc. destruct acc as [[j best]|]; simpl in *.
  - destruct Hacc as (Hj & Hb & Hall).
    split; [|split]; [by apply lookup_app_l_Some | done |].
    intros p Hp Hpu. apply elem_of_app in Hp as [Hp|Hp]; [eauto|].
    apply list_elem_of_singleton in Hp as ->. congruence.
  - intros p Hp. apply elem_of_app in Hp as [Hp|Hp]; [eauto|].
    by apply list_elem_of_singleton in Hp as ->.
Qed.

Lemma chosenFrom_take commitCount pre peer acc :
  usableSyncPeer commitCount peer = true ->
  chosenFrom commitCount pre acc ->
  chosenFrom commitCount (pre ++ [peer])
    (match acc with
     | None => Some (length pre, peer)
     | Some (_, best) =>
         if replacesSyncPeer best peer then Some (length pre, peer) else acc
     end).
Proof.
  intros Hu Hacc.
  assert (Hlast : (pre ++ [peer]) !! length pre = Some peer).
  { rewrite lookup_app_r by lia. by rewrite Nat.sub_diag. }
  destruct acc as [[j best]|]; simpl in *.
  - destruct Hacc as (Hj & Hb & Hall).
    destruct (replacesSyncPeer best peer) eqn:Hr; simpl.
    + split; [|split]; [done | done |].
      intros p Hp Hpu. apply elem_of_app in Hp as [Hp|Hp].
      * eapply replaces_notBeaten; eauto.
      * apply list_elem_of_singleton in Hp as ->. apply notBeaten_refl.
    + split; [|split]; [by apply lookup_app_l_Some | done |].
      intros p Hp Hpu. apply elem_of_app in Hp as [Hp|Hp]; [eauto|].
      apply list_elem_of_singleton in Hp as ->. by apply keeps_notBeaten.
  - split; [|split]; [done | done |].
    intros p Hp Hpu. apply elem_of_app in Hp as [Hp|Hp].
    + rewrite Hacc in Hpu; done.
    + apply list_elem_of_singleton in Hp as ->. apply notBeaten_refl.
Qed.

(** The loop keeps a best usable peer of the peers it has visited. *)
Lemma chooseSyncPeer_chosen commitCount rest :
  ∀ pre acc,
    chosenFrom commitCount pre acc ->
    chosenFrom commitCount (pre ++ rest)
               (chooseSyncPeer commitCount rest (length pre) acc).
Proof.
  induction rest as [|peer rest IH]; intros pre acc Hacc; simpl.
  - by rewrite app_nil_r.
  - replace (pre ++ peer :: rest) with ((pre ++ [peer]) ++ rest)
      by (by rewrite <- app_assoc).
    replace (S (length pre)) with (length (pre ++ [peer]))
      by (rewrite length_app; simpl; lia).
    apply IH.
    destruct (usableSyncPeer commitCount peer) eqn:Hu; simpl.
    + by apply chosenFrom_take.
    + by apply chosenFrom_skip.
Qed.

Lemma usableSyncPeer_true commitCount p :
  usableSyncPeer commitCount p = true <->
  test p "LoggedIn" = true
  ∧ commitCount < calcU64 (Peer.attrs p) "CommitCount".
Proof.
  unfold usableSyncPeer. rewrite andb_true_iff, negb_true_iff, Z.leb_gt.
  done.
Qed.

(** C8. [_updateSyncPeer] considers exactly the logged-in peers whose commit
    count is above the local one.  When there is none, it leaves no sync
    peer.  Otherwise the sync peer is one of them, and no other of them beats
    it: if any has a latency that is not zero, the chosen one has the lowest
    such latency (a latency of zero loses against any other); among those of
    the chosen latency it has the highest commit count.  The tie is decided
    on the signed reading of CommitCount, which is the commit count itself
    for the peers whose two readings agree. *)
Theorem updateSyncPeer_chooses_best (n : SQLiteNode) :
  let commitCount := getCommitCount (_db n) in
  let usable := fun p =>
    test p "LoggedIn" = true
    ∧ commitCount < calcU64 (Peer.attrs p) "CommitCount" in
  match _syncPeer (_updateSyncPeer n) with
  | None => ∀ p, p ∈ peerList n -> ¬ usable p
  | Some i =>
      ∃ best,
        peerList n !! i = Some best
        ∧ usable best
        ∧ ∀ p, p ∈ peerList n -> usable p ->
            (Peer.latency p ≠ 0 ->
             Peer.latency best ≠ 0 ∧ Peer.latency best <= Peer.latency p)
            ∧ (Peer.latency p = Peer.latency best ->
               calc64 (Peer.attrs p) "CommitCount"
               <= calc64 (Peer.attrs best) "CommitCount")
            ∧ (Peer.latency p = Peer.latency best ->
               plainCommitCount p -> plainCommitCount best ->
               calcU64 (Peer.attrs p) "CommitCount"
               <= calcU64 (Peer.attrs best) "CommitCount")
  end.
Proof.
  intros commitCount usable.
  pose proof (chooseSyncPeer_chosen commitCount (peerList n) [] None) as Hc.
  simpl in Hc. specialize (Hc ltac:(intros p Hp; by apply elem_of_nil in Hp)).
  unfold _updateSyncPeer. simpl. fold commitCount.
  destruct (chooseSyncPeer commitCount (peerList n) 0 None) as [[i best]|];
    simpl in *.
  - destruct Hc as (Hi & Hb & Hall).
    exists best. split; [done|]. split; [by apply usableSyncPeer_true|].
    intros p Hp Hu. apply usableSyncPeer_true in Hu.
    destruct (Hall p Hp Hu) as [H1 H2].
    split; [done|]. split; [done|].
    unfold plainCommitCount. intros Hl Hp1 Hp2. rewrite <- Hp1, <- Hp2. auto.
  - intros p Hp Hu. apply usableSyncPeer_true in Hu.
    rewrite (Hc p Hp) in Hu. done.
Qed.

End SyncPeer.

(** ** The leader's decision on a transaction *)

Section Consistency.
Context `{Libstuff}.

Lemma countOf_cons f p l :
  countOf f (p :: l) = Z.b2z (f p) + countOf f l.
Proof.
  unfold countOf. simpl. destruct (f p); simpl; lia.
Qed.

(** The counters of the loop are the counts of the peers of each kind. *)
Lemma commitLoop_counts l :
  ∀ acc,
    fold_left commitLoopBody l acc
    = mkCommitScan (numFullPeers acc + countOf fullPeer l)
                   (numFullFollowers acc + countOf fullFollower l)
                   (numFullResponded acc + countOf responded l)
                   (numFullApproved acc + countOf approved l)
                   (numFullDenied acc + countOf denied l).
Proof.
  induction l as [|p l IH]; intros acc.
  - unfold countOf. simpl. destruct acc; simpl. f_equal; lia.
  - simpl. rewrite IH. rewrite !countOf_cons.
    unfold commitLoopBody, approved, denied, responded, fullFollower,
      fullPeer.
    destruct (permaFollower p); simpl; [f_equal; lia|].
    destruct (String.eqb (attr p "Subscribed") "true"); simpl;
      [|f_equal; lia].
    destruct (String.eqb (attr p "TransactionResponse") ""); simpl;
      [f_equal; lia|].
    destruct (SIEquals (attr p "TransactionResponse") "approve"); simpl;
      f_equal; lia.
Qed.

Lemma commitScan_counts n :
  commitScan n
  = mkCommitScan (countOf fullPeer (peerList n))
                 (countOf fullFollower (peerList n))
                 (countOf responded (peerList n))
                 (countOf approved (peerList n))
                 (countOf denied (peerList n)).
Proof. unfold commitScan. rewrite commitLoop_counts. simpl. done. Qed.

(** C2. In the COMMITTING commit state the leader counts the full peers and,
    among those that are subscribed, the recorded approvals; from these
    counts: ASYNC is always consistent enough; ONE is consistent enough if
    and only if there is no full peer or at least one approval; QUORUM is
    consistent enough if and only if twice the approvals reach the number of
    full peers. *)
Theorem consistentEnough_by_level (n : SQLiteNode) :
  let scan := commitScan n in
  let full := countOf fullPeer (peerList n) in
  let approvals := countOf approved (peerList n) in
  numFullPeers scan = full
  ∧ numFullApproved scan = approvals
  ∧ consistentEnough ASYNC scan = true
  ∧ (consistentEnough ONE scan = true <-> full = 0 ∨ 1 <= approvals)
  ∧ (consistentEnough QUORUM scan = true <-> full <= 2 * approvals).
Proof.
  intros scan full approvals. subst scan. rewrite commitScan_counts.
  fold full approvals. unfold consistentEnough. simpl.
  split; [done|]. split; [done|]. split; [done|]. split.
  - rewrite orb_true_iff, Z.eqb_eq, Z.ltb_lt. lia.
  - rewrite Z.leb_le. lia.
Qed.

End Consistency.

Section Resolution.
Context `{Libstuff}.

Lemma sendOutstandingTransactions_drained env n :
  committedTransactions (_db n) = [] ->
  _lastSentTransactionID (_sendOutstandingTransactions env n)
  = _lastSentTransactionID n
  ∧ committedTransactions (_db (_sendOutstandingTransactions env n)) = [].
Proof.
  intros Hd. unfold _sendOutstandingTransactions.
  case_match; [done|]. rewrite Hd. simpl. done.
Qed.

Lemma stopLeading_drained env n :
  committedTransactions (_db n) = [] ->
  _lastSentTransactionID (stopLeading env n) = _lastSentTransactionID n
  ∧ committedTransactions (_db (stopLeading env n)) = [].
Proof.
  intros Hd. unfold stopLeading.
  match goal with
  | |- context [_sendOutstandingTransactions env ?m] =>
      destruct (sendOutstandingTransactions_drained env m) as [-> ->]
  end; case_match; simpl; done.
Qed.

(** Leaving the lead with nothing left to send keeps the last sent
    transaction. *)
Lemma changeState_drained env s n :
  s ≠ LEADING ->
  committedTransactions (_db n) = [] ->
  _lastSentTransactionID (_changeState env s n) = _lastSentTransactionID n
  ∧ committedTransactions (_db (_changeState env s n)) = [].
Proof.
  intros Hs Hd. unfold _changeState. case_match; [done|]. simpl.
  match goal with
  | |- context [enterState env s ?m] => set (x := m)
  end.
  assert (Hm : _lastSentTransactionID x = _lastSentTransactionID n
               ∧ committedTransactions (_db x) = []).
  { subst x. repeat (case_match; simpl); try done;
      match goal with
      | |- context [stopLeading env ?m] =>
          destruct (stopLeading_drained env m) as [-> ->]
      end; simpl; repeat case_match; done. }
  clearbody x. destruct Hm as [Hm1 Hm2].
  unfold enterState. destruct s; try done; simpl; try case_match; done.
Qed.

Lemma checkStandDown_commitState env n :
  commitInProgress n = false ->
  _commitState (checkStandDown env n) = _commitState n.
Proof.
  intros Hc. unfold checkStandDown.
  repeat case_match; rewrite ?changeState_commitState; done.
Qed.

Lemma standDown_commitState env n :
  commitInProgress n = false ->
  _commitState (fst (standDown env n)) = _commitState n.
Proof.
  intros Hc. unfold standDown, finishStandDown.
  assert (Hk : ∀ m, _commitState m = _commitState n ->
                    commitInProgress m = false).
  { intros m Hm. unfold commitInProgress in *. by rewrite Hm. }
  repeat case_match; simpl;
    rewrite ?changeState_commitState, ?checkStandDown_commitState; auto.
  apply Hk. by apply checkStandDown_commitState.
Qed.

Lemma checkStandDown_drained env n :
  committedTransactions (_db n) = [] ->
  _lastSentTransactionID (checkStandDown env n) = _lastSentTransactionID n
  ∧ committedTransactions (_db (checkStandDown env n)) = []
  ∧ getCommitCount (_db (checkStandDown env n)) = getCommitCount (_db n).
Proof.
  intros Hd. unfold checkStandDown.
  repeat case_match; rewrite ?changeState_commitCount; simpl;
    try done.
  - destruct (changeState_drained env STANDINGDOWN (with_priority 1 n));
      done.
  - destruct (changeState_drained env STANDINGDOWN n); done.
Qed.

Lemma standDown_drained env n :
  committedTransactions (_db n) = [] ->
  _lastSentTransactionID (fst (standDown env n)) = _lastSentTransactionID n
  ∧ getCommitCount (_db (fst (standDown env n))) = getCommitCount (_db n).
Proof.
  intros Hd. unfold standDown, finishStandDown.
  repeat case_match; simpl; rewrite ?changeState_commitCount;
    try (destruct (checkStandDown_drained env n Hd) as (? & ? & ?));
    try done.
  - destruct (changeState_drained env SEARCHING (checkStandDown env n))
      as [-> _]; [done | done |]. split; congruence.
  - destruct (changeState_drained env SEARCHING n) as [-> _]; done.
Qed.

(** The tests of the block, read on the peers. *)
Lemma commitScan_tests (n : SQLiteNode) :
  let peers := peerList n in
  let scan := commitScan n in
  numFullDenied scan = countOf denied peers
  ∧ (everybodyResponded scan = true
     <-> countOf fullFollower peers <= countOf responded peers)
  ∧ (consistentEnough (_commitConsistency n) scan = true
     <-> match _commitConsistency n with
         | ASYNC => True
         | ONE => countOf fullPeer peers = 0 ∨ 1 <= countOf approved peers
         | QUORUM => countOf fullPeer peers <= 2 * countOf approved peers
         end).
Proof.
  intros peers scan. subst scan. rewrite commitScan_counts. fold peers.
  unfold everybodyResponded, consistentEnough. simpl.
  split; [done|]. split; [by rewrite Z.leb_le|].
  destruct (_commitConsistency n).
  - done.
  - rewrite orb_true_iff, Z.eqb_eq, Z.ltb_lt. lia.
  - rewrite Z.leb_le. lia.
Qed.

(** C3. A tick of a leader (LEADING or STANDINGDOWN) whose commit state is
    COMMITTING, read on the answers recorded for its peers: the full
    followers (full peers that are subscribed), those whose
    TransactionResponse is set, and among these those that approved and
    those that denied; the consistency is reached under ASYNC always, under
    ONE when there is no full peer or one approval, under QUORUM when twice
    the approvals reach the number of full peers.  If a full follower
    denied, or every full follower answered and the consistency is not
    reached, or the consistency is reached and the engine reports a
    conflict: ROLLBACK_TRANSACTION goes to the subscribed peers, the
    database is rolled back, and the commit state is FAILED, at the end of
    the block and of the tick.  If nobody denied, the consistency is reached
    and the engine commits: the transaction is in the journal,
    COMMIT_TRANSACTION goes to the subscribed peers, the last sent
    transaction is the new commit count and the commit state is SUCCESS, at
    the end of the block and of the tick.  Otherwise (nobody denied, the
    consistency is not reached and a full follower has not answered) the
    tick leaves the node as it is, to wait for more answers. *)
Theorem leader_resolves_commit (env : Env) (n : SQLiteNode) :
  _state n = LEADING ∨ _state n = STANDINGDOWN ->
  _commitState n = COMMITTING ->
  let peers := peerList n in
  let full := countOf fullPeer peers in
  let followers := countOf fullFollower peers in
  let answers := countOf responded peers in
  let approvals := countOf approved peers in
  let denials := countOf denied peers in
  let enough :=
    match _commitConsistency n with
    | ASYNC => True
    | ONE => full = 0 ∨ 1 <= approvals
    | QUORUM => full <= 2 * approvals
    end in
  (1 <= denials
   ∨ (followers <= answers ∧ ¬ enough)
   ∨ (enough ∧ commitOk (engine env 0%nat) = false) ->
   ∃ n1,
     update env n = standDown env n1
     ∧ peerList n1
       = broadcastTo (broadcastCopy (_db n) (rollbackMessage n)) (peerList n)
     ∧ methodLine (rollbackMessage n) = "ROLLBACK_TRANSACTION"%string
     ∧ _db n1 = rollback (_db n)
     ∧ _commitState n1 = FAILED
     ∧ _commitState (fst (update env n)) = FAILED)
  ∧ (denials = 0 ∧ enough ∧ commitOk (engine env 0%nat) = true ->
     ∃ n1,
       update env n = standDown env n1
       ∧ peerList n1
         = broadcastTo (broadcastCopy (commit (_db n)) (commitMessage n))
                       (peerList n)
       ∧ methodLine (commitMessage n) = "COMMIT_TRANSACTION"%string
       ∧ journal (_db n1)
         = journal (_db n)
           ++ [(getUncommittedHash (_db n), getUncommittedQuery (_db n))]
       ∧ _lastSentTransactionID n1 = getCommitCount (_db n) + 1
       ∧ _commitState n1 = SUCCESS
       ∧ _commitState (fst (update env n)) = SUCCESS
       ∧ _lastSentTransactionID (fst (update env n))
         = getCommitCount (_db (fst (update env n)))
       ∧ getCommitCount (_db (fst (update env n)))
         = getCommitCount (_db n) + 1)
  ∧ (denials = 0 ∧ ¬ enough ∧ answers < followers ->
     update env n = (n, Returned false)).
Proof.
  intros Hs Hc peers full followers answers approvals denials enough.
  destruct (commitScan_tests n) as (Hdenied & Hresponded & Henough).
  fold peers in Hdenied, Hresponded, Henough.
  fold full followers answers approvals denials in Hdenied, Hresponded,
    Henough.
  fold enough in Henough.
  set (scan := commitScan n) in *.
  assert (Hfalse : consistentEnough (_commitConsistency n) scan = false
                   <-> ¬ enough).
  { rewrite <- Henough. by destruct (consistentEnough _ scan). }
  assert (Hu : update env n = updateLEADING env n).
  { unfold update. destruct Hs as [-> | ->]; reflexivity. }
  assert (Hp : commitInProgress n = true)
    by (unfold commitInProgress; by rewrite Hc).
  assert (Hl : updateLEADING env n
               = match resolveCommit env n with
                 | Some n2 => afterCommitBlock env (with_g_commitLock false n2)
                 | None => (n, Returned false)
                 end).
  { unfold updateLEADING. rewrite Hp. simpl. by rewrite Hc. }
  split; [|split].
  - intros Hfail.
    assert (Hr : resolveCommit env n = Some (failCommit n)).
    { unfold resolveCommit. fold scan.
      destruct (negb (numFullDenied scan =? 0)
                || everybodyResponded scan
                   && negb (consistentEnough (_commitConsistency n) scan))
        eqn:E; [done|].
      apply orb_false_iff in E as [E1 E2].
      apply negb_false_iff, Z.eqb_eq in E1.
      destruct Hfail as [Hd | [[He Hn] | [He Hk]]]; [lia | |].
      - apply Hresponded in He. apply Hfalse in Hn.
        rewrite He, Hn in E2. done.
      - apply Henough in He. rewrite He, Hk. done. }
    exists (with_g_commitLock false (failCommit n)).
    assert (Hm : update env n
                 = standDown env (with_g_commitLock false (failCommit n))).
    { rewrite Hu, Hl, Hr. reflexivity. }
    split; [exact Hm|]. split; [reflexivity|]. split; [reflexivity|].
    split; [reflexivity|]. split; [reflexivity|].
    rewrite Hm. by rewrite standDown_commitState.
  - intros (Hd & He & Hk). apply Henough in He.
    rewrite <- Hdenied in Hd.
    set (n3 := with_db (drainCommittedTransactions
                          (_db (_sendToAllPeers (commitMessage n) true
                                  (with_db (commit (_db n)) n))))
                 (_sendToAllPeers (commitMessage n) true
                    (with_db (commit (_db n)) n))).
    set (n4 := with_commitState SUCCESS
                 (with_lastSentTransactionID (getCommitCount (_db n3)) n3)).
    assert (Hr : resolveCommit env n = Some n4).
    { unfold resolveCommit. fold scan.
      rewrite Hd, He, Hk. simpl. rewrite andb_false_r. reflexivity. }
    exists (with_g_commitLock false n4).
    assert (Hm : update env n = standDown env (with_g_commitLock false n4)).
    { rewrite Hu, Hl, Hr. reflexivity. }
    assert (Hcount : getCommitCount (_db n3) = getCommitCount (_db n) + 1).
    { unfold getCommitCount. simpl. rewrite length_app. simpl. lia. }
    split; [exact Hm|]. split; [reflexivity|]. split; [reflexivity|].
    split; [reflexivity|]. split; [exact Hcount|]. split; [reflexivity|].
    rewrite Hm.
    destruct (standDown_drained env (with_g_commitLock false n4)
                ltac:(reflexivity)) as [Hl1 Hl2].
    rewrite standDown_commitState by reflexivity.
    rewrite Hl1, Hl2. simpl. split; [done|]. split; [done|]. exact Hcount.
  - intros (Hd & He & Ha). apply Hfalse in He.
    rewrite <- Hdenied in Hd.
    assert (Hev : everybodyResponded scan = false).
    { apply not_true_is_false. intros Hev%Hresponded. lia. }
    assert (Hr : resolveCommit env n = None).
    { unfold resolveCommit. fold scan. rewrite Hd, He, Hev. reflexivity. }
    by rewrite Hu, Hl, Hr.
Qed.

End Resolution.

(** ** Inbound messages *)

Section Messages.
Context `{Libstuff}.

Lemma classify_LOGIN method :
  classify method = M_LOGIN <-> SIEquals method "LOGIN" = true.
Proof.
  unfold classify. destruct (SIEquals method "LOGIN"); [done|].
  split; [|done]. intros Hc. repeat case_match; discriminate.
Qed.

Lemma attr_setAttr_ne name name' value p :
  name ≠ name' -> attr (setAttr name value p) name' = attr p name'.
Proof.
  intros Hne. unfold attr, setAttr, valueOf. simpl.
  by rewrite lookup_insert_ne.
Qed.

Lemma attr_setAttr_eq name value p : attr (setAttr name value p) name = value.
Proof.
  unfold attr, setAttr, valueOf. simpl. by rewrite lookup_insert_eq.
Qed.

Lemma recordCommit_attrs message p :
  attr (recordCommit message p) "CommitCount" = get message "CommitCount"
  ∧ attr (recordCommit message p) "Hash" = get message "Hash"
  ∧ ∀ name, name ≠ "CommitCount"%string -> name ≠ "Hash"%string ->
      attr (recordCommit message p) name = attr p name.
Proof.
  unfold recordCommit. split; [|split].
  - rewrite attr_setAttr_ne by done. apply attr_setAttr_eq.
  - apply attr_setAttr_eq.
  - intros name H1 H2. by rewrite !attr_setAttr_ne.
Qed.

Lemma updatePeer_lookup i f n p :
  peerList n !! i = Some p ->
  peerList (updatePeer i f n) !! i = Some (f p).
Proof.
  intros Hp. unfold updatePeer. simpl.
  rewrite list_lookup_alter_eq. by rewrite Hp.
Qed.

(** C10. An inbound message that carries CommitCount and Hash.  If it is a
    LOGIN and the peer is already marked logged in, "already logged in" is
    thrown; if it is not a LOGIN and the peer is not logged in, "not logged
    in" is thrown.  In both cases the node is left as it was but for the
    peer, whose CommitCount and Hash are those of the message (its other
    attributes are as before). *)
Theorem onMESSAGE_checks_login (env : Env) (i : nat) (message : SData)
  (n : SQLiteNode) (peer : Peer) :
  peerList n !! i = Some peer ->
  isSet message "CommitCount" = true ->
  isSet message "Hash" = true ->
  let n1 := updatePeer i (recordCommit message) n in
  (SIEquals (methodLine message) "LOGIN" = true ->
   attr peer "LoggedIn" = "true"%string ->
   _onMESSAGE env i message n = (n1, Thrown "already logged in"))
  ∧ (SIEquals (methodLine message) "LOGIN" = false ->
     SIEquals (attr peer "LoggedIn") "true" = false ->
     _onMESSAGE env i message n = (n1, Thrown "not logged in"))
  ∧ ∃ peer1,
      peerList n1 !! i = Some peer1
      ∧ attr peer1 "CommitCount" = get message "CommitCount"
      ∧ attr peer1 "Hash" = get message "Hash"
      ∧ ∀ name, name ≠ "CommitCount"%string -> name ≠ "Hash"%string ->
          attr peer1 name = attr peer name.
Proof.
  intros Hp Hc Hh n1.
  destruct (recordCommit_attrs message peer) as (Ha & Hb & Hother).
  split; [|split].
  - intros Hlogin Hin. unfold _onMESSAGE. rewrite Hp, Hc, Hh. simpl.
    apply classify_LOGIN in Hlogin. rewrite Hlogin.
    unfold onLOGIN. rewrite Hother by done. by rewrite Hin.
  - intros Hlogin Hout. unfold _onMESSAGE. rewrite Hp, Hc, Hh. simpl.
    rewrite Hother by done. rewrite Hout. simpl.
    destruct (classify (methodLine message)) eqn:E; try reflexivity.
    apply classify_LOGIN in E. congruence.
  - exists (recordCommit message peer).
    split; [by apply updatePeer_lookup|done].
Qed.

Lemma permaFollower_recordCommit message p :
  permaFollower (recordCommit message p) = permaFollower p.
Proof. reflexivity. Qed.

(** C7 (amended). An APPROVE_TRANSACTION or DENY_TRANSACTION from a peer
    that is logged in, with its ID, NewCount and NewHash.  Out of LEADING and
    STANDINGDOWN it is refused: "not leading" is thrown.  In these states the
    handler returns without an error in every case, and the vote is recorded
    on the peer if and only if it is the vote of the transaction underway
    (NewHash is the uncommitted hash, ID is the last sent transaction plus
    one), its NewCount is the commit count plus one, and the peer is not a
    permafollower.  What is thrown for a vote of the transaction underway
    with another NewCount, or from a permafollower, is caught in the handler:
    such a vote is dropped like a stale one.  A vote that is not recorded
    leaves the node with nothing but the CommitCount and Hash that every
    message records on the peer. *)
Theorem vote_recorded_when_current (env : Env) (i : nat) (message : SData)
  (n : SQLiteNode) (peer : Peer) :
  peerList n !! i = Some peer ->
  isSet message "CommitCount" = true ->
  isSet message "Hash" = true ->
  classify (methodLine message) = M_VOTE ->
  SIEquals (attr peer "LoggedIn") "true" = true ->
  isSet message "ID" = true ->
  isSet message "NewCount" = true ->
  isSet message "NewHash" = true ->
  let n1 := updatePeer i (recordCommit message) n in
  let response :=
    if SIEquals (methodLine message) "APPROVE_TRANSACTION"
    then "approve"%string else "deny"%string in
  let current :=
    get message "NewHash" = getUncommittedHash (_db n)
    ∧ get message "ID" = to_string (u64 (_lastSentTransactionID n + 1)) in
  let valid :=
    calcU64 (nameValueMap message) "NewCount"
    = u64 (getCommitCount (_db n) + 1)
    ∧ permaFollower peer = false in
  (_state n ≠ LEADING -> _state n ≠ STANDINGDOWN ->
   _onMESSAGE env i message n = (n1, Thrown "not leading"))
  ∧ (_state n = LEADING ∨ _state n = STANDINGDOWN ->
     (current ∧ valid ->
      _onMESSAGE env i message n
      = (updatePeer i (setAttr "TransactionResponse" response) n1,
         Returned tt))
     ∧ (¬ (current ∧ valid) ->
        _onMESSAGE env i message n = (n1, Returned tt))).
Proof.
  intros Hp Hc Hh Hm Hin Hid Hnc Hnh n1 response current valid.
  destruct (recordCommit_attrs message peer) as (_ & _ & Hother).
  assert (Hon : _onMESSAGE env i message n
                = onVote i (recordCommit message peer) message n1).
  { unfold _onMESSAGE. rewrite Hp, Hc, Hh. simpl. rewrite Hm.
    rewrite Hother by done. rewrite Hin. simpl. unfold dispatch.
    by rewrite Hm. }
  rewrite Hon. unfold onVote. rewrite Hid, Hnc, Hnh. simpl.
  change (_state n1) with (_state n).
  split.
  - intros H1 H2. apply State_eqb_neq in H1, H2. by rewrite H1, H2.
  - intros Hs.
    assert (Hlead : negb (State_eqb (_state n) LEADING)
                    && negb (State_eqb (_state n) STANDINGDOWN) = false).
    { destruct Hs as [-> | ->]; reflexivity. }
    rewrite Hlead. fold response. unfold recordVote.
    change (_db n1) with (_db n).
    change (_lastSentTransactionID n1) with (_lastSentTransactionID n).
    rewrite permaFollower_recordCommit.
    destruct (String.eqb_spec (get message "NewHash")
                              (getUncommittedHash (_db n))) as [e1|ne1];
      simpl.
    2: { split; [intros [[? _] _]; done | done]. }
    destruct (String.eqb_spec
                (to_string (u64 (_lastSentTransactionID n + 1)))
                (get message "ID")) as [e2|ne2]; simpl.
    2: { split; [intros [[_ ?] _]; done | done]. }
    destruct (Z.eqb_spec (calcU64 (nameValueMap message) "NewCount")
                         (u64 (getCommitCount (_db n) + 1))) as [e3|ne3];
      simpl.
    2: { split; [intros [_ [? _]]; done | done]. }
    destruct (permaFollower peer) eqn:e4; simpl.
    + split; [intros [_ [_ ?]]; done | done].
    + split; [done|]. intros Hn. exfalso. apply Hn. done.
Qed.

End Messages.

(** ** Synchronization: the responder *)

Section Responder.
Context `{Libstuff}.

Lemma u64_small z : 0 <= z < 2 ^ 64 -> u64 z = z.
Proof. intros Hz. unfold u64. by apply Z.mod_small. Qed.

Lemma u64_range z : 0 <= u64 z < 2 ^ 64.
Proof. unfold u64. apply Z.mod_pos_bound. lia. Qed.

Lemma partsOf_appendPart part m : partsOf (appendPart part m) = partsOf m ++ [part].
Proof. unfold partsOf, appendPart. simpl. by destruct (content m). Qed.

Lemma partsOf_fold_appendPart parts :
  ∀ m, partsOf (fold_left (fun r part => appendPart part r) parts m)
       = partsOf m ++ parts.
Proof.
  induction parts as [|part parts IH]; intros m; simpl.
  - by rewrite app_nil_r.
  - rewrite IH, partsOf_appendPart. by rewrite <- app_assoc.
Qed.

Lemma getCommits_length db fromIndex toIndex :
  1 <= fromIndex -> fromIndex <= toIndex + 1 ->
  toIndex <= getCommitCount db ->
  Z.of_nat (length (getCommits db fromIndex toIndex))
  = toIndex - fromIndex + 1.
Proof.
  unfold getCommits, getCommitCount. intros H1 H2 H3.
  rewrite length_take, length_drop. lia.
Qed.

(** What the responder does with a SYNCHRONIZE.  A requester with more
    commits than the responder is refused with "you have more data than me".
    A requester with at least one commit, whose Hash is not the responder's
    hash at the requester's commit count, is refused with "hash mismatch".
    Otherwise, when commits are missing up to the target, the response
    carries them as COMMIT messages in order, with their index, hash and
    query: all of them when [sendAll] is set, and else those of the indexes
    from the requester's count plus one to that index plus 100, both
    included, which makes up to 101 commits. *)
Lemma queueSynchronize_response params targetCommit db response sendAll :
  let peerCommitCount := requesterCommitCount params in
  (getCommitCount db < peerCommitCount ->
   _queueSynchronizeStateless params targetCommit db response sendAll
   = Thrown "you have more data than me")
  ∧ (peerCommitCount <= getCommitCount db -> peerCommitCount ≠ 0 ->
     ∀ myHash query,
       getCommit db peerCommitCount = Some (myHash, query) ->
       myHash ≠ valueOf params "Hash" ->
       _queueSynchronizeStateless params targetCommit db response sendAll
       = Thrown "hash mismatch")
  ∧ (peerCommitCount <= getCommitCount db ->
     checkShared params peerCommitCount db = None ->
     peerCommitCount < targetCommit -> targetCommit <= getCommitCount db ->
     getCommitCount db < 2 ^ 64 - 101 ->
     partsOf response = [] ->
     ∃ sent,
       _queueSynchronizeStateless params targetCommit db response sendAll
       = Returned sent
       ∧ partsOf sent
         = imap (fun c row => commitPart (peerCommitCount + Z.of_nat c + 1) row)
             (getCommits db (peerCommitCount + 1)
                (if sendAll then targetCommit
                 else Z.min targetCommit (peerCommitCount + 101)))
       ∧ Z.of_nat (length (partsOf sent))
         = if sendAll then targetCommit - peerCommitCount
           else Z.min (targetCommit - peerCommitCount) 101).
Proof.
  intros peerCommitCount.
  assert (Hpos : 0 <= peerCommitCount).
  { unfold peerCommitCount, requesterCommitCount.
    destruct (params !! "CommitCount"); [apply u64_range | lia]. }
  split; [|split].
  - intros Hmore. unfold _queueSynchronizeStateless.
    fold (requesterCommitCount params). fold peerCommitCount.
    apply Z.ltb_lt in Hmore. by rewrite Hmore.
  - intros Hle Hnz myHash query Hget Hne.
    unfold _queueSynchronizeStateless.
    fold (requesterCommitCount params). fold peerCommitCount.
    apply Z.ltb_ge in Hle. rewrite Hle.
    unfold checkShared. apply Z.eqb_neq in Hnz. rewrite Hnz. simpl.
    rewrite Hget. apply String.eqb_neq in Hne. by rewrite Hne.
  - intros Hle Hshared Hlt Htarget Hbound Hempty.
    unfold _queueSynchronizeStateless.
    fold (requesterCommitCount params). fold peerCommitCount.
    apply Z.ltb_ge in Hle as Hle'. rewrite Hle', Hshared.
    assert (Hne : (peerCommitCount =? targetCommit) = false)
      by (apply Z.eqb_neq; lia).
    rewrite Hne.
    rewrite (u64_small (peerCommitCount + 1)) by lia.
    rewrite (u64_small (peerCommitCount + 1 + 100)) by lia.
    replace (peerCommitCount + 1 + 100) with (peerCommitCount + 101) by lia.
    set (toIndex := if negb sendAll
                    then Z.min targetCommit (peerCommitCount + 101)
                    else targetCommit).
    assert (Hto : toIndex = if sendAll then targetCommit
                            else Z.min targetCommit (peerCommitCount + 101))
      by (subst toIndex; by destruct sendAll).
    assert (Hrange : peerCommitCount + 1 <= toIndex + 1
                     ∧ toIndex <= getCommitCount db).
    { rewrite Hto. destruct sendAll; lia. }
    pose proof (getCommits_length db (peerCommitCount + 1) toIndex
                  ltac:(lia) ltac:(lia) ltac:(lia)) as Hlen.
    rewrite Hlen.
    rewrite (u64_small (toIndex - (peerCommitCount + 1) + 1)) by lia.
    rewrite Z.eqb_refl. simpl.
    eexists. split; [reflexivity|].
    rewrite partsOf_fold_appendPart.
    change (partsOf (set "NumCommits" _ response)) with (partsOf response).
    rewrite Hempty. simpl. rewrite <- Hto. split.
    + apply imap_ext. intros c row Hc. simpl.
      rewrite u64_small; [done|].
      apply lookup_lt_Some in Hc. lia.
    + rewrite length_imap, Hlen, Hto. destruct sendAll; lia.
Qed.

End Responder.

(** ** The journal over the lifetime of a node *)

#[local] Arguments _recvSynchronize : simpl never.
#[local] Arguments shutdownComplete : simpl never.
#[local] Arguments _updateSyncPeer : simpl never.
#[local] Arguments _queueSynchronize : simpl never.
#[local] Arguments _majoritySubscribed : simpl never.

Create Rewrite HintDb journal.

Section Journal.
Context `{Libstuff}.

#[local] Hint Rewrite @changeState_journal
  @sendOutstandingTransactions_journal @stopLeading_journal
  @enterState_journal : journal.

Ltac journal_eq :=
  intros; repeat (case_match; simpl);
  repeat (progress (autorewrite with journal; simpl));
  try reflexivity.

Lemma shutdownComplete_journal env n :
  journal (_db (fst (shutdownComplete env n))) = journal (_db n).
Proof. unfold shutdownComplete. journal_eq. Qed.

#[local] Hint Rewrite @shutdownComplete_journal : journal.

Lemma updateSEARCHING_journal env n :
  journal (_db (fst (updateSEARCHING env n))) = journal (_db n).
Proof.
  unfold updateSEARCHING.
  pose proof (shutdownComplete_journal env n) as Hs.
  destruct (shutdownComplete env n) as [n0 done]. simpl in Hs.
  destruct done; [done|]. journal_eq.
Qed.

Lemma updateSYNCHRONIZING_journal env n :
  journal (_db (fst (updateSYNCHRONIZING env n))) = journal (_db n).
Proof. unfold updateSYNCHRONIZING. journal_eq. Qed.

Lemma updateWAITING_journal env n :
  journal (_db (fst (updateWAITING env n))) = journal (_db n).
Proof. unfold updateWAITING. journal_eq. Qed.

Lemma updateSTANDINGUP_journal env n :
  journal (_db (fst (updateSTANDINGUP env n))) = journal (_db n).
Proof. unfold updateSTANDINGUP. journal_eq. Qed.

Lemma updateSUBSCRIBING_journal env n :
  journal (_db (fst (updateSUBSCRIBING env n))) = journal (_db n).
Proof. unfold updateSUBSCRIBING. journal_eq. Qed.

Lemma updateFOLLOWING_journal env n :
  journal (_db (fst (updateFOLLOWING env n))) = journal (_db n).
Proof. unfold updateFOLLOWING. journal_eq. Qed.

Lemma standDown_journal env n :
  journal (_db (fst (standDown env n))) = journal (_db n).
Proof. unfold standDown, finishStandDown, checkStandDown. journal_eq. Qed.

Lemma afterCommitBlock_journal env n :
  journal (_db (fst (afterCommitBlock env n))) = journal (_db n).
Proof.
  unfold afterCommitBlock, startDistributedTransaction.
  journal_eq; apply standDown_journal.
Qed.

(** The block of the COMMITTING commit state adds at most one commit. *)
Lemma resolveCommit_journal env n n' :
  resolveCommit env n = Some n' ->
  journal (_db n') = journal (_db n)
  ∨ journal (_db n')
    = journal (_db n)
      ++ [(getUncommittedHash (_db n), getUncommittedQuery (_db n))].
Proof.
  unfold resolveCommit, failCommit. intros Hr.
  repeat case_match; simplify_eq; simpl; auto.
Qed.

Lemma updateLEADING_grows env n : grows n (fst (updateLEADING env n)).
Proof.
  unfold grows, updateLEADING.
  repeat case_match; simpl;
    rewrite ?afterCommitBlock_journal; simpl;
    autorewrite with journal; try reflexivity.
  all: match goal with
       | Hr : resolveCommit _ _ = Some _ |- _ =>
           apply resolveCommit_journal in Hr as [-> | ->]
       end; autorewrite with journal; try reflexivity;
       by apply prefix_app_r.
Qed.

Lemma update_grows env n : grows n (fst (update env n)).
Proof.
  unfold update.
  destruct (_state n); try apply updateLEADING_grows; unfold grows;
    rewrite ?updateSEARCHING_journal, ?updateSYNCHRONIZING_journal,
      ?updateWAITING_journal, ?updateSTANDINGUP_journal,
      ?updateSUBSCRIBING_journal, ?updateFOLLOWING_journal; done.
Qed.

Lemma prefix_snoc {A} (l : list A) x : l `prefix_of` l ++ [x].
Proof. by apply prefix_app_r. Qed.

Lemma iter_rollback_journal k db :
  journal (Nat.iter k rollback db) = journal db.
Proof. induction k; simpl; done. Qed.

Lemma replay_journal e query db db1 :
  replay e query db = Some db1 ->
  journal db1 = journal db
  ∧ getUncommittedQuery db1 = query
  ∧ getUncommittedHash db1 = hashOf (getCommittedHash db) query.
Proof.
  unfold replay. intros Hr. repeat case_match; simplify_eq. simpl.
  rewrite iter_rollback_journal.
  unfold getCommittedHash. simpl. by rewrite iter_rollback_journal.
Qed.

Lemma tryCommit_journal e db :
  journal (tryCommit e db)
  = if commitOk e
    then journal db ++ [(getUncommittedHash db, getUncommittedQuery db)]
    else journal db.
Proof. unfold tryCommit. by destruct (commitOk e). Qed.

Lemma getCommitCount_snoc db x :
  Z.of_nat (length (journal db ++ [x])) = getCommitCount db + 1.
Proof. unfold getCommitCount. rewrite length_app. simpl. lia. Qed.

(** One embedded COMMIT leaves the journal as it is, or adds the commit. *)
Lemma recvCommit_journal e commit db :
  journal (fst (recvCommit e commit db)) = journal db
  ∨ (commitOk e = true
     ∧ journal (fst (recvCommit e commit db))
       = journal db
         ++ [(hashOf (getCommittedHash db) (textOf commit), textOf commit)]).
Proof.
  unfold recvCommit.
  repeat case_match; simpl; auto;
    match goal with
    | Hr : replay _ _ _ = Some _ |- _ =>
        apply replay_journal in Hr as (Hj & Hq & Hh)
    end;
    rewrite tryCommit_journal; destruct (commitOk e); auto;
    right; rewrite Hj, Hq, Hh; done.
Qed.

Lemma recvCommit_grows e commit db :
  journal db `prefix_of` journal (fst (recvCommit e commit db)).
Proof.
  destruct (recvCommit_journal e commit db) as [-> | [_ ->]];
    [done | apply prefix_snoc].
Qed.

Lemma recvCommits_grows env commits :
  ∀ k remaining db,
    journal db
    `prefix_of` journal (fst (recvCommits env k commits remaining db)).
Proof.
  induction commits as [|commit rest IH]; intros k remaining db; simpl.
  - done.
  - pose proof (recvCommit_grows (engine env k) commit db) as Hg.
    destruct (recvCommit (engine env k) commit db) as [db1 [u|what|what]];
      simpl in *; try done.
    etrans; [exact Hg | apply IH].
Qed.

Lemma recvSynchronize_grows env message n :
  grows n (fst (_recvSynchronize env message n)).
Proof.
  unfold grows, _recvSynchronize. case_match; [done|].
  pose proof (recvCommits_grows env (partsOf message) 0
                (calc (nameValueMap message) "NumCommits") (_db n)) as Hg.
  destruct (recvCommits env 0 (partsOf message) _ (_db n))
    as [db [remaining|what|what]]; simpl in *; repeat case_match; done.
Qed.

(** The other fields of the node are not written by [_recvSynchronize]. *)
Lemma recvSynchronize_db env message n :
  fst (_recvSynchronize env message n)
  = with_db (_db (fst (_recvSynchronize env message n))) n.
Proof.
  unfold _recvSynchronize. repeat case_match; simpl; try done.
  by destruct n.
Qed.

Lemma onLOGIN_journal i peer message n :
  journal (_db (fst (onLOGIN i peer message n))) = journal (_db n).
Proof. unfold onLOGIN. journal_eq. Qed.

Lemma onPeerStandingUp_journal env i peer message n :
  journal (_db (onPeerStandingUp env i peer message n)) = journal (_db n).
Proof. unfold onPeerStandingUp. journal_eq. Qed.

Lemma onSTATE_journal env i peer message n :
  journal (_db (fst (onSTATE env i peer message n))) = journal (_db n).
Proof.
  unfold onSTATE. journal_eq; rewrite onPeerStandingUp_journal; done.
Qed.

Lemma onSTANDUP_RESPONSE_journal i message n :
  journal (_db (fst (onSTANDUP_RESPONSE i message n))) = journal (_db n).
Proof. unfold onSTANDUP_RESPONSE. journal_eq. Qed.

Lemma onSYNCHRONIZE_journal i peer message n :
  journal (_db (fst (onSYNCHRONIZE i peer message n))) = journal (_db n).
Proof. unfold onSYNCHRONIZE. journal_eq. Qed.

Lemma afterSynchronize_journal env syncPeer n :
  journal (_db (afterSynchronize env syncPeer n)) = journal (_db n).
Proof. unfold afterSynchronize. journal_eq. Qed.

Lemma onSYNCHRONIZE_RESPONSE_grows env i message n :
  grows n (fst (onSYNCHRONIZE_RESPONSE env i message n)).
Proof.
  unfold grows, onSYNCHRONIZE_RESPONSE.
  pose proof (recvSynchronize_grows env message n) as Hg. unfold grows in Hg.
  repeat case_match; simpl in *; try done;
    rewrite ?afterSynchronize_journal; autorewrite with journal; simpl;
    done.
Qed.

Lemma onSUBSCRIBE_journal env i peer n :
  journal (_db (fst (onSUBSCRIBE env i peer n))) = journal (_db n).
Proof. unfold onSUBSCRIBE. journal_eq. Qed.

Lemma onSUBSCRIPTION_APPROVED_grows env i message n :
  grows n (fst (onSUBSCRIPTION_APPROVED env i message n)).
Proof.
  unfold grows, onSUBSCRIPTION_APPROVED.
  pose proof (recvSynchronize_grows env message n) as Hg. unfold grows in Hg.
  repeat case_match; simpl in *; try done;
    autorewrite with journal; simpl; done.
Qed.

Lemma recordVote_journal i peer message response n :
  journal (_db (fst (recordVote i peer message response n)))
  = journal (_db n).
Proof. unfold recordVote. journal_eq. Qed.

Lemma onVote_journal i peer message n :
  journal (_db (fst (onVote i peer message n))) = journal (_db n).
Proof.
  unfold onVote. repeat (case_match; simpl); try done;
    match goal with
    | Hr : recordVote ?i ?p ?m ?r ?n = _ |- _ =>
        pose proof (recordVote_journal i p m r n) as Hj; by rewrite Hr in Hj
    end.
Qed.

Lemma onESCALATE_journal i peer message n :
  journal (_db (fst (onESCALATE i peer message n))) = journal (_db n).
Proof. unfold onESCALATE. journal_eq. Qed.

Lemma onESCALATE_CANCEL_journal peer message n :
  journal (_db (fst (onESCALATE_CANCEL peer message n))) = journal (_db n).
Proof. unfold onESCALATE_CANCEL. journal_eq. Qed.

Lemma onESCALATE_RESPONSE_journal env message n :
  journal (_db (fst (onESCALATE_RESPONSE env message n))) = journal (_db n).
Proof. unfold onESCALATE_RESPONSE. journal_eq. Qed.

Lemma onESCALATE_ABORTED_journal message n :
  journal (_db (fst (onESCALATE_ABORTED message n))) = journal (_db n).
Proof. unfold onESCALATE_ABORTED. journal_eq. Qed.

Lemma dispatch_grows env i peer message n :
  grows n (fst (dispatch env i peer message n)).
Proof.
  unfold dispatch.
  destruct (classify (methodLine message));
    try apply onSYNCHRONIZE_RESPONSE_grows;
    try apply onSUBSCRIPTION_APPROVED_grows;
    unfold grows;
    rewrite ?onLOGIN_journal, ?onSTATE_journal, ?onSTANDUP_RESPONSE_journal,
      ?onSYNCHRONIZE_journal, ?onSUBSCRIBE_journal, ?onVote_journal,
      ?onESCALATE_journal, ?onESCALATE_CANCEL_journal,
      ?onESCALATE_RESPONSE_journal, ?onESCALATE_ABORTED_journal; done.
Qed.

Lemma onMESSAGE_grows env i message n :
  grows n (fst (_onMESSAGE env i message n)).
Proof.
  unfold _onMESSAGE.
  repeat case_match; try (unfold grows; simpl; done);
    try (unfold grows; by rewrite onLOGIN_journal);
    match goal with
    | |- grows _ (fst (dispatch ?e ?i ?p ?m ?n1)) =>
        apply (dispatch_grows e i p m n1)
    end.
Qed.

Lemma onDisconnect_journal env i n :
  journal (_db (_onDisconnect env i n)) = journal (_db n).
Proof. unfold _onDisconnect. journal_eq. Qed.

Lemma escalateCommand_journal env command forget n :
  journal (_db (fst (escalateCommand env command forget n)))
  = journal (_db n).
Proof. unfold escalateCommand. journal_eq. Qed.

Lemma peekPeerCommand_journal db command n :
  journal (_db (fst (peekPeerCommand db command n))) = journal (_db n).
Proof. unfold peekPeerCommand. journal_eq. Qed.

Lemma handleBeginTransaction_journal env db message n :
  let r := handleBeginTransaction env db message n in
  journal (_db (fst (fst r))) = journal (_db n)
  ∧ journal (snd (fst r)) = journal db.
Proof.
  unfold handleBeginTransaction, beginReplicated.
  repeat (case_match; simpl); simplify_eq; simpl; try done;
    match goal with
    | Hr : replay _ _ _ = Some _ |- _ =>
        apply replay_journal in Hr as (Hj & _ & _)
    end; done.
Qed.

Lemma handleCommitTransaction_journal env db count hash n :
  let r := handleCommitTransaction env db count hash n in
  journal (_db (fst (fst r))) = journal (_db n)
  ∧ journal db `prefix_of` journal (snd (fst r)).
Proof.
  unfold handleCommitTransaction.
  repeat (case_match; simpl); try done.
  rewrite tryCommit_journal. split; [done|].
  destruct (commitOk _); [apply prefix_snoc | done].
Qed.

(** Every step of the lifetime of a node continues its journal. *)
Lemma step_grows n n' : step n n' -> grows n n'.
Proof.
  intros Hs. destruct Hs as
    [env n n' o Hu _ | env i message n n' o Hu _ | i n | env i n
    | consistency n n' o Hu _ | env usToWait n | env n
    | env command forget n n' o Hu _ | command n n' o Hu _
    | message peer n _ | transaction command n
    | env transaction message n n' handle o Hu _
    | env transaction count hash n n' handle o Hu _
    | transaction message n n' handle o Hu _
    | peers n _ | db unsent n Hj ].
  - pose proof (update_grows env n) as Hg. by rewrite Hu in Hg.
  - pose proof (onMESSAGE_grows env i message n) as Hg. by rewrite Hu in Hg.
  - unfold grows, _onConnect. simpl. done.
  - unfold grows. by rewrite onDisconnect_journal.
  - unfold startCommit in Hu. unfold grows.
    repeat case_match; simplify_eq; done.
  - unfold grows, beginShutdown. case_match; done.
  - unfold grows. by rewrite shutdownComplete_journal.
  - pose proof (escalateCommand_journal env command forget n) as Hg.
    rewrite Hu in Hg. unfold grows. simpl in Hg. by rewrite Hg.
  - unfold sendResponse in Hu. unfold grows.
    repeat case_match; simplify_eq; done.
  - unfold grows, broadcast. case_match; done.
  - unfold grows. by rewrite peekPeerCommand_journal.
  - pose proof (handleBeginTransaction_journal env
                  (handleOn transaction (_db n)) message n) as Hg.
    rewrite Hu in Hg. simpl in Hg. destruct Hg as [_ Hg].
    unfold grows. simpl. by rewrite Hg.
  - pose proof (handleCommitTransaction_journal env
                  (handleOn transaction (_db n)) count hash n) as Hg.
    rewrite Hu in Hg. simpl in Hg. destruct Hg as [_ Hg].
    unfold grows. simpl. done.
  - unfold handleRollbackTransaction in Hu. unfold grows.
    repeat case_match; simplify_eq; done.
  - unfold grows. simpl. done.
  - unfold grows. simpl. done.
Qed.

Lemma lifetime_grows n n' : lifetime n n' -> grows n n'.
Proof.
  induction 1 as [|n1 n2 n3 Hs _ IH]; [unfold grows; done|].
  apply step_grows in Hs. unfold grows in *. by etrans.
Qed.

End Journal.

(** ** One commit at a time *)

Section Commits.
Context `{Libstuff}.

Lemma getCommitCount_prefix db db' :
  journal db `prefix_of` journal db' -> getCommitCount db <= getCommitCount db'.
Proof.
  intros Hp. unfold getCommitCount. apply prefix_length in Hp. lia.
Qed.

(** What one embedded COMMIT of a synchronization does. *)
Lemma recvCommit_applies e commit db :
  let db' := fst (recvCommit e commit db) in
  let o := snd (recvCommit e commit db) in
  (db' = db ∧ o ≠ Returned tt)
  ∨ (calcU64 (nameValueMap commit) "CommitIndex" = u64 (getCommitCount db + 1)
     ∧ journal db'
       = (if commitOk e
          then journal db
               ++ [(hashOf (getCommittedHash db) (textOf commit),
                    textOf commit)]
          else journal db)
     ∧ ((getCommittedHash db' = get commit "Hash" ∧ o = Returned tt)
        ∨ (getCommittedHash db' ≠ get commit "Hash"
           ∧ o = Thrown "potential hash mismatch"))).
Proof.
  unfold recvCommit, SERROR.
  repeat (case_match; simpl); auto.
  all: match goal with
       | Hr : replay _ _ _ = Some _ |- _ =>
           apply replay_journal in Hr as (Hj & Hq & Hh)
       end.
  all: match goal with
       | Hi : negb (_ =? _) = false |- _ =>
           apply negb_false_iff, Z.eqb_eq in Hi
       end.
  all: right; split; [done|]; split;
    [rewrite tryCommit_journal, Hj, Hq, Hh;
     match goal with Hk : commitOk _ = _ |- _ => by rewrite Hk end|].
  all: match goal with
       | Hn : negb (_ =? _)%string = true |- _ =>
           apply negb_true_iff, String.eqb_neq in Hn; by right
       | Hn : negb (_ =? _)%string = false |- _ =>
           apply negb_false_iff, String.eqb_eq in Hn; by left
       end.
Qed.

(** What [handleCommitTransaction] does to the handle it is given. *)
Lemma handleCommitTransaction_applies env db count hash n :
  let r := handleCommitTransaction env db count hash n in
  let db' := snd (fst r) in
  let o := snd r in
  (db' = db ∧ ∃ what, o = Thrown what)
  ∨ (_state n = FOLLOWING
     ∧ count = u64 (getCommitCount db + 1)
     ∧ hash = getUncommittedHash db
     ∧ o = Returned tt
     ∧ journal db'
       = (if commitOk (engine env 0%nat)
          then journal db
               ++ [(getUncommittedHash db, getUncommittedQuery db)]
          else journal db)).
Proof.
  unfold handleCommitTransaction.
  repeat (case_match; simpl); eauto.
  all: right.
  all: repeat match goal with
       | Hn : negb _ = false |- _ => apply negb_false_iff in Hn
       end.
  all: split; [by apply State_eqb_eq|]; split; [by apply Z.eqb_eq|];
    split; [by apply String.eqb_eq|]; split; [done|];
    rewrite tryCommit_journal;
    match goal with Hk : commitOk _ = _ |- _ => by rewrite Hk end.
Qed.

(** C1. Over the lifetime of a node the journal is only continued, so the
    commit count never decreases.  The two operations that apply a
    replicated COMMIT take one step at a time.  An embedded COMMIT of a
    synchronization, and the COMMIT_TRANSACTION that a FOLLOWING node
    handles, are applied only when the index they carry is the commit count
    plus one (in 64-bit arithmetic); otherwise an error is raised and the
    database is left as it was.  When they are applied, the commit count is
    one more, unless the engine refuses the commit, which leaves it as it
    was.  After an embedded COMMIT, a committed hash that is not the declared
    one raises "potential hash mismatch". *)
Theorem commit_count_one_at_a_time :
  (∀ n n', lifetime n n' ->
     journal (_db n) `prefix_of` journal (_db n')
     ∧ getCommitCount (_db n) <= getCommitCount (_db n'))
  ∧ (∀ e commit db,
       let db' := fst (recvCommit e commit db) in
       let o := snd (recvCommit e commit db) in
       (calcU64 (nameValueMap commit) "CommitIndex"
        ≠ u64 (getCommitCount db + 1) ->
        db' = db ∧ o ≠ Returned tt)
       ∧ (db' ≠ db ->
          calcU64 (nameValueMap commit) "CommitIndex"
          = u64 (getCommitCount db + 1)
          ∧ getCommitCount db'
            = getCommitCount db + (if commitOk e then 1 else 0))
       ∧ (db' ≠ db -> getCommittedHash db' ≠ get commit "Hash" ->
          o = Thrown "potential hash mismatch")
       ∧ (o = Returned tt -> getCommittedHash db' = get commit "Hash"))
  ∧ (∀ env db count hash n,
       let r := handleCommitTransaction env db count hash n in
       let db' := snd (fst r) in
       let o := snd r in
       (count ≠ u64 (getCommitCount db + 1) ->
        db' = db ∧ ∃ what, o = Thrown what)
       ∧ (_state n ≠ FOLLOWING -> db' = db ∧ ∃ what, o = Thrown what)
       ∧ (o = Returned tt ->
          count = u64 (getCommitCount db + 1)
          ∧ getCommitCount db'
            = getCommitCount db
              + (if commitOk (engine env 0%nat) then 1 else 0))).
Proof.
  split; [|split].
  - intros n n' Hl. apply lifetime_grows in Hl. unfold grows in Hl.
    split; [done | by apply getCommitCount_prefix].
  - intros e commit db db' o. subst db' o.
    destruct (recvCommit_applies e commit db)
      as [[Hd Ho] | (Hi & Hj & Hh)].
    + repeat split; try done; intros Hr; by rewrite Hr in Ho.
    + split; [done|]. split; [|split].
      * intros _. split; [done|]. unfold getCommitCount. rewrite Hj.
        destruct (commitOk e); [rewrite length_app; simpl; lia | lia].
      * intros _ Hne. destruct Hh as [[? _] | [_ ?]]; done.
      * intros Ho. destruct Hh as [[? _] | [_ Hm]]; [done|].
        rewrite Ho in Hm. done.
  - intros env db count hash n r db' o. subst db' o r.
    destruct (handleCommitTransaction_applies env db count hash n)
      as [[Hd Ho] | (Hs & Hc & Hh & Ho & Hj)].
    + destruct Ho as [what Ho].
      split; [eauto|]. split; [eauto|]. intros Hr. rewrite Hr in Ho. done.
    + split; [done|]. split; [done|]. intros _. split; [done|].
      unfold getCommitCount. rewrite Hj.
      destruct (commitOk _); [rewrite length_app; simpl; lia | lia].
Qed.

End Commits.

(** ** What is sent *)

Section Sent.
Context `{Libstuff}.

Lemma appended_refl P p : appended P p p.
Proof.
  split; [done|]. destruct (Peer.s p) as [sock|]; [|done].
  exists sock, []. rewrite app_nil_r. done.
Qed.

Lemma appended_trans P p q r :
  appended P p q -> appended P q r -> appended P p r.
Proof.
  intros [Hp1 Hs1] [Hp2 Hs2]. split; [congruence|].
  destruct (Peer.s p) as [sock|].
  - destruct Hs1 as (sock1 & extra1 & Hq & Hb1 & HP1).
    rewrite Hq in Hs2. destruct Hs2 as (sock2 & extra2 & Hr & Hb2 & HP2).
    exists sock2, (extra1 ++ extra2). split; [done|]. split.
    + rewrite Hb2, Hb1. by rewrite <- app_assoc.
    + by apply Forall_app.
  - rewrite Hs1 in Hs2. done.
Qed.

Lemma sent_refl P l : sent P l l.
Proof. apply Forall2_same_length_lookup. split; [done|].
  intros i x y Hx Hy. simplify_eq. apply appended_refl. Qed.

Lemma sent_trans P l1 l2 l3 : sent P l1 l2 -> sent P l2 l3 -> sent P l1 l3.
Proof.
  unfold sent. intros H1 H2.
  eapply Forall2_trans; [|exact H1|exact H2].
  intros. by eapply appended_trans.
Qed.

Lemma sent_map P f l l' :
  (∀ p, appended P p (f p)) -> sent P l l' -> sent P l (map f l').
Proof.
  intros Hf Hs. eapply sent_trans; [exact Hs|].
  unfold sent. apply Forall2_fmap_r, Forall_Forall2_diag, Forall_forall.
  intros p _. apply Hf.
Qed.

Lemma sent_alter P f i l l' :
  (∀ p, appended P p (f p)) -> sent P l l' -> sent P l (alter f i l').
Proof.
  intros Hf Hs. eapply sent_trans; [exact Hs|].
  unfold sent. apply Forall2_same_length_lookup.
  split; [by rewrite length_alter|].
  intros j x y Hx Hy.
  destruct (decide (i = j)) as [->|Hne].
  - rewrite list_lookup_alter_eq, Hx in Hy. simpl in Hy. simplify_eq.
    apply Hf.
  - rewrite list_lookup_alter_ne in Hy by done. simplify_eq.
    apply appended_refl.
Qed.

Lemma sent_length P l l' : sent P l l' -> length l' = length l.
Proof. intros Hs. symmetry. by eapply Forall2_length. Qed.

Lemma sent_noVoteBuffered l l' :
  sent notVote l l' -> noVoteBuffered l -> noVoteBuffered l'.
Proof.
  intros Hs Hn p' sock' m Hp' Hsock' Hm.
  apply list_elem_of_lookup in Hp' as [i Hi].
  destruct (Forall2_lookup_r _ _ _ _ _ Hs Hi) as (p & Hp & [_ Ha]).
  destruct (Peer.s p) as [sock|] eqn:Es.
  - destruct Ha as (sock1 & extra & Hs1 & Hb & HP).
    rewrite Hsock' in Hs1. simplify_eq. rewrite Hb in Hm.
    apply elem_of_app in Hm as [Hm|Hm].
    + eapply Hn; [|exact Es|exact Hm]. apply list_elem_of_lookup. eauto.
    + rewrite Forall_forall in HP. by apply HP.
  - rewrite Hsock' in Ha. done.
Qed.

(** The changes of a peer that send nothing. *)
Lemma appended_setAttr P name value p q :
  appended P p q -> appended P p (setAttr name value q).
Proof. intros Ha. eapply appended_trans; [exact Ha|].
  split; [done|]. simpl. destruct (Peer.s q) as [sock|]; [|done].
  exists sock, []. by rewrite app_nil_r. Qed.

Lemma appended_eraseAttr P name p q :
  appended P p q -> appended P p (eraseAttr name q).
Proof. intros Ha. eapply appended_trans; [exact Ha|].
  split; [done|]. simpl. destruct (Peer.s q) as [sock|]; [|done].
  exists sock, []. by rewrite app_nil_r. Qed.

Lemma appended_setPeerState P st p q :
  appended P p q -> appended P p (setPeerState st q).
Proof. intros Ha. eapply appended_trans; [exact Ha|].
  split; [done|]. simpl. destruct (Peer.s q) as [sock|]; [|done].
  exists sock, []. by rewrite app_nil_r. Qed.

Lemma appended_reconnect P p q :
  appended P p q -> appended P p (reconnect q).
Proof.
  intros Ha. eapply appended_trans; [exact Ha|].
  unfold reconnect. split; [by destruct (Peer.s q)|].
  destruct (Peer.s q) as [sock|] eqn:Es; simpl; [|by rewrite Es].
  eexists _, []. split; [done|]. simpl. by rewrite app_nil_r.
Qed.

Lemma appended_deliver (P : SData -> Prop) m p q :
  P m -> appended P p q -> appended P p (deliver m q).
Proof.
  intros Hm Ha. eapply appended_trans; [exact Ha|].
  unfold deliver. split; [by destruct (Peer.s q)|].
  destruct (Peer.s q) as [sock|] eqn:Es; simpl; [|by rewrite Es].
  eexists _, [m]. split; [done|]. split; [done|]. by apply Forall_singleton.
Qed.

Lemma notVote_stamp db m : notVote (stamp db m) <-> notVote m.
Proof. done. Qed.

Lemma notVote_broadcastCopy db m : notVote (broadcastCopy db m) <-> notVote m.
Proof. unfold broadcastCopy. by repeat case_match. Qed.

Lemma sendToPeer_sent l i m n :
  notVote m -> sent notVote l (peerList n) ->
  sent notVote l (peerList (_sendToPeer i m n)).
Proof.
  intros Hm Hs. unfold _sendToPeer. simpl. apply sent_alter; [|done].
  intros p. apply appended_deliver; [done | apply appended_refl].
Qed.

Lemma sendToAllPeers_sent l m b n :
  notVote m -> sent notVote l (peerList n) ->
  sent notVote l (peerList (_sendToAllPeers m b n)).
Proof.
  intros Hm Hs. unfold _sendToAllPeers. simpl. apply sent_map; [|done].
  intros p. case_match; [|apply appended_refl].
  apply appended_deliver; [by apply notVote_broadcastCopy|].
  apply appended_refl.
Qed.

Lemma sendOutstanding_sent t l n i :
  sent notVote l (peerList n) ->
  sent notVote l (peerList (sendOutstanding t n i)).
Proof.
  intros Hs. unfold sendOutstanding. case_match; [done|]. simpl.
  apply sent_map.
  { intros p. case_match; [|apply appended_refl].
    apply appended_deliver; [by apply notVote_broadcastCopy|].
    apply appended_refl. }
  apply sent_map.
  { intros p. apply appended_setAttr, appended_refl. }
  apply sent_map; [|done].
  intros p. case_match; [|apply appended_refl].
  apply appended_deliver; [by apply notVote_broadcastCopy|].
  apply appended_refl.
Qed.

Lemma fold_sendOutstanding_sent t l txs :
  ∀ n, sent notVote l (peerList n) ->
       sent notVote l (peerList (fold_left (sendOutstanding t) txs n)).
Proof.
  induction txs as [|i txs IH]; intros n Hs; simpl; [done|].
  apply IH. by apply sendOutstanding_sent.
Qed.

Lemma sendOutstandingTransactions_sent env l n :
  sent notVote l (peerList n) ->
  sent notVote l (peerList (_sendOutstandingTransactions env n)).
Proof.
  intros Hs. unfold _sendOutstandingTransactions. case_match; [done|].
  simpl. by apply fold_sendOutstanding_sent.
Qed.

Lemma stopLeading_sent env l n :
  sent notVote l (peerList n) ->
  sent notVote l (peerList (stopLeading env n)).
Proof.
  intros Hs. unfold stopLeading.
  apply sendOutstandingTransactions_sent. by case_match.
Qed.

Lemma enterState_peerList env s n :
  peerList (enterState env s n) = peerList n.
Proof. es_field. Qed.

Lemma changeState_sent env s l n :
  sent notVote l (peerList n) ->
  sent notVote l (peerList (_changeState env s n)).
Proof.
  intros Hs. unfold _changeState. case_match; [done|].
  apply sendToAllPeers_sent; [done|]. simpl.
  rewrite enterState_peerList.
  repeat (case_match; simpl); try apply stopLeading_sent; simpl;
    repeat case_match; done.
Qed.

End Sent.

(** ** The loops over the peers *)

Section Scans.
Context `{Libstuff}.

Lemma countOf_snoc f l p : countOf f (l ++ [p]) = countOf f l + Z.b2z (f p).
Proof.
  unfold countOf. rewrite List.filter_app, length_app. simpl.
  destruct (f p); simpl; lia.
Qed.

Lemma lookup_snoc_last {A} (l : list A) x : (l ++ [x]) !! length l = Some x.
Proof. rewrite lookup_app_r by lia. by rewrite Nat.sub_diag. Qed.

(** One turn of a loop that keeps the first maximum. *)
Lemma firstMax_snoc P measure pre x acc :
  firstMax P measure pre acc ->
  firstMax P measure (pre ++ [x])
    (if P x then
       match acc with
       | None => Some (length pre, x)
       | Some (_, best) =>
           if measure best <? measure x then Some (length pre, x) else acc
       end
     else acc).
Proof.
  intros Hacc. destruct (P x) eqn:Hx.
  - destruct acc as [[i best]|]; simpl in *.
    + destruct Hacc as (Hi & Hb & Hall).
      destruct (Z.ltb_spec (measure best) (measure x)) as [Hlt|Hge]; simpl.
      * split; [apply lookup_snoc_last|]. split; [done|].
        intros p Hp Hpp. apply elem_of_app in Hp as [Hp|Hp].
        -- specialize (Hall p Hp Hpp). lia.
        -- apply list_elem_of_singleton in Hp as ->. lia.
      * split; [by apply lookup_app_l_Some|]. split; [done|].
        intros p Hp Hpp. apply elem_of_app in Hp as [Hp|Hp]; [eauto|].
        apply list_elem_of_singleton in Hp as ->. lia.
    + split; [apply lookup_snoc_last|]. split; [done|].
      intros p Hp Hpp. apply elem_of_app in Hp as [Hp|Hp].
      * rewrite Hacc in Hpp; done.
      * apply list_elem_of_singleton in Hp as ->. lia.
  - destruct acc as [[i best]|]; simpl in *.
    + destruct Hacc as (Hi & Hb & Hall).
      split; [by apply lookup_app_l_Some|]. split; [done|].
      intros p Hp Hpp. apply elem_of_app in Hp as [Hp|Hp]; [eauto|].
      apply list_elem_of_singleton in Hp as ->. congruence.
    + intros p Hp. apply elem_of_app in Hp as [Hp|Hp]; [eauto|].
      by apply list_elem_of_singleton in Hp as ->.
Qed.

(** One turn of a loop that keeps the last peer of a kind. *)
Lemma lastOf_snoc P pre x acc :
  lastOf P pre acc ->
  lastOf P (pre ++ [x]) (if P x then Some (length pre, x) else acc).
Proof.
  intros Hacc. destruct (P x) eqn:Hx.
  - split; [apply lookup_snoc_last|]. split; [done|].
    intros j p Hj Hp. apply lookup_lt_Some in Hp.
    rewrite length_app in Hp. simpl in Hp. lia.
  - destruct acc as [[i last]|]; simpl in *.
    + destruct Hacc as (Hi & Hl & Hafter).
      split; [by apply lookup_app_l_Some|]. split; [done|].
      intros j p Hj Hp.
      destruct (decide (j < length pre)%nat) as [Hlt|Hge].
      * rewrite lookup_app_l in Hp by done. eauto.
      * rewrite lookup_app_r in Hp by lia.
        apply list_lookup_singleton_Some in Hp as [_ <-]. done.
    + intros p Hp. apply elem_of_app in Hp as [Hp|Hp]; [eauto|].
      by apply list_elem_of_singleton in Hp as ->.
Qed.

Lemma searchingLoop_scan rest :
  ∀ pre acc,
    searchingScanOf pre acc ->
    searchingScanOf (pre ++ rest) (searchingLoop rest (length pre) acc).
Proof.
  induction rest as [|peer rest IH]; intros pre acc Hacc; simpl.
  - by rewrite app_nil_r.
  - replace (pre ++ peer :: rest) with ((pre ++ [peer]) ++ rest)
      by (by rewrite <- app_assoc).
    replace (S (length pre)) with (length (pre ++ [peer]))
      by (rewrite length_app; simpl; lia).
    apply IH. destruct Hacc as (H1 & H2 & H3).
    split; [|split]; simpl.
    + rewrite countOf_snoc, H1. done.
    + rewrite countOf_snoc, H2. done.
    + by apply (firstMax_snoc (fun p => test p "LoggedIn")
                 (fun p => calcU64 (Peer.attrs p) "CommitCount")).
Qed.

Lemma searchingScan_spec n : searchingScanOf (peerList n) (searchingScan n).
Proof.
  apply (searchingLoop_scan (peerList n) []).
  split; [done|]. split; [done|]. intros p Hp. by apply elem_of_nil in Hp.
Qed.

Lemma waitingLoop_scan rest :
  ∀ pre acc,
    waitingScanOf pre acc ->
    waitingScanOf (pre ++ rest) (waitingLoop rest (length pre) acc).
Proof.
  induction rest as [|peer rest IH]; intros pre acc Hacc; simpl.
  - by rewrite app_nil_r.
  - replace (pre ++ peer :: rest) with ((pre ++ [peer]) ++ rest)
      by (by rewrite <- app_assoc).
    replace (S (length pre)) with (length (pre ++ [peer]))
      by (rewrite length_app; simpl; lia).
    apply IH. destruct Hacc as (H1 & H2 & H3 & H4 & H5).
    pose proof (firstMax_snoc eligible
                  (fun p => calc (Peer.attrs p) "Priority") pre peer _ H3)
      as H3'.
    pose proof (firstMax_snoc eligible
                  (fun p => calcU64 (Peer.attrs p) "CommitCount") pre peer _
                  H4) as H4'.
    pose proof (lastOf_snoc (fun p => eligible p && leaderLike p) pre peer _
                  H5) as H5'.
    unfold waitingScanOf. rewrite !countOf_snoc.
    unfold eligible, fullPeer in *.
    destruct (permaFollower peer); simpl in *.
    { rewrite H1, H2. repeat split; try done; lia. }
    destruct (SIEquals (attr peer "LoggedIn") "true"); simpl in *.
    + rewrite H1, H2. repeat split; done.
    + rewrite H1, H2. repeat split; try done; lia.
Qed.

Lemma waitingScan_spec n : waitingScanOf (peerList n) (waitingScan n).
Proof.
  apply (waitingLoop_scan (peerList n) []).
  repeat split; try done; intros p Hp; by apply elem_of_nil in Hp.
Qed.

End Scans.

(** ** The SEARCHING and WAITING ticks *)

#[local] Arguments _sendToPeer : simpl never.

Section Ticks.
Context `{Libstuff}.

Lemma sendToPeer_lookup i m n p sock :
  peerList n !! i = Some p -> Peer.s p = Some sock ->
  ∃ p', peerList (_sendToPeer i m n) !! i = Some p'
        ∧ Peer.s p' = Some (socketSend (stamp (_db n) m) sock).
Proof.
  intros Hp Hs. unfold _sendToPeer. simpl.
  rewrite list_lookup_alter_eq, Hp. simpl.
  eexists. split; [done|]. unfold deliver. by rewrite Hs.
Qed.

(** A message sent to a peer stays in its buffer through a change of
    state. *)
Lemma sendToPeer_changeState_sentTo env s i m n n0 :
  peerList n0 = peerList n -> _db n0 = _db n ->
  sentTo i (stamp (_db n) m) n (_changeState env s (_sendToPeer i m n0)).
Proof.
  intros Hpeers Hdb p sock Hp Hs.
  rewrite <- Hpeers in Hp.
  destruct (sendToPeer_lookup i m n0 p sock Hp Hs) as (p1 & Hp1 & Hs1).
  pose proof (changeState_sent env s _ (_sendToPeer i m n0)
                (sent_refl notVote _)) as Hsent.
  destruct (Forall2_lookup_l _ _ _ _ _ Hsent Hp1) as (p2 & Hp2 & [_ Ha]).
  rewrite Hs1 in Ha. destruct Ha as (sock2 & extra & Hs2 & Hb & _).
  exists p2, sock2, extra. split; [done|]. split; [done|].
  rewrite Hb. simpl. rewrite Hdb. by rewrite <- app_assoc.
Qed.

Lemma chooseSyncPeer_some n p :
  p ∈ peerList n ->
  usableSyncPeer (getCommitCount (_db n)) p = true ->
  ∃ j, _syncPeer (_updateSyncPeer n) = Some j.
Proof.
  intros Hp Hu.
  pose proof (chooseSyncPeer_chosen (getCommitCount (_db n)) (peerList n)
                [] None) as Hc.
  simpl in Hc. specialize (Hc ltac:(intros q Hq; by apply elem_of_nil in Hq)).
  unfold _updateSyncPeer. simpl.
  destruct (chooseSyncPeer _ (peerList n) 0 None) as [[j best]|]; simpl.
  - eauto.
  - simpl in Hc. rewrite (Hc p Hp) in Hu. done.
Qed.

(** What [shutdownComplete] leaves of a SEARCHING node when it answers
    true. *)
Lemma shutdownComplete_searching env n :
  _state n = SEARCHING ->
  snd (shutdownComplete env n) = true ->
  let n' := fst (shutdownComplete env n) in
  let rang := ringing (STimeNow env) (_gracefulShutdownTimeout n) in
  _state n' = SEARCHING
  ∧ (_escalatedCommandMap n = ∅ ∨ rang = false -> n' = n)
  ∧ (_escalatedCommandMap n ≠ ∅ -> rang = true ->
     n' = with_escalatedCommandMap ∅
            (with_server
               (_server n ++ map (fun c => acceptCommand (abandon c) false)
                                 (escalatedCommands n)) n)).
Proof.
  intros Hs. unfold shutdownComplete.
  destruct (negb (gracefulShutdown n)); [done|].
  destruct (ringing (STimeNow env) (_gracefulShutdownTimeout n)).
  - intros _. simpl.
    assert (Hsame : ∀ m, _state m = SEARCHING ->
                         _changeState env SEARCHING m = m).
    { intros m Hm. unfold _changeState. rewrite Hm.
      by rewrite State_eqb_refl. }
    destruct (decide (_escalatedCommandMap n = ∅)) as [He|He].
    + rewrite (bool_decide_eq_true_2 _ He), (Hsame n Hs).
      split; [done|]. split; [done|]. intros Hne. done.
    + rewrite (bool_decide_eq_false_2 _ He), Hsame by exact Hs.
      split; [exact Hs|]. split; [|done].
      intros [H0 | H0]; done.
  - repeat case_match; simpl; try done; intros _;
      (split; [exact Hs|]); (split; [done|]); intros _ Hr; done.
Qed.

(** C5 (amended). A tick in SEARCHING.  When the graceful shutdown is
    complete ([shutdownComplete] answers true) the tick returns false and
    the node stays SEARCHING, as it was but for this: when the timeout of
    the shutdown has run out with commands still escalated, these are handed
    back to the server as abandoned, in some order, and the table is
    emptied.  When [shutdownComplete] answers false: with no peer configured
    the node goes LEADING, its commit count unchanged.  Otherwise, as long
    as fewer than half of the full peers are logged in and the state timeout
    has not passed, it waits.  After that: if no peer is logged in, or no
    logged-in peer has more commits than the node, it goes WAITING; if a
    logged-in peer has more commits, it takes the sync peer that
    [_updateSyncPeer] chooses, sends it SYNCHRONIZE and goes
    SYNCHRONIZING. *)
Theorem searching_tick (env : Env) (n : SQLiteNode) :
  _state n = SEARCHING ->
  let complete := snd (shutdownComplete env n) in
  let rang := ringing (STimeNow env) (_gracefulShutdownTimeout n) in
  let count := getCommitCount (_db n) in
  let commits := fun p => calcU64 (Peer.attrs p) "CommitCount" in
  let searching :=
    2 * countOf fullLoggedIn (peerList n) < countOf fullPeer (peerList n)
    ∧ STimeNow env < _stateTimeout n in
  (complete = true ->
   snd (update env n) = Returned false
   ∧ _state (fst (update env n)) = SEARCHING
   ∧ (_escalatedCommandMap n = ∅ ∨ rang = false -> fst (update env n) = n)
   ∧ (_escalatedCommandMap n ≠ ∅ -> rang = true ->
      ∃ calls,
        fst (update env n)
        = with_escalatedCommandMap ∅ (with_server (_server n ++ calls) n)
        ∧ calls ≡ₚ map (fun c => acceptCommand (abandon c) false)
                       (escalatedCommands n)))
  ∧ (complete = false ->
     (peerList n = [] ->
      update env n
      = (with_leaderVersion (_version (_changeState env LEADING n))
                            (_changeState env LEADING n),
         Returned true)
      ∧ _state (fst (update env n)) = LEADING
      ∧ getCommitCount (_db (fst (update env n))) = count)
     ∧ (peerList n ≠ [] -> searching -> update env n = (n, Returned false))
     ∧ (peerList n ≠ [] -> ¬ searching ->
        (∀ p, p ∈ peerList n -> test p "LoggedIn" = true ->
              commits p <= count) ->
        update env n = (_changeState env WAITING n, Returned true)
        ∧ _state (fst (update env n)) = WAITING)
     ∧ (peerList n ≠ [] -> ¬ searching ->
        (∃ p, p ∈ peerList n ∧ test p "LoggedIn" = true
              ∧ count < commits p) ->
        ∃ j,
          _syncPeer (_updateSyncPeer n) = Some j
          ∧ update env n
            = (_changeState env SYNCHRONIZING
                 (_sendToPeer j (newSData "SYNCHRONIZE") (_updateSyncPeer n)),
               Returned true)
          ∧ _state (fst (update env n)) = SYNCHRONIZING
          ∧ _syncPeer (fst (update env n)) = Some j
          ∧ sentTo j (stamp (_db n) (newSData "SYNCHRONIZE")) n
                   (fst (update env n)))).
Proof.
  intros Hs complete rang count commits searching.
  assert (Hu : update env n = updateSEARCHING env n)
    by (unfold update; by rewrite Hs).
  rewrite Hu. unfold updateSEARCHING.
  split.
  { intros Hdone.
    destruct (shutdownComplete_searching env n Hs Hdone)
      as (Hstate & Hsame & Hrang).
    fold rang in Hsame, Hrang. subst complete.
    destruct (shutdownComplete env n) as [n0 done]. simpl in *.
    subst done. simpl.
    split; [done|]. split; [done|]. split; [done|].
    intros Hne Hr. eexists. split; [by apply Hrang|]. done. }
  intros Hdone. subst complete.
  destruct (shutdownComplete env n) as [n0 done]. simpl in Hdone.
  subst done.
  destruct (searchingScan_spec n) as (Hfull & Hin & Hfresh).
  assert (Hwait : fewerThanHalf (sNumLoggedInFullPeers (searchingScan n))
                                (sNumFullPeers (searchingScan n))
                  && (STimeNow env <? _stateTimeout n) = true
                  <-> searching).
  { unfold fewerThanHalf, searching. rewrite Hfull, Hin.
    rewrite andb_true_iff, !Z.ltb_lt. done. }
  split; [|split; [|split]].
  - intros Hnil. rewrite Hnil. split; [done|]. simpl.
    rewrite changeState_state, changeState_commitCount. done.
  - intros Hne Hsearch. apply Hwait in Hsearch.
    destruct (peerList n) eqn:E; [done|]. rewrite <- E in *.
    by rewrite Hsearch.
  - intros Hne Hsearch Hall.
    destruct (peerList n) eqn:E; [done|]. rewrite <- E in *.
    destruct (_ && _) eqn:Ew; [exfalso; by apply Hsearch, Hwait|].
    assert (Hgoal : ∀ r, r = (_changeState env WAITING n, Returned true) ->
              r = (_changeState env WAITING n, Returned true)
              ∧ _state (fst r) = WAITING).
    { intros r ->. split; [done|]. apply changeState_state. }
    apply Hgoal.
    destruct (sFreshestPeer (searchingScan n)) as [[i f]|]; [|done].
    destruct Hfresh as (Hi & Hf & _).
    specialize (Hall f ltac:(apply list_elem_of_lookup; eauto) Hf).
    unfold commits, count in Hall.
    destruct (Z.eqb_spec (calcU64 (Peer.attrs f) "CommitCount")
                         (getCommitCount (_db n))); [done|].
    destruct (Z.ltb_spec (calcU64 (Peer.attrs f) "CommitCount")
                         (getCommitCount (_db n))); [done|]. lia.
  - intros Hne Hsearch (p & Hp & Hlog & Hmore).
    destruct (peerList n) eqn:E; [done|]. rewrite <- E in *.
    destruct (_ && _) eqn:Ew; [exfalso; by apply Hsearch, Hwait|].
    destruct (chooseSyncPeer_some n p Hp) as [j Hj].
    { unfold usableSyncPeer. rewrite Hlog. simpl.
      apply negb_true_iff, Z.leb_gt. exact Hmore. }
    exists j. split; [done|].
    destruct (sFreshestPeer (searchingScan n)) as [[i f]|].
    2: { simpl in Hfresh. rewrite (Hfresh p Hp) in Hlog. done. }
    destruct Hfresh as (Hi & Hf & Hmax).
    specialize (Hmax p Hp Hlog). simpl in Hmax.
    unfold commits, count in Hmore.
    destruct (Z.eqb_spec (calcU64 (Peer.attrs f) "CommitCount")
                         (getCommitCount (_db n))); [lia|].
    destruct (Z.ltb_spec (calcU64 (Peer.attrs f) "CommitCount")
                         (getCommitCount (_db n))); [lia|].
    rewrite Hj. split; [done|]. simpl.
    split; [apply changeState_state|]. split.
    + rewrite changeState_syncPeer. done.
    + by apply sendToPeer_changeState_sentTo.
Qed.

Lemma changeState_subscribing env n :
  _state n = WAITING ->
  _leadPeer (_changeState env SUBSCRIBING n) = _leadPeer n
  ∧ _leaderVersion (_changeState env SUBSCRIBING n) = _leaderVersion n.
Proof.
  intros Hs. unfold _changeState. rewrite Hs.
  change (State_eqb SUBSCRIBING WAITING) with false.
  change (State_eqb WAITING FOLLOWING) with false.
  change (SWITHIN LEADING WAITING STANDINGDOWN) with false.
  change (stateIndex SUBSCRIBING <? stateIndex SUBSCRIBING) with false.
  cbv iota. simpl. unfold enterState. simpl. done.
Qed.

(** C6 (amended). A tick in WAITING, when no graceful shutdown is underway
    (under one the tick does nothing).  If a logged-in full peer is LEADING,
    its priority is higher than the node's own, and no logged-in full peer
    after it in the peer list is STANDINGUP, LEADING or STANDINGDOWN (the
    loop keeps the last such peer as the current leader, and the node
    subscribes only if that one is LEADING): the node records it as lead
    peer, with its version, sends it SUBSCRIBE and goes SUBSCRIBING. *)
Theorem waiting_tick_subscribes (env : Env) (n : SQLiteNode) (i : nat)
  (leader : Peer) :
  _state n = WAITING ->
  gracefulShutdown n = false ->
  peerList n !! i = Some leader ->
  eligible leader = true ->
  Peer.state leader = LEADING ->
  _priority n < calc (Peer.attrs leader) "Priority" ->
  (∀ j p, (i < j)%nat -> peerList n !! j = Some p ->
          eligible p && leaderLike p = false) ->
  update env n
  = (_changeState env SUBSCRIBING
       (_sendToPeer i (newSData "SUBSCRIBE")
          (with_leaderVersion (attr leader "Version")
             (with_leadPeer (Some i) n))),
     Returned true)
  ∧ _state (fst (update env n)) = SUBSCRIBING
  ∧ _leadPeer (fst (update env n)) = Some i
  ∧ _leaderVersion (fst (update env n)) = attr leader "Version"
  ∧ sentTo i (stamp (_db n) (newSData "SUBSCRIBE")) n (fst (update env n)).
Proof.
  intros Hs Hg Hi He Hl Hp Hlast.
  assert (Hu : update env n = updateWAITING env n)
    by (unfold update; by rewrite Hs).
  assert (Hin : leader ∈ peerList n) by (apply list_elem_of_lookup; eauto).
  assert (Hlike : eligible leader && leaderLike leader = true).
  { rewrite He. unfold leaderLike. by rewrite Hl. }
  destruct (waitingScan_spec n) as (_ & _ & Hhigh & Hfresh & Hcur).
  assert (Hr : updateWAITING env n
               = (_changeState env SUBSCRIBING
                    (_sendToPeer i (newSData "SUBSCRIBE")
                       (with_leaderVersion (attr leader "Version")
                          (with_leadPeer (Some i) n))),
                  Returned true)).
  { unfold updateWAITING. rewrite Hg.
    destruct (wHighestPriorityPeer (waitingScan n)) as [[ih high]|].
    2: { simpl in Hhigh. rewrite (Hhigh leader Hin) in He. done. }
    destruct Hhigh as (_ & _ & Hmax). specialize (Hmax leader Hin He).
    simpl in Hmax.
    destruct (wFreshestPeer (waitingScan n)) as [[jf fresh]|].
    2: { simpl in Hfresh. rewrite (Hfresh leader Hin) in He. done. }
    unfold leaderToFollow.
    destruct (wCurrentLeader (waitingScan n)) as [[k cur]|].
    2: { simpl in Hcur. rewrite (Hcur leader Hin) in Hlike. done. }
    destruct Hcur as (Hk & Hcl & Hafter).
    assert (k = i).
    { destruct (lt_eq_lt_dec k i) as [[Hlt | ->] | Hlt]; [|done|].
      - rewrite (Hafter i leader Hlt Hi) in Hlike. done.
      - rewrite (Hlast k cur Hlt Hk) in Hcl. done. }
    subst k. rewrite Hi in Hk. injection Hk as <-.
    rewrite Hl. simpl.
    assert (Hlt : (_priority n <? calc (Peer.attrs high) "Priority") = true)
      by (apply Z.ltb_lt; lia).
    rewrite Hlt. reflexivity. }
  rewrite Hu, Hr. split; [done|]. simpl.
  split; [apply changeState_state|].
  match goal with
  | |- context [_changeState env SUBSCRIBING ?m] =>
      assert (Hs' : _state m = WAITING) by exact Hs
  end.
  split; [|split].
  - rewrite (proj1 (changeState_subscribing env _ Hs')). done.
  - rewrite (proj2 (changeState_subscribing env _ Hs')). done.
  - by apply sendToPeer_changeState_sentTo.
Qed.

End Ticks.

(** * The permafollower *)

#[local] Arguments _sendToAllPeers : simpl never.
#[local] Arguments updatePeer : simpl never.
#[local] Arguments _reconnectPeer : simpl never.
#[local] Arguments _reconnectAll : simpl never.

Section Permafollower.
Context `{Libstuff}.

Lemma isVote_set name value m : isVote (set name value m) = isVote m.
Proof. reflexivity. Qed.

Lemma isVote_setContent c m : isVote (setContent c m) = isVote m.
Proof. reflexivity. Qed.

Lemma methodLine_appendParts parts m :
  methodLine (fold_left (fun r part => appendPart part r) parts m)
  = methodLine m.
Proof.
  revert m. induction parts as [|part parts IH]; intros m; simpl; [done|].
  by rewrite IH.
Qed.

Lemma queueSynchronizeStateless_methodLine params target db response sendAll
  r :
  _queueSynchronizeStateless params target db response sendAll = Returned r ->
  methodLine r = methodLine response.
Proof.
  unfold _queueSynchronizeStateless. intros Hr.
  repeat case_match; simplify_eq; rewrite ?methodLine_appendParts; done.
Qed.

Lemma queueSynchronize_notVote peer response sendAll n r :
  _queueSynchronize peer response sendAll n = Returned r ->
  notVote response -> notVote r.
Proof.
  unfold _queueSynchronize. intros Hr Hv.
  apply queueSynchronizeStateless_methodLine in Hr.
  unfold notVote, isVote in *. by rewrite Hr.
Qed.

(** ** What keeps the invariant *)

Lemma invariant_peers n n' :
  _originalPriority n' = _originalPriority n ->
  _priority n' = _priority n ->
  _state n' = _state n ->
  sent notVote (peerList n) (peerList n') ->
  permafollowerInvariant n -> permafollowerInvariant n'.
Proof.
  intros Ho Hp Hs Hsent (I1 & I2 & I3 & I4 & I5).
  unfold permafollowerInvariant. rewrite Ho, Hp, Hs.
  split; [done|]. split.
  - intros E. apply sent_length in Hsent. rewrite E in Hsent.
    by destruct (peerList n).
  - split; [done|]. split; [done|]. by eapply sent_noVoteBuffered.
Qed.

Lemma invariant_frame n n' :
  _originalPriority n' = _originalPriority n ->
  _priority n' = _priority n ->
  _state n' = _state n ->
  peerList n' = peerList n ->
  permafollowerInvariant n -> permafollowerInvariant n'.
Proof.
  intros Ho Hp Hs Hl. apply invariant_peers; try done.
  rewrite Hl. apply sent_refl.
Qed.

Lemma invariant_sendToPeer i m n :
  isVote m = false ->
  permafollowerInvariant n -> permafollowerInvariant (_sendToPeer i m n).
Proof.
  intros Hm. apply invariant_peers; try done.
  apply sendToPeer_sent; [done | apply sent_refl].
Qed.

Lemma invariant_sendToAllPeers m b n :
  isVote m = false ->
  permafollowerInvariant n -> permafollowerInvariant (_sendToAllPeers m b n).
Proof.
  intros Hm. apply invariant_peers; try done.
  apply sendToAllPeers_sent; [done | apply sent_refl].
Qed.

Lemma invariant_updatePeer i f n :
  (∀ p, appended notVote p (f p)) ->
  permafollowerInvariant n -> permafollowerInvariant (updatePeer i f n).
Proof.
  intros Hf. apply invariant_peers; try done.
  unfold updatePeer. simpl. apply sent_alter; [done | apply sent_refl].
Qed.

Lemma invariant_reconnectPeer i n :
  permafollowerInvariant n -> permafollowerInvariant (_reconnectPeer i n).
Proof.
  apply invariant_peers; try done.
  unfold _reconnectPeer. simpl. apply sent_alter; [|apply sent_refl].
  intros p. apply appended_reconnect, appended_refl.
Qed.

Lemma invariant_reconnectAll n :
  permafollowerInvariant n -> permafollowerInvariant (_reconnectAll n).
Proof.
  apply invariant_peers; try done.
  unfold _reconnectAll. simpl. apply sent_map; [|apply sent_refl].
  intros p. apply appended_reconnect, appended_refl.
Qed.

Lemma invariant_updateSyncPeer n :
  permafollowerInvariant n -> permafollowerInvariant (_updateSyncPeer n).
Proof. by apply invariant_frame. Qed.

Lemma sendOutstandingTransactions_priority env n :
  _priority (_sendOutstandingTransactions env n) = _priority n.
Proof. so_field. Qed.

Lemma stopLeading_priority env n : _priority (stopLeading env n) = _priority n.
Proof. sl_field sendOutstandingTransactions_priority. Qed.

(** The priority after a change of state: the configured one from WAITING
    on. *)
Lemma changeState_priority env s n :
  _priority (_changeState env s n)
  = if State_eqb s (_state n) then _priority n
    else match s with
         | WAITING => _originalPriority n
         | _ => _priority n
         end.
Proof.
  unfold _changeState. case_match; [reflexivity|]. simpl.
  assert (He : ∀ m, _priority (enterState env s m)
                    = match s with
                      | WAITING => _originalPriority m
                      | _ => _priority m
                      end).
  { intros m. unfold enterState. destruct s; try reflexivity.
    by case_match. }
  rewrite He.
  destruct s; repeat (case_match; simpl);
    rewrite ?stopLeading_priority, ?stopLeading_originalPriority; reflexivity.
Qed.

(** A change of state keeps the invariant, when it is to SEARCHING,
    SYNCHRONIZING or WAITING, or from WAITING and further on to SUBSCRIBING
    or FOLLOWING. *)
Lemma invariant_changeState env s n :
  s = SEARCHING ∨ s = SYNCHRONIZING ∨ s = WAITING
  ∨ ((s = SUBSCRIBING ∨ s = FOLLOWING)
     ∧ (_state n = WAITING ∨ _state n = SUBSCRIBING ∨ _state n = FOLLOWING)) ->
  permafollowerInvariant n ->
  permafollowerInvariant (_changeState env s n).
Proof.
  intros Hs (I1 & I2 & I3 & I4 & I5).
  unfold permafollowerInvariant.
  rewrite changeState_originalPriority, changeState_state,
    changeState_priority.
  pose proof (changeState_sent env s _ n (sent_refl notVote _)) as Hsent.
  split; [done|]. split.
  { intros E. apply sent_length in Hsent. rewrite E in Hsent.
    by destruct (peerList n). }
  split.
  { unfold notLeading.
    destruct Hs as [-> | [-> | [-> | [[-> | ->] _]]]]; auto 10. }
  split; [|by eapply sent_noVoteBuffered].
  destruct (State_eqb s (_state n)) eqn:E.
  - apply State_eqb_eq in E. by rewrite E.
  - destruct Hs as [-> | [-> | [-> | [[-> | ->] Hfrom]]]]; try done.
    + destruct I4 as [? | [? ?]]; [by left | right; split; [done | by left]].
    + destruct I4 as [? | [? ?]]; [by left | right; split; [done | by right]].
    + by left.
    + destruct I4 as [? | [_ [E1 | E1]]]; [by left | |];
        rewrite E1 in Hfrom; destruct Hfrom as [? | [? | ?]]; discriminate.
    + destruct I4 as [? | [_ [E1 | E1]]]; [by left | |];
        rewrite E1 in Hfrom; destruct Hfrom as [? | [? | ?]]; discriminate.
Qed.

End Permafollower.

Ltac not_vote :=
  unfold notVote;
  first [ reflexivity
        | assumption
        | eapply queueSynchronize_notVote; [eassumption | reflexivity] ].

Ltac peer_kept :=
  intros ?; unfold recordCommit;
  repeat first [ apply appended_setAttr
               | apply appended_eraseAttr
               | apply appended_setPeerState
               | apply appended_deliver; [not_vote|] ];
  apply appended_refl.

Ltac change_target :=
  first [ by left
        | by (right; left)
        | by (right; right; left)
        | right; right; right; split; [auto|];
          unfold _sendToPeer, updatePeer; simpl;
          repeat match goal with
                 | Hs : _state ?n = _ |- context [_state ?n] => rewrite Hs
                 end;
          by auto ].

Ltac keep_invariant :=
  lazymatch goal with
  | HI : permafollowerInvariant ?m |- permafollowerInvariant ?m => exact HI
  | |- permafollowerInvariant (_changeState _ _ _) =>
      apply invariant_changeState; [change_target | keep_invariant]
  | |- permafollowerInvariant (_sendToPeer _ _ _) =>
      apply invariant_sendToPeer; [not_vote | keep_invariant]
  | |- permafollowerInvariant (_sendToAllPeers _ _ _) =>
      apply invariant_sendToAllPeers; [not_vote | keep_invariant]
  | |- permafollowerInvariant (updatePeer _ _ _) =>
      apply invariant_updatePeer; [peer_kept | keep_invariant]
  | |- permafollowerInvariant (_reconnectPeer _ _) =>
      apply invariant_reconnectPeer; keep_invariant
  | |- permafollowerInvariant (_reconnectAll _) =>
      apply invariant_reconnectAll; keep_invariant
  | |- permafollowerInvariant (_updateSyncPeer _) =>
      apply invariant_updateSyncPeer; keep_invariant
  | |- permafollowerInvariant (?f ?m) =>
      apply (invariant_frame m); [reflexivity.. | keep_invariant]
  | |- permafollowerInvariant (?f _ ?m) =>
      apply (invariant_frame m); [reflexivity.. | keep_invariant]
  end.

(** The tests on the state, as equations. *)
Ltac state_tests :=
  repeat match goal with
  | H : negb _ = true |- _ => apply negb_true_iff in H
  | H : negb _ = false |- _ => apply negb_false_iff in H
  | H : _ && _ = true |- _ => apply andb_true_iff in H; destruct H
  | H : State_eqb _ _ = true |- _ => apply State_eqb_eq in H
  end.

(** A branch that only a leader takes. *)
Ltac not_leading :=
  exfalso;
  match goal with
  | Hs : _state ?n = _, Hn : notLeading (_state ?n) |- _ =>
      rewrite Hs in Hn; unfold notLeading in Hn;
      repeat (destruct Hn as [Hn|Hn]; [discriminate|]); discriminate
  | Hn : notLeading _ |- _ =>
      unfold notLeading in Hn;
      repeat (destruct Hn as [Hn|Hn]; [discriminate|]); discriminate
  end.

Section PermafollowerHandlers.
Context `{Libstuff}.

Lemma shutdownComplete_invariant env n :
  permafollowerInvariant n ->
  permafollowerInvariant (fst (shutdownComplete env n)).
Proof.
  intros HI. unfold shutdownComplete.
  repeat case_match; simpl; keep_invariant.
Qed.

Lemma invariant_priority n :
  permafollowerInvariant n ->
  _state n = WAITING ∨ _state n = SUBSCRIBING ∨ _state n = FOLLOWING ->
  _priority n = 0.
Proof.
  intros (_ & _ & _ & [? | [_ [E | E]]] & _) Hs; [done | |];
    rewrite E in Hs; destruct Hs as [? | [? | ?]]; discriminate.
Qed.

Lemma update_invariant env n :
  permafollowerInvariant n -> permafollowerInvariant (fst (update env n)).
Proof.
  intros HI. pose proof HI as (I1 & I2 & I3 & I4 & I5).
  unfold update. destruct (_state n) eqn:Hs; try not_leading.
  - unfold updateSEARCHING.
    pose proof (shutdownComplete_invariant env n HI) as Hdone.
    destruct (shutdownComplete env n) as [n0 done]. simpl in Hdone.
    repeat case_match; simpl; try done; keep_invariant.
  - unfold updateSYNCHRONIZING. repeat case_match; simpl; keep_invariant.
  - unfold updateWAITING.
    pose proof (invariant_priority n HI ltac:(auto)) as Hp.
    repeat case_match; simpl; try keep_invariant.
    unfold shouldStandUp in *. state_tests.
    match goal with Hz : (0 <? _priority n) = true |- _ =>
      rewrite Hp in Hz; discriminate end.
  - unfold updateSUBSCRIBING. repeat case_match; simpl; keep_invariant.
  - unfold updateFOLLOWING. repeat case_match; simpl; keep_invariant.
Qed.

Lemma recvSynchronize_invariant env message n :
  permafollowerInvariant n ->
  permafollowerInvariant (fst (_recvSynchronize env message n))
  ∧ _state (fst (_recvSynchronize env message n)) = _state n.
Proof.
  intros HI. rewrite recvSynchronize_db. split; [keep_invariant | done].
Qed.

Lemma onLOGIN_invariant i peer message n :
  permafollowerInvariant n ->
  permafollowerInvariant (fst (onLOGIN i peer message n)).
Proof.
  intros HI. unfold onLOGIN. repeat case_match; simpl; keep_invariant.
Qed.

Lemma onPeerStandingUp_invariant env i peer message n :
  permafollowerInvariant n ->
  permafollowerInvariant (onPeerStandingUp env i peer message n).
Proof.
  intros HI. pose proof HI as (_ & _ & I3 & _).
  unfold onPeerStandingUp.
  destruct (SWITHIN STANDINGUP (_state n) STANDINGDOWN) eqn:E.
  { destruct (_state n); try discriminate E; not_leading. }
  repeat case_match; keep_invariant.
Qed.

Lemma onSTATE_invariant env i peer message n :
  permafollowerInvariant n ->
  permafollowerInvariant (fst (onSTATE env i peer message n)).
Proof.
  intros HI. unfold onSTATE.
  repeat case_match; simpl; try apply onPeerStandingUp_invariant;
    keep_invariant.
Qed.

Lemma onSTANDUP_RESPONSE_invariant i message n :
  permafollowerInvariant n ->
  permafollowerInvariant (fst (onSTANDUP_RESPONSE i message n)).
Proof.
  intros HI. unfold onSTANDUP_RESPONSE.
  repeat case_match; simpl; keep_invariant.
Qed.

Lemma onSYNCHRONIZE_invariant i peer message n :
  permafollowerInvariant n ->
  permafollowerInvariant (fst (onSYNCHRONIZE i peer message n)).
Proof.
  intros HI. unfold onSYNCHRONIZE.
  repeat case_match; simpl; keep_invariant.
Qed.

Lemma afterSynchronize_invariant env syncPeer n :
  permafollowerInvariant n ->
  permafollowerInvariant (afterSynchronize env syncPeer n).
Proof.
  intros HI. unfold afterSynchronize.
  repeat case_match; simpl; keep_invariant.
Qed.

Lemma onSYNCHRONIZE_RESPONSE_invariant env i message n :
  permafollowerInvariant n ->
  permafollowerInvariant (fst (onSYNCHRONIZE_RESPONSE env i message n)).
Proof.
  intros HI. unfold onSYNCHRONIZE_RESPONSE.
  destruct (recvSynchronize_invariant env message n HI) as [HI1 _].
  repeat case_match; simpl in *; try keep_invariant.
  by apply afterSynchronize_invariant.
Qed.

Lemma onSUBSCRIBE_invariant env i peer n :
  permafollowerInvariant n ->
  permafollowerInvariant (fst (onSUBSCRIBE env i peer n)).
Proof.
  intros HI. pose proof HI as (_ & _ & I3 & _). unfold onSUBSCRIBE.
  destruct (State_eqb (_state n) LEADING) eqn:E; simpl; [|done].
  apply State_eqb_eq in E. not_leading.
Qed.

Lemma onSUBSCRIPTION_APPROVED_invariant env i message n :
  permafollowerInvariant n ->
  permafollowerInvariant (fst (onSUBSCRIPTION_APPROVED env i message n)).
Proof.
  intros HI. unfold onSUBSCRIPTION_APPROVED.
  destruct (recvSynchronize_invariant env message n HI) as [HI1 Hs1].
  repeat case_match; simpl in *; state_tests; keep_invariant.
Qed.

Lemma onVote_invariant i peer message n :
  permafollowerInvariant n ->
  permafollowerInvariant (fst (onVote i peer message n)).
Proof.
  intros HI. pose proof HI as (_ & _ & I3 & _). unfold onVote.
  repeat case_match; simpl; try keep_invariant; simplify_eq.
  all: unfold recordVote in *; repeat case_match; simplify_eq;
    keep_invariant.
Qed.

Lemma onESCALATE_invariant i peer message n :
  permafollowerInvariant n ->
  permafollowerInvariant (fst (onESCALATE i peer message n)).
Proof.
  intros HI. unfold onESCALATE. repeat case_match; simpl; keep_invariant.
Qed.

Lemma onESCALATE_CANCEL_invariant peer message n :
  permafollowerInvariant n ->
  permafollowerInvariant (fst (onESCALATE_CANCEL peer message n)).
Proof.
  intros HI. unfold onESCALATE_CANCEL.
  repeat case_match; simpl; keep_invariant.
Qed.

Lemma onESCALATE_RESPONSE_invariant env message n :
  permafollowerInvariant n ->
  permafollowerInvariant (fst (onESCALATE_RESPONSE env message n)).
Proof.
  intros HI. unfold onESCALATE_RESPONSE.
  repeat case_match; simpl; keep_invariant.
Qed.

Lemma onESCALATE_ABORTED_invariant message n :
  permafollowerInvariant n ->
  permafollowerInvariant (fst (onESCALATE_ABORTED message n)).
Proof.
  intros HI. unfold onESCALATE_ABORTED.
  repeat case_match; simpl; keep_invariant.
Qed.

Lemma dispatch_invariant env i peer message n :
  permafollowerInvariant n ->
  permafollowerInvariant (fst (dispatch env i peer message n)).
Proof.
  intros HI. unfold dispatch. destruct (classify (methodLine message)).
  - by apply onLOGIN_invariant.
  - by apply onSTATE_invariant.
  - by apply onSTANDUP_RESPONSE_invariant.
  - by apply onSYNCHRONIZE_invariant.
  - by apply onSYNCHRONIZE_RESPONSE_invariant.
  - by apply onSUBSCRIBE_invariant.
  - by apply onSUBSCRIPTION_APPROVED_invariant.
  - unfold onReplicate. simpl. keep_invariant.
  - by apply onVote_invariant.
  - by apply onESCALATE_invariant.
  - by apply onESCALATE_CANCEL_invariant.
  - by apply onESCALATE_RESPONSE_invariant.
  - by apply onESCALATE_ABORTED_invariant.
  - simpl. keep_invariant.
  - done.
Qed.

Lemma onMESSAGE_invariant env i message n :
  permafollowerInvariant n ->
  permafollowerInvariant (fst (_onMESSAGE env i message n)).
Proof.
  intros HI. unfold _onMESSAGE.
  destruct (peerList n !! i) as [peer0|]; [|done].
  destruct (negb (isSet message "CommitCount")); [done|].
  destruct (negb (isSet message "Hash")); [done|].
  assert (HI1 : permafollowerInvariant
                  (updatePeer i (recordCommit message) n))
    by keep_invariant.
  destruct (classify (methodLine message)) eqn:Em;
    try (by apply onLOGIN_invariant);
    (destruct (negb (SIEquals _ "true")); [done|]);
    by apply dispatch_invariant.
Qed.

Lemma onConnect_invariant i n :
  permafollowerInvariant n -> permafollowerInvariant (_onConnect i n).
Proof. intros HI. unfold _onConnect. keep_invariant. Qed.

Lemma onDisconnect_invariant env i n :
  permafollowerInvariant n -> permafollowerInvariant (_onDisconnect env i n).
Proof.
  intros HI. unfold _onDisconnect.
  set (n1 := if bool_decide (_leadPeer n = Some i) then _ else n).
  assert (HI1 : permafollowerInvariant n1).
  { subst n1. repeat case_match; keep_invariant. }
  clearbody n1.
  set (n2 := if bool_decide (_syncPeer n1 = Some i) then _ else n1).
  assert (HI2 : permafollowerInvariant n2).
  { subst n2. case_match; keep_invariant. }
  clearbody n2. pose proof HI2 as (_ & _ & I3 & _).
  destruct (_state n2) eqn:Hs; try done; not_leading.
Qed.

Lemma escalateCommand_invariant env command forget n :
  permafollowerInvariant n ->
  permafollowerInvariant (fst (escalateCommand env command forget n)).
Proof.
  intros HI. unfold escalateCommand.
  repeat case_match; simpl; keep_invariant.
Qed.

Lemma sendResponse_invariant command n :
  permafollowerInvariant n ->
  permafollowerInvariant (fst (sendResponse command n)).
Proof.
  intros HI. unfold sendResponse. repeat case_match; simpl; keep_invariant.
Qed.

Lemma broadcast_invariant message peer n :
  isVote message = false ->
  permafollowerInvariant n ->
  permafollowerInvariant (broadcast message peer n).
Proof.
  intros Hm HI. unfold broadcast. case_match; keep_invariant.
Qed.

Lemma peekPeerCommand_invariant db command n :
  permafollowerInvariant n ->
  permafollowerInvariant (fst (peekPeerCommand db command n)).
Proof.
  intros HI. unfold peekPeerCommand, sendMessage.
  repeat case_match; simpl; try keep_invariant.
  apply invariant_updatePeer; [|done].
  intros p. apply appended_deliver; [|apply appended_refl].
  match goal with
  | Hr : _queueSynchronizeStateless _ _ _ _ _ = Returned _ |- _ =>
      apply queueSynchronizeStateless_methodLine in Hr;
      unfold notVote, isVote; simpl; rewrite Hr; reflexivity
  end.
Qed.

(** A follower whose priority is 0 prepares the transaction and keeps
    quiet. *)
Lemma handleBeginTransaction_quiet env db message n :
  _priority n = 0 ->
  fst (fst (handleBeginTransaction env db message n)) = n.
Proof.
  intros Hp. unfold handleBeginTransaction. rewrite Hp.
  change (negb (0 =? 0)) with false.
  repeat case_match; reflexivity.
Qed.

Lemma handleBeginTransaction_invariant env db message n :
  permafollowerInvariant n ->
  fst (fst (handleBeginTransaction env db message n)) = n.
Proof.
  intros HI.
  destruct (State_eqb (_state n) FOLLOWING) eqn:Hs.
  - apply State_eqb_eq in Hs. apply handleBeginTransaction_quiet.
    apply invariant_priority; auto.
  - unfold handleBeginTransaction. rewrite Hs.
    change (negb false) with true. cbv iota.
    repeat case_match; reflexivity.
Qed.

Lemma handleCommitTransaction_invariant env db count hash n :
  permafollowerInvariant n ->
  permafollowerInvariant
    (fst (fst (handleCommitTransaction env db count hash n))).
Proof.
  intros HI. unfold handleCommitTransaction.
  repeat case_match; simpl; keep_invariant.
Qed.

Lemma handleRollbackTransaction_node db message n :
  fst (fst (handleRollbackTransaction db message n)) = n.
Proof. unfold handleRollbackTransaction. repeat case_match; reflexivity. Qed.

Lemma transport_invariant peers n :
  Forall2 transported (peerList n) peers ->
  permafollowerInvariant n -> permafollowerInvariant (with_peerList peers n).
Proof.
  intros Ht (I1 & I2 & I3 & I4 & I5).
  unfold permafollowerInvariant. simpl.
  split; [done|]. split.
  { intros ->. apply Forall2_nil_inv_r in Ht. done. }
  split; [done|]. split; [done|].
  intros p' sock' m Hp' Hsock' Hm.
  apply list_elem_of_lookup in Hp' as [j Hj].
  destruct (Forall2_lookup_r _ _ _ _ _ Ht Hj) as (p & Hp & _ & _ & _ & Hb).
  destruct (Hb sock' Hsock' m Hm) as (sock & Hsock & Hin).
  eapply I5; [|exact Hsock|exact Hin].
  apply list_elem_of_lookup. eauto.
Qed.

(** Every step of the lifetime keeps the invariant. *)
Lemma step_invariant n n' :
  step n n' -> permafollowerInvariant n -> permafollowerInvariant n'.
Proof.
  intros Hstep HI.
  destruct Hstep as
    [env n n' o Hr _ | env i message n n' o Hr _ | i n | env i n
    | consistency n n' o Hr _ | env usToWait n | env n
    | env command forget n n' o Hr _ | command n n' o Hr _
    | message peer n Hm | transaction command n
    | env transaction message n n' handle o Hr _
    | env transaction count hash n n' handle o Hr _
    | transaction message n n' handle o Hr _
    | peers n Ht | db unsent n Hj].
  - pose proof (update_invariant env n HI) as Hu. by rewrite Hr in Hu.
  - pose proof (onMESSAGE_invariant env i message n HI) as Hu.
    by rewrite Hr in Hu.
  - by apply onConnect_invariant.
  - by apply onDisconnect_invariant.
  - unfold startCommit in Hr. repeat case_match; simplify_eq; keep_invariant.
  - unfold beginShutdown. case_match; keep_invariant.
  - by apply shutdownComplete_invariant.
  - pose proof (escalateCommand_invariant env command forget n HI) as Hu.
    by rewrite Hr in Hu.
  - pose proof (sendResponse_invariant command n HI) as Hu.
    by rewrite Hr in Hu.
  - by apply broadcast_invariant.
  - by apply peekPeerCommand_invariant.
  - pose proof (handleBeginTransaction_invariant env
                  (handleOn transaction (_db n)) message n HI) as Hu.
    rewrite Hr in Hu. simpl in Hu. subst n'. unfold publish. keep_invariant.
  - pose proof (handleCommitTransaction_invariant env
                  (handleOn transaction (_db n)) count hash n HI) as Hu.
    rewrite Hr in Hu. simpl in Hu. unfold publish. keep_invariant.
  - pose proof (handleRollbackTransaction_node
                  (handleOn transaction (_db n)) message n) as Hu.
    rewrite Hr in Hu. simpl in Hu. subst n'. unfold publish. keep_invariant.
  - by apply transport_invariant.
  - keep_invariant.
Qed.

Lemma lifetime_invariant n n' :
  lifetime n n' -> permafollowerInvariant n -> permafollowerInvariant n'.
Proof.
  intros Hl. induction Hl as [|n m n' Hstep _ IH]; [done|].
  intros HI. apply IH. by eapply step_invariant.
Qed.

(** C9 (amended). A permafollower is a node configured with priority 0.
    One that has at least one peer never enters STANDINGUP, LEADING or
    STANDINGDOWN, and never puts an APPROVE_TRANSACTION or a
    DENY_TRANSACTION on a socket, all its life (the command server
    broadcasting no vote of its own through it).  With no peer configured
    the node goes LEADING at its first tick, whatever its priority.  The
    three guards: the WAITING case stands up only with a priority above 0; a
    follower of priority 0 that has prepared a replicated transaction sends
    nothing; and a leader never records the vote of a peer configured as
    permafollower: for a vote of the transaction underway it throws
    "permafollowers shouldn't approve/deny", which the handler catches, so
    the handler itself does not raise it. *)
Theorem permafollower_never_leads :
  (∀ n n', permafollowerInvariant n -> lifetime n n' ->
           permafollowerInvariant n')
  ∧ (∀ env name db peers firstTimeout version n',
       peers ≠ [] -> noVoteBuffered peers ->
       lifetime (newNode env name db peers 0 firstTimeout version) n' ->
       _state n' ≠ STANDINGUP ∧ _state n' ≠ LEADING
       ∧ _state n' ≠ STANDINGDOWN ∧ noVoteBuffered (peerList n'))
  ∧ (∀ n scan highestPriorityPeer,
       shouldStandUp n scan highestPriorityPeer = true -> 0 < _priority n)
  ∧ (∀ env db message n,
       _priority n = 0 ->
       fst (fst (handleBeginTransaction env db message n)) = n)
  ∧ (∀ i peer message n,
       permaFollower peer = true ->
       fst (onVote i peer message n) = n
       ∧ snd (onVote i peer message n)
         ≠ Thrown "permafollowers shouldn't approve/deny"
       ∧ ∀ response,
           get message "NewHash" = getUncommittedHash (_db n) ->
           to_string (u64 (_lastSentTransactionID n + 1))
           = get message "ID" ->
           calcU64 (nameValueMap message) "NewCount"
           = u64 (getCommitCount (_db n) + 1) ->
           recordVote i peer message response n
           = (n, Thrown "permafollowers shouldn't approve/deny")).
Proof.
  split; [|split; [|split; [|split]]].
  - intros n n' HI Hl. by apply (lifetime_invariant n n').
  - intros env name db peers firstTimeout version n' Hne Hno Hl.
    apply lifetime_invariant in Hl.
    + destruct Hl as (_ & _ & Hs & _ & Hv).
      unfold notLeading in Hs.
      repeat split; try done;
        intros E; rewrite E in Hs;
        repeat (destruct Hs as [Hs|Hs]; [discriminate|]); discriminate.
    + unfold permafollowerInvariant, notLeading. simpl.
      split; [done|]. split; [done|]. split; [by left|].
      split; [|done]. right. split; [done | by left].
  - intros n scan highestPriorityPeer Hup. unfold shouldStandUp in Hup.
    state_tests. by apply Z.ltb_lt.
  - intros env db message n. apply handleBeginTransaction_quiet.
  - intros i peer message n Hperma.
    assert (Hrec : ∀ response,
              fst (recordVote i peer message response n) = n).
    { intros response. unfold recordVote. rewrite Hperma.
      repeat case_match; reflexivity. }
    split; [|split].
    + unfold onVote.
      repeat (case_match; try reflexivity); simplify_eq;
        match goal with
        | Hr : recordVote _ _ _ ?r _ = _ |- _ =>
            pose proof (Hrec r) as Hn; rewrite Hr in Hn; exact Hn
        end.
    + unfold onVote.
      repeat (case_match; try discriminate); simplify_eq;
        match goal with
        | Hr : recordVote _ _ _ _ _ = _ |- _ =>
            unfold recordVote in Hr; rewrite Hperma in Hr;
            repeat case_match; simplify_eq
        end.
    + intros response Hh Hid Hc. unfold recordVote.
      rewrite Hperma, Hh, Hid, Hc, !String.eqb_refl, Z.eqb_refl.
      reflexivity.
Qed.

End PermafollowerHandlers.

(** * The properties on examples *)

Import Examples.

(** With a local commit count of 2, the peers of latency 0, 7, 3 and 3 that
    are logged in with 9, 5, 4 and 8 commits, and a peer that is not logged
    in: the choice is the fourth, of latency 3 and 8 commits. *)
Lemma updateSyncPeer_chooses_best_witness :
  _syncPeer (_updateSyncPeer (H := Reference.lib) syncNode) = Some 3%nat
  ∧ ∃ best, peerList syncNode !! 3%nat = Some best
            ∧ ∀ p, p ∈ peerList syncNode ->
                test (H := Reference.lib) p "LoggedIn" = true
                ∧ 2 < calcU64 (H := Reference.lib) (Peer.attrs p) "CommitCount" ->
                Peer.latency p ≠ 0 -> 3 <= Peer.latency p.
Proof.
  pose proof (updateSyncPeer_chooses_best (H := Reference.lib) syncNode) as Hc.
  assert (He : _syncPeer (_updateSyncPeer (H := Reference.lib) syncNode)
               = Some 3%nat) by (vm_compute; reflexivity).
  split; [exact He|].
  cbv zeta in Hc. rewrite He in Hc.
  destruct Hc as (best & Hb & _ & Hall).
  exists best. split; [exact Hb|].
  intros p Hp Hu Hl.
  assert (Hlat : Peer.latency best = 3).
  { change (peerList syncNode !! 3%nat) with (syncPeers !! 3%nat) in Hb.
    simpl in Hb. injection Hb as <-. reflexivity. }
  destruct (Hall p Hp Hu) as [H1 _]. specialize (H1 Hl). lia.
Defined.

(** A leader at commit 2 whose transaction reached its quorum commits it:
    one tick later the commit count is 3, not less. *)
Lemma commit_count_one_at_a_time_witness :
  getCommitCount (_db approvedNode)
  <= getCommitCount
       (_db (fst (update (H := Reference.lib) env0 approvedNode))).
Proof.
  apply (proj1 (commit_count_one_at_a_time (H := Reference.lib))
               approvedNode).
  apply rtc_once.
  apply (step_update (H := Reference.lib) env0 approvedNode _
           (snd (update (H := Reference.lib) env0 approvedNode))).
  - apply surjective_pairing.
  - vm_compute. exact I.
Defined.

(** The same leader, with the approval of one of its two full followers
    under QUORUM: nobody denied, one approval is half of the two full peers,
    and the tick ends in SUCCESS. *)
Lemma leader_resolves_commit_witness :
  countOf (denied (H := Reference.lib)) (peerList approvedNode) = 0
  ∧ countOf fullPeer (peerList approvedNode)
    <= 2 * countOf (approved (H := Reference.lib)) (peerList approvedNode)
  ∧ _commitState (fst (update (H := Reference.lib) env0 approvedNode))
    = SUCCESS.
Proof.
  assert (Hd : countOf (denied (H := Reference.lib)) (peerList approvedNode)
               = 0) by (vm_compute; reflexivity).
  assert (He : countOf fullPeer (peerList approvedNode)
               <= 2 * countOf (approved (H := Reference.lib))
                        (peerList approvedNode))
    by (vm_compute; discriminate).
  split; [exact Hd|]. split; [exact He|].
  pose proof (leader_resolves_commit (H := Reference.lib) env0 approvedNode
                (or_introl eq_refl) eq_refl) as Hw.
  cbv zeta in Hw. destruct Hw as (_ & Hw & _).
  destruct Hw as (n1 & _ & _ & _ & _ & _ & _ & Hs & _).
  - split; [exact Hd|]. split; [exact He | reflexivity].
  - exact Hs.
Defined.

(** A node on its own, with three commits and priority 100: after the first
    tick it is LEADING and still has three commits.  Once its graceful
    shutdown has begun, and is complete at once, the tick leaves it as it
    is. *)
Lemma searching_tick_witness :
  _state (fst (update (H := Reference.lib) env0 alone)) = LEADING
  ∧ getCommitCount (_db (fst (update (H := Reference.lib) env0 alone))) = 3
  ∧ fst (update (H := Reference.lib) env0 shuttingDown) = shuttingDown.
Proof.
  pose proof (searching_tick (H := Reference.lib) env0 alone eq_refl) as Hw.
  pose proof (searching_tick (H := Reference.lib) env0 shuttingDown eq_refl)
    as Hd.
  cbv zeta in Hw, Hd. destruct Hw as [_ Hw]. destruct Hd as [Hd _].
  destruct (Hw eq_refl) as [Hw' _].
  destruct (Hw' eq_refl) as (_ & Hs & Hc).
  destruct (Hd eq_refl) as (_ & _ & Hsame & _).
  split; [exact Hs|]. split; [exact Hc|].
  apply Hsame. left. reflexivity.
Defined.

(** The same node once a graceful shutdown has begun: it has no peer, and
    the tick leaves it as it is, in SEARCHING. *)
Lemma searching_tick_halts_in_shutdown :
  _state shuttingDown = SEARCHING
  ∧ peerList shuttingDown = []
  ∧ update (H := Reference.lib) env0 shuttingDown
    = (shuttingDown, Returned false)
  ∧ _state (fst (update (H := Reference.lib) env0 shuttingDown)) ≠ LEADING.
Proof. vm_compute. repeat split; try reflexivity. discriminate. Qed.

(** A WAITING node of priority 10 with one peer, LEADING with priority 100:
    it subscribes. *)
Lemma waiting_tick_subscribes_witness :
  _state (fst (update (H := Reference.lib) env0 (waitingNode [leaderA])))
  = SUBSCRIBING
  ∧ _leadPeer (fst (update (H := Reference.lib) env0 (waitingNode [leaderA])))
    = Some 0%nat.
Proof.
  pose proof (waiting_tick_subscribes (H := Reference.lib) env0
                (waitingNode [leaderA]) 0%nat leaderA eq_refl eq_refl
                eq_refl) as Hw.
  destruct Hw as (_ & Hs & Hl & _).
  - vm_compute. reflexivity.
  - reflexivity.
  - vm_compute. reflexivity.
  - intros j p Hj Hp. destruct j as [|j]; [lia|].
    simpl in Hp. destruct j; discriminate Hp.
  - split; [exact Hs | exact Hl].
Defined.

(** With a second peer after the leader, STANDINGDOWN: the leader is
    logged in, full, LEADING and of higher priority, and yet the node keeps
    WAITING. *)
Lemma waiting_tick_keeps_waiting :
  peerList (waitingNode [leaderA; leaderB]) !! 0%nat = Some leaderA
  ∧ eligible (H := Reference.lib) leaderA = true
  ∧ Peer.state leaderA = LEADING
  ∧ _priority (waitingNode [leaderA; leaderB])
    < calc (H := Reference.lib) (Peer.attrs leaderA) "Priority"
  ∧ update (H := Reference.lib) env0 (waitingNode [leaderA; leaderB])
    = (waitingNode [leaderA; leaderB], Returned false).
Proof. vm_compute. repeat split; reflexivity. Qed.

(** A LOGIN from a peer that is logged in already. *)
Lemma onMESSAGE_checks_login_witness :
  snd (_onMESSAGE (H := Reference.lib) env0 0%nat login approvedNode)
  = Thrown "already logged in".
Proof.
  pose proof (onMESSAGE_checks_login (H := Reference.lib) env0 0%nat login
                approvedNode (follower "f1" 1 false
                                [("TransactionResponse", "approve")]%string)
                eq_refl eq_refl eq_refl) as Hw.
  cbv zeta in Hw. destruct Hw as [Hw _].
  rewrite Hw; [reflexivity | vm_compute; reflexivity | reflexivity].
Defined.

(** The second full follower approves the transaction underway: its vote is
    recorded. *)
Lemma vote_recorded_when_current_witness :
  _onMESSAGE (H := Reference.lib) env0 1%nat (vote "APPROVE_TRANSACTION")
             (leaderNode [])
  = (updatePeer 1%nat (setAttr "TransactionResponse" "approve")
       (updatePeer 1%nat (recordCommit (vote "APPROVE_TRANSACTION"))
                   (leaderNode [])),
     Returned tt).
Proof.
  pose proof (vote_recorded_when_current (H := Reference.lib) env0 1%nat
                (vote "APPROVE_TRANSACTION") (leaderNode [])
                (follower "f2" 2 false [])
                eq_refl eq_refl eq_refl) as Hw.
  destruct Hw as [_ Hw].
  - vm_compute. reflexivity.
  - vm_compute. reflexivity.
  - reflexivity.
  - reflexivity.
  - reflexivity.
  - destruct (Hw (or_introl eq_refl)) as [Hrec _].
    apply Hrec. vm_compute. repeat split; reflexivity.
Defined.

(** The permafollower of the same leader votes on the transaction underway,
    with the right count: the handler returns, no error is raised, and the
    vote is not recorded. *)
Lemma permafollower_vote_raises_nothing :
  permaFollower (follower "p" 3 true []) = true
  ∧ peerList (leaderNode []) !! 2%nat = Some (follower "p" 3 true [])
  ∧ _onMESSAGE (H := Reference.lib) env0 2%nat (vote "APPROVE_TRANSACTION")
               (leaderNode [])
    = (updatePeer 2%nat (recordCommit (vote "APPROVE_TRANSACTION"))
                  (leaderNode []),
       Returned tt).
Proof. vm_compute. repeat split; reflexivity. Qed.

(** A permafollower with one peer, after its first tick. *)
Lemma permafollower_never_leads_witness :
  _state (fst (update (H := Reference.lib) env0 permafollowerNode))
  ≠ LEADING.
Proof.
  pose proof (proj1 (proj2 (permafollower_never_leads (H := Reference.lib)))
                env0 "node"%string (database 0)
                [peer "a" 1 false (loggedIn "0" "100") WAITING 0] 5000
                "v1"%string
                (fst (update (H := Reference.lib) env0 permafollowerNode)))
    as Hw.
  destruct Hw as (_ & Hl & _).
  - discriminate.
  - intros p sock m Hp Hs Hm. apply list_elem_of_singleton in Hp. subst p.
    simpl in Hs. injection Hs as <-. simpl in Hm.
    by apply elem_of_nil in Hm.
  - apply rtc_once.
    apply (step_update (H := Reference.lib) env0 permafollowerNode _
             (snd (update (H := Reference.lib) env0 permafollowerNode))).
    + apply surjective_pairing.
    + vm_compute. exact I.
  - exact Hl.
Defined.

(** A node configured with priority 0 and no peer: its first tick makes it
    LEADING. *)
Lemma permafollower_alone_leads :
  _originalPriority permafollowerAlone = 0
  ∧ lifetime (H := Reference.lib) permafollowerAlone
      (fst (update (H := Reference.lib) env0 permafollowerAlone))
  ∧ _state (fst (update (H := Reference.lib) env0 permafollowerAlone))
    = LEADING.
Proof.
  split; [reflexivity|]. split; [|vm_compute; reflexivity].
  apply rtc_once.
  apply (step_update (H := Reference.lib) env0 permafollowerAlone _
           (snd (update (H := Reference.lib) env0 permafollowerAlone))).
  - apply surjective_pairing.
  - vm_compute. exact I.
Qed.

(** C4. The responder of a SYNCHRONIZE, for a requester without commits, a
    journal of 150 commits that is also the target, and [sendAll] unset:
    the response announces 101 commits and carries 101 COMMIT messages, of
    the indexes 1 to 101, where "100 transactions at a time" are meant. *)
Theorem queueSynchronize_sends_101 :
  match
    _queueSynchronizeStateless (H := Reference.lib) requester 150
      (database 150) (newSData "SYNCHRONIZE_RESPONSE") false
  with
  | Returned response =>
      get response "NumCommits" = "101"%string
      ∧ length (partsOf response) = 101%nat
      ∧ last (partsOf response)
        = Some (commitPart (H := Reference.lib) 101
                  ("h101"%string, "q101"%string))
  | _ => False
  end.
Proof. vm_compute. repeat split; reflexivity. Qed.

(** * Changes of state *)

Section StateChanges.
Context `{Libstuff}.

Lemma sendOutstandingTransactions_leaderVersion env n :
  _leaderVersion (_sendOutstandingTransactions env n) = _leaderVersion n.
Proof. so_field. Qed.

Lemma sendOutstandingTransactions_unsent env n :
  unsentTransactions (_sendOutstandingTransactions env n) = false.
Proof.
  unfold _sendOutstandingTransactions.
  destruct (unsentTransactions n) eqn:E; simpl; done.
Qed.

Lemma sendOutstandingTransactions_transaction env n :
  insideTransaction (_db (_sendOutstandingTransactions env n))
  = insideTransaction (_db n)
  ∧ getUncommittedHash (_db (_sendOutstandingTransactions env n))
    = getUncommittedHash (_db n)
  ∧ getUncommittedQuery (_db (_sendOutstandingTransactions env n))
    = getUncommittedQuery (_db n).
Proof.
  unfold _sendOutstandingTransactions. case_match; simpl; [done|].
  rewrite !(fold_sendOutstanding_field (fun n => insideTransaction (_db n))),
    !(fold_sendOutstanding_field (fun n => getUncommittedHash (_db n))),
    !(fold_sendOutstanding_field (fun n => getUncommittedQuery (_db n)));
    try done; intros; unfold sendOutstanding; case_match; reflexivity.
Qed.

(** What leaving the lead does to a commit in progress. *)
Lemma stops_leading_commit (env : Env) (s : State) (n : SQLiteNode) :
  _state n = LEADING ∨ _state n = STANDINGDOWN ->
  s ≠ LEADING -> s ≠ STANDINGDOWN ->
  commitInProgress n = true ->
  let n' := _changeState env s n in
  _commitState n' = FAILED
  ∧ insideTransaction (_db n') = false
  ∧ getUncommittedHash (_db n') = ""%string
  ∧ getUncommittedQuery (_db n') = ""%string.
Proof.
  intros Hs Hs1 Hs2 Hc n'. subst n'. unfold _changeState.
  assert (Hne : State_eqb s (_state n) = false)
    by (apply State_eqb_neq; destruct Hs as [-> | ->]; done).
  assert (Hold : SWITHIN LEADING (_state n) STANDINGDOWN = true)
    by (destruct Hs as [-> | ->]; reflexivity).
  assert (Hnew : SWITHIN LEADING s STANDINGDOWN = false)
    by (destruct s; done).
  assert (Hf : State_eqb (_state n) FOLLOWING = false)
    by (destruct Hs as [-> | ->]; reflexivity).
  rewrite Hne, Hf; simpl; rewrite Hold, Hnew; simpl.
  assert (He : ∀ m, _db (enterState env s m) = _db m
                    ∧ _commitState (enterState env s m) = _commitState m).
  { intros m. unfold enterState. destruct s; try done. by case_match. }
  match goal with
  | |- context [enterState env s ?m] => destruct (He m) as [-> ->]
  end.
  assert (Hstop : ∀ m, commitInProgress m = true ->
            _commitState (stopLeading env m) = FAILED
            ∧ insideTransaction (_db (stopLeading env m)) = false
            ∧ getUncommittedHash (_db (stopLeading env m)) = ""%string
            ∧ getUncommittedQuery (_db (stopLeading env m)) = ""%string).
  { intros m Hm. unfold stopLeading.
    change (commitInProgress (with_leaderVersion "" m))
      with (commitInProgress m). rewrite Hm.
    rewrite sendOutstandingTransactions_commitState.
    match goal with
    | |- context [_sendOutstandingTransactions env ?k] =>
        destruct (sendOutstandingTransactions_transaction env k)
          as (-> & -> & ->)
    end. done. }
  case_match; simpl; apply Hstop; exact Hc.
Qed.

(** X1. A node that leaves LEADING or STANDINGDOWN for a state in which it
    does not lead forgets the leader's version, and abandons the commit that
    was in progress, if any: the commit state is FAILED and the open
    transaction is rolled back, the journal being what it was.  Without a
    commit in progress the commit state stays.  In both cases no committed
    transaction is left unsent. *)
Theorem changeState_stops_leading (env : Env) (s : State) (n : SQLiteNode) :
  _state n = LEADING ∨ _state n = STANDINGDOWN ->
  s ≠ LEADING -> s ≠ STANDINGDOWN ->
  let n' := _changeState env s n in
  _state n' = s
  ∧ _leaderVersion n' = ""%string
  ∧ unsentTransactions n' = false
  ∧ journal (_db n') = journal (_db n)
  ∧ (commitInProgress n = true ->
     _commitState n' = FAILED
     ∧ insideTransaction (_db n') = false
     ∧ getUncommittedHash (_db n') = ""%string
     ∧ getUncommittedQuery (_db n') = ""%string)
  ∧ (commitInProgress n = false -> _commitState n' = _commitState n).
Proof.
  intros Hs Hs1 Hs2 n'.
  split; [apply changeState_state|].
  split; [|split; [|split; [apply changeState_journal|]]].
  3: split; [by apply stops_leading_commit
            | by apply changeState_commitState].
  all: subst n'; unfold _changeState.
  all: assert (Hne : State_eqb s (_state n) = false)
         by (apply State_eqb_neq; destruct Hs as [-> | ->]; done).
  all: rewrite Hne.
  all: assert (Hold : SWITHIN LEADING (_state n) STANDINGDOWN = true)
         by (destruct Hs as [-> | ->]; reflexivity).
  all: assert (Hnew : SWITHIN LEADING s STANDINGDOWN = false)
         by (destruct s; done).
  all: assert (Hf : State_eqb (_state n) FOLLOWING = false)
         by (destruct Hs as [-> | ->]; reflexivity).
  all: rewrite Hf; simpl; rewrite Hold, Hnew; simpl.
  - assert (He : ∀ m, _leaderVersion (enterState env s m) = _leaderVersion m)
      by es_field.
    rewrite He. case_match; simpl; unfold stopLeading;
      rewrite sendOutstandingTransactions_leaderVersion;
      by case_match.
  - assert (He : ∀ m, unsentTransactions (enterState env s m)
                      = unsentTransactions m).
    { intros m. unfold enterState. destruct s; try done. by case_match. }
    rewrite He. case_match; simpl; unfold stopLeading;
      by rewrite sendOutstandingTransactions_unsent.
Qed.

Lemma get_set_eq name value m : get (set name value m) name = value.
Proof. unfold get, set, valueOf. simpl. by rewrite lookup_insert_eq. Qed.

Lemma get_set_ne name name' value m :
  name ≠ name' -> get (set name value m) name' = get m name'.
Proof.
  intros Hne. unfold get, set, valueOf. simpl.
  by rewrite lookup_insert_ne.
Qed.

Lemma isSet_set_ne name name' value m :
  name ≠ name' -> isSet (set name value m) name' = isSet m name'.
Proof.
  intros Hne. unfold isSet, set. simpl. by rewrite lookup_insert_ne.
Qed.

Lemma isSet_set_eq name value m : isSet (set name value m) name = true.
Proof.
  unfold isSet, set. simpl. rewrite lookup_insert_eq.
  apply bool_decide_eq_true. eauto.
Qed.

(** What [_sendToAllPeers] leaves at the end of the send buffer of every
    peer that is connected, when it sends to all. *)
Lemma sendToAllPeers_last message n p' sock' :
  p' ∈ peerList (_sendToAllPeers message false n) ->
  Peer.s p' = Some sock' ->
  last (sendBuffer sock') = Some (broadcastCopy (_db n) message).
Proof.
  unfold _sendToAllPeers. simpl. intros Hp Hs.
  apply list_elem_of_fmap in Hp as (p & -> & _).
  unfold receives in Hs. simpl in Hs.
  destruct (Peer.s p) as [sock|] eqn:Es.
  - rewrite bool_decide_eq_true_2 in Hs by eauto. simpl in Hs.
    unfold deliver in Hs. rewrite Es in Hs. simpl in Hs.
    injection Hs as <-. simpl. apply last_snoc.
  - rewrite bool_decide_eq_false_2 in Hs by (intros [? ?]; done).
    simpl in Hs. congruence.
Qed.

(** X2. A change to the state the node is in already does nothing at all.
    A real change counts as one more state change and is announced to every
    connected peer, logged in or not: the last message on its socket is a
    STATE with the name of the new state, the new count of state changes,
    the priority the node has from now on, and its commit count and hash. *)
Theorem changeState_announces (env : Env) (s : State) (n : SQLiteNode) :
  (s = _state n -> _changeState env s n = n)
  ∧ (s ≠ _state n ->
     let n' := _changeState env s n in
     _state n' = s
     ∧ _stateChangeCount n' = _stateChangeCount n + 1
     ∧ ∀ p' sock', p' ∈ peerList n' -> Peer.s p' = Some sock' ->
         ∃ m, last (sendBuffer sock') = Some m
              ∧ methodLine m = "STATE"%string
              ∧ get m "State" = stateName s
              ∧ get m "StateChangeCount"
                = to_string (_stateChangeCount n + 1)
              ∧ get m "Priority" = to_string (_priority n')
              ∧ get m "CommitCount" = to_string (getCommitCount (_db n'))
              ∧ get m "Hash" = getCommittedHash (_db n')).
Proof.
  split.
  - intros ->. unfold _changeState. by rewrite State_eqb_refl.
  - intros Hne n'. split; [apply changeState_state|].
    apply State_eqb_neq in Hne. subst n'. unfold _changeState.
    rewrite Hne.
    set (n5 := enterState env s _).
    assert (Hcount : _stateChangeCount n5 = _stateChangeCount n).
    { subst n5.
      assert (He : ∀ m, _stateChangeCount (enterState env s m)
                        = _stateChangeCount m) by es_field.
      assert (Hso : ∀ m, _stateChangeCount (_sendOutstandingTransactions env m)
                         = _stateChangeCount m) by so_field.
      assert (Hsl : ∀ m, _stateChangeCount (stopLeading env m)
                         = _stateChangeCount m) by sl_field Hso.
      rewrite He. repeat (case_match; simpl); rewrite ?Hsl; done. }
    clearbody n5.
    split; [unfold _sendToAllPeers; simpl; by rewrite Hcount|].
    intros p' sock' Hp Hs.
    eexists. split; [by eapply sendToAllPeers_last|].
    unfold broadcastCopy, _sendToAllPeers. simpl.
    rewrite !isSet_set_ne by done.
    change (isSet (newSData "STATE") "CommitCount") with false.
    cbv iota.
    rewrite isSet_set_ne by done. rewrite !isSet_set_ne by done.
    change (isSet (newSData "STATE") "Hash") with false.
    cbv iota. rewrite Hcount.
    split; [done|].
    split; [by rewrite !get_set_ne, get_set_eq by done|].
    split; [by rewrite !get_set_ne, get_set_eq by done|].
    split; [by rewrite !get_set_ne, get_set_eq by done|].
    split; [by rewrite !get_set_ne, get_set_eq by done|].
    by rewrite get_set_eq.
Qed.

End StateChanges.

(** * Standing up *)

Section StandingUp.
Context `{Libstuff}.

Lemma standingUpLoop_scan peers :
  ∀ acc,
    standingUpLoop peers acc
    = if existsb standupRefused peers then None
      else Some (mkStandingUpScan
                   (uAllResponded acc
                    && forallb (fun p => negb (standupPending p)) peers)
                   (uNumFullPeers acc + countOf fullPeer peers)
                   (uNumLoggedInFullPeers acc + countOf eligible peers)).
Proof.
  induction peers as [|p peers IH]; intros acc; simpl.
  - unfold countOf. simpl. rewrite andb_true_r, !Z.add_0_r.
    by destruct acc.
  - rewrite !countOf_cons.
    assert (Hf : fullPeer p = negb (permaFollower p)) by done.
    assert (He : eligible p
                 = negb (permaFollower p)
                   && SIEquals (attr p "LoggedIn") "true") by done.
    assert (Hr : standupRefused p
                 = eligible p && peerIsSet p "StandupResponse"
                   && negb (SIEquals (attr p "StandupResponse") "approve"))
      by done.
    assert (Hp : standupPending p
                 = eligible p && negb (peerIsSet p "StandupResponse"))
      by done.
    rewrite Hr, Hp, He, Hf.
    destruct (permaFollower p),
      (SIEquals (attr p "LoggedIn") "true"),
      (peerIsSet p "StandupResponse"),
      (SIEquals (attr p "StandupResponse") "approve");
      simpl; try done; rewrite IH; (case_match; [done|]); simpl;
      rewrite ?andb_false_r; do 2 f_equal; lia.
Qed.

(** X3. A tick in STANDINGUP.  Under a graceful shutdown the node gives up
    and goes SEARCHING.  So it does as soon as one logged-in full peer has
    answered the stand-up with something else than approve.  Otherwise it
    goes LEADING, under its own version, once every logged-in full peer has
    answered and at least half of the full peers are logged in; until then
    it waits, and when the state timeout has passed it shuts down the
    connections to all its peers and goes SEARCHING. *)
Theorem standingup_tick (env : Env) (n : SQLiteNode) :
  _state n = STANDINGUP ->
  let peers := peerList n in
  let refused := ∃ p, p ∈ peers ∧ standupRefused p = true in
  let ready :=
    (∀ p, p ∈ peers -> standupPending p = false)
    ∧ countOf fullPeer peers <= 2 * countOf eligible peers in
  (gracefulShutdown n = true ∨ refused ->
   update env n = (_changeState env SEARCHING n, Returned true)
   ∧ _state (fst (update env n)) = SEARCHING)
  ∧ (gracefulShutdown n = false -> ¬ refused -> ready ->
     update env n
     = (with_leaderVersion (_version (_changeState env LEADING n))
          (_changeState env LEADING n), Returned true)
     ∧ _state (fst (update env n)) = LEADING
     ∧ _leaderVersion (fst (update env n)) = _version n)
  ∧ (gracefulShutdown n = false -> ¬ refused -> ¬ ready ->
     update env n
     = if _stateTimeout n <? STimeNow env
       then (_changeState env SEARCHING (_reconnectAll n), Returned true)
       else (n, Returned false)).
Proof.
  intros Hs peers refused ready.
  assert (Hu : update env n = updateSTANDINGUP env n)
    by (unfold update; by rewrite Hs).
  rewrite Hu. unfold updateSTANDINGUP.
  rewrite standingUpLoop_scan. fold peers. simpl.
  assert (Hrefused : existsb standupRefused peers = true <-> refused).
  { rewrite existsb_exists. unfold refused. split.
    - intros (p & Hp & Hr). exists p. split; [|done].
      by apply list_elem_of_In.
    - intros (p & Hp & Hr). exists p. split; [|done].
      by apply list_elem_of_In. }
  assert (Hready :
            forallb (fun p => negb (standupPending p)) peers
            && (countOf fullPeer peers <=? countOf eligible peers * 2) = true
            <-> ready).
  { rewrite andb_true_iff, forallb_forall, Z.leb_le. unfold ready.
    split; intros [Ha Hb]; (split; [|lia]); intros p Hp.
    - apply list_elem_of_In in Hp. specialize (Ha p Hp).
      by apply negb_true_iff in Ha.
    - apply list_elem_of_In in Hp. rewrite (Ha p Hp). done. }
  split; [|split].
  - intros Hor.
    assert (Hgoal : ∀ r, r = (_changeState env SEARCHING n, Returned true) ->
              r = (_changeState env SEARCHING n, Returned true)
              ∧ _state (fst r) = SEARCHING).
    { intros r ->. split; [done | apply changeState_state]. }
    apply Hgoal. destruct (gracefulShutdown n); [done|].
    destruct Hor as [? | Hr]; [done|].
    apply Hrefused in Hr. by rewrite Hr.
  - intros Hg Hnr Hr. rewrite Hg.
    destruct (existsb standupRefused peers) eqn:E;
      [exfalso; by apply Hnr, Hrefused|].
    apply Hready in Hr.
    cbn [uAllResponded uNumFullPeers uNumLoggedInFullPeers andb].
    rewrite !Z.add_0_l, Hr.
    split; [done|]. simpl. split; [apply changeState_state|].
    assert (Hv : ∀ s m, _version (_changeState env s m) = _version m).
    { assert (Hso : ∀ m, _version (_sendOutstandingTransactions env m)
                         = _version m) by so_field.
      assert (Hsl : ∀ m, _version (stopLeading env m) = _version m)
        by sl_field Hso.
      assert (He : ∀ s m, _version (enterState env s m) = _version m)
        by es_field.
      cs_field He Hsl. }
    apply Hv.
  - intros Hg Hnr Hr. rewrite Hg.
    destruct (existsb standupRefused peers) eqn:E;
      [exfalso; by apply Hnr, Hrefused|].
    cbn [uAllResponded uNumFullPeers uNumLoggedInFullPeers andb].
    rewrite !Z.add_0_l.
    destruct (forallb _ peers && _) eqn:E2;
      [exfalso; by apply Hr, Hready|].
    done.
Qed.

End StandingUp.

Section WaitingStandsUp.
Context `{Libstuff}.

(** X4. A tick in WAITING.  Under a graceful shutdown it does nothing.
    Otherwise, when no logged-in full peer is STANDINGUP, LEADING or
    STANDINGDOWN: the node goes back to SEARCHING if no full peer is logged
    in, or if one of them has more commits than the node.  Otherwise it
    stands up exactly when at least half of the full peers are logged in,
    its own priority is above 0 and above the priority of every logged-in
    full peer: it forgets the answers to earlier stand-ups and goes
    STANDINGUP.  In all other cases it keeps waiting, unchanged. *)
Theorem waiting_tick_stands_up (env : Env) (n : SQLiteNode) :
  _state n = WAITING ->
  let peers := peerList n in
  let count := getCommitCount (_db n) in
  let commits := fun p => calcU64 (Peer.attrs p) "CommitCount" in
  let priority := fun p => calc (Peer.attrs p) "Priority" in
  (gracefulShutdown n = true -> update env n = (n, Returned false))
  ∧ (gracefulShutdown n = false ->
     (∀ p, p ∈ peers -> eligible p && leaderLike p = false) ->
     ((∀ p, p ∈ peers -> eligible p = false)
      ∨ (∃ p, p ∈ peers ∧ eligible p = true ∧ count < commits p) ->
      update env n = (_changeState env SEARCHING n, Returned true)
      ∧ _state (fst (update env n)) = SEARCHING)
     ∧ ((∃ p, p ∈ peers ∧ eligible p = true) ->
        (∀ p, p ∈ peers -> eligible p = true -> commits p <= count) ->
        let standUp :=
          countOf fullPeer peers <= 2 * countOf eligible peers
          ∧ 0 < _priority n
          ∧ ∀ p, p ∈ peers -> eligible p = true ->
                 priority p < _priority n in
        (standUp ->
         update env n
         = (_changeState env STANDINGUP
              (with_peerList (map (eraseAttr "StandupResponse") peers) n),
            Returned true)
         ∧ _state (fst (update env n)) = STANDINGUP)
        ∧ (¬ standUp -> update env n = (n, Returned false)))).
Proof.
  intros Hs peers count commits priority.
  assert (Hu : update env n = updateWAITING env n)
    by (unfold update; by rewrite Hs).
  rewrite Hu. unfold updateWAITING.
  split; [by intros ->|].
  intros Hg Hnone. rewrite Hg.
  destruct (waitingScan_spec n) as (Hfull & Hlogged & Hhigh & Hfresh & Hcur).
  fold peers in Hfull, Hlogged, Hhigh, Hfresh, Hcur.
  assert (Hleader : wCurrentLeader (waitingScan n) = None).
  { destruct (wCurrentLeader (waitingScan n)) as [[k cur]|]; [|done].
    destruct Hcur as (Hk & Hc & _).
    rewrite Hnone in Hc; [done|]. apply list_elem_of_lookup. eauto. }
  assert (Hgoal : ∀ r, r = (_changeState env SEARCHING n, Returned true) ->
            r = (_changeState env SEARCHING n, Returned true)
            ∧ _state (fst r) = SEARCHING).
  { intros r ->. split; [done | apply changeState_state]. }
  split.
  - intros Hor. apply Hgoal.
    destruct (wHighestPriorityPeer (waitingScan n)) as [[ih high]|]; [|done].
    destruct Hhigh as (Hih & Heh & _).
    destruct Hor as [Hno | (p & Hp & Hpe & Hmore)].
    { rewrite Hno in Heh; [done|]. apply list_elem_of_lookup. eauto. }
    destruct (wFreshestPeer (waitingScan n)) as [[jf fresh]|].
    2: { simpl in Hfresh. rewrite (Hfresh p Hp) in Hpe. done. }
    destruct Hfresh as (_ & _ & Hmax). specialize (Hmax p Hp Hpe).
    unfold leaderToFollow. rewrite Hleader.
    assert (Hlt : (getCommitCount (_db n)
                   <? calcU64 (Peer.attrs fresh) "CommitCount") = true).
    { apply Z.ltb_lt. unfold count, commits in Hmore. simpl in Hmax. lia. }
    by rewrite Hlt.
  - intros (p & Hp & Hpe) Hall.
    match goal with |- (?S -> _) ∧ _ => set (standUp := S) end.
    destruct (wHighestPriorityPeer (waitingScan n)) as [[ih high]|].
    2: { simpl in Hhigh. rewrite (Hhigh p Hp) in Hpe. done. }
    destruct Hhigh as (Hih & Heh & Hmaxp).
    destruct (wFreshestPeer (waitingScan n)) as [[jf fresh]|].
    2: { simpl in Hfresh. rewrite (Hfresh p Hp) in Hpe. done. }
    destruct Hfresh as (Hjf & Hef & _).
    unfold leaderToFollow. rewrite Hleader.
    assert (Hnlt : (getCommitCount (_db n)
                    <? calcU64 (Peer.attrs fresh) "CommitCount") = false).
    { apply Z.ltb_ge. apply Hall; [|done]. apply list_elem_of_lookup. eauto. }
    rewrite Hnlt.
    assert (Hup : shouldStandUp n (waitingScan n) high = true <-> standUp).
    { unfold shouldStandUp, standUp. rewrite Hleader, Hfull, Hlogged.
      rewrite !andb_true_iff, Z.leb_le, !Z.ltb_lt. simpl.
      split.
      - intros [[[_ H1] H2] H3]. split; [lia|]. split; [done|].
        intros q Hq Hqe. specialize (Hmaxp q Hq Hqe). simpl in Hmaxp.
        unfold priority. lia.
      - intros (H1 & H2 & H3). repeat split; try done; try lia.
        apply H3; [|done]. apply list_elem_of_lookup. eauto. }
    split.
    + intros Hst. apply Hup in Hst. rewrite Hst.
      split; [done | apply changeState_state].
    + intros Hst. destruct (shouldStandUp n (waitingScan n) high) eqn:E;
        [exfalso; by apply Hst, Hup | done].
Qed.

End WaitingStandsUp.

Section StandupResponse.
Context `{Libstuff}.

(** X21. A STANDUP_RESPONSE.  Out of STANDINGUP it is ignored, and so is, in
    STANDINGUP, one whose StateChangeCount is not the node's: an answer to an
    earlier attempt.  Otherwise one without Response is an error, and the
    Response of any other is recorded as the peer's StandupResponse, also
    over an earlier one.  When the peer is a logged-in full peer and the
    Response is not approve, the next tick ends the attempt: the node goes
    SEARCHING. *)
Theorem standup_response_recorded (env : Env) (i : nat) (peer : Peer)
  (message : SData) (n : SQLiteNode) :
  peerList n !! i = Some peer ->
  let stale :=
    isSet message "StateChangeCount" = true
    ∧ calc (nameValueMap message) "StateChangeCount" ≠ _stateChangeCount n in
  let r := onSTANDUP_RESPONSE i message n in
  (_state n ≠ STANDINGUP ∨ stale -> r = (n, Returned tt))
  ∧ (_state n = STANDINGUP -> ¬ stale ->
     (isSet message "Response" = false -> r = (n, Thrown "missing Response"))
     ∧ (isSet message "Response" = true ->
        snd r = Returned tt
        ∧ _state (fst r) = STANDINGUP
        ∧ peerList (fst r) !! i
          = Some (setAttr "StandupResponse" (get message "Response") peer)
        ∧ (∀ j, j ≠ i -> peerList (fst r) !! j = peerList n !! j)
        ∧ (eligible peer = true ->
           SIEquals (get message "Response") "approve" = false ->
           update env (fst r)
           = (_changeState env SEARCHING (fst r), Returned true)
           ∧ _state (fst (update env (fst r))) = SEARCHING))).
Proof.
  intros Hp stale r. subst r. unfold onSTANDUP_RESPONSE. split.
  - intros [Hs | [Hset Hne]].
    + apply State_eqb_neq in Hs. by rewrite Hs.
    + destruct (State_eqb (_state n) STANDINGUP); [|done].
      apply Z.eqb_neq in Hne. by rewrite Hset, Hne.
  - intros Hs Hfresh. rewrite Hs.
    change (State_eqb STANDINGUP STANDINGUP) with true. cbv iota.
    assert (E : isSet message "StateChangeCount"
                && negb (calc (nameValueMap message) "StateChangeCount"
                         =? _stateChangeCount n) = false).
    { apply not_true_is_false. intros [E1 E2]%andb_true_iff.
      apply Hfresh. split; [done|].
      apply negb_true_iff in E2. by apply Z.eqb_neq. }
    rewrite E. split.
    + by intros ->.
    + intros ->. simpl.
      set (peer' := setAttr "StandupResponse" (get message "Response") peer).
      set (n' := updatePeer i (setAttr "StandupResponse"
                                 (get message "Response")) n).
      assert (Hp' : peerList n' !! i = Some peer')
        by (by apply updatePeer_lookup).
      split; [done|]. split; [done|]. split; [done|].
      split.
      { intros j Hj. unfold n', updatePeer. simpl.
        by rewrite list_lookup_alter_ne. }
      intros He Hdeny.
      assert (Hs' : _state n' = STANDINGUP) by exact Hs.
      assert (Hu : update env n' = updateSTANDINGUP env n')
        by (unfold update; by rewrite Hs').
      rewrite Hu. unfold updateSTANDINGUP.
      destruct (gracefulShutdown n');
        [split; [done | apply changeState_state]|].
      rewrite standingUpLoop_scan.
      assert (Hex : existsb standupRefused (peerList n') = true).
      { apply existsb_exists. exists peer'. split.
        - apply list_elem_of_In, list_elem_of_lookup. eauto.
        - unfold standupRefused.
          assert (E1 : eligible peer' = eligible peer).
          { unfold eligible, peer'. by rewrite attr_setAttr_ne. }
          assert (E2 : peerIsSet peer' "StandupResponse" = true).
          { unfold peerIsSet, peer', setAttr. simpl.
            rewrite lookup_insert_eq. by apply bool_decide_eq_true_2. }
          assert (E3 : attr peer' "StandupResponse"
                       = get message "Response")
            by apply attr_setAttr_eq.
          by rewrite E1, E2, E3, He, Hdeny. }
      rewrite Hex. split; [done | apply changeState_state].
Qed.

End StandupResponse.

(** * Answers to the messages of a peer *)

Section StandupAnswers.
Context `{Libstuff}.

Lemma contestedBy_spec i peers :
  match contestedBy i peers with
  | Some other =>
      ∃ j, j ≠ i ∧ peers !! j = Some other ∧ leaderLike other = true
  | None => ∀ j p, j ≠ i -> peers !! j = Some p -> leaderLike p = false
  end.
Proof.
  unfold contestedBy.
  destruct (find _ (imap pair peers)) as [[j other]|] eqn:E; simpl.
  - apply find_some in E as [Hin Hb]. simpl in Hb.
    apply andb_true_iff in Hb as [Hj Hl].
    apply list_elem_of_In, elem_of_lookup_imap in Hin
      as (k & p & Heq & Hk). simplify_eq.
    exists k. split; [|done].
    apply negb_true_iff, Nat.eqb_neq in Hj. done.
  - intros j p Hj Hp.
    pose proof (find_none _ _ E (j, p)) as Hn. simpl in Hn.
    assert (Hin : In (j, p) (imap pair peers)).
    { apply list_elem_of_In, elem_of_lookup_imap. eauto. }
    specialize (Hn Hin). apply andb_false_iff in Hn as [Hn | Hn]; [|done].
    apply negb_false_iff, Nat.eqb_eq in Hn. done.
Qed.

(** X5. The answer to a peer that announces STANDINGUP, from a node that is
    not itself STANDINGUP, LEADING or STANDINGDOWN.  The node stays as it
    is and sends the peer one STANDUP_RESPONSE that repeats the
    StateChangeCount of the announcement.  Its Response is deny when another
    peer is STANDINGUP, LEADING or STANDINGDOWN, and approve otherwise: also
    for a peer configured as permafollower, whose approval still carries the
    Reason "You're a permafollower". *)
Theorem standup_answer (env : Env) (i : nat) (peer : Peer) (message : SData)
  (n : SQLiteNode) :
  SWITHIN STANDINGUP (_state n) STANDINGDOWN = false ->
  let contested :=
    ∃ j p, j ≠ i ∧ peerList n !! j = Some p ∧ leaderLike p = true in
  ∃ response,
    onPeerStandingUp env i peer message n = _sendToPeer i response n
    ∧ methodLine response = "STANDUP_RESPONSE"%string
    ∧ get response "StateChangeCount" = get message "StateChangeCount"
    ∧ (contested -> get response "Response" = "deny"%string)
    ∧ (¬ contested ->
       get response "Response" = "approve"%string
       ∧ (permaFollower peer = true ->
          get response "Reason" = "You're a permafollower"%string)).
Proof.
  intros Hs contested. unfold onPeerStandingUp. rewrite Hs.
  pose proof (contestedBy_spec i (peerList n)) as Hc.
  destruct (contestedBy i (peerList n)) as [other|].
  - destruct Hc as (j & Hj & Hp & Hl).
    eexists. split; [reflexivity|].
    split; [by destruct (permaFollower peer)|].
    split.
    { rewrite !get_set_ne by done.
      destruct (permaFollower peer);
        rewrite ?get_set_ne by done; apply get_set_eq. }
    split.
    + intros _. rewrite get_set_ne by done. apply get_set_eq.
    + intros Hn. exfalso. apply Hn. exists j, other. done.
  - eexists. split; [reflexivity|].
    split; [by destruct (permaFollower peer)|].
    split.
    { rewrite !get_set_ne by done.
      destruct (permaFollower peer);
        rewrite ?get_set_ne by done; apply get_set_eq. }
    split.
    + intros (j & p & Hj & Hp & Hl). rewrite (Hc j p Hj Hp) in Hl. done.
    + intros _. split; [apply get_set_eq|].
      intros ->. rewrite get_set_ne by done. apply get_set_eq.
Qed.

Lemma majoritySubscribed_counts n :
  _majoritySubscribed n
  = (countOf fullPeer (peerList n)
     <=? countOf fullSubscribed (peerList n) * 2).
Proof.
  unfold _majoritySubscribed.
  assert (Hfold : ∀ l a b,
            fold_left
              (fun (acc : Z * Z) peer =>
                 let '(numFullPeers, numFullFollowers) := acc in
                 if negb (permaFollower peer) then
                   (numFullPeers + 1,
                    if test peer "Subscribed" then numFullFollowers + 1
                    else numFullFollowers)
                 else acc) l (a, b)
            = (a + countOf fullPeer l, b + countOf fullSubscribed l)).
  { induction l as [|p l IH]; intros a b; simpl.
    - unfold countOf. simpl. f_equal; lia.
    - rewrite !countOf_cons.
      assert (Hs : fullSubscribed p = fullPeer p && test p "Subscribed")
        by done.
      assert (Hf : fullPeer p = negb (permaFollower p)) by done.
      rewrite Hs, Hf.
      destruct (permaFollower p); simpl; rewrite IH.
      + f_equal; lia.
      + destruct (test p "Subscribed"); simpl; f_equal; lia. }
  rewrite Hfold. simpl. done.
Qed.

(** X6. The answer of a node that is STANDINGUP, LEADING or STANDINGDOWN to
    a peer that announces STANDINGUP.  To a peer of higher priority the node
    yields: from STANDINGUP it goes SEARCHING, from LEADING it goes
    STANDINGDOWN, and in STANDINGDOWN it continues.  To any other peer it
    answers deny with the Reason "I am leading"; it then stays as it is if
    at least half of the full peers are subscribed to it, and otherwise
    shuts its connections down and goes SEARCHING. *)
Theorem standup_answer_of_leader (env : Env) (i : nat) (peer : Peer)
  (message : SData) (n : SQLiteNode) :
  SWITHIN STANDINGUP (_state n) STANDINGDOWN = true ->
  let n' := onPeerStandingUp env i peer message n in
  let majority :=
    countOf fullPeer (peerList n)
    <= 2 * countOf fullSubscribed (peerList n) in
  (_priority n < calc (Peer.attrs peer) "Priority" ->
   _state n'
   = match _state n with
     | STANDINGUP => SEARCHING
     | LEADING => STANDINGDOWN
     | other => other
     end)
  ∧ (calc (Peer.attrs peer) "Priority" <= _priority n ->
     ∃ response,
       methodLine response = "STANDUP_RESPONSE"%string
       ∧ get response "Response" = "deny"%string
       ∧ get response "Reason" = "I am leading"%string
       ∧ (majority -> n' = _sendToPeer i response n)
       ∧ (¬ majority ->
          n' = _sendToPeer i response
                 (_changeState env SEARCHING (_reconnectAll n))
          ∧ _state n' = SEARCHING)).
Proof.
  intros Hs n' majority. subst n'. unfold onPeerStandingUp. rewrite Hs.
  assert (Hm : _majoritySubscribed n = true <-> majority).
  { rewrite majoritySubscribed_counts, Z.leb_le. subst majority. simpl.
    split; lia. }
  split.
  - intros Hlt. apply Z.ltb_lt in Hlt. rewrite Hlt.
    destruct (_state n) eqn:E; try done;
      unfold _sendToPeer; simpl; apply changeState_state.
  - intros Hle. apply Z.ltb_ge in Hle. rewrite Hle.
    set (response1 := if permaFollower peer then _ else _).
    exists (set "Reason" "I am leading" (set "Response" "deny" response1)).
    split; [subst response1; by destruct (permaFollower peer)|].
    split; [rewrite get_set_ne by done; apply get_set_eq|].
    split; [apply get_set_eq|].
    split.
    + intros Hy. apply Hm in Hy. by rewrite Hy.
    + intros Hy. destruct (_majoritySubscribed n) eqn:E;
        [exfalso; by apply Hy, Hm|].
      split; [done|]. unfold _sendToPeer. simpl. apply changeState_state.
Qed.

End StandupAnswers.

(** * The leader's transactions and its standing down *)

Section ChangeStateFields.
Context `{Libstuff}.

Lemma sendOutstandingTransactions_idle env n :
  unsentTransactions n = false -> _sendOutstandingTransactions env n = n.
Proof. intros Hu. unfold _sendOutstandingTransactions. by rewrite Hu. Qed.

Lemma changeState_server env s n : _server (_changeState env s n) = _server n.
Proof.
  assert (Hso : ∀ m, _server (_sendOutstandingTransactions env m) = _server m)
    by so_field.
  assert (Hsl : ∀ m, _server (stopLeading env m) = _server m)
    by sl_field Hso.
  assert (He : ∀ s m, _server (enterState env s m) = _server m) by es_field.
  cs_field He Hsl.
Qed.

(** A real change to a state below SUBSCRIBING leaves no lead peer; one to
    SEARCHING leaves no escalated command. *)
Lemma changeState_clears env s n :
  s ≠ _state n ->
  (stateIndex s < stateIndex SUBSCRIBING ->
   _leadPeer (_changeState env s n) = None)
  ∧ (s = SEARCHING -> _escalatedCommandMap (_changeState env s n) = ∅).
Proof.
  intros Hne. apply State_eqb_neq in Hne. unfold _changeState.
  rewrite Hne. split.
  - intros Hlt. apply Z.ltb_lt in Hlt. rewrite Hlt. simpl.
    assert (He : ∀ m, _leadPeer (enterState env s m) = _leadPeer m)
      by es_field.
    by rewrite He.
  - intros Hs. rewrite Hs. unfold _sendToAllPeers. simpl.
    unfold enterState. case_match; [|done].
    match goal with
    | Hb : bool_decide _ = true |- _ => by apply bool_decide_eq_true in Hb
    end.
Qed.

(** A change of state by a node that does not lead, to a state in which it
    does not lead: the database is not touched. *)
Lemma changeState_db env s n :
  SWITHIN LEADING (_state n) STANDINGDOWN = false ->
  s ≠ LEADING ->
  _db (_changeState env s n) = _db n.
Proof.
  intros Hold Hs. unfold _changeState. case_match; [done|].
  rewrite Hold. simpl.
  assert (He : ∀ m, _db (enterState env s m) = _db m).
  { intros m. unfold enterState. destruct s; try done. by case_match. }
  rewrite He. by repeat case_match.
Qed.

End ChangeStateFields.

Section Leader.
Context `{Libstuff}.

Lemma responded_cleared p :
  responded (setAttr "TransactionResponse" "" p) = false.
Proof.
  unfold responded, attr, valueOf. simpl. rewrite lookup_insert_eq. simpl.
  apply andb_false_r.
Qed.

Lemma responded_deliver m p : responded (deliver m p) = responded p.
Proof. unfold deliver. by destruct (Peer.s p). Qed.

Lemma countOf_none f (l : list Peer) :
  (∀ p, p ∈ l -> f p = false) -> countOf f l = 0.
Proof.
  induction l as [|p l IH]; intros Hf; [done|].
  rewrite countOf_cons, Hf, IH; [done | | by left].
  intros q Hq. apply Hf. by right.
Qed.

(** Sending the outstanding transactions does not look at the commit state
    nor at the commit lock. *)
Lemma sendOutstandingTransactions_commute env c b n :
  _sendOutstandingTransactions env (with_commitState c (with_g_commitLock b n))
  = with_commitState c
      (with_g_commitLock b (_sendOutstandingTransactions env n)).
Proof.
  unfold _sendOutstandingTransactions. simpl.
  destruct (unsentTransactions n); simpl; [|done].
  set (frame := fun m => with_commitState c (with_g_commitLock b m)).
  assert (Hfold : ∀ txs m,
            fold_left (sendOutstanding (to_string (STimeNow env))) txs
                      (frame m)
            = frame (fold_left (sendOutstanding (to_string (STimeNow env)))
                               txs m)).
  { induction txs as [|tx txs IH]; intros m; [done|].
    cbn [fold_left]. rewrite <- IH. f_equal.
    unfold sendOutstanding, frame. simpl. by case_match. }
  change (with_db (drainCommittedTransactions (_db n))
            (with_commitState c (with_g_commitLock b n)))
    with (frame (with_db (drainCommittedTransactions (_db n)) n)).
  rewrite Hfold. done.
Qed.

Lemma sendOutstandingTransactions_state env n :
  _state (_sendOutstandingTransactions env n) = _state n.
Proof. so_field. Qed.

Lemma sendOutstandingTransactions_shutdown env n :
  gracefulShutdown (_sendOutstandingTransactions env n) = gracefulShutdown n.
Proof.
  unfold gracefulShutdown.
  assert (Hw : _gracefulShutdownTimeout (_sendOutstandingTransactions env n)
               = _gracefulShutdownTimeout n) by so_field.
  by rewrite Hw.
Qed.

Lemma sendOutstandingTransactions_consistency env n :
  _commitConsistency (_sendOutstandingTransactions env n)
  = _commitConsistency n.
Proof. so_field. Qed.

(** X7. The tick of a leader (LEADING or STANDINGDOWN) for which the server
    has started a commit (commit state WAITING).  The node takes the commit
    lock and is COMMITTING; it first sends the committed transactions that
    are still outstanding, if any (none being left unsent), then prepares
    the transaction.  It forgets the answer of every peer to the
    transaction before, so that no peer counts as having responded, and
    sends the subscribed peers a BEGIN_TRANSACTION with the query, the new
    commit count and the hash of the prepared transaction; the ID is the
    last sent transaction (after the outstanding ones went out) plus one,
    with the prefix ASYNC_ under ASYNC consistency.  An engine that cannot
    prepare fails the assertion. *)
Theorem leader_begins_transaction (env : Env) (n : SQLiteNode) :
  _state n = LEADING ∨ _state n = STANDINGDOWN ->
  _commitState n = CS_WAITING ->
  let flushed := _sendOutstandingTransactions env n in
  let id := to_string (u64 (_lastSentTransactionID flushed + 1)) in
  (prepareOk (engine env 0%nat) = false ->
   snd (update env n) = Aborted "_db.prepare()")
  ∧ (prepareOk (engine env 0%nat) = true ->
     ∃ transaction n',
       update env n = (n', Returned true)
       ∧ _state n' = _state n
       ∧ _commitState n' = COMMITTING
       ∧ g_commitLock n' = true
       ∧ unsentTransactions n' = false
       ∧ journal (_db n') = journal (_db n)
       ∧ methodLine transaction = "BEGIN_TRANSACTION"%string
       ∧ get transaction "NewCount"
         = to_string (u64 (getCommitCount (_db n) + 1))
       ∧ get transaction "NewHash" = getUncommittedHash (_db n')
       ∧ get transaction "ID"
         = match _commitConsistency n with
           | ASYNC => ("ASYNC_" ++ id)%string
           | _ => id
           end
       ∧ textOf transaction = getUncommittedQuery (_db n)
       ∧ peerList n'
         = broadcastTo (broadcastCopy (_db n') transaction)
             (map (setAttr "TransactionResponse" "") (peerList flushed))
       ∧ countOf responded (peerList n') = 0)
  ∧ (unsentTransactions n = false -> flushed = n).
Proof.
  intros Hs Hc flushed id.
  assert (Hup : update env n = startDistributedTransaction env n).
  { unfold update.
    assert (Hl : updateLEADING env n = startDistributedTransaction env n).
    { unfold updateLEADING, commitInProgress. rewrite Hc. simpl.
      rewrite Hc. unfold afterCommitBlock. by rewrite Hc. }
    destruct Hs as [-> | ->]; exact Hl. }
  rewrite Hup. unfold startDistributedTransaction.
  rewrite sendOutstandingTransactions_commute. fold flushed.
  assert (Hj : journal (_db flushed) = journal (_db n))
    by apply sendOutstandingTransactions_journal.
  destruct (sendOutstandingTransactions_transaction env n)
    as (_ & _ & Hq). fold flushed in Hq.
  split; [|split].
  - intros Hp. by rewrite Hp.
  - intros Hp. rewrite Hp. simpl.
    set (n3 := with_db (prepare (_db flushed))
                 (with_commitState COMMITTING
                    (with_g_commitLock true flushed))).
    exists (beginTransactionMessage (getCommitCount (_db flushed)) env n3).
    eexists. split; [reflexivity|].
    unfold _sendToAllPeers, beginTransactionMessage. simpl.
    assert (Hget : ∀ c m k, get (setContent c m) k = get m k) by done.
    split; [apply sendOutstandingTransactions_state|].
    split; [done|]. split; [done|].
    split; [apply sendOutstandingTransactions_unsent|].
    split; [done|]. split; [done|].
    split.
    { rewrite Hget, !get_set_ne, get_set_eq by done.
      unfold getCommitCount. by rewrite Hj. }
    split; [by rewrite Hget, !get_set_ne, get_set_eq by done|].
    split.
    { rewrite Hget, get_set_eq. unfold flushed at 1.
      by rewrite sendOutstandingTransactions_consistency. }
    split; [done|]. split; [done|].
    apply countOf_none. intros p Hp'.
    apply list_elem_of_fmap in Hp' as (q & -> & Hq').
    apply list_elem_of_fmap in Hq' as (r & -> & _).
    case_match; rewrite ?responded_deliver; apply responded_cleared.
  - intros Hu. by apply sendOutstandingTransactions_idle.
Qed.

Lemma changeState_standDownTimeOut env n :
  _state n ≠ STANDINGDOWN ->
  _standDownTimeOut (_changeState env STANDINGDOWN n)
  = mkSStopwatch (STIME_US_PER_S * 30) (STimeNow env).
Proof.
  intros Hne. unfold _changeState.
  assert (E : State_eqb STANDINGDOWN (_state n) = false)
    by (apply State_eqb_neq; congruence).
  rewrite E. reflexivity.
Qed.

(** Sending the outstanding transactions changes nothing that the decision
    to stand down reads of a peer. *)
Lemma existsb_map_same {A} (P : A -> bool) (g : A -> A) (l : list A) :
  (∀ x, P (g x) = P x) -> existsb P (map g l) = existsb P l.
Proof.
  intros Hg. induction l as [|x l IH]; [done|]. simpl. by rewrite Hg, IH.
Qed.

Lemma sendOutstandingTransactions_rivals env (P : Peer -> bool) n :
  (∀ m p, P (deliver m p) = P p) ->
  (∀ p, P (setAttr "TransactionResponse" "" p) = P p) ->
  existsb P (peerList (_sendOutstandingTransactions env n))
  = existsb P (peerList n).
Proof.
  intros Hd Ha. unfold _sendOutstandingTransactions.
  case_match; [done|]. simpl.
  assert (Hfold : ∀ txs m,
            existsb P (peerList
                         (fold_left
                            (sendOutstanding (to_string (STimeNow env)))
                            txs m))
            = existsb P (peerList m)); [|by rewrite Hfold].
  intros txs. induction txs as [|tx txs IH]; intros m; [done|].
  cbn [fold_left]. rewrite IH. unfold sendOutstanding.
  case_match; [done|]. unfold _sendToAllPeers. simpl.
  rewrite !existsb_map_same; [done | | done |];
    intros p; case_match; by rewrite ?Hd.
Qed.

Lemma standDownFor_deliver n m p :
  standDownFor n (deliver m p) = standDownFor n p.
Proof. unfold deliver. by destruct (Peer.s p). Qed.

Lemma standDownFor_cleared n p :
  standDownFor n (setAttr "TransactionResponse" "" p) = standDownFor n p.
Proof.
  unfold standDownFor, calc, calcU64, valueOf. simpl.
  by rewrite !lookup_insert_ne.
Qed.

(** X8. The tick of a LEADING node with no commit in progress.  It first
    sends the committed transactions that are still outstanding, if any.
    It then decides to stand down under a graceful shutdown, in which case
    it first takes priority 1, or when one of its peers is LEADING, or is
    WAITING with a higher priority or with more commits than the node has.
    It then goes STANDINGDOWN and, in the same tick, on to SEARCHING if the
    server lets it; otherwise it stays STANDINGDOWN.  With no reason to
    stand down the tick does nothing else. *)
Theorem leader_stands_down (env : Env) (n : SQLiteNode) :
  _state n = LEADING ->
  commitInProgress n = false ->
  let flushed := _sendOutstandingTransactions env n in
  let count := getCommitCount (_db n) in
  let rival := fun p =>
    Peer.state p = LEADING
    ∨ (Peer.state p = WAITING
       ∧ (_priority n < calc (Peer.attrs p) "Priority"
          ∨ count < calcU64 (Peer.attrs p) "CommitCount")) in
  let n0 := if gracefulShutdown n then with_priority 1 flushed else flushed in
  let n1 := _changeState env STANDINGDOWN n0 in
  (gracefulShutdown n = false ->
   (∀ p, p ∈ peerList n -> ¬ rival p) ->
   update env n = (flushed, Returned false))
  ∧ (gracefulShutdown n = true ∨ (∃ p, p ∈ peerList n ∧ rival p) ->
     update env n
     = (if canStandDown env then (_changeState env SEARCHING n1, Returned true)
        else (n1, Returned false))
     ∧ _state (fst (update env n))
       = (if canStandDown env then SEARCHING else STANDINGDOWN)
     ∧ _priority (fst (update env n))
       = (if gracefulShutdown n then 1 else _priority n))
  ∧ (unsentTransactions n = false -> flushed = n).
Proof.
  intros Hs Hc flushed count rival n0 n1.
  assert (Hsf : _state flushed = LEADING)
    by (unfold flushed; by rewrite sendOutstandingTransactions_state).
  assert (Hgf : gracefulShutdown flushed = gracefulShutdown n)
    by apply sendOutstandingTransactions_shutdown.
  assert (Hpf : _priority flushed = _priority n)
    by apply sendOutstandingTransactions_priority.
  assert (Hcf : getCommitCount (_db flushed) = getCommitCount (_db n)).
  { unfold getCommitCount, flushed.
    by rewrite sendOutstandingTransactions_journal. }
  assert (Hup : update env n = standDown env flushed).
  { unfold update. rewrite Hs. unfold updateLEADING. rewrite Hc. simpl.
    fold flushed.
    assert (Hk : _commitState flushed = _commitState n)
      by apply sendOutstandingTransactions_commitState.
    unfold commitInProgress in Hc. unfold afterCommitBlock. rewrite Hk.
    destruct (_commitState n); done. }
  rewrite Hup. unfold standDown. rewrite Hsf.
  change (State_eqb LEADING LEADING) with true. cbv iota.
  assert (Hrival : ∀ p, standDownFor n p = true <-> rival p).
  { intros p. unfold standDownFor, rival.
    destruct (Peer.state p); try (split; [done | intros [?|[? _]]; done]).
    - rewrite orb_true_iff, !Z.ltb_lt. split; [by right | intros [?|[_ ?]]; done].
    - split; [by left | done]. }
  assert (Hsame : existsb (standDownFor flushed) (peerList flushed)
                  = existsb (standDownFor n) (peerList n)).
  { assert (Hfor : standDownFor flushed = standDownFor n).
    { unfold standDownFor. by rewrite Hpf, Hcf. }
    rewrite Hfor. apply sendOutstandingTransactions_rivals.
    - apply standDownFor_deliver.
    - apply standDownFor_cleared. }
  assert (Hexists : existsb (standDownFor flushed) (peerList flushed) = true
                    <-> ∃ p, p ∈ peerList n ∧ rival p).
  { rewrite Hsame, existsb_exists. split; intros (p & Hp & Hr); exists p;
      (split; [by apply list_elem_of_In | by apply Hrival]). }
  split; [|split].
  - intros Hg Hnone. unfold checkStandDown. rewrite Hgf, Hg.
    assert (E : existsb (standDownFor flushed) (peerList flushed) = false).
    { apply not_true_is_false. intros E.
      apply Hexists in E as (p & Hp & Hr). by destruct (Hnone p Hp). }
    rewrite E, Hsf. done.
  - intros Hor.
    assert (Hcheck : checkStandDown env flushed = n1).
    { unfold checkStandDown, n1, n0. rewrite Hgf.
      destruct (gracefulShutdown n); [done|].
      destruct Hor as [? | Hex]; [done|].
      apply Hexists in Hex. by rewrite Hex. }
    rewrite Hcheck.
    assert (Hs1 : _state n1 = STANDINGDOWN) by apply changeState_state.
    rewrite Hs1. change (State_eqb STANDINGDOWN STANDINGDOWN) with true.
    cbv iota. unfold finishStandDown.
    assert (Hring : ringing (STimeNow env) (_standDownTimeOut n1) = false).
    { unfold n1. rewrite changeState_standDownTimeOut.
      - unfold ringing. simpl. rewrite Z.sub_diag.
        change (u64 0) with 0. reflexivity.
      - unfold n0. destruct (gracefulShutdown n); simpl; rewrite Hsf; done. }
    rewrite Hring. simpl.
    assert (Hp1 : _priority n1 = if gracefulShutdown n then 1 else _priority n).
    { unfold n1. rewrite changeState_priority.
      case_match; unfold n0; destruct (gracefulShutdown n); done. }
    destruct (canStandDown env); simpl.
    + split; [done|]. split; [apply changeState_state|].
      rewrite changeState_priority, Hs1. simpl. exact Hp1.
    + done.
  - intros Hu. by apply sendOutstandingTransactions_idle.
Qed.

(** X9. The tick of a FOLLOWING node whose leader is no longer LEADING or
    STANDINGDOWN (and that is not about to stop for a graceful shutdown).
    Every escalated command goes back to the command server, in some order,
    none is lost and none is left in the table; the transaction that was open, if any, is
    rolled back; the node has no lead peer any more and goes SEARCHING. *)
Theorem follower_requeues_commands (env : Env) (n : SQLiteNode)
  (leadPeer : nat) (leader : Peer) :
  _state n = FOLLOWING ->
  gracefulShutdown n && _isNothingBlockingShutdown n = false ->
  _leadPeer n = Some leadPeer ->
  peerList n !! leadPeer = Some leader ->
  Peer.state leader ≠ LEADING ->
  Peer.state leader ≠ STANDINGDOWN ->
  let n' := fst (update env n) in
  snd (update env n) = Returned true
  ∧ _state n' = SEARCHING
  ∧ _leadPeer n' = None
  ∧ _escalatedCommandMap n' = ∅
  ∧ (∃ calls,
       _server n' = _server n ++ calls
       ∧ calls ≡ₚ map (fun c => acceptCommand c false) (escalatedCommands n))
  ∧ journal (_db n') = journal (_db n)
  ∧ getUncommittedHash (_db n') = ""%string.
Proof.
  intros Hs Hg Hl Hp H1 H2 n'. subst n'.
  unfold update. rewrite Hs. unfold updateFOLLOWING. rewrite Hg, Hl, Hp.
  apply State_eqb_neq in H1, H2. rewrite H1, H2. simpl.
  set (m := if negb _ then _ else _).
  assert (Hm : _state m = FOLLOWING).
  { subst m. case_match; exact Hs. }
  assert (Hne : SEARCHING ≠ _state m) by (rewrite Hm; done).
  destruct (changeState_clears env SEARCHING m Hne) as [Hlead Hmap].
  split; [done|]. split; [apply changeState_state|].
  split; [by apply Hlead|]. split; [by apply Hmap|].
  split.
  { exists (map (fun c => acceptCommand c false) (escalatedCommands n)).
    split; [|done]. rewrite changeState_server. subst m. by case_match. }
  rewrite changeState_journal, changeState_db by (rewrite ?Hm; done).
  subst m. unfold requeueEscalated. simpl.
  destruct (String.eqb_spec (getUncommittedHash (_db n)) ""); simpl; done.
Qed.

End Leader.

(** * Lost connections *)

Section Disconnect.
Context `{Libstuff}.

(** X10. The connection to the lead peer is lost, in SUBSCRIBING or
    FOLLOWING.  The node has no lead peer any more, rolls back the
    transaction that was open, if any, hands every escalated command back to
    the command server, in some order, none being lost or left in the table,
    and goes SEARCHING. *)
Theorem disconnect_of_leader (env : Env) (i : nat) (n : SQLiteNode) :
  _leadPeer n = Some i ->
  _state n = SUBSCRIBING ∨ _state n = FOLLOWING ->
  let n' := _onDisconnect env i n in
  _state n' = SEARCHING
  ∧ _leadPeer n' = None
  ∧ _escalatedCommandMap n' = ∅
  ∧ (∃ calls,
       _server n' = _server n ++ calls
       ∧ calls ≡ₚ map (fun c => acceptCommand c false) (escalatedCommands n))
  ∧ journal (_db n') = journal (_db n)
  ∧ getUncommittedHash (_db n') = ""%string.
Proof.
  intros Hl Hs n'. subst n'. unfold _onDisconnect.
  rewrite (bool_decide_eq_true_2 (_leadPeer n = Some i)) by done.
  set (m := requeueEscalated _).
  assert (Hm : _state m = _state n) by (subst m; by case_match).
  assert (Hne : SEARCHING ≠ _state m)
    by (rewrite Hm; destruct Hs as [-> | ->]; done).
  assert (Hold : SWITHIN LEADING (_state m) STANDINGDOWN = false)
    by (rewrite Hm; destruct Hs as [-> | ->]; done).
  set (n1 := _changeState env SEARCHING m).
  assert (Hs1 : _state n1 = SEARCHING) by apply changeState_state.
  set (n2 := if bool_decide (_syncPeer n1 = Some i) then _ else n1).
  assert (Hn2 : n2 = n1 ∨ n2 = with_syncPeer None n1).
  { subst n2. case_match; [right|by left].
    unfold _changeState. simpl. rewrite Hs1.
    by rewrite State_eqb_refl. }
  assert (Hs2 : _state n2 = SEARCHING) by (destruct Hn2 as [-> | ->]; done).
  rewrite Hs2.
  destruct (changeState_clears env SEARCHING m Hne) as [Hlead Hmap].
  specialize (Hlead ltac:(done)). specialize (Hmap eq_refl).
  assert (Hserver : _server n1
                    = _server n ++ map (fun c => acceptCommand c false)
                                       (escalatedCommands n)).
  { subst n1. rewrite changeState_server. subst m. by case_match. }
  assert (Hdb : _db n1 = _db m) by (by apply changeState_db).
  assert (Hj : journal (_db m) = journal (_db n)
               ∧ getUncommittedHash (_db m) = ""%string).
  { subst m. unfold requeueEscalated. simpl.
    destruct (String.eqb_spec (getUncommittedHash (_db n)) ""); simpl; done. }
  destruct Hj as [Hj1 Hj2].
  destruct Hn2 as [-> | ->]; simpl; rewrite Hdb;
    (repeat split; try done); eexists; (split; [exact Hserver | done]).
Qed.

(** The count of [_onDisconnect]: the full peers and the logged-in full
    peers, the one that disconnected left out. *)
Lemma quorumWithout_counts i peers peer :
  peers !! i = Some peer ->
  quorumWithout i peers
  = (countOf fullPeer peers - Z.b2z (fullPeer peer),
     countOf eligible peers - Z.b2z (eligible peer)).
Proof.
  intros Hi. unfold quorumWithout.
  set (body := fun (acc : Z * Z) (jp : nat * Peer) => _).
  assert (Hfold : ∀ l k a b,
            fold_left body (imap (fun j p => ((k + j)%nat, p)) l) (a, b)
            = (a + countOf fullPeer l
               - match (if (k <=? i)%nat then l !! (i - k)%nat else None) with
                 | Some p => Z.b2z (fullPeer p)
                 | None => 0
                 end,
               b + countOf eligible l
               - match (if (k <=? i)%nat then l !! (i - k)%nat else None) with
                 | Some p => Z.b2z (eligible p)
                 | None => 0
                 end)).
  { induction l as [|x l IH]; intros k a b.
    - simpl. unfold countOf. simpl.
      destruct (k <=? i)%nat; simpl; f_equal; lia.
    - rewrite imap_cons. simpl.
      rewrite (imap_ext _ (fun j p => ((S k + j)%nat, p)))
        by (intros; simpl; f_equal; lia).
      rewrite !countOf_cons.
      assert (He : eligible x
                   = fullPeer x && SIEquals (attr x "LoggedIn") "true")
        by done.
      assert (Hf : fullPeer x = negb (permaFollower x)) by done.
      rewrite Nat.add_0_r.
      destruct (Nat.eqb_spec k i) as [-> | Hki].
      + rewrite IH.
        assert (E : (S i <=? i)%nat = false) by (apply Nat.leb_gt; lia).
        rewrite E, Nat.leb_refl, Nat.sub_diag. cbn [lookup list_lookup].
        f_equal; lia.
      + assert (Hrest :
          (if (S k <=? i)%nat then l !! (i - S k)%nat else None)
          = (if (k <=? i)%nat then (x :: l) !! (i - k)%nat else None)).
        { destruct (Nat.leb_spec k i) as [Hle | Hgt].
          - assert (E : (S k <=? i)%nat = true) by (apply Nat.leb_le; lia).
            rewrite E. replace (i - k)%nat with (S (i - S k)) by lia. done.
          - assert (E : (S k <=? i)%nat = false) by (apply Nat.leb_gt; lia).
            by rewrite E. }
        rewrite <- Hrest. rewrite He, Hf.
        destruct (permaFollower x); cbn [negb andb]; rewrite IH.
        * simpl. f_equal; lia.
        * destruct (SIEquals (attr x "LoggedIn") "true"); simpl;
            f_equal; lia. }
  specialize (Hfold peers 0%nat 0 0). simpl in Hfold.
  rewrite Nat.sub_0_r, Hi in Hfold.
  rewrite (imap_ext _ pair) in Hfold by done.
  rewrite Hfold. f_equal; lia.
Qed.

(** X11. A peer disconnects from a node that is STANDINGUP, LEADING or
    STANDINGDOWN.  If fewer than half of the other full peers are still
    logged in, the node has lost its quorum: it goes SEARCHING, and a commit
    that was in progress is abandoned, rolled back and FAILED.  Otherwise
    the node is left exactly as it was. *)
Theorem leader_loses_quorum (env : Env) (i : nat) (peer : Peer)
  (n : SQLiteNode) :
  SWITHIN STANDINGUP (_state n) STANDINGDOWN = true ->
  _leadPeer n ≠ Some i -> _syncPeer n ≠ Some i ->
  peerList n !! i = Some peer ->
  let full := countOf fullPeer (peerList n) - Z.b2z (fullPeer peer) in
  let loggedIn := countOf eligible (peerList n) - Z.b2z (eligible peer) in
  let n' := _onDisconnect env i n in
  (full <= 2 * loggedIn -> n' = n)
  ∧ (2 * loggedIn < full ->
     n' = _changeState env SEARCHING n
     ∧ _state n' = SEARCHING
     ∧ journal (_db n') = journal (_db n)
     ∧ (_state n ≠ STANDINGUP -> commitInProgress n = true ->
        _commitState n' = FAILED
        ∧ getUncommittedHash (_db n') = ""%string)).
Proof.
  intros Hs Hl Hsync Hi full loggedIn n'. subst n'.
  unfold _onDisconnect.
  rewrite (bool_decide_eq_false_2 (_leadPeer n = Some i)) by done.
  rewrite (bool_decide_eq_false_2 (_syncPeer n = Some i)) by done.
  rewrite (quorumWithout_counts i _ peer Hi). fold full loggedIn.
  assert (Hcase : ∀ a b : SQLiteNode,
            match _state n with
            | LEADING | STANDINGUP | STANDINGDOWN =>
                if loggedIn * 2 <? full then a else b
            | _ => b
            end = if loggedIn * 2 <? full then a else b).
  { intros a b. destruct (_state n); done. }
  rewrite Hcase. split.
  - intros Hle. assert (E : (loggedIn * 2 <? full) = false)
      by (apply Z.ltb_ge; lia). by rewrite E.
  - intros Hlt. assert (E : (loggedIn * 2 <? full) = true)
      by (apply Z.ltb_lt; lia). rewrite E.
    split; [done|]. split; [apply changeState_state|].
    split; [apply changeState_journal|].
    intros Hup Hc.
    assert (Hlead : _state n = LEADING ∨ _state n = STANDINGDOWN).
    { destruct (_state n); try done; auto. }
    pose proof (stops_leading_commit env SEARCHING n Hlead
                  ltac:(done) ltac:(done) Hc) as Hstop.
    destruct Hstop as (? & _ & ? & _). done.
Qed.

End Disconnect.

(** * Escalation *)

Section Escalation.
Context `{Libstuff}.

Lemma isSet_stamp db m name :
  isSet m name = true -> isSet (stamp db m) name = true.
Proof.
  unfold stamp, isSet, set. simpl. intros Hs.
  apply bool_decide_eq_true in Hs. apply bool_decide_eq_true.
  destruct (decide ("Hash"%string = name)) as [<- | Hh];
    [rewrite lookup_insert_eq; eauto|].
  rewrite lookup_insert_ne by done.
  destruct (decide ("CommitCount"%string = name)) as [<- | Hc];
    [rewrite lookup_insert_eq; eauto|].
  by rewrite lookup_insert_ne.
Qed.

Lemma get_stamp db m name :
  name ≠ "Hash"%string -> name ≠ "CommitCount"%string ->
  get (stamp db m) name = get m name.
Proof. intros H1 H2. unfold stamp. by rewrite !get_set_ne. Qed.

(** The ESCALATE that carries a command, and the ESCALATE_RESPONSE that
    carries its response, as the two nodes put them on the socket. *)
Lemma escalate_message db (c : SQLiteCommand) method body :
  let m := stamp db (setContent (Serialized [body])
                       (set "ID" (commandId c) (newSData method))) in
  isSet m "ID" = true
  ∧ get m "ID" = commandId c
  ∧ deserialize m = Some body
  ∧ methodLine m = method.
Proof.
  intros m. subst m. split; [|split; [|done]].
  - apply isSet_stamp. apply isSet_set_eq.
  - rewrite get_stamp by done. apply get_set_eq.
Qed.

(** X12. A command that a follower escalates comes back with its response.
    The follower, whose lead peer is LEADING, puts an ESCALATE with the id
    and the request of the command on the leader's socket (a leader that is
    not connected gets nothing) and keeps the command in its table.  The
    LEADING node that receives this message from a subscribed peer hands the
    server a command with the same id and request, marked with the id of
    that peer; and [sendResponse] for it puts an ESCALATE_RESPONSE with the
    id and the response on the socket of that peer.  The follower that
    receives it, still FOLLOWING, takes the command out of its table, which
    is then what it was before the escalation, and hands it to the server
    completed with that response. *)
Theorem escalation_round_trip (env env' : Env) (c : SQLiteCommand)
  (f : SQLiteNode) (l : nat) (leader : Peer)
  (L : SQLiteNode) (j : nat) (peer : Peer) (answer : SData) :
  _leadPeer f = Some l ->
  peerList f !! l = Some leader ->
  Peer.state leader = LEADING ->
  _escalatedCommandMap f !! commandId c = None ->
  _state L = LEADING ->
  attr peer "Subscribed" = "true"%string ->
  getPeerByID (Peer.id peer) L = Some j ->
  let escalate :=
    stamp (_db f) (setContent (Serialized [request c])
                     (set "ID" (commandId c) (newSData "ESCALATE"))) in
  let received :=
    setCommandId (commandId c)
      (setInitiatingPeerID (Peer.id peer) (newCommand (request c))) in
  let answered :=
    mkSQLiteCommand (commandId received) (request received) answer true
      (escalated received) (escalationTimeUS received)
      (initiatingPeerID received) in
  let reply :=
    stamp (_db L) (setContent (Serialized [answer])
                     (set "ID" (commandId c) (newSData "ESCALATE_RESPONSE"))) in
  ∃ f1,
    escalateCommand env c false f = (f1, Returned tt)
    ∧ peerList f1 = alter (deliver escalate) l (peerList f)
    ∧ _state f1 = _state f
    ∧ onESCALATE j peer escalate L
      = (callServer (acceptCommand received true) L, Returned tt)
    ∧ request received = request c
    ∧ sendResponse answered L
      = (with_peerList (alter (deliver reply) j (peerList L)) L, Returned tt)
    ∧ (_state f = FOLLOWING ->
       ∃ f2 done,
         onESCALATE_RESPONSE env' reply f1 = (f2, Returned tt)
         ∧ _escalatedCommandMap f2 = _escalatedCommandMap f
         ∧ _server f2 = _server f ++ [acceptCommand done false]
         ∧ commandId done = commandId c
         ∧ request done = request c
         ∧ response done = answer
         ∧ complete done = true).
Proof.
  intros Hl Hp Hs Hnone HL Hsub Hid escalate received answered reply.
  destruct (escalate_message (_db f) c "ESCALATE" (request c))
    as (He1 & He2 & He3 & _).
  destruct (escalate_message (_db L) c "ESCALATE_RESPONSE" answer)
    as (Hr1 & Hr2 & Hr3 & _).
  fold escalate in He1, He2, He3. fold reply in Hr1, Hr2, Hr3.
  eexists. split.
  { unfold escalateCommand. rewrite Hl, Hp, Hs. simpl. rewrite Hnone.
    reflexivity. }
  split; [done|]. split; [done|]. split.
  { unfold onESCALATE. rewrite He1, HL, He3, Hsub, He2. reflexivity. }
  split; [done|]. split.
  { unfold sendResponse. simpl. rewrite Hid. reflexivity. }
  intros Hf.
  eexists _, _. split.
  { unfold onESCALATE_RESPONSE. unfold _sendToPeer. simpl.
    rewrite Hf. simpl. rewrite Hr1, ?Hr3, Hr2. simpl.
    rewrite lookup_insert_eq. reflexivity. }
  simpl. split; [by apply delete_insert_id|].
  done.
Qed.

(** X13. An escalation that reaches a node that is not LEADING is sent
    back: the node answers ESCALATE_ABORTED with the id and the Reason "not
    leading", and does nothing else.  The follower that receives this
    answer, still FOLLOWING, takes the command out of its table and hands it
    back to the server to be tried again: with its id and request, no more
    complete than it was, and marked as escalated. *)
Theorem escalation_aborted (env : Env) (c : SQLiteCommand)
  (f : SQLiteNode) (l : nat) (leader : Peer)
  (L : SQLiteNode) (j : nat) (peer : Peer) :
  _leadPeer f = Some l ->
  peerList f !! l = Some leader ->
  Peer.state leader = LEADING ->
  _escalatedCommandMap f !! commandId c = None ->
  _state f = FOLLOWING ->
  _state L ≠ LEADING ->
  let escalate :=
    stamp (_db f) (setContent (Serialized [request c])
                     (set "ID" (commandId c) (newSData "ESCALATE"))) in
  let aborted :=
    stamp (_db L) (set "Reason" "not leading"
                     (set "ID" (commandId c) (newSData "ESCALATE_ABORTED"))) in
  onESCALATE j peer escalate L
  = (with_peerList (alter (deliver aborted) j (peerList L)) L, Returned tt)
  ∧ ∃ f2 again,
      onESCALATE_ABORTED aborted (fst (escalateCommand env c false f))
      = (f2, Returned tt)
      ∧ _escalatedCommandMap f2 = _escalatedCommandMap f
      ∧ _server f2 = _server f ++ [acceptCommand again false]
      ∧ commandId again = commandId c
      ∧ request again = request c
      ∧ complete again = complete c
      ∧ escalated again = true.
Proof.
  intros Hl Hp Hs Hnone Hf HL escalate aborted.
  destruct (escalate_message (_db f) c "ESCALATE" (request c))
    as (He1 & He2 & _).
  fold escalate in He1, He2.
  split.
  { unfold onESCALATE. rewrite He1. apply State_eqb_neq in HL.
    rewrite HL. simpl. unfold _sendToPeer. by rewrite He2. }
  assert (Ha1 : isSet aborted "ID" = true).
  { apply isSet_stamp. rewrite isSet_set_ne by done. apply isSet_set_eq. }
  assert (Ha2 : get aborted "ID" = commandId c).
  { unfold aborted. rewrite get_stamp by done.
    rewrite get_set_ne by done. apply get_set_eq. }
  unfold escalateCommand. rewrite Hl, Hp, Hs. simpl. rewrite Hnone.
  eexists _, _. split.
  { unfold onESCALATE_ABORTED, _sendToPeer. simpl. rewrite Hf. simpl.
    rewrite Ha1, Ha2. simpl. rewrite lookup_insert_eq. reflexivity. }
  simpl. split; [by apply delete_insert_id|]. done.
Qed.

End Escalation.

(** * More of the message handlers *)

Section Login.
Context `{Libstuff}.

(** X14. A LOGIN, with its CommitCount, Hash, Priority, State and Version,
    from a peer that is not marked logged in.  A peer configured as
    permafollower must announce itself as one, with a priority that is not
    above 0, and a full peer must not announce itself as one and must have a
    priority other than 0: otherwise the login is refused with an error.  A
    login that passes, from a peer whose priority is the node's own (the
    node's being neither -1 nor 0), fails the assertion.  Otherwise the peer
    is marked logged in, with the priority, version and state it announced,
    and the server is told of the login. *)
Theorem login_checked (env : Env) (i : nat) (message : SData)
  (n : SQLiteNode) (peer : Peer) :
  peerList n !! i = Some peer ->
  isSet message "CommitCount" = true ->
  isSet message "Hash" = true ->
  SIEquals (methodLine message) "LOGIN" = true ->
  attr peer "LoggedIn" ≠ "true"%string ->
  isSet message "Priority" = true ->
  isSet message "State" = true ->
  isSet message "Version" = true ->
  let announced := get message "Permafollower" = "true"%string in
  let priority := calc (nameValueMap message) "Priority" in
  let n1 := updatePeer i (recordCommit message) n in
  (permaFollower peer = true -> ¬ announced ∨ 0 < priority ->
   _onMESSAGE env i message n
   = (n1, Thrown "you're supposed to be a 0-priority permafollower"))
  ∧ (permaFollower peer = false -> announced ∨ priority = 0 ->
     _onMESSAGE env i message n
     = (n1, Thrown "you're *not* supposed to be a 0-priority permafollower"))
  ∧ ((permaFollower peer = true ∧ announced ∧ priority <= 0)
     ∨ (permaFollower peer = false ∧ ¬ announced ∧ priority ≠ 0) ->
     (_priority n ≠ -1 ∧ _priority n ≠ 0 ∧ priority = _priority n ->
      _onMESSAGE env i message n = (n1, Aborted "same priority"))
     ∧ (_priority n = -1 ∨ _priority n = 0 ∨ priority ≠ _priority n ->
        ∃ n' peer',
          _onMESSAGE env i message n = (n', Returned tt)
          ∧ peerList n' !! i = Some peer'
          ∧ attr peer' "LoggedIn" = "true"%string
          ∧ attr peer' "Priority" = get message "Priority"
          ∧ attr peer' "Version" = get message "Version"
          ∧ attr peer' "CommitCount" = get message "CommitCount"
          ∧ attr peer' "Hash" = get message "Hash"
          ∧ Peer.state peer' = stateFromName (get message "State")
          ∧ Peer.params peer' = Peer.params peer
          ∧ _server n' = _server n ++ [onNodeLogin i]
          ∧ _state n' = _state n)).
Proof.
  intros Hp Hc Hh Hlogin Hout Hpr Hst Hv announced priority n1.
  destruct (recordCommit_attrs message peer) as (Ha & Hb & Hother).
  assert (Hon : _onMESSAGE env i message n
                = onLOGIN i (recordCommit message peer) message n1).
  { unfold _onMESSAGE. rewrite Hp, Hc, Hh. simpl.
    apply classify_LOGIN in Hlogin. by rewrite Hlogin. }
  rewrite Hon. unfold onLOGIN. rewrite Hother by done.
  apply String.eqb_neq in Hout. rewrite Hout, Hpr, Hst, Hv. simpl.
  change (permaFollower (recordCommit message peer))
    with (permaFollower peer).
  fold priority.
  assert (Hann : String.eqb (get message "Permafollower") "true" = true
                 <-> announced) by apply String.eqb_eq.
  split; [|split].
  - intros Hperma Hor. rewrite Hperma. simpl.
    destruct (String.eqb (get message "Permafollower") "true") eqn:E; simpl.
    + destruct Hor as [Hn | Hpos]; [exfalso; by apply Hn, String.eqb_eq|].
      apply Z.ltb_lt in Hpos. by rewrite Hpos.
    + done.
  - intros Hperma Hor. rewrite Hperma. simpl.
    destruct (String.eqb (get message "Permafollower") "true") eqn:E; simpl;
      [done|].
    destruct Hor as [Ha' | Hz]; [apply String.eqb_eq in Ha'; congruence|].
    apply Z.eqb_eq in Hz. by rewrite Hz.
  - intros Hok.
    assert (Hpass :
      (permaFollower peer
       && (negb (String.eqb (get message "Permafollower") "true")
           || (0 <? priority)) = false)
      ∧ (negb (permaFollower peer)
         && (String.eqb (get message "Permafollower") "true"
             || (priority =? 0)) = false)).
    { destruct Hok as [(-> & Hy & Hle) | (-> & Hy & Hnz)]; simpl.
      - apply String.eqb_eq in Hy. rewrite Hy. simpl.
        split; [by apply Z.ltb_ge | done].
      - split; [done|].
        destruct (String.eqb_spec (get message "Permafollower") "true");
          [done|]. simpl. by apply Z.eqb_neq. }
    destruct Hpass as [-> ->]. simpl. split.
    + intros (H1 & H2 & H3).
      change (_priority n1) with (_priority n).
      apply Z.eqb_neq in H1, H2. apply Z.eqb_eq in H3.
      by rewrite H1, H2, H3.
    + intros Hdiff.
      change (_priority n1) with (_priority n).
      assert (E : (_priority n =? -1) || (_priority n =? 0)
                  || negb (priority =? _priority n) = true).
      { destruct Hdiff as [-> | [-> | Hne]]; [done | done |].
        apply Z.eqb_neq in Hne. rewrite Hne. simpl. apply orb_true_r. }
      rewrite E. simpl.
      eexists _, _. split; [reflexivity|].
      split.
      { unfold callServer, n1, updatePeer. simpl.
        rewrite !list_lookup_alter_eq, Hp. reflexivity. }
      assert (Hsp : ∀ st p name,
                attr (setPeerState st p) name = attr p name) by done.
      rewrite !Hsp.
      split; [by rewrite ?attr_setAttr_ne, attr_setAttr_eq by done|].
      split; [by rewrite ?attr_setAttr_ne, attr_setAttr_eq by done|].
      split; [by rewrite ?attr_setAttr_ne, attr_setAttr_eq by done|].
      split; [by rewrite !attr_setAttr_ne by done|].
      split; [by rewrite !attr_setAttr_ne by done|].
      done.
Qed.

End Login.

Section Handlers.
Context `{Libstuff}.

Lemma attr_eraseAttr_eq name p : attr (eraseAttr name p) name = ""%string.
Proof. unfold attr, eraseAttr, valueOf. simpl. by rewrite lookup_delete_eq. Qed.

Lemma attr_eraseAttr_ne name name' p :
  name ≠ name' -> attr (eraseAttr name p) name' = attr p name'.
Proof.
  intros Hne. unfold attr, eraseAttr, valueOf. simpl.
  by rewrite lookup_delete_ne.
Qed.

(** X15. A logged-in peer announces, in a STATE message, that it went
    SEARCHING from another state.  The node records the new state and
    priority of the peer and forgets that the peer was subscribed and what
    it answered to the transaction: the peer no longer counts as a follower
    nor as having responded.  The node itself is not changed otherwise. *)
Theorem peer_goes_searching (env : Env) (i : nat) (peer : Peer)
  (message : SData) (n : SQLiteNode) :
  peerList n !! i = Some peer ->
  isSet message "State" = true ->
  isSet message "Priority" = true ->
  stateFromName (get message "State") = SEARCHING ->
  Peer.state peer ≠ SEARCHING ->
  ∃ n' peer',
    onSTATE env i peer message n = (n', Returned tt)
    ∧ peerList n' !! i = Some peer'
    ∧ Peer.state peer' = SEARCHING
    ∧ attr peer' "Priority" = get message "Priority"
    ∧ attr peer' "Subscribed" = ""%string
    ∧ attr peer' "TransactionResponse" = ""%string
    ∧ fullFollower peer' = false
    ∧ responded peer' = false
    ∧ (∀ j, j ≠ i -> peerList n' !! j = peerList n !! j)
    ∧ _state n' = _state n
    ∧ _db n' = _db n.
Proof.
  intros Hp Hst Hpr Hto Hfrom.
  unfold onSTATE. rewrite Hst, Hpr, Hto. simpl.
  assert (E : State_eqb (Peer.state peer) SEARCHING = false)
    by by apply State_eqb_neq.
  rewrite E.
  eexists _, _. split; [reflexivity|].
  split.
  { unfold updatePeer. simpl. rewrite !list_lookup_alter_eq, Hp.
    reflexivity. }
  assert (Hsub : attr (eraseAttr "Subscribed"
                   (eraseAttr "TransactionResponse"
                      (setPeerState SEARCHING
                         (setAttr "Priority" (get message "Priority") peer))))
                   "Subscribed" = ""%string) by apply attr_eraseAttr_eq.
  assert (Htr : attr (eraseAttr "Subscribed"
                   (eraseAttr "TransactionResponse"
                      (setPeerState SEARCHING
                         (setAttr "Priority" (get message "Priority") peer))))
                   "TransactionResponse" = ""%string).
  { rewrite attr_eraseAttr_ne by done. apply attr_eraseAttr_eq. }
  split; [done|].
  split.
  { rewrite !attr_eraseAttr_ne by done.
    change (attr (setPeerState SEARCHING ?p) ?k) with (attr p k).
    apply attr_setAttr_eq. }
  split; [done|]. split; [done|].
  split.
  { unfold fullFollower. rewrite Hsub. apply andb_false_r. }
  split.
  { unfold responded, fullFollower. rewrite Hsub. simpl.
    by rewrite andb_false_r. }
  split; [|done].
  intros j Hj. unfold updatePeer. simpl.
  by rewrite !list_lookup_alter_ne.
Qed.

Lemma sendToPeer_lookup_eq i m n p :
  peerList n !! i = Some p ->
  peerList (_sendToPeer i m n) !! i = Some (deliver (stamp (_db n) m) p).
Proof.
  intros Hp. unfold _sendToPeer. simpl.
  by rewrite list_lookup_alter_eq, Hp.
Qed.

(** X16. A SUBSCRIBE is refused by a node that is not LEADING.  A LEADING
    node answers the peer with SUBSCRIPTION_APPROVED, which carries all the
    commits the peer lacks, and marks it subscribed.  If a transaction is
    underway (commit state COMMITTING), the new follower is invited to it:
    right after the approval it is sent the BEGIN_TRANSACTION of that
    transaction, with the query, the next commit count, the hash, and the
    last sent transaction plus one as ID. *)
Theorem leader_accepts_subscriber (env : Env) (i : nat) (peer : Peer)
  (n : SQLiteNode) (p : Peer) (sock : Socket) (approval : SData) :
  (_state n ≠ LEADING -> onSUBSCRIBE env i peer n = (n, Thrown "not leading"))
  ∧ (_state n = LEADING ->
     peerList n !! i = Some p -> Peer.s p = Some sock ->
     _queueSynchronize peer (newSData "SUBSCRIPTION_APPROVED") true n
     = Returned approval ->
     ∃ n' p' sock' invitation,
       onSUBSCRIBE env i peer n = (n', Returned tt)
       ∧ peerList n' !! i = Some p'
       ∧ attr p' "Subscribed" = "true"%string
       ∧ Peer.s p' = Some sock'
       ∧ sendBuffer sock'
         = sendBuffer sock ++ stamp (_db n) approval
             :: match _commitState n with
                | COMMITTING => [stamp (_db n) invitation]
                | _ => []
                end
       ∧ methodLine approval = "SUBSCRIPTION_APPROVED"%string
       ∧ methodLine invitation = "BEGIN_TRANSACTION"%string
       ∧ textOf invitation = getUncommittedQuery (_db n)
       ∧ get invitation "NewHash" = getUncommittedHash (_db n)
       ∧ get invitation "NewCount"
         = to_string (u64 (getCommitCount (_db n) + 1))
       ∧ get invitation "ID"
         = to_string (u64 (_lastSentTransactionID n + 1))
       ∧ _state n' = LEADING ∧ _db n' = _db n).
Proof.
  split.
  - intros Hs. unfold onSUBSCRIBE. apply State_eqb_neq in Hs.
    by rewrite Hs.
  - intros Hs Hp Hsock Hq. unfold onSUBSCRIBE. rewrite Hs, Hq.
    change (State_eqb LEADING LEADING) with true. cbv iota. simpl.
    set (transaction :=
           setContent (Text (getUncommittedQuery (_db n)))
             (set "ID" (to_string (u64 (_lastSentTransactionID n + 1)))
             (set "leaderSendTime" (to_string (STimeNow env))
             (set "NewHash" (getUncommittedHash (_db n))
             (set "NewCount" (to_string (u64 (getCommitCount (_db n) + 1)))
                  (newSData "BEGIN_TRANSACTION")))))).
    assert (Hm : methodLine approval = "SUBSCRIPTION_APPROVED"%string).
    { unfold _queueSynchronize in Hq.
      by apply queueSynchronizeStateless_methodLine in Hq. }
    assert (Hget : ∀ c m k, get (setContent c m) k = get m k) by done.
    set (p1 := setAttr "Subscribed" "true"
                 (setSocket (Some (socketSend (stamp (_db n) approval) sock))
                            p)).
    assert (H1 : peerList
                   (updatePeer i (setAttr "Subscribed" "true")
                      (_sendToPeer i approval n)) !! i = Some p1).
    { unfold updatePeer, _sendToPeer. simpl.
      rewrite !list_lookup_alter_eq, Hp. simpl. unfold deliver.
      by rewrite Hsock. }
    assert (Hfacts :
      methodLine transaction = "BEGIN_TRANSACTION"%string
      ∧ textOf transaction = getUncommittedQuery (_db n)
      ∧ get transaction "NewHash" = getUncommittedHash (_db n)
      ∧ get transaction "NewCount"
        = to_string (u64 (getCommitCount (_db n) + 1))
      ∧ get transaction "ID"
        = to_string (u64 (_lastSentTransactionID n + 1))).
    { subst transaction. split; [done|]. split; [done|].
      split; [by rewrite Hget, !get_set_ne, get_set_eq by done|].
      split; [by rewrite Hget, !get_set_ne, get_set_eq by done|].
      by rewrite Hget, get_set_eq. }
    destruct Hfacts as (F1 & F2 & F3 & F4 & F5).
    assert (Hc : _commitState
                   (updatePeer i (setAttr "Subscribed" "true")
                      (_sendToPeer i approval n)) = _commitState n) by done.
    rewrite ?Hc.
    destruct (_commitState n) eqn:Ec.
    3: { exists (_sendToPeer i transaction
                   (updatePeer i (setAttr "Subscribed" "true")
                      (_sendToPeer i approval n))),
           (setSocket
              (Some (socketSend (stamp (_db n) transaction)
                       (socketSend (stamp (_db n) approval) sock))) p1),
           (socketSend (stamp (_db n) transaction)
              (socketSend (stamp (_db n) approval) sock)),
           transaction.
         split; [done|]. split.
         { by rewrite (sendToPeer_lookup_eq _ _ _ p1 H1). }
         split; [apply attr_setAttr_eq|]. split; [done|].
         split; [simpl; by rewrite <- app_assoc|]. done. }
    all: exists (updatePeer i (setAttr "Subscribed" "true")
                   (_sendToPeer i approval n)), p1,
           (socketSend (stamp (_db n) approval) sock), transaction;
      (split; [done|]); (split; [exact H1|]);
      (split; [apply attr_setAttr_eq|]); done.
Qed.

(** X17. A follower with a priority other than 0 answers the
    BEGIN_TRANSACTION that it handles, unless the ID marks the transaction
    as ASYNC.  It approves exactly when the engine has taken the
    transaction (begin, write and prepare succeed) and the hash of the
    query on top of its committed hash is the announced one; it then
    leaves the transaction open, with the announced query and hash.
    Otherwise it denies and rolls the transaction back.  Either way the
    vote goes to the lead peer and names the transaction by the ID and the
    hash that the leader announced, with the follower's commit count plus
    one, and the journal is not touched. *)
Theorem follower_votes (env : Env) (db : SQLite) (message : SData)
  (n : SQLiteNode) (leadPeer : nat) :
  isSet message "ID" = true ->
  isSet message "NewCount" = true ->
  isSet message "NewHash" = true ->
  _state n = FOLLOWING ->
  getUncommittedHash db = ""%string ->
  _priority n ≠ 0 ->
  SStartsWith (get message "ID") "ASYNC_" = false ->
  _leadPeer n = Some leadPeer ->
  let taken :=
    beginOk (engine env 0%nat) && writeOk (engine env 0%nat)
    && prepareOk (engine env 0%nat) in
  let approves :=
    taken = true
    ∧ hashOf (getCommittedHash db) (textOf message) = get message "NewHash" in
  ∃ vote db1,
    handleBeginTransaction env db message n
    = (_sendToPeer leadPeer vote n, db1, Returned tt)
    ∧ journal db1 = journal db
    ∧ get vote "ID" = get message "ID"
    ∧ get vote "NewHash" = get message "NewHash"
    ∧ get vote "NewCount" = to_string (u64 (getCommitCount db + 1))
    ∧ (approves ->
       methodLine vote = "APPROVE_TRANSACTION"%string
       ∧ getUncommittedHash db1 = get message "NewHash"
       ∧ getUncommittedQuery db1 = textOf message
       ∧ insideTransaction db1 = true)
    ∧ (¬ approves ->
       methodLine vote = "DENY_TRANSACTION"%string
       ∧ getUncommittedHash db1 = ""%string
       ∧ getUncommittedQuery db1 = ""%string
       ∧ insideTransaction db1 = false).
Proof.
  intros Hid Hnc Hnh Hs Hu Hp Hasync Hl taken approves.
  unfold handleBeginTransaction. rewrite Hid, Hnc, Hnh, Hs, Hu. simpl.
  change (State_eqb FOLLOWING FOLLOWING) with true. cbv iota. simpl.
  apply Z.eqb_neq in Hp. rewrite Hp, Hasync, Hl. simpl.
  unfold beginReplicated.
  assert (Htaken : is_Some (replay (engine env 0%nat) (textOf message) db)
                   <-> taken = true).
  { unfold replay, taken.
    destruct (beginOk (engine env 0%nat)), (writeOk (engine env 0%nat)),
      (prepareOk (engine env 0%nat)); simpl; split; try done;
      intros [? ?]; done. }
  destruct (replay (engine env 0%nat) (textOf message) db) as [db1|] eqn:Er.
  - destruct (replay_journal _ _ _ _ Er) as (Hj & Hq & Hh).
    assert (Hin : insideTransaction db1 = true).
    { unfold replay in Er. repeat case_match; simplify_eq. done. }
    assert (Ht : taken = true) by (apply Htaken; eauto).
    destruct (String.eqb_spec (getUncommittedHash db1)
                              (get message "NewHash")) as [He | Hne]; simpl.
    + eexists _, _. split; [reflexivity|]. split; [done|].
      split; [apply get_set_eq|].
      split; [by rewrite get_set_ne, get_set_eq by done|].
      split.
      { rewrite !get_set_ne, get_set_eq by done.
        unfold getCommitCount. by rewrite Hj. }
      split; [done|]. intros Hno. exfalso. apply Hno.
      split; [done|]. by rewrite <- Hh.
    + eexists _, _. split; [reflexivity|]. split; [done|].
      split; [apply get_set_eq|].
      split; [by rewrite get_set_ne, get_set_eq by done|].
      split.
      { rewrite !get_set_ne, get_set_eq by done.
        unfold getCommitCount. simpl. by rewrite Hj. }
      split; [|done]. intros [_ Heq]. exfalso. apply Hne.
      by rewrite Hh.
  - simpl. eexists _, _. split; [reflexivity|]. split; [done|].
    split; [apply get_set_eq|].
    split; [by rewrite get_set_ne, get_set_eq by done|].
    split; [by rewrite !get_set_ne, get_set_eq by done|].
    split; [|done]. intros [Ht _]. apply Htaken in Ht as [? ?]. done.
Qed.

End Handlers.

Section FollowerCommits.
Context `{Libstuff}.




End FollowerCommits.

(** * Receiving a synchronization *)

Section Receiver.
Context `{Libstuff}.

(** The loop of [_recvSynchronize], when the engine refuses no commit: it
    counts the commits down, and the journal gets the commits of the
    message, with the hash and the query they declare. *)
Lemma recvCommits_returned env commits :
  ∀ k remaining db db' r,
    (∀ j, (j < length commits)%nat -> commitOk (engine env (k + j)) = true) ->
    recvCommits env k commits remaining db = (db', Returned r) ->
    r = remaining - Z.of_nat (length commits)
    ∧ journal db'
      = journal db ++ map (fun c => (get c "Hash", textOf c)) commits.
Proof.
  induction commits as [|c commits IH]; intros k remaining db db' r Hok Hr;
    simpl in Hr.
  - simplify_eq. simpl. split; [lia | by rewrite app_nil_r].
  - pose proof (recvCommit_applies (engine env k) c db) as Ha.
    cbv zeta in Ha.
    destruct (recvCommit (engine env k) c db) as [db1 o] eqn:E.
    simpl in Ha.
    destruct o as [[]|what|what]; try discriminate Hr.
    destruct Ha as [[_ Hne] | (_ & Hj & Hh)]; [done|].
    destruct Hh as [[Hhash _] | [_ ?]]; [|done].
    assert (Hk : commitOk (engine env k) = true).
    { specialize (Hok 0%nat). rewrite Nat.add_0_r in Hok.
      apply Hok. simpl. lia. }
    rewrite Hk in Hj.
    apply IH in Hr as [-> Hj'].
    2: { intros j Hlt. replace (S k + j)%nat with (k + S j)%nat by lia.
         apply Hok. simpl. lia. }
    split; [simpl; lia|].
    rewrite Hj', Hj. simpl. rewrite <- app_assoc. simpl.
    do 3 f_equal.
    unfold getCommittedHash in Hhash. rewrite Hj, last_snoc in Hhash.
    done.
Qed.

(** X18. A SYNCHRONIZE_RESPONSE or SUBSCRIPTION_APPROVED without
    NumCommits is refused and changes nothing.  One that [_recvSynchronize]
    accepts, the engine refusing no commit, carries exactly NumCommits
    COMMIT messages; the journal of the node is then the journal before
    followed by these commits, in order, each with the hash and the query it
    declares, so the commit count is NumCommits more; and nothing but the
    database of the node is changed. *)
Theorem recvSynchronize_accepts (env : Env) (message : SData)
  (n : SQLiteNode) :
  (isSet message "NumCommits" = false ->
   _recvSynchronize env message n = (n, Thrown "missing NumCommits"))
  ∧ (snd (_recvSynchronize env message n) = Returned tt ->
     (∀ k, (k < length (partsOf message))%nat ->
           commitOk (engine env k) = true) ->
     let n' := fst (_recvSynchronize env message n) in
     calc (nameValueMap message) "NumCommits"
     = Z.of_nat (length (partsOf message))
     ∧ journal (_db n')
       = journal (_db n)
         ++ map (fun c => (get c "Hash", textOf c)) (partsOf message)
     ∧ getCommitCount (_db n')
       = getCommitCount (_db n) + calc (nameValueMap message) "NumCommits"
     ∧ n' = with_db (_db n') n).
Proof.
  split.
  - intros Hs. unfold _recvSynchronize. by rewrite Hs.
  - intros Hr Hok n'.
    assert (Hdb : n' = with_db (_db n') n) by apply recvSynchronize_db.
    subst n'. revert Hr Hdb. unfold _recvSynchronize.
    destruct (negb (isSet message "NumCommits")); [done|].
    destruct (recvCommits env 0 (partsOf message)
                (calc (nameValueMap message) "NumCommits") (_db n))
      as [db' o] eqn:E.
    destruct o as [r|what|what]; simpl; try done.
    destruct (Z.eqb_spec r 0) as [-> | Hne]; simpl; [|done].
    intros _ Hdb.
    apply recvCommits_returned in E as [Hz Hj]; [|done].
    split; [lia|]. split; [done|]. split; [|done].
    unfold getCommitCount. rewrite Hj, length_app, length_map. lia.
Qed.

End Receiver.

Section Response.
Context `{Libstuff}.

(** X20. A SYNCHRONIZE_RESPONSE is refused, the node unchanged, out of
    SYNCHRONIZING, when the node has given up its sync peer, and from a peer
    that is not the sync peer.  From the sync peer it is applied.  If that
    fails, the error is passed on after the peer was given up: its
    connection is shut down, and the node goes SEARCHING without a sync
    peer.  If it succeeds and the node has now as many commits as the peer
    says it has, the node goes WAITING without a sync peer; if it has more,
    it gives the peer up in the same way and goes SEARCHING; if it has
    fewer, it chooses a sync peer again and, if there is one, asks it to
    SYNCHRONIZE, stays SYNCHRONIZING and renews its timeout. *)
Theorem synchronize_response_handled (env : Env) (i : nat)
  (message : SData) (n : SQLiteNode) (peer : Peer) :
  (_state n ≠ SYNCHRONIZING ->
   onSYNCHRONIZE_RESPONSE env i message n = (n, Thrown "not synchronizing"))
  ∧ (_state n = SYNCHRONIZING -> _syncPeer n = None ->
     onSYNCHRONIZE_RESPONSE env i message n
     = (n, Thrown "too late, gave up on you"))
  ∧ (_state n = SYNCHRONIZING ->
     ∀ j, _syncPeer n = Some j -> i ≠ j ->
          onSYNCHRONIZE_RESPONSE env i message n
          = (n, Thrown "sync peer mismatch"))
  ∧ (_state n = SYNCHRONIZING -> _syncPeer n = Some i ->
     peerList n !! i = Some peer ->
     let n1 := fst (_recvSynchronize env message n) in
     let count := getCommitCount (_db n1) in
     let peerCommitCount := calcU64 (Peer.attrs peer) "CommitCount" in
     let r := onSYNCHRONIZE_RESPONSE env i message n in
     let givenUp :=
       _changeState env SEARCHING (with_syncPeer None (_reconnectPeer i n1)) in
     (∀ what, snd (_recvSynchronize env message n) = Thrown what ->
        r = (givenUp, Thrown what) ∧ _state (fst r) = SEARCHING
        ∧ _syncPeer (fst r) = None)
     ∧ (snd (_recvSynchronize env message n) = Returned tt ->
        (count = peerCommitCount ->
         r = (_changeState env WAITING (with_syncPeer None n1), Returned tt)
         ∧ _state (fst r) = WAITING ∧ _syncPeer (fst r) = None)
        ∧ (peerCommitCount < count ->
           r = (givenUp, Returned tt) ∧ _state (fst r) = SEARCHING
           ∧ _syncPeer (fst r) = None)
        ∧ (count < peerCommitCount ->
           ∀ k, _syncPeer (_updateSyncPeer n1) = Some k ->
             snd r = Returned tt
             ∧ _state (fst r) = SYNCHRONIZING
             ∧ _syncPeer (fst r) = Some k
             ∧ _stateTimeout (fst r)
               = u64 (STimeNow env + SQL_NODE_SYNCHRONIZING_RECV_TIMEOUT
                      + u64 (rand64 env mod STIME_US_PER_S * 5))
             ∧ sentTo k (stamp (_db n1) (newSData "SYNCHRONIZE")) n1
                      (fst r)))).
Proof.
  split; [|split; [|split]].
  - intros Hs. unfold onSYNCHRONIZE_RESPONSE. apply State_eqb_neq in Hs.
    by rewrite Hs.
  - intros Hs Hp. unfold onSYNCHRONIZE_RESPONSE. by rewrite Hs, Hp.
  - intros Hs j Hp Hne. unfold onSYNCHRONIZE_RESPONSE. rewrite Hs, Hp.
    apply Nat.eqb_neq in Hne. by rewrite Hne.
  - intros Hs Hp Hpeer n1 count peerCommitCount r givenUp.
    assert (Hn1 : n1 = with_db (_db n1) n) by apply recvSynchronize_db.
    assert (Hr : r = match _recvSynchronize env message n with
                     | (m, Returned _) => (afterSynchronize env i m, Returned tt)
                     | (m, Thrown what) =>
                         (_changeState env SEARCHING
                            (with_syncPeer None (_reconnectPeer i m)),
                          Thrown what)
                     | (m, Aborted what) => (m, Aborted what)
                     end).
    { subst r. unfold onSYNCHRONIZE_RESPONSE. rewrite Hs, Hp.
      by rewrite Nat.eqb_refl. }
    rewrite Hr. subst givenUp count n1.
    destruct (_recvSynchronize env message n) as [m o]. simpl in *.
    split.
    + intros what ->. split; [done|]. simpl.
      split; [apply changeState_state|]. by rewrite changeState_syncPeer.
    + intros ->. simpl.
      assert (Hlook : peerList m !! i = Some peer) by (by rewrite Hn1).
      unfold afterSynchronize. rewrite Hlook. fold peerCommitCount.
      split; [|split].
      * intros He. apply Z.eqb_eq in He. rewrite He.
        split; [done|]. split; [apply changeState_state|].
        by rewrite changeState_syncPeer.
      * intros Hlt.
        assert (E1 : (getCommitCount (_db m) =? peerCommitCount) = false)
          by (apply Z.eqb_neq; lia).
        assert (E2 : (peerCommitCount <? getCommitCount (_db m)) = true)
          by (by apply Z.ltb_lt).
        rewrite E1, E2. split; [done|].
        split; [apply changeState_state|]. by rewrite changeState_syncPeer.
      * intros Hlt k Hk.
        assert (E1 : (getCommitCount (_db m) =? peerCommitCount) = false)
          by (apply Z.eqb_neq; lia).
        assert (E2 : (peerCommitCount <? getCommitCount (_db m)) = false)
          by (apply Z.ltb_ge; lia).
        assert (Hk' : _syncPeer (_updateSyncPeer m) = Some k) by exact Hk.
        rewrite E1, E2, Hk'. unfold _sendToPeer. simpl.
        split; [done|]. split; [rewrite Hn1; exact Hs|]. split; [exact Hk|].
        split; [done|].
        intros p sock Hp' Hsock. unfold _updateSyncPeer. simpl.
        rewrite list_lookup_alter_eq, Hp'. simpl.
        unfold deliver. rewrite Hsock. simpl.
        eexists _, _, []. split; [reflexivity|]. done.
Qed.

End Response.

(** * Waiting for a peer *)

Section Timeouts.
Context `{Libstuff}.

(** The peers after a real change of state, by a node that does not leave
    the lead: each one that is connected got the STATE message, and nothing
    else changed. *)
Lemma changeState_peers env s n :
  SWITHIN LEADING (_state n) STANDINGDOWN = false ->
  s ≠ _state n ->
  ∃ state,
    peerList (_changeState env s n)
    = map (fun peer => if receives false peer then deliver state peer
                       else peer) (peerList n).
Proof.
  intros Hold Hne. apply State_eqb_neq in Hne. unfold _changeState.
  rewrite Hne, Hold. unfold _sendToAllPeers. simpl.
  eexists. f_equal. rewrite enterState_peerList.
  by repeat case_match.
Qed.

Lemma reconnect_connected p sock :
  Peer.s p = Some sock ->
  attr (reconnect p) "LoggedIn" = "false"%string
  ∧ Peer.s (reconnect p) = Some (mkSocket (sendBuffer sock) true).
Proof.
  intros Hs. unfold reconnect. rewrite Hs. split; [|done].
  apply attr_setAttr_eq.
Qed.

(** X19. A node that waits for its sync peer in SYNCHRONIZING, or for its
    lead peer in SUBSCRIBING, does nothing until the state timeout has
    passed.  Then it gives the peer up: the connection to it, if any, is
    shut down and the peer is marked as not logged in; the node forgets the
    peer and goes SEARCHING.  Commands that were escalated in the meantime
    are dropped from the table without being handed back to the server. *)
Theorem waiting_for_peer_times_out (env : Env) (n : SQLiteNode) (j : nat) :
  (_state n = SYNCHRONIZING ∧ _syncPeer n = Some j ∧ _leadPeer n = None)
  ∨ (_state n = SUBSCRIBING ∧ _leadPeer n = Some j ∧ _syncPeer n = None) ->
  (STimeNow env <= _stateTimeout n -> update env n = (n, Returned false))
  ∧ (_stateTimeout n < STimeNow env ->
     let n' := fst (update env n) in
     snd (update env n) = Returned true
     ∧ _state n' = SEARCHING
     ∧ _syncPeer n' = None
     ∧ _leadPeer n' = None
     ∧ _escalatedCommandMap n' = ∅
     ∧ _server n' = _server n
     ∧ _db n' = _db n
     ∧ ∀ p sock, peerList n !! j = Some p -> Peer.s p = Some sock ->
         ∃ p' sock',
           peerList n' !! j = Some p'
           ∧ attr p' "LoggedIn" = "false"%string
           ∧ Peer.s p' = Some sock'
           ∧ shutDown sock' = true).
Proof.
  intros Hcase.
  assert (Hup : update env n
                = if _stateTimeout n <? STimeNow env
                  then (_changeState env SEARCHING
                          (with_leadPeer None
                             (with_syncPeer None (_reconnectPeer j n))),
                        Returned true)
                  else (n, Returned false)).
  { unfold update.
    destruct Hcase as [(Hs & Hp & Hl) | (Hs & Hp & Hl)]; rewrite Hs.
    - unfold updateSYNCHRONIZING. rewrite Hp.
      case_match; [|done]. do 2 f_equal. unfold _reconnectPeer.
      destruct n; simpl in *; by subst.
    - unfold updateSUBSCRIBING. rewrite Hp.
      case_match; [|done]. do 2 f_equal. unfold _reconnectPeer.
      destruct n; simpl in *; by subst. }
  rewrite Hup. split.
  - intros Hle. apply Z.ltb_ge in Hle. by rewrite Hle.
  - intros Hlt. apply Z.ltb_lt in Hlt. rewrite Hlt. simpl.
    set (m := with_leadPeer None (with_syncPeer None (_reconnectPeer j n))).
    assert (Hm : _state m = _state n) by done.
    assert (Hne : SEARCHING ≠ _state m).
    { rewrite Hm. destruct Hcase as [(-> & _) | (-> & _)]; done. }
    assert (Hold : SWITHIN LEADING (_state m) STANDINGDOWN = false).
    { rewrite Hm. destruct Hcase as [(-> & _) | (-> & _)]; done. }
    destruct (changeState_clears env SEARCHING m Hne) as [Hlead Hmap].
    split; [done|]. split; [apply changeState_state|].
    split; [by rewrite changeState_syncPeer|].
    split; [by apply Hlead|]. split; [by apply Hmap|].
    split; [by rewrite changeState_server|].
    split; [by rewrite changeState_db|].
    intros p sock Hp Hsock.
    destruct (changeState_peers env SEARCHING m Hold Hne) as [state ->].
    destruct (reconnect_connected p sock Hsock) as [Hlog Hs'].
    rewrite list_lookup_fmap.
    assert (Hj : peerList m !! j = Some (reconnect p)).
    { unfold m, _reconnectPeer. simpl.
      by rewrite list_lookup_alter_eq, Hp. }
    rewrite Hj. simpl.
    assert (Hrec : receives false (reconnect p) = true).
    { unfold receives. rewrite Hs'. simpl. done. }
    rewrite Hrec. unfold deliver. rewrite Hs'. simpl.
    eexists _, _. split; [reflexivity|]. split; [exact Hlog|]. done.
Qed.

End Timeouts.

(** * Transactions committed while the followers were not told *)

Section Outstanding.
Context `{Libstuff}.

Lemma receives_subscribed p p' :
  is_Some (Peer.s p') <-> is_Some (Peer.s p) ->
  attr p' "Subscribed" = attr p "Subscribed" ->
  receives true p' = receives true p.
Proof.
  intros Hs Ha. unfold receives. rewrite Ha. f_equal.
  by apply bool_decide_ext.
Qed.

Lemma filter_all {A} (P : A -> Prop) `{∀ x, Decision (P x)} (l : list A) :
  Forall P l -> filter P l = l.
Proof.
  induction 1 as [|x l Hx Hl IH]; [done|].
  rewrite filter_cons_True by done. by rewrite IH.
Qed.

(** One transaction of the loop, seen from the peer at [i]. *)
Lemma sendOutstanding_peer sendTime n tx i p :
  peerList n !! i = Some p ->
  _lastSentTransactionID n < fst tx ->
  let n' := sendOutstanding sendTime n tx in
  ∃ p' pair,
    peerList n' !! i = Some p'
    ∧ outstandingPair (_db n) tx pair
    ∧ receives true p' = receives true p
    ∧ match Peer.s p with
      | Some sock =>
          ∃ sock', Peer.s p' = Some sock'
                   ∧ sendBuffer sock'
                     = sendBuffer sock
                       ++ (if receives true p then pair else [])
      | None => Peer.s p' = None
      end
    ∧ _db n' = _db n
    ∧ _lastSentTransactionID n' = fst tx.
Proof.
  intros Hp Hlt n'. subst n'. unfold sendOutstanding.
  assert (E : (fst tx <=? _lastSentTransactionID n) = false)
    by (apply Z.leb_gt; lia).
  rewrite E. clear E.
  set (transaction := setContent _ _).
  set (commit := set "Hash" _ _).
  unfold _sendToAllPeers. simpl.
  rewrite !list_lookup_fmap, Hp. simpl.
  set (b := broadcastCopy (_db n) transaction).
  set (c := broadcastCopy (_db n) commit).
  assert (Hb : b = set "Hash" (getCommittedHash (_db n))
                     (set "CommitCount" (to_string (getCommitCount (_db n)))
                          transaction)) by done.
  assert (Hc : c = commit).
  { unfold c, broadcastCopy, commit.
    rewrite isSet_set_ne, isSet_set_eq by done. by rewrite isSet_set_eq. }
  assert (Hget : ∀ k, get transaction k
                      = get (set "ID" ("ASYNC_" ++ to_string (fst tx))
                            (set "leaderSendTime" sendTime
                            (set "NewHash" (snd (snd tx))
                            (set "NewCount" (to_string (fst tx))
                            (set "Command" "ASYNC"
                               (newSData "BEGIN_TRANSACTION")))))) k)
    by done.
  assert (Hpair : outstandingPair (_db n) tx [b; c]).
  { exists b, c. split; [done|]. rewrite Hb, Hc. unfold commit.
    repeat split. }
  destruct (receives true p) eqn:Hr.
  - assert (Hsock : is_Some (Peer.s p)).
    { unfold receives in Hr. apply andb_true_iff in Hr as [Hr _].
      by apply bool_decide_eq_true in Hr. }
    destruct Hsock as [sock Hsock].
    set (p1 := setAttr "TransactionResponse" "" (deliver b p)).
    assert (Hs1 : Peer.s p1 = Some (socketSend b sock)).
    { unfold p1, deliver. by rewrite Hsock. }
    assert (Hr1 : receives true p1 = true).
    { trans (receives true p); [|done]. apply receives_subscribed.
      - rewrite Hs1, Hsock. split; eauto.
      - unfold p1, deliver. rewrite Hsock. by rewrite attr_setAttr_ne. }
    rewrite Hr1. exists (deliver c p1), [b; c].
    split; [done|]. split; [done|].
    split.
    { trans (receives true p1); [|done]. apply receives_subscribed.
      - unfold deliver. rewrite Hs1. simpl. split; eauto.
      - unfold deliver. by rewrite Hs1. }
    rewrite Hsock. split; [|done].
    exists (socketSend c (socketSend b sock)). split.
    + unfold deliver. by rewrite Hs1.
    + simpl. by rewrite <- app_assoc.
  - set (p1 := setAttr "TransactionResponse" "" p).
    assert (Hr1 : receives true p1 = false).
    { trans (receives true p); [|done]. apply receives_subscribed; [done|].
      unfold p1. by rewrite attr_setAttr_ne. }
    rewrite Hr1. exists p1, [b; c].
    split; [done|]. split; [done|]. split; [by rewrite Hr1|].
    split; [|done].
    destruct (Peer.s p) as [sock|] eqn:Hsock; [|done].
    exists sock. split; [done|]. by rewrite app_nil_r.
Qed.

Lemma sendOutstanding_loop sendTime i txs :
  ∀ n p,
    peerList n !! i = Some p ->
    (∀ j k a b, (j < k)%nat -> txs !! j = Some a -> txs !! k = Some b ->
                fst a < fst b) ->
    let n' := fold_left (sendOutstanding sendTime) txs n in
    ∃ p' pairs,
      peerList n' !! i = Some p'
      ∧ Forall2 (outstandingPair (_db n))
                (filter (fun tx => _lastSentTransactionID n < fst tx) txs)
                pairs
      ∧ receives true p' = receives true p
      ∧ match Peer.s p with
        | Some sock =>
            ∃ sock', Peer.s p' = Some sock'
                     ∧ sendBuffer sock'
                       = sendBuffer sock
                         ++ (if receives true p then concat pairs else [])
        | None => Peer.s p' = None
        end
      ∧ _db n' = _db n
      ∧ _lastSentTransactionID n'
        = fold_left Z.max (map fst txs) (_lastSentTransactionID n).
Proof.
  induction txs as [|tx txs IH]; intros n p Hp Hsorted n'.
  - exists p, []. split; [done|]. split; [constructor|]. split; [done|].
    split; [|done].
    destruct (Peer.s p) as [sock|]; [|done].
    exists sock. split; [done|]. simpl. case_match; by rewrite app_nil_r.
  - assert (Htail : ∀ j k a b, (j < k)%nat -> txs !! j = Some a ->
                               txs !! k = Some b -> fst a < fst b).
    { intros j k a b Hjk Ha Hb.
      apply (Hsorted (S j) (S k) a b); [lia|done|done]. }
    assert (Hhead : Forall (fun t => fst tx < fst t) txs).
    { apply Forall_lookup. intros k b Hb.
      apply (Hsorted 0%nat (S k) tx b); [lia|done|done]. }
    subst n'. cbn [fold_left map].
    destruct (decide (_lastSentTransactionID n < fst tx)) as [Hlt|Hge].
    + destruct (sendOutstanding_peer sendTime n tx i p Hp Hlt)
        as (p1 & pair & Hp1 & Hpair & Hr1 & Hs1 & Hdb1 & Hlast1).
      destruct (IH (sendOutstanding sendTime n tx) p1 Hp1 Htail)
        as (p' & pairs & Hp' & Hpairs & Hr' & Hs' & Hdb' & Hlast').
      exists p', (pair :: pairs).
      split; [done|].
      split.
      { rewrite filter_cons_True by done. constructor; [done|].
        rewrite Hdb1, Hlast1 in Hpairs.
        rewrite (filter_all _ _ Hhead) in Hpairs.
        rewrite filter_all; [done|].
        eapply Forall_impl; [exact Hhead|]. simpl. intros. lia. }
      split; [by rewrite Hr', Hr1|].
      split.
      { destruct (Peer.s p) as [sock|].
        - destruct Hs1 as (sock1 & Hs1 & Hb1). rewrite Hs1 in Hs'.
          destruct Hs' as (sock' & Hs' & Hb').
          exists sock'. split; [done|].
          rewrite Hb', Hb1, Hr1. destruct (receives true p); simpl.
          + by rewrite <- app_assoc.
          + by rewrite !app_nil_r.
        - by rewrite Hs1 in Hs'. }
      split; [by rewrite Hdb', Hdb1|].
      rewrite Hlast', Hlast1. f_equal. lia.
    + assert (Hskip : sendOutstanding sendTime n tx = n).
      { unfold sendOutstanding.
        assert (E : (fst tx <=? _lastSentTransactionID n) = true)
          by (apply Z.leb_le; lia).
        by rewrite E. }
      rewrite Hskip.
      destruct (IH n p Hp Htail)
        as (p' & pairs & Hp' & Hpairs & Hr' & Hs' & Hdb' & Hlast').
      exists p', pairs. split; [done|].
      split; [by rewrite filter_cons_False by done|].
      split; [done|]. split; [done|]. split; [done|].
      rewrite Hlast'. f_equal. lia.
Qed.

(** X22. Telling the followers about the transactions committed meanwhile.
    Nothing is done when none is flagged as unsent.  Otherwise, the
    committed transactions being in increasing order of their ids, a peer
    that is connected and subscribed is sent, for each of them whose id is
    above that of the last one sent, and in their order, a BEGIN_TRANSACTION
    (Command ASYNC, ID "ASYNC_" and the id, the query, the new count and
    hash) followed by its COMMIT_TRANSACTION; any other peer is sent
    nothing.  The flag is cleared, and the last id sent is the largest of
    the ids and the earlier one. *)
Theorem outstanding_transactions_sent (env : Env) (n : SQLiteNode) :
  let n' := _sendOutstandingTransactions env n in
  let txs := committedTransactions (_db n) in
  (unsentTransactions n = false -> n' = n)
  ∧ (unsentTransactions n = true ->
     (∀ j k a b, (j < k)%nat -> txs !! j = Some a -> txs !! k = Some b ->
                 fst a < fst b) ->
     unsentTransactions n' = false
     ∧ _lastSentTransactionID n'
       = fold_left Z.max (map fst txs) (_lastSentTransactionID n)
     ∧ ∀ i p sock,
         peerList n !! i = Some p -> Peer.s p = Some sock ->
         ∃ p' sock' pairs,
           peerList n' !! i = Some p'
           ∧ Peer.s p' = Some sock'
           ∧ Forall2 (outstandingPair (_db n))
                     (filter (fun tx => _lastSentTransactionID n < fst tx)
                             txs)
                     pairs
           ∧ sendBuffer sock'
             = sendBuffer sock
               ++ (if SIEquals (attr p "Subscribed") "true"
                   then concat pairs else [])).
Proof.
  intros n' txs. subst n'. unfold _sendOutstandingTransactions. split.
  - by intros ->.
  - intros -> Hsorted. simpl. fold txs.
    set (n1 := with_db (drainCommittedTransactions (_db n)) n).
    split; [done|]. split.
    + change (_lastSentTransactionID n) with (_lastSentTransactionID n1).
      generalize n1. generalize txs. clear.
      intros txs. induction txs as [|tx l IH]; intros m; [done|].
      cbn [fold_left map]. rewrite IH. f_equal.
      unfold sendOutstanding.
      destruct (fst tx <=? _lastSentTransactionID m) eqn:E.
      * apply Z.leb_le in E. lia.
      * apply Z.leb_gt in E. simpl. lia.
    + intros i p sock Hp Hsock.
      destruct (sendOutstanding_loop (to_string (STimeNow env)) i txs n1 p)
        as (p' & pairs & Hp' & Hpairs & _ & Hs' & _ & _); [done|done|].
      rewrite Hsock in Hs'. destruct Hs' as (sock' & Hs' & Hb').
      exists p', sock', pairs. split; [done|]. split; [done|].
      split; [done|]. rewrite Hb'. f_equal.
      unfold receives. rewrite Hsock. done.
Qed.

End Outstanding.

(** * The end of a graceful shutdown *)

Section Shutdown.
Context `{Libstuff}.

(** X23. Whether a graceful shutdown is complete.  It is not when none was
    begun.  Once its timeout has run out it is, whatever the node was doing:
    the node goes SEARCHING, and every escalated command is given back to
    the server, in some order, as complete with the response
    "500 Abandoned", none being left in the table.  Before that the node is
    not touched, and the shutdown is complete exactly when the node is not
    beyond WAITING, no connected peer has data left to send, no transaction
    is open, no commit is in progress and no command is escalated. *)
Theorem shutdown_completes (env : Env) (n : SQLiteNode) :
  let r := shutdownComplete env n in
  let rings := ringing (STimeNow env) (_gracefulShutdownTimeout n) in
  (gracefulShutdown n = false -> r = (n, false))
  ∧ (gracefulShutdown n = true -> rings = true ->
     snd r = true
     ∧ _state (fst r) = SEARCHING
     ∧ _escalatedCommandMap (fst r) = ∅
     ∧ ∃ calls,
         _server (fst r) = _server n ++ calls
         ∧ calls ≡ₚ map (fun c => acceptCommand (abandon c) false)
                        (escalatedCommands n))
  ∧ (gracefulShutdown n = true -> rings = false ->
     fst r = n
     ∧ (snd r = true <->
        stateIndex (_state n) <= stateIndex WAITING
        ∧ (∀ p sock, p ∈ peerList n -> Peer.s p = Some sock ->
                     sendBuffer sock = [])
        ∧ insideTransaction (_db n) = false
        ∧ commitInProgress n = false
        ∧ _escalatedCommandMap n = ∅)).
Proof.
  intros r rings. subst r rings. unfold shutdownComplete.
  split; [by intros ->|]. split.
  - intros -> ->. simpl.
    split; [done|]. split; [apply changeState_state|].
    rewrite changeState_server.
    assert (Hclear : ∀ m, _escalatedCommandMap m = ∅ ->
                          _escalatedCommandMap (_changeState env SEARCHING m)
                          = ∅).
    { intros m Hm. destruct (State_eqb SEARCHING (_state m)) eqn:E.
      - unfold _changeState. by rewrite E.
      - apply State_eqb_neq in E. by apply changeState_clears. }
    destruct (decide (_escalatedCommandMap n = ∅)) as [He|He].
    + rewrite (bool_decide_eq_true_2 _ He). split; [by apply Hclear|].
      exists []. split; [by rewrite app_nil_r|].
      unfold escalatedCommands. by rewrite He, map_to_list_empty.
    + rewrite (bool_decide_eq_false_2 _ He). split; [by apply Hclear|].
      eexists. split; [reflexivity | done].
  - intros -> ->. simpl.
    assert (Hidx : (stateIndex WAITING <? stateIndex (_state n)) = true
                   <-> ¬ stateIndex (_state n) <= stateIndex WAITING).
    { rewrite Z.ltb_lt. lia. }
    assert (Hsend : existsb stillSending (peerList n) = false
                    <-> ∀ p sock, p ∈ peerList n -> Peer.s p = Some sock ->
                                  sendBuffer sock = []).
    { split.
      - intros Hex p sock Hp Hsock.
        destruct (sendBuffer sock) as [|m l] eqn:Hb; [done|].
        assert (Hst : existsb stillSending (peerList n) = true).
        { apply existsb_exists. exists p. split; [by apply list_elem_of_In|].
          unfold stillSending, sendBufferEmpty. by rewrite Hsock, Hb. }
        by rewrite Hst in Hex.
      - intros Hall. apply not_true_is_false.
        intros (p & Hp & Hst)%existsb_exists.
        apply list_elem_of_In in Hp.
        unfold stillSending, sendBufferEmpty in Hst.
        destruct (Peer.s p) as [sock|] eqn:Hsock; [|done].
        by rewrite (Hall p sock Hp Hsock) in Hst. }
    destruct (stateIndex WAITING <? stateIndex (_state n)) eqn:E1.
    { split; [done|]. split; [done|].
      intros (Hle & _). by apply Hidx in Hle. }
    assert (Hle : stateIndex (_state n) <= stateIndex WAITING)
      by (apply Z.ltb_ge in E1; lia).
    destruct (existsb stillSending (peerList n)) eqn:E2.
    { split; [done|]. split; [done|].
      intros (_ & Hall & _). apply Hsend in Hall. done. }
    split; [done|]. simpl. unfold _isNothingBlockingShutdown.
    destruct (insideTransaction (_db n)); [split; [done | by intros (_&_&?&_)]|].
    destruct (commitInProgress n); [split; [done | by intros (_&_&_&?&_)]|].
    destruct (decide (_escalatedCommandMap n = ∅)) as [He|He].
    + rewrite (bool_decide_eq_true_2 _ He). simpl.
      split; [|done]. intros _. repeat split; try done. by apply Hsend.
    + rewrite (bool_decide_eq_false_2 _ He). simpl.
      split; [done | by intros (_&_&_&_&?)].
Qed.

End Shutdown.

(** * The lead peer, all the life of a node *)

Section LeadPeer.
Context `{Libstuff}.

Lemma changeState_leadPeer env s n :
  _leadPeer (_changeState env s n)
  = if State_eqb s (_state n) then _leadPeer n
    else if stateIndex s <? stateIndex SUBSCRIBING then None
    else _leadPeer n.
Proof.
  assert (Hso : ∀ m, _leadPeer (_sendOutstandingTransactions env m)
                     = _leadPeer m) by so_field.
  assert (Hsl : ∀ m, _leadPeer (stopLeading env m) = _leadPeer m)
    by sl_field Hso.
  assert (He : ∀ s m, _leadPeer (enterState env s m) = _leadPeer m)
    by es_field.
  unfold _changeState. case_match; [done|]. simpl. rewrite He.
  repeat (case_match; simpl); rewrite ?Hsl; done.
Qed.

Lemma changeState_length env s n :
  length (peerList (_changeState env s n)) = length (peerList n).
Proof.
  apply (sent_length notVote), changeState_sent, sent_refl.
Qed.

Lemma kept_frame m n' :
  _leadPeer n' = _leadPeer m ->
  _state n' = _state m ->
  length (peerList n') = length (peerList m) ->
  leadPeerKept m -> leadPeerKept n'.
Proof.
  unfold leadPeerKept. intros -> -> Hl.
  destruct (_leadPeer m) as [i|]; [|done].
  by rewrite !lookup_lt_is_Some, Hl.
Qed.

(** A change to a state below SUBSCRIBING. *)
Lemma kept_changeState_low env s m :
  stateIndex s < stateIndex SUBSCRIBING ->
  _leadPeer m = None ∨ leadPeerKept m ->
  leadPeerKept (_changeState env s m).
Proof.
  intros Hlow Hm.
  assert (Hs : s ≠ SUBSCRIBING ∧ s ≠ FOLLOWING)
    by (split; intros ->; vm_compute in Hlow; done).
  destruct (State_eqb s (_state m)) eqn:E.
  - assert (Hsame : _changeState env s m = m)
      by (unfold _changeState; by rewrite E).
    rewrite Hsame. apply State_eqb_eq in E. destruct Hm as [Hm | Hm]; [|done].
    unfold leadPeerKept. by rewrite Hm, <- E.
  - unfold leadPeerKept.
    rewrite changeState_leadPeer, changeState_state, E.
    apply Z.ltb_lt in Hlow. by rewrite Hlow.
Qed.

(** A change to SUBSCRIBING or FOLLOWING. *)
Lemma kept_changeState_high env s m i :
  s = SUBSCRIBING ∨ s = FOLLOWING ->
  _leadPeer m = Some i ->
  is_Some (peerList m !! i) ->
  leadPeerKept (_changeState env s m).
Proof.
  intros Hs Hl Hi. unfold leadPeerKept.
  rewrite changeState_leadPeer, changeState_state.
  assert (Hhigh : (stateIndex s <? stateIndex SUBSCRIBING) = false)
    by (destruct Hs as [-> | ->]; reflexivity).
  rewrite Hhigh, Hl. destruct (State_eqb s (_state m));
    (split; [|done]); apply lookup_lt_is_Some;
    rewrite changeState_length; by apply lookup_lt_is_Some.
Qed.

Lemma sendOutstandingTransactions_kept env n :
  leadPeerKept n -> leadPeerKept (_sendOutstandingTransactions env n).
Proof.
  apply kept_frame.
  - so_field.
  - so_field.
  - apply (sent_length notVote), sendOutstandingTransactions_sent, sent_refl.
Qed.

Lemma leaderToFollow_peer n high i leader :
  leaderToFollow n (waitingScan n) high = Some (i, leader) ->
  peerList n !! i = Some leader.
Proof.
  unfold leaderToFollow. intros Hl.
  destruct (waitingScan_spec n) as (_ & _ & _ & _ & Hlast).
  destruct (wCurrentLeader (waitingScan n)) as [[j p]|]; [|done].
  destruct Hlast as [Hj _]. case_match; simplify_eq. done.
Qed.

End LeadPeer.

Ltac peers_length :=
  unfold _sendToPeer, _sendToAllPeers, updatePeer, _reconnectPeer,
    _reconnectAll, _updateSyncPeer, sendMessage, callServer,
    requeueEscalated;
  simpl; rewrite ?length_alter, ?length_map, ?length_fmap; reflexivity.

Ltac keep_lead :=
  lazymatch goal with
  | HI : leadPeerKept ?m |- leadPeerKept ?m => exact HI
  | |- leadPeerKept (_changeState _ _ (with_leadPeer None _)) =>
      apply kept_changeState_low; [reflexivity | left; reflexivity]
  | |- leadPeerKept (_changeState _ _ _) =>
      apply kept_changeState_low; [reflexivity | right; keep_lead]
  | |- leadPeerKept (_sendOutstandingTransactions _ _) =>
      apply sendOutstandingTransactions_kept; keep_lead
  | |- leadPeerKept (_sendToPeer _ _ ?m) =>
      apply (kept_frame m); [reflexivity | reflexivity | peers_length
                            | keep_lead]
  | |- leadPeerKept (_sendToAllPeers _ _ ?m) =>
      apply (kept_frame m); [reflexivity | reflexivity | peers_length
                            | keep_lead]
  | |- leadPeerKept (updatePeer _ _ ?m) =>
      apply (kept_frame m); [reflexivity | reflexivity | peers_length
                            | keep_lead]
  | |- leadPeerKept (sendMessage _ _ ?m) =>
      apply (kept_frame m); [reflexivity | reflexivity | peers_length
                            | keep_lead]
  | |- leadPeerKept (_reconnectPeer _ ?m) =>
      apply (kept_frame m); [reflexivity | reflexivity | peers_length
                            | keep_lead]
  | |- leadPeerKept (?f ?m) =>
      apply (kept_frame m); [reflexivity | reflexivity | peers_length
                            | keep_lead]
  | |- leadPeerKept (?f _ ?m) =>
      apply (kept_frame m); [reflexivity | reflexivity | peers_length
                            | keep_lead]
  end.

Section LeadPeerHandlers.
Context `{Libstuff}.

Lemma shutdownComplete_kept env n :
  leadPeerKept n -> leadPeerKept (fst (shutdownComplete env n)).
Proof.
  intros HI. unfold shutdownComplete.
  repeat case_match; simpl; keep_lead.
Qed.

Lemma standDown_kept env n :
  leadPeerKept n -> leadPeerKept (fst (standDown env n)).
Proof.
  intros HI. unfold standDown, finishStandDown, checkStandDown.
  repeat case_match; simpl; keep_lead.
Qed.

Lemma afterCommitBlock_kept env n :
  leadPeerKept n -> leadPeerKept (fst (afterCommitBlock env n)).
Proof.
  intros HI. unfold afterCommitBlock, startDistributedTransaction.
  repeat case_match; simpl; try (by apply standDown_kept); keep_lead.
Qed.

Lemma resolveCommit_kept env n n' :
  resolveCommit env n = Some n' -> leadPeerKept n -> leadPeerKept n'.
Proof.
  unfold resolveCommit, failCommit. intros Hr HI.
  repeat case_match; simplify_eq; keep_lead.
Qed.

Lemma updateLEADING_kept env n :
  leadPeerKept n -> leadPeerKept (fst (updateLEADING env n)).
Proof.
  intros HI. unfold updateLEADING.
  set (n1 := if negb (commitInProgress n) then _ else n).
  assert (HI1 : leadPeerKept n1) by (subst n1; case_match; keep_lead).
  clearbody n1.
  repeat case_match; simpl; try (by apply afterCommitBlock_kept); try done.
  apply afterCommitBlock_kept.
  match goal with
  | Hr : resolveCommit _ _ = Some _ |- _ =>
      pose proof (resolveCommit_kept _ _ _ Hr HI1)
  end.
  keep_lead.
Qed.

Lemma update_kept env n :
  leadPeerKept n -> leadPeerKept (fst (update env n)).
Proof.
  intros HI. unfold update. destruct (_state n) eqn:Hs; [done|..].
  - unfold updateSEARCHING.
    pose proof (shutdownComplete_kept env n HI) as Hdone.
    destruct (shutdownComplete env n) as [n0 done]. simpl in Hdone.
    repeat case_match; simpl; try done; keep_lead.
  - unfold updateSYNCHRONIZING. repeat case_match; simpl; keep_lead.
  - unfold updateWAITING.
    repeat case_match; simpl; try keep_lead.
    match goal with
    | Hl : leaderToFollow _ _ _ = Some (?i, _) |- _ =>
        apply leaderToFollow_peer in Hl;
        apply (kept_changeState_high _ _ _ i); [by left | reflexivity |]
    end.
    unfold _sendToPeer. simpl. apply lookup_lt_is_Some.
    rewrite length_alter. apply lookup_lt_is_Some. eauto.
  - unfold updateSTANDINGUP. repeat case_match; simpl; keep_lead.
  - by apply updateLEADING_kept.
  - by apply updateLEADING_kept.
  - unfold updateSUBSCRIBING. repeat case_match; simpl; keep_lead.
  - unfold updateFOLLOWING. repeat case_match; simpl; keep_lead.
Qed.

Lemma recvSynchronize_kept env message n :
  leadPeerKept n -> leadPeerKept (fst (_recvSynchronize env message n)).
Proof. intros HI. rewrite recvSynchronize_db. keep_lead. Qed.

Lemma onLOGIN_kept i peer message n :
  leadPeerKept n -> leadPeerKept (fst (onLOGIN i peer message n)).
Proof.
  intros HI. unfold onLOGIN. repeat case_match; simpl; keep_lead.
Qed.

Lemma onPeerStandingUp_kept env i peer message n :
  leadPeerKept n -> leadPeerKept (onPeerStandingUp env i peer message n).
Proof.
  intros HI. unfold onPeerStandingUp. repeat case_match; keep_lead.
Qed.

Lemma onSTATE_kept env i peer message n :
  leadPeerKept n -> leadPeerKept (fst (onSTATE env i peer message n)).
Proof.
  intros HI. unfold onSTATE.
  repeat case_match; simpl; try apply onPeerStandingUp_kept; keep_lead.
Qed.

Lemma onSTANDUP_RESPONSE_kept i message n :
  leadPeerKept n -> leadPeerKept (fst (onSTANDUP_RESPONSE i message n)).
Proof.
  intros HI. unfold onSTANDUP_RESPONSE.
  repeat case_match; simpl; keep_lead.
Qed.

Lemma onSYNCHRONIZE_kept i peer message n :
  leadPeerKept n -> leadPeerKept (fst (onSYNCHRONIZE i peer message n)).
Proof.
  intros HI. unfold onSYNCHRONIZE. repeat case_match; simpl; keep_lead.
Qed.

Lemma afterSynchronize_kept env syncPeer n :
  leadPeerKept n -> leadPeerKept (afterSynchronize env syncPeer n).
Proof.
  intros HI. unfold afterSynchronize. repeat case_match; simpl; keep_lead.
Qed.

Lemma onSYNCHRONIZE_RESPONSE_kept env i message n :
  leadPeerKept n ->
  leadPeerKept (fst (onSYNCHRONIZE_RESPONSE env i message n)).
Proof.
  intros HI. unfold onSYNCHRONIZE_RESPONSE.
  pose proof (recvSynchronize_kept env message n HI) as HI1.
  repeat case_match; simpl in *; try keep_lead.
  by apply afterSynchronize_kept.
Qed.

Lemma onSUBSCRIBE_kept env i peer n :
  leadPeerKept n -> leadPeerKept (fst (onSUBSCRIBE env i peer n)).
Proof.
  intros HI. unfold onSUBSCRIBE. repeat case_match; simpl; keep_lead.
Qed.

Lemma onSUBSCRIPTION_APPROVED_kept env i message n :
  is_Some (peerList n !! i) ->
  leadPeerKept n ->
  leadPeerKept (fst (onSUBSCRIPTION_APPROVED env i message n)).
Proof.
  intros Hi HI. unfold onSUBSCRIPTION_APPROVED.
  pose proof (recvSynchronize_kept env message n HI) as HI1.
  pose proof (recvSynchronize_db env message n) as Hdb.
  repeat case_match; simpl in *; try keep_lead.
  state_tests.
  match goal with
  | Hb : bool_decide _ = true |- _ => apply bool_decide_eq_true in Hb
  end.
  apply (kept_changeState_high _ _ _ i); [by right | |];
    rewrite Hdb; simpl; done.
Qed.

Lemma onVote_kept i peer message n :
  leadPeerKept n -> leadPeerKept (fst (onVote i peer message n)).
Proof.
  intros HI. unfold onVote.
  repeat case_match; simpl; try keep_lead; simplify_eq.
  all: unfold recordVote in *; repeat case_match; simplify_eq; keep_lead.
Qed.

Lemma onESCALATE_kept i peer message n :
  leadPeerKept n -> leadPeerKept (fst (onESCALATE i peer message n)).
Proof.
  intros HI. unfold onESCALATE. repeat case_match; simpl; keep_lead.
Qed.

Lemma onESCALATE_CANCEL_kept peer message n :
  leadPeerKept n -> leadPeerKept (fst (onESCALATE_CANCEL peer message n)).
Proof.
  intros HI. unfold onESCALATE_CANCEL. repeat case_match; simpl; keep_lead.
Qed.

Lemma onESCALATE_RESPONSE_kept env message n :
  leadPeerKept n -> leadPeerKept (fst (onESCALATE_RESPONSE env message n)).
Proof.
  intros HI. unfold onESCALATE_RESPONSE.
  repeat case_match; simpl; keep_lead.
Qed.

Lemma onESCALATE_ABORTED_kept message n :
  leadPeerKept n -> leadPeerKept (fst (onESCALATE_ABORTED message n)).
Proof.
  intros HI. unfold onESCALATE_ABORTED. repeat case_match; simpl; keep_lead.
Qed.

Lemma dispatch_kept env i peer message n :
  is_Some (peerList n !! i) ->
  leadPeerKept n -> leadPeerKept (fst (dispatch env i peer message n)).
Proof.
  intros Hi HI. unfold dispatch. destruct (classify (methodLine message)).
  - by apply onLOGIN_kept.
  - by apply onSTATE_kept.
  - by apply onSTANDUP_RESPONSE_kept.
  - by apply onSYNCHRONIZE_kept.
  - by apply onSYNCHRONIZE_RESPONSE_kept.
  - by apply onSUBSCRIBE_kept.
  - by apply onSUBSCRIPTION_APPROVED_kept.
  - unfold onReplicate. simpl. keep_lead.
  - by apply onVote_kept.
  - by apply onESCALATE_kept.
  - by apply onESCALATE_CANCEL_kept.
  - by apply onESCALATE_RESPONSE_kept.
  - by apply onESCALATE_ABORTED_kept.
  - simpl. keep_lead.
  - done.
Qed.

Lemma onMESSAGE_kept env i message n :
  leadPeerKept n -> leadPeerKept (fst (_onMESSAGE env i message n)).
Proof.
  intros HI. unfold _onMESSAGE.
  destruct (peerList n !! i) as [peer0|] eqn:Hp; [|done].
  destruct (negb (isSet message "CommitCount")); [done|].
  destruct (negb (isSet message "Hash")); [done|].
  assert (HI1 : leadPeerKept (updatePeer i (recordCommit message) n))
    by keep_lead.
  assert (Hi : is_Some (peerList (updatePeer i (recordCommit message) n)
                        !! i)).
  { unfold updatePeer. simpl. apply lookup_lt_is_Some.
    rewrite length_alter. apply lookup_lt_is_Some. eauto. }
  destruct (classify (methodLine message)) eqn:Em;
    try (by apply onLOGIN_kept);
    (destruct (negb (SIEquals _ "true")); [done|]);
    by apply dispatch_kept.
Qed.

Lemma onDisconnect_kept env i n :
  leadPeerKept n -> leadPeerKept (_onDisconnect env i n).
Proof.
  intros HI. unfold _onDisconnect.
  set (n1 := if bool_decide (_leadPeer n = Some i) then _ else n).
  assert (HI1 : leadPeerKept n1).
  { subst n1. case_match; [|done].
    apply kept_changeState_low; [reflexivity|]. left.
    unfold requeueEscalated. simpl. by case_match. }
  clearbody n1.
  set (n2 := if bool_decide (_syncPeer n1 = Some i) then _ else n1).
  assert (HI2 : leadPeerKept n2).
  { subst n2. case_match; keep_lead. }
  clearbody n2.
  repeat case_match; keep_lead.
Qed.

Lemma escalateCommand_kept env command forget n :
  leadPeerKept n ->
  leadPeerKept (fst (escalateCommand env command forget n)).
Proof.
  intros HI. unfold escalateCommand. repeat case_match; simpl; keep_lead.
Qed.

Lemma sendResponse_kept command n :
  leadPeerKept n -> leadPeerKept (fst (sendResponse command n)).
Proof.
  intros HI. unfold sendResponse. repeat case_match; simpl; keep_lead.
Qed.

Lemma peekPeerCommand_kept db command n :
  leadPeerKept n -> leadPeerKept (fst (peekPeerCommand db command n)).
Proof.
  intros HI. unfold peekPeerCommand.
  repeat case_match; simpl; keep_lead.
Qed.

Lemma handleBeginTransaction_kept env db message n :
  leadPeerKept n ->
  leadPeerKept (fst (fst (handleBeginTransaction env db message n))).
Proof.
  intros HI. unfold handleBeginTransaction.
  repeat case_match; simpl; keep_lead.
Qed.

Lemma handleCommitTransaction_kept env db count hash n :
  leadPeerKept n ->
  leadPeerKept (fst (fst (handleCommitTransaction env db count hash n))).
Proof.
  intros HI. unfold handleCommitTransaction.
  repeat case_match; simpl; keep_lead.
Qed.

Lemma handleRollbackTransaction_kept db message n :
  leadPeerKept n ->
  leadPeerKept (fst (fst (handleRollbackTransaction db message n))).
Proof.
  intros HI. unfold handleRollbackTransaction.
  repeat case_match; simpl; keep_lead.
Qed.

(** Every step of the lifetime keeps the lead peer. *)
Lemma step_kept n n' : step n n' -> leadPeerKept n -> leadPeerKept n'.
Proof.
  intros Hstep HI.
  destruct Hstep as
    [env n n' o Hr _ | env i message n n' o Hr _ | i n | env i n
    | consistency n n' o Hr _ | env usToWait n | env n
    | env command forget n n' o Hr _ | command n n' o Hr _
    | message peer n Hm | transaction command n
    | env transaction message n n' handle o Hr _
    | env transaction count hash n n' handle o Hr _
    | transaction message n n' handle o Hr _
    | peers n Ht | db unsent n Hj].
  - pose proof (update_kept env n HI) as Hu. by rewrite Hr in Hu.
  - pose proof (onMESSAGE_kept env i message n HI) as Hu.
    by rewrite Hr in Hu.
  - unfold _onConnect. keep_lead.
  - by apply onDisconnect_kept.
  - unfold startCommit in Hr. repeat case_match; simplify_eq; keep_lead.
  - unfold beginShutdown. case_match; keep_lead.
  - by apply shutdownComplete_kept.
  - pose proof (escalateCommand_kept env command forget n HI) as Hu.
    by rewrite Hr in Hu.
  - pose proof (sendResponse_kept command n HI) as Hu. by rewrite Hr in Hu.
  - unfold broadcast. case_match; keep_lead.
  - by apply peekPeerCommand_kept.
  - pose proof (handleBeginTransaction_kept env
                  (handleOn transaction (_db n)) message n HI) as Hu.
    rewrite Hr in Hu. simpl in Hu. unfold publish. keep_lead.
  - pose proof (handleCommitTransaction_kept env
                  (handleOn transaction (_db n)) count hash n HI) as Hu.
    rewrite Hr in Hu. simpl in Hu. unfold publish. keep_lead.
  - pose proof (handleRollbackTransaction_kept
                  (handleOn transaction (_db n)) message n HI) as Hu.
    rewrite Hr in Hu. simpl in Hu. unfold publish. keep_lead.
  - apply (kept_frame n); [done | done | | done]. simpl.
    symmetry. by eapply Forall2_length.
  - keep_lead.
Qed.

Lemma lifetime_kept n n' : lifetime n n' -> leadPeerKept n -> leadPeerKept n'.
Proof.
  intros Hl. induction Hl as [|n m n' Hstep _ IH]; [done|].
  intros HI. apply IH. by eapply step_kept.
Qed.

(** X25. All the life of a node, from its construction on, the node has a
    lead peer exactly while it is SUBSCRIBING or FOLLOWING, and the lead peer
    is one of its peers.  So the ticks of the node never fail the assertions
    on the lead peer that the SUBSCRIBING and FOLLOWING cases make. *)
Theorem lead_peer_kept_all_life (env0 : Env) (name : string) (db : SQLite)
  (peers : list Peer) (priority firstTimeout : Z) (version : string)
  (n' : SQLiteNode) :
  lifetime (newNode env0 name db peers priority firstTimeout version) n' ->
  leadPeerKept n'
  ∧ ∀ env what,
      snd (update env n') = Aborted what ->
      what ≠ "null _leadPeer"%string ∧ what ≠ "_leadPeer"%string.
Proof.
  intros Hl. apply lifetime_kept in Hl; [|by split].
  split; [done|]. intros env what Ha.
  unfold leadPeerKept in Hl. unfold update in Ha.
  destruct (_state n') eqn:Hs.
  - simpl in Ha. by simplify_eq.
  - clear Hl. unfold updateSEARCHING in Ha.
    repeat case_match; simpl in Ha; simplify_eq; done.
  - clear Hl. unfold updateSYNCHRONIZING in Ha.
    repeat case_match; simpl in Ha; simplify_eq; done.
  - clear Hl. unfold updateWAITING in Ha.
    repeat case_match; simpl in Ha; simplify_eq; done.
  - clear Hl. unfold updateSTANDINGUP in Ha.
    repeat case_match; simpl in Ha; simplify_eq; done.
  - clear Hl.
    unfold updateLEADING, afterCommitBlock, standDown, finishStandDown,
      startDistributedTransaction in Ha.
    repeat case_match; simpl in Ha; simplify_eq; done.
  - clear Hl.
    unfold updateLEADING, afterCommitBlock, standDown, finishStandDown,
      startDistributedTransaction in Ha.
    repeat case_match; simpl in Ha; simplify_eq; done.
  - unfold updateSUBSCRIBING in Ha.
    destruct (_leadPeer n') as [i|]; [|destruct Hl as [Hl _]; done].
    clear Hl. repeat case_match; simpl in Ha; simplify_eq; done.
  - unfold updateFOLLOWING in Ha.
    destruct (_leadPeer n') as [i|]; [|destruct Hl as [_ Hl]; done].
    destruct Hl as [[leader Hi] _]. rewrite Hi in Ha.
    repeat case_match; simpl in Ha; simplify_eq; done.
Qed.

End LeadPeerHandlers.

(** * More properties on examples *)

Ltac one_of_peers H :=
  repeat (apply elem_of_cons in H as [-> | H]);
  [.. | by apply elem_of_nil in H].

(** The leader whose transaction is underway gives up the lead: the
    transaction has failed and the node leads no more. *)
Lemma changeState_stops_leading_witness :
  _state (_changeState (H := Reference.lib) env0 SEARCHING approvedNode)
  = SEARCHING
  ∧ _commitState (_changeState (H := Reference.lib) env0 SEARCHING
                    approvedNode)
    = FAILED.
Proof.
  pose proof (changeState_stops_leading (H := Reference.lib) env0 SEARCHING
                approvedNode (or_introl eq_refl)
                ltac:(discriminate) ltac:(discriminate)) as Hw.
  cbv zeta in Hw. destruct Hw as (Hs & _ & _ & _ & Hc & _).
  split; [exact Hs|]. apply Hc. reflexivity.
Defined.

(** A node that stands up and whose only peer has approved: it leads after
    the tick. *)
Lemma standingup_tick_witness :
  _state (fst (update (H := Reference.lib) env0
                 (standingUpNode [waiter [("StandupResponse", "approve")]])))
  = LEADING.
Proof.
  pose proof (standingup_tick (H := Reference.lib) env0
                (standingUpNode
                   [waiter [("StandupResponse", "approve")]]%string)
                eq_refl) as Hw.
  cbv zeta in Hw. destruct Hw as (_ & Hw & _).
  destruct Hw as (_ & Hs & _).
  - reflexivity.
  - intros (p & Hp & Hr). one_of_peers Hp. vm_compute in Hr. discriminate.
  - split.
    + intros p Hp. one_of_peers Hp. vm_compute. reflexivity.
    + vm_compute. discriminate.
  - exact Hs.
Defined.

(** A WAITING node of priority 10 whose only peer is WAITING with priority
    5 and as many commits: it stands up. *)
Lemma waiting_tick_stands_up_witness :
  _state (fst (update (H := Reference.lib) env0 (waitingNode [waiter []])))
  = STANDINGUP.
Proof.
  pose proof (waiting_tick_stands_up (H := Reference.lib) env0
                (waitingNode [waiter []]) eq_refl) as Hw.
  cbv zeta in Hw. destruct Hw as [_ Hw]. specialize (Hw eq_refl).
  destruct Hw as [_ Hw].
  - intros p Hp. one_of_peers Hp. vm_compute. reflexivity.
  - destruct Hw as [Hw _].
    + exists (waiter []). split; [by left | vm_compute; reflexivity].
    + intros p Hp _. one_of_peers Hp. vm_compute. discriminate.
    + destruct Hw as [_ Hs]; [|exact Hs].
      split; [vm_compute; discriminate|]. split; [reflexivity|].
      intros p Hp _. one_of_peers Hp. vm_compute. reflexivity.
Defined.

(** A WAITING node approves the only peer it has when it stands up. *)
Lemma standup_answer_witness :
  ∃ response,
    onPeerStandingUp (H := Reference.lib) env0 0%nat (waiter [])
      (stateMessage "STANDINGUP") (waitingNode [waiter []])
    = _sendToPeer (H := Reference.lib) 0%nat response (waitingNode [waiter []])
    ∧ get response "Response" = "approve"%string.
Proof.
  destruct (standup_answer (H := Reference.lib) env0 0%nat (waiter [])
              (stateMessage "STANDINGUP") (waitingNode [waiter []]) eq_refl)
    as (response & Hr & _ & _ & _ & Ha).
  exists response. split; [exact Hr|]. apply Ha.
  intros (j & p & Hj & Hp & _). destruct j as [|j]; [done|].
  simpl in Hp. discriminate Hp.
Defined.

(** A leader with the majority of its full peers subscribed denies a peer
    of lower priority that stands up. *)
Lemma standup_answer_of_leader_witness :
  ∃ response,
    get response "Reason" = "I am leading"%string
    ∧ onPeerStandingUp (H := Reference.lib) env0 0%nat
        (follower "f1" 1 false []) (stateMessage "STANDINGUP") approvedNode
      = _sendToPeer (H := Reference.lib) 0%nat response approvedNode.
Proof.
  pose proof (standup_answer_of_leader (H := Reference.lib) env0 0%nat
                (follower "f1" 1 false []) (stateMessage "STANDINGUP")
                approvedNode eq_refl) as Hw.
  cbv zeta in Hw. destruct Hw as [_ Hw].
  destruct Hw as (response & _ & _ & Hr & Hm & _).
  - vm_compute. discriminate.
  - exists response. split; [exact Hr|]. apply Hm.
    vm_compute. discriminate.
Defined.

(** The leader whose server has started a commit: the tick sends the
    transaction and the commit is underway. *)
Lemma leader_begins_transaction_witness :
  ∃ n', update (H := Reference.lib) env0
          (with_commitState CS_WAITING approvedNode)
        = (n', Returned true)
        ∧ _commitState n' = COMMITTING.
Proof.
  pose proof (leader_begins_transaction (H := Reference.lib) env0
                (with_commitState CS_WAITING approvedNode)
                (or_introl eq_refl) eq_refl) as Hw.
  cbv zeta in Hw. destruct Hw as (_ & Hw & _).
  destruct (Hw eq_refl) as (transaction & n' & Hu & _ & Hc & _).
  exists n'. split; [exact Hu | exact Hc].
Defined.

(** A leader that sees another leader among its peers stands down, and
    goes SEARCHING at once when the server lets it. *)
Lemma leader_stands_down_witness :
  _state (fst (update (H := Reference.lib) env0 (idleLeader [leaderA])))
  = SEARCHING.
Proof.
  pose proof (leader_stands_down (H := Reference.lib) env0
                (idleLeader [leaderA]) eq_refl eq_refl) as Hw.
  cbv zeta in Hw. destruct Hw as (_ & Hw & _).
  destruct Hw as (_ & Hs & _).
  - right. exists leaderA. split; [by left | by left].
  - exact Hs.
Defined.

(** A follower whose leader is seen WAITING goes SEARCHING. *)
Lemma follower_requeues_commands_witness :
  _state (fst (update (H := Reference.lib) env0 (followingNode (waiter []))))
  = SEARCHING
  ∧ _leadPeer (fst (update (H := Reference.lib) env0
                      (followingNode (waiter []))))
    = None.
Proof.
  pose proof (follower_requeues_commands (H := Reference.lib) env0
                (followingNode (waiter [])) 0%nat (waiter [])
                eq_refl eq_refl eq_refl eq_refl
                ltac:(discriminate) ltac:(discriminate)) as Hw.
  cbv zeta in Hw. destruct Hw as (_ & Hs & Hl & _).
  split; [exact Hs | exact Hl].
Defined.

(** A follower that loses the connection to its leader goes SEARCHING. *)
Lemma disconnect_of_leader_witness :
  _state (_onDisconnect (H := Reference.lib) env0 0%nat
            (followingNode leaderA))
  = SEARCHING.
Proof.
  pose proof (disconnect_of_leader (H := Reference.lib) env0 0%nat
                (followingNode leaderA) eq_refl (or_intror eq_refl)) as Hw.
  cbv zeta in Hw. destruct Hw as (Hs & _). exact Hs.
Defined.

(** The leader of two full followers loses one of them: the other one is
    half of the full peers that are left, and the leader stays. *)
Lemma leader_loses_quorum_witness :
  _onDisconnect (H := Reference.lib) env0 0%nat approvedNode = approvedNode.
Proof.
  pose proof (leader_loses_quorum (H := Reference.lib) env0 0%nat
                (follower "f1" 1 false
                   [("TransactionResponse", "approve")]%string)
                approvedNode eq_refl
                ltac:(discriminate) ltac:(discriminate) eq_refl) as Hw.
  cbv zeta in Hw. destruct Hw as [Hw _]. apply Hw.
  vm_compute. discriminate.
Defined.

(** The follower of a leader escalates a command: the command leaves for
    the leader, and the follower keeps FOLLOWING. *)
Lemma escalation_round_trip_witness :
  ∃ f1,
    escalateCommand (H := Reference.lib) env0 query false
      (followingNode leaderA)
    = (f1, Returned tt)
    ∧ _state f1 = FOLLOWING.
Proof.
  destruct (escalation_round_trip (H := Reference.lib) env0 env0 query
              (followingNode leaderA) 0%nat leaderA
              approvedNode 0%nat
              (follower "f1" 1 false
                 [("TransactionResponse", "approve")]%string)
              (newSData "200 OK")
              eq_refl eq_refl eq_refl eq_refl eq_refl eq_refl eq_refl)
    as (f1 & He & _ & Hs & _).
  exists f1. split; [exact He | exact Hs].
Defined.

(** A node that does not lead answers an escalation, and the follower gets
    its command back. *)
Lemma escalation_aborted_witness :
  ∃ escalate,
    snd (onESCALATE (H := Reference.lib) 0%nat (waiter []) escalate
           (waitingNode [waiter []]))
    = Returned tt.
Proof.
  pose proof (escalation_aborted (H := Reference.lib) env0 query
                (followingNode leaderA) 0%nat leaderA
                (waitingNode [waiter []]) 0%nat (waiter [])
                eq_refl eq_refl eq_refl eq_refl eq_refl
                ltac:(discriminate)) as Hw.
  cbv zeta in Hw. destruct Hw as [Hw _].
  eexists. rewrite Hw. reflexivity.
Defined.

(** A full peer of priority 10 logs in. *)
Lemma login_checked_witness :
  ∃ n' peer',
    _onMESSAGE (H := Reference.lib) env0 0%nat login
      (idleLeader [peer "a" 1 false [] SEARCHING 0])
    = (n', Returned tt)
    ∧ peerList n' !! 0%nat = Some peer'
    ∧ attr peer' "LoggedIn" = "true"%string
    ∧ Peer.state peer' = SEARCHING.
Proof.
  pose proof (login_checked (H := Reference.lib) env0 0%nat login
                (idleLeader [peer "a" 1 false [] SEARCHING 0])
                (peer "a" 1 false [] SEARCHING 0)
                eq_refl eq_refl eq_refl eq_refl ltac:(discriminate)
                eq_refl eq_refl eq_refl) as Hw.
  cbv zeta in Hw. destruct Hw as (_ & _ & Hw).
  destruct Hw as [_ Hw].
  - right. split; [reflexivity|]. split; [discriminate|].
    vm_compute. discriminate.
  - destruct Hw as (n' & peer' & Hm & Hp & Hl & _ & _ & _ & _ & Hs & _).
    + right. right. vm_compute. discriminate.
    + exists n', peer'. repeat split; [exact Hm | exact Hp | exact Hl|].
      rewrite Hs. reflexivity.
Defined.

(** The leader learns that its follower has gone SEARCHING: the follower
    counts no more as subscribed, and its answer is forgotten. *)
Lemma peer_goes_searching_witness :
  ∃ n' peer',
    onSTATE (H := Reference.lib) env0 0%nat
      (follower "f1" 1 false [("TransactionResponse", "approve")]%string)
      (stateMessage "SEARCHING") approvedNode
    = (n', Returned tt)
    ∧ peerList n' !! 0%nat = Some peer'
    ∧ fullFollower peer' = false.
Proof.
  destruct (peer_goes_searching (H := Reference.lib) env0 0%nat
              (follower "f1" 1 false
                 [("TransactionResponse", "approve")]%string)
              (stateMessage "SEARCHING") approvedNode
              eq_refl eq_refl eq_refl eq_refl ltac:(discriminate))
    as (n' & peer' & Hs & Hp & _ & _ & _ & _ & Hf & _).
  exists n', peer'. repeat split; [exact Hs | exact Hp | exact Hf].
Defined.

(** A follower of priority 10, at commit 2, votes on transaction 3. *)
Lemma follower_votes_witness :
  ∃ vote db1,
    handleBeginTransaction (H := Reference.lib) env0 (database 2)
      announcement (followingNode leaderA)
    = (_sendToPeer (H := Reference.lib) 0%nat vote (followingNode leaderA),
       db1, Returned tt)
    ∧ get vote "ID" = "3"%string
    ∧ methodLine vote = "APPROVE_TRANSACTION"%string.
Proof.
  destruct (follower_votes (H := Reference.lib) env0 (database 2)
              announcement (followingNode leaderA) 0%nat
              eq_refl eq_refl eq_refl eq_refl eq_refl ltac:(discriminate)
              eq_refl eq_refl)
    as (vote & db1 & Hb & _ & Hid & _ & _ & Ha & _).
  exists vote, db1. split; [exact Hb|]. split; [exact Hid|].
  apply Ha. split; reflexivity.
Defined.

(** A node that synchronizes waits, before its timeout. *)
Lemma waiting_for_peer_times_out_witness :
  update (H := Reference.lib) env0 (synchronizingNode [leaderA])
  = (synchronizingNode [leaderA], Returned false)
  ∧ _state (fst (update (H := Reference.lib) later
                   (synchronizingNode [leaderA])))
    = SEARCHING.
Proof.
  split.
  - apply (waiting_for_peer_times_out (H := Reference.lib) env0
             (synchronizingNode [leaderA]) 0%nat).
    + left. repeat split; reflexivity.
    + vm_compute. discriminate.
  - pose proof (waiting_for_peer_times_out (H := Reference.lib) later
                  (synchronizingNode [leaderA]) 0%nat) as Hw.
    cbv zeta in Hw. destruct Hw as [_ Hw].
    + left. repeat split; reflexivity.
    + destruct Hw as (_ & Hs & _); [reflexivity | exact Hs].
Defined.

(** The only peer of a node that stands up denies: the next tick sends the
    node SEARCHING. *)
Lemma standup_response_recorded_witness :
  _state (fst (update (H := Reference.lib) env0
                 (fst (onSTANDUP_RESPONSE (H := Reference.lib) 0%nat
                         (standupResponse "deny")
                         (standingUpNode [waiter []])))))
  = SEARCHING.
Proof.
  pose proof (standup_response_recorded (H := Reference.lib) env0 0%nat
                (waiter []) (standupResponse "deny")
                (standingUpNode [waiter []]) eq_refl) as Hw.
  cbv zeta in Hw. destruct Hw as [_ Hw].
  destruct Hw as [_ Hw].
  - reflexivity.
  - intros [Hset _]. vm_compute in Hset. discriminate.
  - destruct (Hw eq_refl) as (_ & _ & _ & _ & Hd).
    destruct Hd as [_ Hs]; [reflexivity | reflexivity | exact Hs].
Defined.


(** A node with one peer, after its first tick. *)
Lemma lead_peer_kept_all_life_witness :
  leadPeerKept (fst (update (H := Reference.lib) env0 permafollowerNode)).
Proof.
  apply (lead_peer_kept_all_life (H := Reference.lib) env0 "node"%string
           (database 0) [peer "a" 1 false (loggedIn "0" "100") WAITING 0]
           0 5000 "v1"%string).
  apply rtc_once.
  apply (step_update (H := Reference.lib) env0 permafollowerNode _
           (snd (update (H := Reference.lib) env0 permafollowerNode))).
  - apply surjective_pairing.
  - vm_compute. exact I.
Defined.

(** A WAITING node goes SEARCHING: its changes of state are one more. *)
Lemma changeState_announces_witness :
  _stateChangeCount (_changeState (H := Reference.lib) env0 SEARCHING
                       (waitingNode [waiter []]))
  = _stateChangeCount (waitingNode [waiter []]) + 1.
Proof.
  pose proof (changeState_announces (H := Reference.lib) env0 SEARCHING
                (waitingNode [waiter []])) as Hw.
  destruct Hw as [_ Hw]. cbv zeta in Hw.
  destruct Hw as (_ & Hc & _); [discriminate | exact Hc].
Defined.

(** A leader at commit 2 accepts the subscription of a peer that has the
    same two commits. *)
Lemma leader_accepts_subscriber_witness :
  ∃ n',
    onSUBSCRIBE (H := Reference.lib) env0 0%nat
      (peer "a" 1 false [("CommitCount", "2"); ("Hash", "h2")]%string
            WAITING 0)
      (idleLeader [peer "a" 1 false
                     [("CommitCount", "2"); ("Hash", "h2")]%string
                     WAITING 0])
    = (n', Returned tt)
    ∧ _state n' = LEADING.
Proof.
  pose proof (leader_accepts_subscriber (H := Reference.lib) env0 0%nat
                (peer "a" 1 false [("CommitCount", "2"); ("Hash", "h2")]%string
                      WAITING 0)
                (idleLeader [peer "a" 1 false
                               [("CommitCount", "2"); ("Hash", "h2")]%string
                               WAITING 0])
                (peer "a" 1 false [("CommitCount", "2"); ("Hash", "h2")]%string
                      WAITING 0)
                (mkSocket [] false)
                (match _queueSynchronize (H := Reference.lib)
                         (peer "a" 1 false
                               [("CommitCount", "2"); ("Hash", "h2")]%string
                               WAITING 0)
                         (newSData "SUBSCRIPTION_APPROVED") true
                         (idleLeader
                            [peer "a" 1 false
                               [("CommitCount", "2"); ("Hash", "h2")]%string
                               WAITING 0])
                 with
                 | Returned approval => approval
                 | _ => newSData ""
                 end)) as Hw.
  destruct Hw as [_ Hw].
  destruct Hw as (n' & _ & _ & _ & Hs & _ & _ & _ & _ & _ & _ & _ & _ & _
                  & _ & Hl & _).
  - reflexivity.
  - reflexivity.
  - reflexivity.
  - vm_compute. reflexivity.
  - exists n'. split; [exact Hs | exact Hl].
Defined.

(** A node at commit 2 applies a SYNCHRONIZE_RESPONSE that holds commit 3. *)
Lemma recvSynchronize_accepts_witness :
  getCommitCount
    (_db (fst (_recvSynchronize (H := Reference.lib) env0 synchronizeResponse
                 (synchronizingNode [leaderA]))))
  = 3.
Proof.
  pose proof (recvSynchronize_accepts (H := Reference.lib) env0
                synchronizeResponse (synchronizingNode [leaderA])) as Hw.
  destruct Hw as [_ Hw]. cbv zeta in Hw.
  destruct Hw as (_ & _ & Hc & _).
  - vm_compute. reflexivity.
  - intros k _. reflexivity.
  - rewrite Hc. vm_compute. reflexivity.
Defined.

(** The same node, whose sync peer has three commits: with commit 3 it has
    caught up, and it goes WAITING. *)
Lemma synchronize_response_handled_witness :
  _state (fst (onSYNCHRONIZE_RESPONSE (H := Reference.lib) env0 0%nat
                 synchronizeResponse
                 (synchronizingNode
                    [peer "a" 1 false (loggedIn "3" "100") LEADING 0])))
  = WAITING.
Proof.
  pose proof (synchronize_response_handled (H := Reference.lib) env0 0%nat
                synchronizeResponse
                (synchronizingNode
                   [peer "a" 1 false (loggedIn "3" "100") LEADING 0])
                (peer "a" 1 false (loggedIn "3" "100") LEADING 0)) as Hw.
  destruct Hw as (_ & _ & _ & Hw). cbv zeta in Hw.
  destruct Hw as [_ Hw]; [reflexivity | reflexivity | reflexivity |].
  destruct Hw as [Hw _]; [vm_compute; reflexivity|].
  destruct Hw as (_ & Hs & _); [vm_compute; reflexivity | exact Hs].
Defined.

(** A leader that has sent transaction 2, with transactions 3 and 4
    committed since: they are sent, and 4 is the last one sent. *)
Lemma outstanding_transactions_sent_witness :
  _lastSentTransactionID
    (_sendOutstandingTransactions (H := Reference.lib) env0
       (behindLeader [follower "f1" 1 false []]))
  = 4.
Proof.
  pose proof (outstanding_transactions_sent (H := Reference.lib) env0
                (behindLeader [follower "f1" 1 false []])) as Hw.
  cbv zeta in Hw. destruct Hw as [_ Hw].
  destruct Hw as (_ & Hl & _).
  - reflexivity.
  - intros j k a b Hjk Ha Hb.
    destruct j as [|[|[|j]]], k as [|[|[|k]]];
      vm_compute in Ha, Hb; try discriminate; try lia;
      injection Ha as <-; injection Hb as <-; reflexivity.
  - rewrite Hl. vm_compute. reflexivity.
Defined.

(** A node whose graceful shutdown has timed out: the shutdown is
    complete. *)
Lemma shutdown_completes_witness :
  snd (shutdownComplete (H := Reference.lib) later shuttingDown) = true
  ∧ _state (fst (shutdownComplete (H := Reference.lib) later shuttingDown))
    = SEARCHING.
Proof.
  pose proof (shutdown_completes (H := Reference.lib) later shuttingDown)
    as Hw.
  cbv zeta in Hw. destruct Hw as (_ & Hw & _).
  destruct Hw as (Hd & Hs & _);
    [reflexivity | vm_compute; reflexivity | split; [exact Hd | exact Hs]].
Defined.
